(** * Sales analytics ETL pipeline: a shallow embedding and its properties

    The development follows the three modules of the repository:
    [etl/transformations.py] (class [DataTransformer]),
    [etl/quality_checks.py] (class [DataQualityManager]) and
    [etl/pipeline.py] (class [SalesDataPipeline]).

    A pandas [DataFrame] is embedded as an index together with an ordered
    list of named columns; a column ([Series]) carries its dtype and its
    cells.  Code that can raise returns a [Result]. *)

From Stdlib Require Import List String Ascii Bool Arith ZArith QArith Qcanon Qround Lia Lqa.
From Stdlib Require Import DecimalString.
Import ListNotations.
Local Close Scope Q_scope.
Local Open Scope string_scope.
Local Open Scope nat_scope.
Local Open Scope list_scope.

Set Implicit Arguments.

(* ================================================================== *)
(** * Exceptions and results *)
(* ================================================================== *)

(** A Python exception caught by [except Exception as e]; [exn_msg] is
    what [str(e)] returns. *)
Inductive ExnKind : Type :=
| KeyError | TypeError | ValueError | AttributeError | MergeError | OtherError.

Record Exn : Type := mkExn { exn_kind : ExnKind; exn_msg : string }.

Inductive Result (A : Type) : Type :=
| Ok (a : A)
| Raise (e : Exn).
Arguments Ok {A} a.
Arguments Raise {A} e.

Definition bind {A B : Type} (m : Result A) (k : A -> Result B) : Result B :=
  match m with
  | Ok a => k a
  | Raise e => Raise e
  end.

Notation "x <- m ;; k" := (bind m (fun x => k))
  (at level 61, m at next level, right associativity).

Definition is_ok {A : Type} (m : Result A) : bool :=
  match m with Ok _ => true | Raise _ => false end.

(** [for x in xs: acc = body(acc, x)], stopping at the first exception. *)
Fixpoint foldM {A B : Type} (body : B -> A -> Result B) (xs : list A) (acc : B)
  : Result B :=
  match xs with
  | [] => Ok acc
  | x :: xs' => acc' <- body acc x ;; foldM body xs' acc'
  end.

(** Elementwise application of a fallible function to a list. *)
Fixpoint mapM {A B : Type} (f : A -> Result B) (xs : list A) : Result (list B) :=
  match xs with
  | [] => Ok []
  | x :: xs' => y <- f x ;; ys <- mapM f xs' ;; Ok (y :: ys)
  end.

(* ================================================================== *)
(** * Numbers *)
(* ================================================================== *)

(** A finite [int64]/[float64] value is embedded as the rational it
    denotes (in canonical form, so that equal numbers are equal terms);
    the two infinities are explicit.  NaN is the missing-value marker of a
    column and is a cell of its own ([CNull] below).

    Arithmetic is exact here and there is one zero.  The quotient and the
    rounding below are those of [float64] only up to its rounding error
    and the sign of a zero, so no statement below says which finite
    number a division or a rounding gives, nor the sign of a quotient by
    a zero that the data holds: they say where a result is missing,
    infinite or a number. *)
Inductive Num : Type :=
| NegInf
| Fin (q : Qc)
| PosInf.

Definition qz (z : Z) : Qc := Q2Qc (inject_Z z).
Definition nz (z : Z) : Num := Fin (qz z).

Definition Qc_eqb (a b : Qc) : bool := Qeq_bool a b.

Definition Qc_ltb (a b : Qc) : bool :=
  match (a ?= b)%Qc with Lt => true | _ => false end.

Definition num_eqb (a b : Num) : bool :=
  match a, b with
  | NegInf, NegInf => true
  | PosInf, PosInf => true
  | Fin x, Fin y => Qc_eqb x y
  | _, _ => false
  end.

(** [a < b] on the extended number line. *)
Definition num_ltb (a b : Num) : bool :=
  match a, b with
  | _, NegInf => false
  | NegInf, _ => true
  | PosInf, _ => false
  | Fin _, PosInf => true
  | Fin x, Fin y => Qc_ltb x y
  end.

Definition num_leb (a b : Num) : bool := negb (num_ltb b a).

(** The order as a proposition, for statements. *)
Definition num_lt (a b : Num) : Prop :=
  match a, b with
  | _, NegInf => False
  | NegInf, _ => True
  | PosInf, _ => False
  | Fin _, PosInf => True
  | Fin x, Fin y => (x < y)%Qc
  end.

Definition num_le (a b : Num) : Prop := ~ num_lt b a.

(** True division of two numbers; [None] is NaN. *)
Definition num_div (a b : Num) : option Num :=
  match a, b with
  | Fin x, Fin y =>
      if Qc_eqb y (qz 0) then
        if Qc_ltb (qz 0) x then Some PosInf
        else if Qc_ltb x (qz 0) then Some NegInf
        else None
      else Some (Fin (x / y)%Qc)
  | Fin _, _ => Some (Fin (qz 0))
  | PosInf, Fin y => if Qc_ltb y (qz 0) then Some NegInf else Some PosInf
  | NegInf, Fin y => if Qc_ltb y (qz 0) then Some PosInf else Some NegInf
  | _, _ => None
  end.

(** Round to the nearest integer, ties to even ([numpy.rint]). *)
Definition round_half_even (q : Q) : Z :=
  let f := Qfloor q in
  let r := (q - inject_Z f)%Q in
  match (r ?= 1 # 2)%Q with
  | Lt => f
  | Gt => (f + 1)%Z
  | Eq => if Z.even f then f else (f + 1)%Z
  end.

(** [Series.round(2)] on one value. *)
Definition num_round2 (a : Num) : Num :=
  match a with
  | Fin x => Fin (Q2Qc (inject_Z (round_half_even (x * 100)) / 100))
  | _ => a
  end.

(* ================================================================== *)
(** * Strings: the [str] methods used by the transformations *)
(* ================================================================== *)

(** Strings are sequences of 8-bit characters.  The case mappings, the
    title case and the stripping below are those of Python's [str] on
    ASCII texts (characters below 128), on which the blanks are the
    characters 9 to 13 and 28 to 32.  Python maps and strips other
    characters by the Unicode tables, which are not modelled: the
    statements below that depend on these functions are made for ASCII
    texts ([ascii_text]) or for given texts. *)

Definition is_space (c : ascii) : bool :=
  let n := nat_of_ascii c in
  ((9 <=? n) && (n <=? 13)) || ((28 <=? n) && (n <=? 32)).

Definition is_upper (c : ascii) : bool :=
  let n := nat_of_ascii c in (65 <=? n) && (n <=? 90).

Definition is_lower (c : ascii) : bool :=
  let n := nat_of_ascii c in (97 <=? n) && (n <=? 122).

Definition to_lower (c : ascii) : ascii :=
  if is_upper c then ascii_of_nat (nat_of_ascii c + 32) else c.

Definition to_upper (c : ascii) : ascii :=
  if is_lower c then ascii_of_nat (nat_of_ascii c - 32) else c.

Fixpoint str_map (f : ascii -> ascii) (s : string) : string :=
  match s with
  | EmptyString => EmptyString
  | String c s' => String (f c) (str_map f s')
  end.

Definition py_lower : string -> string := str_map to_lower.
Definition py_upper : string -> string := str_map to_upper.

Fixpoint py_lstrip (s : string) : string :=
  match s with
  | EmptyString => EmptyString
  | String c s' => if is_space c then py_lstrip s' else s
  end.

Fixpoint py_rstrip (s : string) : string :=
  match s with
  | EmptyString => EmptyString
  | String c s' =>
      match py_rstrip s' with
      | EmptyString => if is_space c then EmptyString else String c EmptyString
      | r => String c r
      end
  end.

Definition py_strip (s : string) : string := py_lstrip (py_rstrip s).

(** [str.title()]: a cased character is upper-cased when it follows an
    uncased one and lower-cased when it follows a cased one. *)
Fixpoint title_from (prev_cased : bool) (s : string) : string :=
  match s with
  | EmptyString => EmptyString
  | String c s' =>
      if is_lower c then
        String (if prev_cased then c else to_upper c) (title_from true s')
      else if is_upper c then
        String (if prev_cased then to_lower c else c) (title_from true s')
      else String c (title_from false s')
  end.

Definition py_title : string -> string := title_from false.

(** [s.split(sep)] for a one-character separator. *)
Fixpoint py_split (sep : ascii) (s : string) : list string :=
  match s with
  | EmptyString => [EmptyString]
  | String c s' =>
      let r := py_split sep s' in
      if Ascii.eqb c sep then EmptyString :: r
      else match r with
           | h :: t => String c h :: t
           | [] => [String c EmptyString]
           end
  end.

Fixpoint str_contains (ch : ascii) (s : string) : bool :=
  match s with
  | EmptyString => false
  | String c s' => Ascii.eqb c ch || str_contains ch s'
  end.

Definition at_sign : ascii := "@"%char.

(** [repr] of a plain string, as it appears in the text of a [KeyError]. *)
Definition py_repr (s : string) : string := ("'" ++ s ++ "'")%string.

(* ================================================================== *)
(** * Timestamps *)
(* ================================================================== *)

(** A [datetime64[ns]] value is its count of nanoseconds since the epoch;
    the calendar fields are derived from it as pandas does. *)
Definition Timestamp : Type := Z.

Definition ns_per_day : Z := 86400000000000.

Definition ts_days (t : Timestamp) : Z := (t / ns_per_day)%Z.

(** Civil date (year, month, day) of a day count since 1970-01-01. *)
Definition civil_from_days (days : Z) : Z * Z * Z :=
  let z := (days + 719468)%Z in
  let era := (z / 146097)%Z in
  let doe := (z - era * 146097)%Z in
  let yoe := ((doe - doe / 1460 + doe / 36524 - doe / 146096) / 365)%Z in
  let y := (yoe + era * 400)%Z in
  let doy := (doe - (365 * yoe + yoe / 4 - yoe / 100))%Z in
  let mp := ((5 * doy + 2) / 153)%Z in
  let d := (doy - (153 * mp + 2) / 5 + 1)%Z in
  let m := (if (mp <? 10)%Z then mp + 3 else mp - 9)%Z in
  ((if (m <=? 2)%Z then y + 1 else y)%Z, m, d).

Definition ts_year (t : Timestamp) : Z := fst (fst (civil_from_days (ts_days t))).
Definition ts_month (t : Timestamp) : Z := snd (fst (civil_from_days (ts_days t))).
Definition ts_day (t : Timestamp) : Z := snd (civil_from_days (ts_days t)).
Definition ts_quarter (t : Timestamp) : Z := ((ts_month t - 1) / 3 + 1)%Z.

(** Monday is 0; 1970-01-01 was a Thursday. *)
Definition ts_dayofweek (t : Timestamp) : Z := ((ts_days t + 3) mod 7)%Z.

(** [int(t.strftime('%Y%m%d'))], for the four-digit years a timestamp
    can hold. *)
Definition ts_date_key (t : Timestamp) : Z :=
  (ts_year t * 10000 + ts_month t * 100 + ts_day t)%Z.

(* ================================================================== *)
(** * Cells, series and data frames *)
(* ================================================================== *)

Inductive Cell : Type :=
| CNull                    (* the missing value: NaN / NaT; a column holds no None *)
| CNum (x : Num)
| CStr (s : string)
| CBool (b : bool)
| CDate (t : Timestamp).

Inductive DType : Type :=
| Numeric | Boolean | Datetime | Object | Categorical.

Record Series : Type := mkSeries { dtype : DType; values : list Cell }.

(** [index] holds the row labels; [columns] the columns in their order. *)
Record DataFrame : Type :=
  mkDF { index : list Z; columns : list (string * Series) }.

Definition nrows (df : DataFrame) : nat := List.length (index df).
Definition column_names (df : DataFrame) : list string := map fst (columns df).

Definition cell_eqb (a b : Cell) : bool :=
  match a, b with
  | CNull, CNull => true
  | CNum x, CNum y => num_eqb x y
  | CStr s, CStr t => String.eqb s t
  | CBool x, CBool y => Bool.eqb x y
  | CDate s, CDate t => Z.eqb s t
  | _, _ => false
  end.

Definition is_null (c : Cell) : bool :=
  match c with CNull => true | _ => false end.

Definition dtype_eqb (a b : DType) : bool :=
  match a, b with
  | Numeric, Numeric | Boolean, Boolean | Datetime, Datetime
  | Object, Object | Categorical, Categorical => true
  | _, _ => false
  end.

(** [col in df.columns] *)
Definition has_column (df : DataFrame) (c : string) : bool :=
  existsb (String.eqb c) (column_names df).

Fixpoint assoc_get {V : Type} (k : string) (l : list (string * V)) : option V :=
  match l with
  | [] => None
  | (k', v) :: l' => if String.eqb k k' then Some v else assoc_get k l'
  end.

(** Python's [d[k] = v]: an existing key keeps its position. *)
Fixpoint assoc_set {V : Type} (k : string) (v : V) (l : list (string * V))
  : list (string * V) :=
  match l with
  | [] => [(k, v)]
  | (k', v') :: l' =>
      if String.eqb k k' then (k, v) :: l' else (k', v') :: assoc_set k v l'
  end.

Definition column (df : DataFrame) (c : string) : option Series :=
  assoc_get c (columns df).

(** [df[c]], a [KeyError] when the column is absent. *)
Definition getitem (df : DataFrame) (c : string) : Result Series :=
  match column df c with
  | Some s => Ok s
  | None => Raise (mkExn KeyError (py_repr c))
  end.

(** [df[c] = s] *)
Definition setitem (df : DataFrame) (c : string) (s : Series) : DataFrame :=
  mkDF (index df) (assoc_set c s (columns df)).

(** [df[c] = scalar]: the scalar is broadcast over the rows. *)
Definition setitem_scalar (df : DataFrame) (c : string) (d : DType) (v : Cell)
  : DataFrame :=
  setitem df c (mkSeries d (repeat v (nrows df))).

(** Every column has one cell per row. *)
Definition well_formed (df : DataFrame) : Prop :=
  Forall (fun cs => List.length (values (snd cs)) = nrows df) (columns df).

(** The cell of column [c] in row [i]. *)
Definition cell_at (df : DataFrame) (c : string) (i : nat) : option Cell :=
  match column df c with
  | Some s => nth_error (values s) i
  | None => None
  end.

(* ================================================================== *)
(** * Series operations *)
(* ================================================================== *)

(** The texts of the exceptions that pandas raises vary with its version;
    those below are abridged. *)
Definition type_error (msg : string) : Exn := mkExn TypeError msg.

Definition bool_num (b : bool) : Num := if b then nz 1 else nz 0.

(** The number a cell stands for in arithmetic and comparisons with a
    number: NaN is [None], a string or a timestamp is a [TypeError]. *)
Definition cell_as_num (c : Cell) : Result (option Num) :=
  match c with
  | CNull => Ok None
  | CNum x => Ok (Some x)
  | CBool b => Ok (Some (bool_num b))
  | CStr _ => Raise (type_error "unsupported operand type(s): 'str' and 'int'")
  | CDate _ => Raise (type_error "unsupported operand type(s): 'Timestamp' and 'int'")
  end.

(** The numeric view of a whole column: datetime and categorical columns
    refuse arithmetic with numbers whatever they hold, an object column
    is tried cell by cell. *)
Definition series_as_nums (s : Series) : Result (list (option Num)) :=
  match dtype s with
  | Datetime => Raise (type_error "invalid operation for dtype datetime64[ns]")
  | Categorical => Raise (type_error "invalid operation for dtype category")
  | _ => mapM cell_as_num (values s)
  end.

Definition opt_num_cell (o : option Num) : Cell :=
  match o with Some x => CNum x | None => CNull end.

(** [s.isnull().sum()] *)
Definition null_count (s : Series) : nat :=
  List.length (filter is_null (values s)).

(** [s.fillna(v)] *)
Definition fillna (v : Cell) (s : Series) : Series :=
  mkSeries (dtype s) (map (fun c => if is_null c then v else c) (values s)).

(** The [.str] accessor is refused on columns that are not of object (or
    categorical) dtype; on such a column a method maps strings and turns
    every other cell into NaN. *)
Definition str_method (f : string -> Cell) (s : Series) : Result Series :=
  match dtype s with
  | Object | Categorical =>
      Ok (mkSeries Object
            (map (fun c => match c with CStr x => f x | _ => CNull end) (values s)))
  | _ => Raise (mkExn AttributeError "Can only use .str accessor with string values!")
  end.

Definition str_strip : Series -> Result Series := str_method (fun x => CStr (py_strip x)).
Definition str_title : Series -> Result Series := str_method (fun x => CStr (py_title x)).
Definition str_upper : Series -> Result Series := str_method (fun x => CStr (py_upper x)).
Definition str_lower : Series -> Result Series := str_method (fun x => CStr (py_lower x)).

(** [s.str.split(sep).str[i]]: the [i]-th piece, NaN when there is none. *)
Definition split_get (sep : ascii) (i : nat) (x : string) : Cell :=
  match nth_error (py_split sep x) i with
  | Some piece => CStr piece
  | None => CNull
  end.

Definition str_split_get (sep : ascii) (i : nat) : Series -> Result Series :=
  str_method (split_get sep i).

(** [s.str.contains(ch, na=False)], as a list of flags. *)
Definition str_contains_flags (ch : ascii) (s : Series) : Result (list bool) :=
  match dtype s with
  | Object | Categorical =>
      Ok (map (fun c => match c with CStr x => str_contains ch x | _ => false end)
              (values s))
  | _ => Raise (mkExn AttributeError "Can only use .str accessor with string values!")
  end.

(** [s.apply(f)] *)
Definition series_apply (f : Cell -> Cell) (s : Series) : Series :=
  mkSeries Object (map f (values s)).

(** [s.isin(xs)] *)
Definition isin (xs : list Cell) (s : Series) : Series :=
  mkSeries Boolean (map (fun c => CBool (existsb (cell_eqb c) xs)) (values s)).

(** [a / b] on two columns of one frame. *)
Definition series_div (a b : Series) : Result Series :=
  xs <- series_as_nums a ;;
  ys <- series_as_nums b ;;
  Ok (mkSeries Numeric
        (map (fun xy => match xy with
                        | (Some x, Some y) => opt_num_cell (num_div x y)
                        | _ => CNull
                        end) (combine xs ys))).

(** [s.round(2)], refused on a column that is not numeric. *)
Definition series_round2 (s : Series) : Result Series :=
  match dtype s with
  | Numeric =>
      Ok (mkSeries Numeric
            (map (fun c => match c with CNum x => CNum (num_round2 x) | _ => c end)
                 (values s)))
  | Boolean => Ok s
  | _ => Raise (type_error "Expected numeric dtype")
  end.

(** [numpy.searchsorted(bins, x, side='left')] on increasing [bins]: the
    first position whose edge is not below [x]. *)
Fixpoint searchsorted_left (bins : list Num) (x : Num) : nat :=
  match bins with
  | [] => 0
  | b :: bs => if num_ltb b x then S (searchsorted_left bs x) else 0
  end.

(** One value through [pd.cut(.., bins, labels)]: NaN, a value at or below
    the first edge and a value above the last edge get no label. *)
Definition cut_value (bins : list Num) (labels : list string) (o : option Num)
  : Cell :=
  match o with
  | None => CNull
  | Some x =>
      let i := searchsorted_left bins x in
      if (i =? 0) || (i =? List.length bins) then CNull
      else match nth_error labels (i - 1) with
           | Some l => CStr l
           | None => CNull
           end
  end.

Definition pd_cut (s : Series) (bins : list Num) (labels : list string)
  : Result Series :=
  xs <- series_as_nums s ;;
  Ok (mkSeries Categorical (map (cut_value bins labels) xs)).

(** [s.duplicated()]: a cell is flagged when an equal cell comes before it
    (missing values are equal to each other). *)
Fixpoint duplicated_from (seen : list Cell) (l : list Cell) : list bool :=
  match l with
  | [] => []
  | c :: l' => existsb (cell_eqb c) seen :: duplicated_from (c :: seen) l'
  end.

Definition duplicated (s : Series) : list bool := duplicated_from [] (values s).

Definition count_true (l : list bool) : nat := List.length (filter (fun b => b) l).

(** The flags of a comparison of a column with a number, such as
    [s < m]: NaN compares false, a column of texts or of timestamps is a
    [TypeError]. *)
Definition num_flags (p : Num -> bool) (s : Series) : Result (list bool) :=
  xs <- series_as_nums s ;;
  Ok (map (fun o => match o with Some x => p x | None => false end) xs).

(** [(s < m).sum()] and [(s > m).sum()] *)
Definition count_below (s : Series) (m : Num) : Result nat :=
  fl <- num_flags (fun x => num_ltb x m) s ;; Ok (count_true fl).

Definition count_above (s : Series) (m : Num) : Result nat :=
  fl <- num_flags (fun x => num_ltb m x) s ;; Ok (count_true fl).

(** [s == 0] never raises: a cell that is not a number is not equal. *)
Definition eq_zero_flags (s : Series) : list bool :=
  map (fun c => match c with
                | CNum x => num_eqb x (nz 0)
                | CBool b => negb b
                | _ => false
                end) (values s).

(** The [.dt] accessor exists on datetime columns only. *)
Definition dt_values (s : Series) : Result (list Cell) :=
  match dtype s with
  | Datetime => Ok (values s)
  | _ => Raise (mkExn AttributeError "Can only use .dt accessor with datetimelike values")
  end.

(** [s.dt.year] and the like: NaT gives NaN. *)
Definition dt_field (f : Timestamp -> Z) (s : Series) : Result Series :=
  vs <- dt_values s ;;
  Ok (mkSeries Numeric
        (map (fun c => match c with CDate t => CNum (nz (f t)) | _ => CNull end) vs)).

(** [s.dt.strftime('%Y%m%d').astype(int)]: NaT formats to NaN, which
    [astype(int)] refuses. *)
Definition dt_date_key (s : Series) : Result Series :=
  vs <- dt_values s ;;
  ks <- mapM (fun c => match c with
                       | CDate t => Ok (CNum (nz (ts_date_key t)))
                       | _ => Raise (mkExn ValueError "cannot convert float NaN to integer")
                       end) vs ;;
  Ok (mkSeries Numeric ks).

(* ================================================================== *)
(** * etl/transformations.py *)
(* ================================================================== *)

Definition price_bins : list Num := [nz 0; nz 50; nz 200; nz 500; PosInf].
Definition price_labels : list string := ["Budget"; "Standard"; "Premium"; "Luxury"].

Definition revenue_bins : list Num := [nz 0; nz 100; nz 500; nz 1000; PosInf].
Definition revenue_labels : list string := ["Small"; "Medium"; "Large"; "Enterprise"].

Definition corporate_domains : list string := ["company.com"; "business.com"; "corp.com"].
Definition personal_domains : list string :=
  ["gmail.com"; "yahoo.com"; "hotmail.com"; "outlook.com"].

(** Python truth value of a cell, as tested by [if not email_domain]:
    NaN is a non-zero float and therefore true.  (The missing value of a
    column is NaN, as [read_csv] gives it; [None], which is false, is no
    cell here.) *)
Definition py_truthy (c : Cell) : bool :=
  match c with
  | CNull => true
  | CNum x => negb (num_eqb x (nz 0))
  | CStr s => negb (String.eqb s "")
  | CBool b => b
  | CDate _ => true
  end.

(** [x in domains] for a list of strings. *)
Definition cell_in (c : Cell) (l : list string) : bool :=
  match c with
  | CStr s => existsb (String.eqb s) l
  | _ => false
  end.

(** [DataTransformer._categorize_customer] *)
Definition _categorize_customer (email_domain : Cell) : string :=
  if negb (py_truthy email_domain) then "Unknown"
  else if cell_in email_domain corporate_domains then "Corporate"
  else if cell_in email_domain personal_domains then "Personal"
  else "Other".

(** [df[dst] = f(df[src])] *)
Definition assign (df : DataFrame) (dst src : string)
  (f : Series -> Result Series) : Result DataFrame :=
  s <- getitem df src ;;
  s' <- f s ;;
  Ok (setitem df dst s').

Definition pure_op (f : Series -> Series) (s : Series) : Result Series := Ok (f s).

(** [df[cols]] for a list of names: a [KeyError] naming the absent ones. *)
Definition select (df : DataFrame) (cols : list string) : Result DataFrame :=
  match filter (fun c => negb (has_column df c)) cols with
  | [] =>
      Ok (mkDF (index df)
               (flat_map (fun c => match column df c with
                                   | Some s => [(c, s)]
                                   | None => []
                                   end) cols))
  | missing =>
      Raise (mkExn KeyError
               ("[" ++ String.concat ", " (map py_repr missing) ++ "] not in index")%string)
  end.

Section WithParser.

(** The date parser behind [pd.to_datetime] is pandas' own; it is a
    parameter of the development.  [None] stands for a text it rejects. *)
Variable parse_datetime : string -> option Timestamp.

Definition cell_to_datetime (c : Cell) : Result Cell :=
  match c with
  | CNull => Ok CNull
  | CDate t => Ok (CDate t)
  | CStr x =>
      match parse_datetime x with
      | Some t => Ok (CDate t)
      | None => Raise (mkExn ValueError ("Unknown datetime string format: " ++ x)%string)
      end
  | CNum (Fin q) => Ok (CDate (Qfloor q))
  | CNum _ => Raise (mkExn ValueError "cannot convert input with unit 'ns'")
  | CBool _ => Raise (type_error "<class 'bool'> is not convertible to datetime")
  end.

(** [pd.to_datetime(s)] *)
Definition to_datetime (s : Series) : Result Series :=
  match dtype s with
  | Datetime => Ok s
  | Boolean => Raise (type_error "dtype bool cannot be converted to datetime64[ns]")
  | _ => vs <- mapM cell_to_datetime (values s) ;; Ok (mkSeries Datetime vs)
  end.

(** [DataTransformer.transform_sales_data]; [now] is [datetime.now()]. *)
Definition transform_sales_data (now : Timestamp) (df : DataFrame)
  : Result DataFrame :=
  (* Convert date strings to datetime *)
  df <- assign df "sale_date" "sale_date" to_datetime ;;
  (* Add derived columns *)
  df <- assign df "year" "sale_date" (dt_field ts_year) ;;
  df <- assign df "month" "sale_date" (dt_field ts_month) ;;
  df <- assign df "quarter" "sale_date" (dt_field ts_quarter) ;;
  df <- assign df "day_of_week" "sale_date" (dt_field ts_dayofweek) ;;
  df <- assign df "is_weekend" "day_of_week"
          (pure_op (isin [CNum (nz 5); CNum (nz 6)])) ;;
  (* Calculate price per unit *)
  amount <- getitem df "amount" ;;
  quantity <- getitem df "quantity" ;;
  ppu <- series_div amount quantity ;;
  let df := setitem df "price_per_unit" ppu in
  (* Standardize numeric fields *)
  df <- assign df "amount" "amount" series_round2 ;;
  df <- assign df "price_per_unit" "price_per_unit" series_round2 ;;
  (* Handle missing values *)
  df <- assign df "quantity" "quantity" (pure_op (fillna (CNum (nz 0)))) ;;
  df <- assign df "amount" "amount" (pure_op (fillna (CNum (nz 0)))) ;;
  (* Add transformation timestamp *)
  Ok (setitem_scalar df "transformed_at" Datetime (CDate now)).

(** [DataTransformer.transform_product_data] *)
Definition transform_product_data (now : Timestamp) (df : DataFrame)
  : Result DataFrame :=
  (* Standardize text fields *)
  df <- assign df "product_name" "product_name"
          (fun s => s1 <- str_strip s ;; str_title s1) ;;
  df <- assign df "category" "category"
          (fun s => s1 <- str_strip s ;; str_upper s1) ;;
  (* Handle missing categories *)
  df <- assign df "category" "category" (pure_op (fillna (CStr "UNCATEGORIZED"))) ;;
  (* Add price tiers *)
  df <- assign df "price_tier" "price" (fun s => pd_cut s price_bins price_labels) ;;
  (* Add transformation timestamp *)
  Ok (setitem_scalar df "transformed_at" Datetime (CDate now)).

(** [DataTransformer.transform_customer_data] *)
Definition transform_customer_data (now : Timestamp) (df : DataFrame)
  : Result DataFrame :=
  (* Standardize text fields *)
  df <- assign df "customer_name" "customer_name"
          (fun s => s1 <- str_strip s ;; str_title s1) ;;
  df <- assign df "email" "email"
          (fun s => s1 <- str_strip s ;; str_lower s1) ;;
  df <- assign df "region" "region"
          (fun s => s1 <- str_strip s ;; str_upper s1) ;;
  (* Extract email domain *)
  df <- assign df "email_domain" "email" (str_split_get at_sign 1) ;;
  (* Add customer segments based on email domain *)
  df <- assign df "customer_segment" "email_domain"
          (pure_op (series_apply (fun c => CStr (_categorize_customer c)))) ;;
  (* Handle missing regions *)
  df <- assign df "region" "region" (pure_op (fillna (CStr "UNKNOWN"))) ;;
  (* Add transformation timestamp *)
  Ok (setitem_scalar df "transformed_at" Datetime (CDate now)).

End WithParser.

(** ** Left merge and the fact table *)

Definition str_in (n : string) (l : list string) : bool := existsb (String.eqb n) l.

Fixpoint str_duplicated_from (seen l : list string) : list bool :=
  match l with
  | [] => []
  | n :: l' => str_in n seen :: str_duplicated_from (n :: seen) l'
  end.

(** Labels that became duplicates through the suffixes (labels that were
    duplicates before are let through). *)
Definition suffix_clash (before after : list string) : bool :=
  existsb (fun ba => negb (fst ba) && snd ba)
          (combine (str_duplicated_from [] before) (str_duplicated_from [] after)).

(** Key columns can be merged when their dtypes are of one family. *)
Definition dtype_family (d : DType) : nat :=
  match d with
  | Numeric | Boolean => 0
  | Datetime => 1
  | Object | Categorical => 2
  end.

(** Positions of the cells of [l], counted from [i], that equal [k]. *)
Fixpoint matches_from (i : nat) (k : Cell) (l : list Cell) : list nat :=
  match l with
  | [] => []
  | c :: l' =>
      if cell_eqb c k then i :: matches_from (S i) k l'
      else matches_from (S i) k l'
  end.

(** The row pairs of a left join: left rows in their order, one pair per
    matching right row in the right order, and one pair without a right
    row when nothing matches. *)
Fixpoint left_join_from (i : nat) (lkeys rkeys : list Cell)
  : list (nat * option nat) :=
  match lkeys with
  | [] => []
  | k :: lkeys' =>
      match matches_from 0 k rkeys with
      | [] => [(i, None)]
      | js => map (fun j => (i, Some j)) js
      end ++ left_join_from (S i) lkeys' rkeys
  end.

Definition left_join_indexers (lkeys rkeys : list Cell) : list (nat * option nat) :=
  left_join_from 0 lkeys rkeys.

Definition take_left (s : Series) (pairs : list (nat * option nat)) : Series :=
  mkSeries (dtype s) (map (fun p => nth (fst p) (values s) CNull) pairs).

(** Right cells of unmatched rows are missing; a boolean column that
    receives a missing value becomes an object column. *)
Definition take_right (s : Series) (pairs : list (nat * option nat)) : Series :=
  mkSeries
    (match dtype s with
     | Boolean =>
         if existsb (fun p => match snd p with None => true | Some _ => false end) pairs
         then Object else Boolean
     | d => d
     end)
    (map (fun p => match snd p with
                   | Some j => nth j (values s) CNull
                   | None => CNull
                   end) pairs).

(** A column name that is in both frames and is not the key gets a
    suffix: [_x] on the left, [_y] on the right. *)
Definition overlaps (lnames rnames : list string) (key n : string) : bool :=
  negb (String.eqb n key) && str_in n lnames && str_in n rnames.

Definition with_suffix (lnames rnames : list string) (key suffix n : string) : string :=
  if overlaps lnames rnames key n then (n ++ suffix)%string else n.

(** [left.merge(right, on=key, how='left')] with the default suffixes. *)
Definition merge_left (left right : DataFrame) (key : string) : Result DataFrame :=
  lk <- getitem left key ;;
  rk <- getitem right key ;;
  if negb (dtype_family (dtype lk) =? dtype_family (dtype rk)) then
    Raise (mkExn ValueError
             ("You are trying to merge on incompatible columns for key " ++ py_repr key)%string)
  else
    let lnames := column_names left in
    let rnames := column_names right in
    let lnames' := map (with_suffix lnames rnames key "_x") lnames in
    let rnames' := map (with_suffix lnames rnames key "_y") rnames in
    if suffix_clash lnames lnames' || suffix_clash rnames rnames' then
      Raise (mkExn MergeError "Passing 'suffixes' which cause duplicate columns is not allowed.")
    else
      let pairs := left_join_indexers (values lk) (values rk) in
      let lcols :=
        map (fun cs => (with_suffix lnames rnames key "_x" (fst cs),
                        take_left (snd cs) pairs)) (columns left) in
      let rcols :=
        map (fun cs => (with_suffix lnames rnames key "_y" (fst cs),
                        take_right (snd cs) pairs))
            (filter (fun cs => negb (String.eqb (fst cs) key)) (columns right)) in
      Ok (mkDF (map Z.of_nat (seq 0 (List.length pairs))) (lcols ++ rcols)).

(** [DataTransformer.create_fact_table] *)
Definition create_fact_table (sales_df products_df customers_df : DataFrame)
  : Result DataFrame :=
  (* Merge sales with products *)
  products <- select products_df ["product_id"; "category"; "price_tier"] ;;
  fact_df <- merge_left sales_df products "product_id" ;;
  (* Merge with customers *)
  customers <- select customers_df ["customer_id"; "region"; "customer_segment"] ;;
  fact_df <- merge_left fact_df customers "customer_id" ;;
  (* Add additional metrics *)
  fact_df <- assign fact_df "revenue_category" "amount"
               (fun s => pd_cut s revenue_bins revenue_labels) ;;
  (* Add date key *)
  assign fact_df "date_key" "sale_date" dt_date_key.

(* ================================================================== *)
(** * etl/quality_checks.py *)
(* ================================================================== *)

(** One entry of [numeric_ranges]: either bound may be left out. *)
Record RangeSpec : Type := mkRange { range_min : option Num; range_max : option Num }.

(** The rule set of one entity; a field is [None] when the key is not in
    the dictionary. *)
Record Rules : Type := mkRules {
  required_columns : option (list string);
  not_null_columns : option (list string);
  numeric_ranges : option (list (string * RangeSpec));
  unique_columns : option (list string)
}.

(** [self.rules], as set by [DataQualityManager.__init__]. *)
Definition rules : list (string * Rules) :=
  [ ("sales",
     mkRules
       (Some ["sale_id"; "product_id"; "customer_id"; "quantity"; "amount"; "sale_date"])
       (Some ["sale_id"; "product_id"; "customer_id"; "sale_date"])
       (Some [("quantity", mkRange (Some (nz 0)) (Some (nz 1000)));
              ("amount", mkRange (Some (nz 0)) (Some (nz 1000000)))])
       (Some ["sale_id"]));
    ("products",
     mkRules
       (Some ["product_id"; "product_name"; "category"; "price"])
       (Some ["product_id"; "product_name"])
       (Some [("price", mkRange (Some (nz 0)) (Some (nz 10000)))])
       (Some ["product_id"]));
    ("customers",
     mkRules
       (Some ["customer_id"; "customer_name"; "email"; "region"])
       (Some ["customer_id"; "customer_name"])
       None
       (Some ["customer_id"; "email"])) ].

(** [d.get(k, default)] *)
Definition get_default {A : Type} (o : option A) (default : A) : A :=
  match o with Some a => a | None => default end.

Inductive Details : Type :=
| MissingColumns (missing_columns : list string)
| NullCounts (null_counts : list (string * nat))
| OutOfRange (out_of_range : list (string * (nat * nat)))  (* below_min, above_max *)
| DuplicateCounts (duplicate_counts : list (string * nat))
| Issues (issues : list string).

Record QualityResult : Type := mkQR { passed : bool; details : Details }.

Definition is_empty {A : Type} (l : list A) : bool :=
  match l with [] => true | _ => false end.

Definition str_of_nat (n : nat) : string := NilZero.string_of_uint (Nat.to_uint n).

(** [DataQualityManager._check_required_columns] *)
Definition _check_required_columns (df : DataFrame) (required : list string)
  : QualityResult :=
  let missing_columns := filter (fun col => negb (has_column df col)) required in
  mkQR (is_empty missing_columns) (MissingColumns missing_columns).

(** [DataQualityManager._check_not_null] *)
Definition _check_not_null (df : DataFrame) (not_null : list string) : QualityResult :=
  let null_counts :=
    fold_left (fun acc col =>
                 match column df col with
                 | Some s =>
                     let null_count := null_count s in
                     if 0 <? null_count then assoc_set col null_count acc else acc
                 | None => acc
                 end) not_null [] in
  mkQR (is_empty null_counts) (NullCounts null_counts).

(** [DataQualityManager._check_numeric_ranges] *)
Definition _check_numeric_ranges (df : DataFrame) (ranges : list (string * RangeSpec))
  : Result QualityResult :=
  out_of_range <-
    foldM (fun acc cr =>
             match column df (fst cr) with
             | Some s =>
                 let min_val := get_default (range_min (snd cr)) NegInf in
                 let max_val := get_default (range_max (snd cr)) PosInf in
                 below <- count_below s min_val ;;
                 above <- count_above s max_val ;;
                 if (0 <? below) || (0 <? above)
                 then Ok (assoc_set (fst cr) (below, above) acc)
                 else Ok acc
             | None => Ok acc
             end) ranges [] ;;
  Ok (mkQR (is_empty out_of_range) (OutOfRange out_of_range)).

(** [df[col].duplicated().sum()] *)
Definition duplicate_count (s : Series) : nat := count_true (duplicated s).

(** [DataQualityManager._check_unique_columns] *)
Definition _check_unique_columns (df : DataFrame) (unique : list string)
  : QualityResult :=
  let duplicates :=
    fold_left (fun acc col =>
                 match column df col with
                 | Some s =>
                     let n := duplicate_count s in
                     if 0 <? n then assoc_set col n acc else acc
                 | None => acc
                 end) unique [] in
  mkQR (is_empty duplicates) (DuplicateCounts duplicates).

Definition is_datetime64_any_dtype (s : Series) : bool := dtype_eqb (dtype s) Datetime.

Definition is_numeric_dtype (s : Series) : bool :=
  dtype_eqb (dtype s) Numeric || dtype_eqb (dtype s) Boolean.

(** [DataQualityManager._check_data_types] *)
Definition _check_data_types (df : DataFrame) (table_name : string) : QualityResult :=
  let issues :=
    if String.eqb table_name "sales" then
      let issues :=
        match column df "sale_date" with
        | Some s =>
            if negb (is_datetime64_any_dtype s)
            then ["sale_date should be datetime type"] else []
        | None => []
        end in
      fold_left (fun acc col =>
                   match column df col with
                   | Some s =>
                       if negb (is_numeric_dtype s)
                       then acc ++ [(col ++ " should be numeric type")%string] else acc
                   | None => acc
                   end) ["quantity"; "amount"; "price_per_unit"] issues
    else [] in
  mkQR (is_empty issues) (Issues issues).

Section WithParserChecks.

Variable parse_datetime : string -> option Timestamp.

(** [DataQualityManager._run_custom_checks]; [now] is [pd.Timestamp.now()]. *)
Definition _run_custom_checks (now : Timestamp) (df : DataFrame) (table_name : string)
  : Result QualityResult :=
  issues <-
    (if String.eqb table_name "sales" then
       (* Check if quantity and amount are consistent *)
       issues <-
         (if has_column df "quantity" && has_column df "amount" then
            quantity <- getitem df "quantity" ;;
            positive <- num_flags (fun x => num_ltb (nz 0) x) quantity ;;
            amount <- getitem df "amount" ;;
            let zero_amount_with_quantity :=
              count_true (map (fun pq => fst pq && snd pq)
                              (combine positive (eq_zero_flags amount))) in
            if 0 <? zero_amount_with_quantity
            then Ok [(str_of_nat zero_amount_with_quantity
                      ++ " records have quantity but zero amount")%string]
            else Ok []
          else Ok []) ;;
       (* Check for future dates *)
       if has_column df "sale_date" then
         sale_date <- getitem df "sale_date" ;;
         dates <- to_datetime parse_datetime sale_date ;;
         let future_dates :=
           count_true (map (fun c => match c with
                                     | CDate t => (now <? t)%Z
                                     | _ => false
                                     end) (values dates)) in
         if 0 <? future_dates
         then Ok (issues ++ [(str_of_nat future_dates
                              ++ " records have future sale dates")%string])
         else Ok issues
       else Ok issues
     else if String.eqb table_name "products" then
       (* Check for zero or negative prices *)
       if has_column df "price" then
         price <- getitem df "price" ;;
         flags <- num_flags (fun x => num_leb x (nz 0)) price ;;
         let invalid_prices := count_true flags in
         if 0 <? invalid_prices
         then Ok [(str_of_nat invalid_prices
                   ++ " products have zero or negative prices")%string]
         else Ok []
       else Ok []
     else if String.eqb table_name "customers" then
       (* Check email format *)
       if has_column df "email" then
         email <- getitem df "email" ;;
         flags <- str_contains_flags at_sign email ;;
         let invalid_emails := count_true (map negb flags) in
         if 0 <? invalid_emails
         then Ok [(str_of_nat invalid_emails
                   ++ " customers have invalid email formats")%string]
         else Ok []
       else Ok []
     else Ok []) ;;
  Ok (mkQR (is_empty issues) (Issues issues)).

(** [DataQualityManager.validate_data]: the result dictionary in insertion
    order. *)
Definition validate_data (now : Timestamp) (df : DataFrame) (table_name : string)
  : Result (list (string * QualityResult)) :=
  let results := [] in
  match assoc_get table_name rules with
  | Some r =>
      let results :=
        assoc_set "required_columns"
          (_check_required_columns df (get_default (required_columns r) [])) results in
      let results :=
        assoc_set "not_null_columns"
          (_check_not_null df (get_default (not_null_columns r) [])) results in
      ranges <- _check_numeric_ranges df (get_default (numeric_ranges r) []) ;;
      let results := assoc_set "numeric_ranges" ranges results in
      let results :=
        assoc_set "unique_columns"
          (_check_unique_columns df (get_default (unique_columns r) [])) results in
      let results := assoc_set "data_types" (_check_data_types df table_name) results in
      custom <- _run_custom_checks now df table_name ;;
      Ok (assoc_set "custom_checks" custom results)
  | None => Ok results
  end.

End WithParserChecks.

(* ================================================================== *)
(** * etl/pipeline.py: the run ledger and [run] *)
(* ================================================================== *)

Inductive Status : Type := STARTED | COMPLETED | FAILED.

(** A row of the [pipeline_runs] table. *)
Record PipelineRun : Type := mkRun {
  run_id : nat;
  pipeline_name : string;
  status : Status;
  start_time : Timestamp;
  end_time : option Timestamp;
  records_processed : option nat;
  error_message : option string
}.

(** The statements issued against [pipeline_runs], in the order of their
    execution. *)
Inductive Statement : Type :=
| InsertRun (id : nat)
| UpdateRun (id : option nat) (st : Status).

(** [cursor.lastrowid] after the insert: one past the largest key. *)
Definition next_run_id (runs : list PipelineRun) : nat :=
  S (fold_right Nat.max 0 (map run_id runs)).

Definition update_run (id : option nat) (st : Status) (t : Timestamp)
  (n : nat) (err : option string) (r : PipelineRun) : PipelineRun :=
  match id with
  | Some i =>
      if run_id r =? i
      then mkRun (run_id r) (pipeline_name r) st (start_time r) (Some t) (Some n) err
      else r
  | None => r
  end.

Section Pipeline.

(** Everything the stages read and write apart from the ledger: source
    files, staging and destination tables, the quality log. *)
Variable World : Type.

(** What [extract] and [transform] return: frames by source name. *)
Variable Data : Type.

(** [self.config['pipeline_name']] *)
Variable config_pipeline_name : string.

(** The three stages, for an arbitrary configuration.  A stage returns or
    raises, and leaves the world as it was at that moment.  [transform]
    reads [self.run_id] for the quality log.  No stage issues a statement
    against [pipeline_runs] or assigns [self.run_id]. *)
Variable extract : World -> Result Data * World.
Variable transform : option nat -> Data -> World -> Result Data * World.
Variable load : Data -> World -> Result nat * World.

(** The pipeline object together with the database. *)
Record PipelineState : Type := mkState {
  pipeline_runs : list PipelineRun;
  executed : list Statement;
  self_run_id : option nat;
  world : World
}.

(** Computations on the pipeline state that may raise. *)
Definition M (A : Type) : Type := PipelineState -> Result A * PipelineState.

Definition ret {A : Type} (a : A) : M A := fun s => (Ok a, s).

Definition bindM {A B : Type} (m : M A) (k : A -> M B) : M B :=
  fun s => match m s with
           | (Ok a, s') => k a s'
           | (Raise e, s') => (Raise e, s')
           end.

(** [try: body  except Exception as e: handler(e)] *)
Definition try_except {A : Type} (body : M A) (handler : Exn -> M A) : M A :=
  fun s => match body s with
           | (Ok a, s') => (Ok a, s')
           | (Raise e, s') => handler e s'
           end.

(** A stage acting on the world only. *)
Definition stage {A : Type} (f : World -> Result A * World) : M A :=
  fun s => let (r, w) := f (world s) in
           (r, mkState (pipeline_runs s) (executed s) (self_run_id s) w).

Definition get_run_id : M (option nat) := fun s => (Ok (self_run_id s), s).

(** [SalesDataPipeline._start_pipeline_run]; [now] is [datetime.now()]. *)
Definition _start_pipeline_run (now : Timestamp) : M nat :=
  fun s =>
    let id := next_run_id (pipeline_runs s) in
    (Ok id,
     mkState (pipeline_runs s
              ++ [mkRun id config_pipeline_name STARTED now None None None])
             (executed s ++ [InsertRun id])
             (Some id)
             (world s)).

(** [SalesDataPipeline._end_pipeline_run] *)
Definition _end_pipeline_run (now : Timestamp) (st : Status)
  (records : nat) (err : option string) : M unit :=
  fun s =>
    (Ok tt,
     mkState (map (update_run (self_run_id s) st now records err) (pipeline_runs s))
             (executed s ++ [UpdateRun (self_run_id s) st])
             (self_run_id s)
             (world s)).

(** [SalesDataPipeline.run]; [t_start] and [t_end] are the readings of the
    clock when the run record is opened and when it is closed. *)
Definition run (t_start t_end : Timestamp) : M bool :=
  try_except
    (bindM (_start_pipeline_run t_start) (fun _ =>
     (* Extract *)
     bindM (stage extract) (fun extracted_data =>
     (* Transform *)
     bindM get_run_id (fun rid =>
     bindM (stage (transform rid extracted_data)) (fun transformed_data =>
     (* Load *)
     bindM (stage (load transformed_data)) (fun n =>
     bindM (_end_pipeline_run t_end COMPLETED n None) (fun _ =>
     ret true)))))))
    (fun e =>
     bindM (_end_pipeline_run t_end FAILED 0 (Some (exn_msg e))) (fun _ =>
     ret false)).

(** The row of the current run, if any. *)
Definition current_run (s : PipelineState) : option PipelineRun :=
  match self_run_id s with
  | Some i => find (fun r => run_id r =? i) (pipeline_runs s)
  | None => None
  end.

(** How many updates of run [i] were executed. *)
Definition updates_of (i : nat) (l : list Statement) : nat :=
  List.length (filter (fun st => match st with
                                 | UpdateRun (Some j) _ => j =? i
                                 | _ => false
                                 end) l).

(** Some stage of a run started in [s] raises [e] and leaves the world
    [w]; the stages before it returned. *)
Definition stage_raises (s : PipelineState) (e : Exn) (w : World) : Prop :=
  let rid := Some (next_run_id (pipeline_runs s)) in
  extract (world s) = (Raise e, w)
  \/ (exists d1 w1,
        extract (world s) = (Ok d1, w1) /\ transform rid d1 w1 = (Raise e, w))
  \/ (exists d1 w1 d2 w2,
        extract (world s) = (Ok d1, w1) /\ transform rid d1 w1 = (Ok d2, w2) /\
        load d2 w2 = (Raise e, w)).

(** The state a run started in [s] at [t0] ends in when it closes its
    record at [t1]: one row added and filled in, one insert and one update
    executed, and the world [w] left by the last stage that ran. *)
Definition closed_state (s : PipelineState) (t0 t1 : Timestamp)
  (st : Status) (n : nat) (err : option string) (w : World) : PipelineState :=
  let id := next_run_id (pipeline_runs s) in
  mkState (pipeline_runs s
           ++ [mkRun id config_pipeline_name st t0 (Some t1) (Some n) err])
          (executed s ++ [InsertRun id; UpdateRun (Some id) st])
          (Some id) w.

End Pipeline.

(* ================================================================== *)
(** * Sample data *)
(* ================================================================== *)

(** A parser for texts of the form [YYYY-MM-DD], one instance of the date
    parser, used on the sample tables below. *)
Definition digit_of (c : ascii) : option Z :=
  let n := nat_of_ascii c in
  if (48 <=? n) && (n <=? 57) then Some (Z.of_nat (n - 48)) else None.

Fixpoint digits_value (acc : Z) (l : list ascii) : option Z :=
  match l with
  | [] => Some acc
  | c :: l' =>
      match digit_of c with
      | Some d => digits_value (acc * 10 + d)%Z l'
      | None => None
      end
  end.

Definition days_from_civil (y m d : Z) : Z :=
  let y := (if (m <=? 2)%Z then y - 1 else y)%Z in
  let era := (y / 400)%Z in
  let yoe := (y - era * 400)%Z in
  let doy := ((153 * (if (2 <? m)%Z then m - 3 else m + 9) + 2) / 5 + d - 1)%Z in
  let doe := (yoe * 365 + yoe / 4 - yoe / 100 + doy)%Z in
  (era * 146097 + doe - 719468)%Z.

Definition iso_parse (s : string) : option Timestamp :=
  match list_ascii_of_string s with
  | [y1; y2; y3; y4; "-"%char; m1; m2; "-"%char; d1; d2] =>
      match digits_value 0 [y1; y2; y3; y4], digits_value 0 [m1; m2],
            digits_value 0 [d1; d2] with
      | Some y, Some m, Some d => Some (days_from_civil y m d * ns_per_day)%Z
      | _, _, _ => None
      end
  | _ => None
  end.

Definition range_index (n : nat) : list Z := map Z.of_nat (seq 0 n).

Definition nums (l : list Z) : Series := mkSeries Numeric (map (fun z => CNum (nz z)) l).
Definition strs (l : list string) : Series := mkSeries Object (map CStr l).

(** The frames of [tests/test_transformations.py]. *)
Definition sample_sales_data : DataFrame :=
  mkDF (range_index 3)
    [ ("sale_id", nums [1; 2; 3]%Z);
      ("product_id", nums [101; 102; 103]%Z);
      ("customer_id", nums [201; 202; 203]%Z);
      ("quantity", nums [2; 1; 3]%Z);
      ("amount", nums [100; 50; 150]%Z);
      ("sale_date", strs ["2024-01-01"; "2024-01-02"; "2024-01-03"]) ].

Definition sample_product_data : DataFrame :=
  mkDF (range_index 3)
    [ ("product_id", nums [101; 102; 103]%Z);
      ("product_name", strs ["Widget A"; "Widget B"; "Widget C"]);
      ("category", strs ["Electronics"; "Home"; "Electronics"]);
      ("price", nums [50; 50; 50]%Z) ].

Definition sample_customer_data : DataFrame :=
  mkDF (range_index 3)
    [ ("customer_id", nums [201; 202; 203]%Z);
      ("customer_name", strs ["John Doe"; "Jane Smith"; "Bob Johnson"]);
      ("email", strs ["john@gmail.com"; "jane@company.com"; "bob@yahoo.com"]);
      ("region", strs ["North"; "South"; "East"]) ].

(** Stages of a pipeline over a trivial world, for concrete runs:
    [raising_extract msg] is [raise Exception(msg)]; the other stages
    pass a row count through. *)
Definition raising_extract (msg : string) (w : unit) : Result nat * unit :=
  (Raise (mkExn OtherError msg), w).
Definition counting_extract (n : nat) (w : unit) : Result nat * unit := (Ok n, w).
Definition passing_transform (rid : option nat) (d : nat) (w : unit)
  : Result nat * unit := (Ok d, w).
Definition counting_load (d : nat) (w : unit) : Result nat * unit := (Ok d, w).

Definition fresh_state : PipelineState unit := mkState [] [] None tt.

(** The run record of the current run is closed as failed with a text
    that is not empty. *)
Definition failed_with_message {W : Type} (s : PipelineState W) : Prop :=
  exists r m,
    current_run s = Some r /\ status r = FAILED /\
    error_message r = Some m /\ m <> "".

(** ** Typed frames *)

Definition num_or_null (c : Cell) : bool :=
  match c with CNull | CNum _ => true | _ => false end.

Definition date_cell (c : Cell) : bool :=
  match c with CDate _ => true | _ => false end.

(** Column [c] exists, is numeric, and holds numbers and NaN only. *)
Definition numeric_column (df : DataFrame) (c : string) : Prop :=
  exists s, column df c = Some s /\ dtype s = Numeric /\
            forallb num_or_null (values s) = true.

(** Column [c] exists and is of object dtype. *)
Definition text_column (df : DataFrame) (c : string) : Prop :=
  exists s, column df c = Some s /\ dtype s = Object.

(** Column [c] exists, is a datetime column, and has no NaT. *)
Definition date_column (df : DataFrame) (c : string) : Prop :=
  exists s, column df c = Some s /\ dtype s = Datetime /\
            forallb date_cell (values s) = true.

(** A raw products frame as read from a delimited file. *)
Definition product_frame (df : DataFrame) : Prop :=
  text_column df "product_name" /\ text_column df "category" /\
  numeric_column df "price".

(** A raw customers frame. *)
Definition customer_frame (df : DataFrame) : Prop :=
  text_column df "customer_name" /\ text_column df "email" /\
  text_column df "region".

(** A customers frame with one address that has no at-sign, and a products
    frame with prices on and around the edges of the bins. *)
Definition customer_without_at : DataFrame :=
  mkDF (range_index 2)
    [ ("customer_id", nums [201; 202]%Z);
      ("customer_name", strs ["John Doe"; "Jane Smith"]);
      ("email", strs ["john.example.com"; "jane@elsewhere.org"]);
      ("region", strs ["North"; "South"]) ].

Definition edge_product_data : DataFrame :=
  mkDF (range_index 4)
    [ ("product_id", nums [101; 102; 103; 104]%Z);
      ("product_name", strs ["Widget A"; "Widget B"; "Widget C"; "Widget D"]);
      ("category", strs ["Electronics"; "Home"; "Electronics"; "Home"]);
      ("price", nums [30; 50; 0; (-5)]%Z) ].

(** ** Duplicates, counted by groups of equal values *)

Definition mem_cell (c : Cell) (l : list Cell) : bool := existsb (cell_eqb c) l.

(** The values of a column, each once. *)
Fixpoint distinct_values (l : list Cell) : list Cell :=
  match l with
  | [] => []
  | c :: l' => if mem_cell c l' then distinct_values l' else c :: distinct_values l'
  end.

(** How many cells of [l] hold [v]. *)
Definition occurrences (v : Cell) (l : list Cell) : nat :=
  List.length (filter (cell_eqb v) l).

(** The count of duplicates in the words of the specification: for each
    group of equal values, its size less one. *)
Definition duplicates_by_group (l : list Cell) : nat :=
  list_sum (map (fun v => occurrences v l - 1) (distinct_values l)).

(** The count a check recorded for a column; a column that is not in the
    detail mapping has count 0. *)
Definition recorded_count (m : list (string * nat)) (col : string) : nat :=
  match assoc_get col m with Some n => n | None => 0 end.

Definition duplicate_counts_of (r : QualityResult) : list (string * nat) :=
  match details r with DuplicateCounts m => m | _ => [] end.

Definition out_of_range_of (r : QualityResult) : list (string * (nat * nat)) :=
  match details r with OutOfRange m => m | _ => [] end.

(** A frame whose [sale_id] column holds 1, 1, 2, and one whose
    [quantity] column holds -1, 5, 2000. *)
Definition repeated_sale_ids : DataFrame :=
  mkDF (range_index 3) [ ("sale_id", nums [1; 1; 2]%Z) ].

Definition quantities_out_of_range : DataFrame :=
  mkDF (range_index 3) [ ("quantity", nums [(-1); 5; 2000]%Z) ].

(** ** Out-of-range values, counted as the specification says *)

(** A numeric column that holds numbers and NaN only. *)
Definition numeric_series (s : Series) : Prop :=
  dtype s = Numeric /\ forallb num_or_null (values s) = true.

(** The cells that hold a number strictly below [m]; NaN is no number. *)
Definition values_below (l : list Cell) (m : Num) : nat :=
  List.length (filter (fun c => match c with CNum x => num_ltb x m | _ => false end) l).

(** The cells that hold a number strictly above [m]. *)
Definition values_above (l : list Cell) (m : Num) : nat :=
  List.length (filter (fun c => match c with CNum x => num_ltb m x | _ => false end) l).

(** The pair (below_min, above_max) a check recorded for a column; a
    column that is not in the detail mapping has no value out of range. *)
Definition recorded_range (m : list (string * (nat * nat))) (col : string) : nat * nat :=
  match assoc_get col m with Some p => p | None => (0, 0) end.

Definition out_of_range_pair (p : nat * nat) : bool := (0 <? fst p) || (0 <? snd p).

(** ** Columns a check looks at *)

Definition columns_absent (df : DataFrame) (cols : list string) : Prop :=
  forall c, In c cols -> has_column df c = false.

(** The columns inspected by [_check_data_types] and by
    [_run_custom_checks] for a table name. *)
Definition type_columns (table_name : string) : list string :=
  if String.eqb table_name "sales"
  then ["sale_date"; "quantity"; "amount"; "price_per_unit"] else [].

Definition custom_columns (table_name : string) : list string :=
  if String.eqb table_name "sales" then ["quantity"; "amount"; "sale_date"]
  else if String.eqb table_name "products" then ["price"]
  else if String.eqb table_name "customers" then ["email"]
  else [].

Definition missing_columns_of (r : QualityResult) : list string :=
  match details r with MissingColumns l => l | _ => [] end.

(** A frame without columns, and a sales frame whose quantity is a text. *)
Definition no_columns : DataFrame := mkDF (range_index 0) [].

Definition text_quantity : DataFrame :=
  mkDF (range_index 1)
    [ ("sale_id", nums [1]%Z);
      ("quantity", strs ["two"]);
      ("amount", nums [100]%Z) ].

(** ** Frames that keep their rows *)

(** [df'] has the rows of [df], in their order: the row labels are the
    same list; the columns of [df] are all there, at their positions,
    followed by the added ones; every column whose name is not in
    [assigned] holds the same cells; and [df'] has one cell per row in
    every column if [df] has. *)
Definition same_rows (df df' : DataFrame) (assigned : list string) : Prop :=
  index df' = index df
  /\ (exists added, column_names df' = column_names df ++ added)
  /\ (forall c, ~ In c assigned -> column df' c = column df c)
  /\ (well_formed df -> well_formed df').

(** An operation that gives one cell per cell. *)
Definition keeps_length (f : Series -> Result Series) : Prop :=
  forall s s', f s = Ok s' -> List.length (values s') = List.length (values s).

(** The columns each transform assigns. *)
Definition sales_assigned : list string :=
  ["sale_date"; "year"; "month"; "quarter"; "day_of_week"; "is_weekend";
   "price_per_unit"; "amount"; "quantity"; "transformed_at"].

Definition product_assigned : list string :=
  ["product_name"; "category"; "price_tier"; "transformed_at"].

Definition customer_assigned : list string :=
  ["customer_name"; "email"; "region"; "email_domain"; "customer_segment";
   "transformed_at"].

(** A raw sales frame: dates as texts the parser accepts (or missing),
    numeric amounts and quantities. *)
Definition parseable (parse_datetime : string -> option Timestamp) (c : Cell) : bool :=
  match c with
  | CNull => true
  | CStr x => match parse_datetime x with Some _ => true | None => false end
  | _ => false
  end.

Definition sales_frame (parse_datetime : string -> option Timestamp)
  (df : DataFrame) : Prop :=
  (exists s, column df "sale_date" = Some s /\ dtype s = Object /\
             forallb (parseable parse_datetime) (values s) = true)
  /\ numeric_column df "amount" /\ numeric_column df "quantity"
  /\ well_formed df.

(** ** Inputs of the fact table *)

(** The key column is in both frames, with dtypes that can be merged, and
    no key of a left row is the key of more than one right row (missing
    keys count as equal to each other, as in the merge). *)
Definition key_matches_once (left right : DataFrame) (key : string) : Prop :=
  exists lk rk,
    column left key = Some lk /\ column right key = Some rk
    /\ dtype_family (dtype lk) = dtype_family (dtype rk)
    /\ Forall (fun k => occurrences k (values rk) <= 1) (values lk).

(** Enriched frames as [create_fact_table] expects them: a well-formed
    sales frame with numeric amounts and dates without NaT, that has no
    column named like a joined one; products and customers with the
    columns that are joined. *)
Definition fact_inputs (sales_df products_df customers_df : DataFrame) : Prop :=
  well_formed sales_df
  /\ numeric_column sales_df "amount" /\ date_column sales_df "sale_date"
  /\ columns_absent sales_df ["category"; "price_tier"; "region"; "customer_segment"]
  /\ has_column products_df "category" = true
  /\ has_column products_df "price_tier" = true
  /\ has_column customers_df "region" = true
  /\ has_column customers_df "customer_segment" = true.

(** One sale of product 101, and a products table that lists product 101
    twice. *)
Definition one_sale : DataFrame :=
  mkDF (range_index 1)
    [ ("sale_id", nums [1]%Z);
      ("product_id", nums [101]%Z);
      ("customer_id", nums [201]%Z);
      ("quantity", nums [2]%Z);
      ("amount", nums [100]%Z);
      ("sale_date", strs ["2024-01-01"]) ].

Definition product_listed_twice : DataFrame :=
  mkDF (range_index 2)
    [ ("product_id", nums [101; 101]%Z);
      ("product_name", strs ["Widget A"; "Widget A2"]);
      ("category", strs ["Electronics"; "Home"]);
      ("price", nums [50; 60]%Z) ].

(** The frame a transform returned (the empty frame if it raised). *)
Definition returned (r : Result DataFrame) : DataFrame :=
  match r with Ok df => df | Raise _ => mkDF [] [] end.

(** Two sales, the second for a product and a customer that are in no
    table. *)
Definition two_sales : DataFrame :=
  mkDF (range_index 2)
    [ ("sale_id", nums [1; 2]%Z);
      ("product_id", nums [101; 999]%Z);
      ("customer_id", nums [201; 999]%Z);
      ("quantity", nums [2; 1]%Z);
      ("amount", nums [100; 0]%Z);
      ("sale_date", strs ["2024-01-01"; "2024-01-06"]) ].

Definition enriched_two_sales : DataFrame :=
  returned (transform_sales_data iso_parse 0%Z two_sales).
Definition enriched_one_sale : DataFrame :=
  returned (transform_sales_data iso_parse 0%Z one_sale).
Definition enriched_products : DataFrame :=
  returned (transform_product_data 0%Z sample_product_data).
Definition enriched_products_listed_twice : DataFrame :=
  returned (transform_product_data 0%Z product_listed_twice).
Definition enriched_customers : DataFrame :=
  returned (transform_customer_data 0%Z sample_customer_data).

(** The key column is in both frames, with dtypes that can be merged. *)
Definition mergeable (left right : DataFrame) (key : string) : Prop :=
  exists lk rk,
    column left key = Some lk /\ column right key = Some rk
    /\ dtype_family (dtype lk) = dtype_family (dtype rk).

(** ** Details of the other checks *)

Definition null_counts_of (r : QualityResult) : list (string * nat) :=
  match details r with NullCounts m => m | _ => [] end.

Definition issues_of (r : QualityResult) : list string :=
  match details r with Issues l => l | _ => [] end.

(** The keys of the dictionary [validate_data] fills in, in the order of
    their insertion. *)
Definition check_names : list string :=
  ["required_columns"; "not_null_columns"; "numeric_ranges"; "unique_columns";
   "data_types"; "custom_checks"].

(** The cells that hold a number at or below [m]. *)
Definition values_at_most (l : list Cell) (m : Num) : nat :=
  List.length (filter (fun c => match c with CNum x => num_leb x m | _ => false end) l).

(** A cell that holds a text with an at-sign. *)
Definition valid_email (c : Cell) : bool :=
  match c with CStr x => str_contains at_sign x | _ => false end.

(** The frames of [test_quality_checks] in [tests/test_pipeline.py]. *)
Definition good_data : DataFrame :=
  mkDF (range_index 3)
    [ ("sale_id", nums [1; 2; 3]%Z);
      ("product_id", nums [101; 102; 103]%Z);
      ("customer_id", nums [201; 202; 203]%Z);
      ("quantity", nums [1; 2; 3]%Z);
      ("amount", nums [100; 200; 300]%Z);
      ("sale_date", strs ["2024-01-01"; "2024-01-02"; "2024-01-03"]) ].

Definition bad_data : DataFrame :=
  mkDF (range_index 3)
    [ ("sale_id", mkSeries Numeric [CNum (nz 1); CNum (nz 1); CNull]);
      ("product_id", nums [101; 102; 103]%Z);
      ("customer_id", nums [201; 202; 203]%Z);
      ("quantity", nums [(-1); 2; 3]%Z);
      ("amount", nums [100; 0; 300]%Z);
      ("sale_date", strs ["2024-01-01"; "2024-01-02"; "2030-01-03"]) ].

(** ** Rows of the sales transform *)

(** [round(2)] and [fillna(0)] on one cell of a numeric column. *)
Definition round_cell (c : Cell) : Cell :=
  match c with CNum x => CNum (num_round2 x) | _ => c end.

Definition fill_zero (c : Cell) : Cell := if is_null c then CNum (nz 0) else c.

(** The unit price of a row, from its amount and its quantity as they
    are before rounding and filling. *)
Definition unit_price (amount quantity : Cell) : Cell :=
  match amount, quantity with
  | CNum x, CNum y => round_cell (opt_num_cell (num_div x y))
  | _, _ => CNull
  end.

(** A raw sales frame with a missing quantity, a missing amount and a
    quantity of 0. *)
Definition sales_with_gaps : DataFrame :=
  mkDF (range_index 4)
    [ ("sale_id", nums [1; 2; 3; 4]%Z);
      ("product_id", nums [101; 102; 103; 101]%Z);
      ("customer_id", nums [201; 202; 203; 201]%Z);
      ("quantity", mkSeries Numeric [CNull; CNum (nz 2); CNum (nz 0); CNum (nz 4)]);
      ("amount", mkSeries Numeric [CNum (nz 100); CNull; CNum (nz 50); CNum (nz 10)]);
      ("sale_date", strs ["2024-01-01"; "2024-01-02"; "2024-01-06"; "2024-01-07"]) ].



(** A customers frame whose addresses are all missing, read from a file
    as a column of floats; and a products frame with a price of 0. *)
Definition customers_without_emails : DataFrame :=
  mkDF (range_index 2)
    [ ("customer_id", nums [201; 202]%Z);
      ("customer_name", strs ["John Doe"; "Jane Smith"]);
      ("email", mkSeries Numeric [CNull; CNull]);
      ("region", strs ["North"; "South"]) ].

Definition free_product_data : DataFrame :=
  mkDF (range_index 2)
    [ ("product_id", nums [101; 102]%Z);
      ("product_name", strs ["Widget A"; "Sample"]);
      ("category", strs ["Electronics"; "Home"]);
      ("price", nums [50; 0]%Z) ].


(** ** The quality report *)

(** The check mark and the ballot cross of the report lines (U+2713 and
    U+2717, in UTF-8) and the line feed. *)
Definition check_mark : string :=
  String (ascii_of_nat 226) (String (ascii_of_nat 156) (String (ascii_of_nat 147) "")).
Definition ballot_x : string :=
  String (ascii_of_nat 226) (String (ascii_of_nat 156) (String (ascii_of_nat 151) "")).
Definition line_feed : string := String (ascii_of_nat 10) "".

Section WithRepr.

(** The text an f-string gives for a details dictionary, [str(dict)], is
    the interpreter's; it is a parameter of the development. *)
Variable repr_details : Details -> string.

(** One turn of the loop over [results.items()], on the list [report] and
    the two counters. *)
Definition report_step (acc : list string * nat * nat) (cr : string * QualityResult)
  : list string * nat * nat :=
  let '(report, total_checks, passed_checks) := acc in
  let (check_type, result) := cr in
  let total_checks := total_checks + 1 in
  if passed result then
    (report ++ [(check_mark ++ " " ++ check_type ++ ": PASSED")%string],
     total_checks, passed_checks + 1)
  else
    (report ++ [(ballot_x ++ " " ++ check_type ++ ": FAILED")%string;
                ("  Details: " ++ repr_details (details result))%string],
     total_checks, passed_checks).

(** The list [report] when the loop is over and the summary has been
    inserted in front. *)
Definition report_lines (results : list (string * QualityResult)) : list string :=
  let '(report, total_checks, passed_checks) :=
    fold_left report_step results ([], 0, 0) in
  ("Quality Check Summary: " ++ str_of_nat passed_checks ++ "/"
   ++ str_of_nat total_checks ++ " checks passed")%string :: report.

(** [DataQualityManager.get_quality_report] *)
Definition get_quality_report (results : list (string * QualityResult)) : string :=
  String.concat line_feed (report_lines results).

End WithRepr.

(** Python's text for a details dictionary whose column names and issues
    hold no quote and no character that is escaped, as is the case for
    the rule sets of the quality manager. *)
Definition list_repr (items : list string) : string :=
  ("[" ++ String.concat ", " items ++ "]")%string.

Definition dict_repr (items : list (string * string)) : string :=
  ("{" ++ String.concat ", "
            (map (fun kv => (py_repr (fst kv) ++ ": " ++ snd kv)%string) items)
   ++ "}")%string.

Definition details_repr (d : Details) : string :=
  match d with
  | MissingColumns l => dict_repr [("missing_columns", list_repr (map py_repr l))]
  | NullCounts m =>
      dict_repr [("null_counts",
                  dict_repr (map (fun kn => (fst kn, str_of_nat (snd kn))) m))]
  | OutOfRange m =>
      dict_repr
        [("out_of_range",
          dict_repr
            (map (fun kp =>
                    (fst kp,
                     dict_repr [("below_min", str_of_nat (fst (snd kp)));
                                ("above_max", str_of_nat (snd (snd kp)))])) m))]
  | DuplicateCounts m =>
      dict_repr [("duplicate_counts",
                  dict_repr (map (fun kn => (fst kn, str_of_nat (snd kn))) m))]
  | Issues l => dict_repr [("issues", list_repr (map py_repr l))]
  end.

(** How many results of a dictionary passed. *)
Definition passed_count (results : list (string * QualityResult)) : nat :=
  List.length (filter (fun cr => passed (snd cr)) results).



(** Two sales of which the second has no date, after the sales
    transform. *)
Definition undated_sale : DataFrame :=
  mkDF (range_index 2)
    [ ("sale_id", nums [1; 2]%Z);
      ("product_id", nums [101; 102]%Z);
      ("customer_id", nums [201; 202]%Z);
      ("quantity", nums [2; 1]%Z);
      ("amount", nums [100; 50]%Z);
      ("sale_date", mkSeries Object [CStr "2024-01-01"; CNull]) ].

Definition enriched_undated_sale : DataFrame :=
  returned (transform_sales_data iso_parse 0%Z undated_sale).




(** The segment of a domain that is a text. *)
Definition segment_of_domain (d : string) : string :=
  if String.eqb d "" then "Unknown"
  else if str_in d corporate_domains then "Corporate"
  else if str_in d personal_domains then "Personal"
  else "Other".

(** Customers whose addresses are written with capitals and blanks, and
    one whose address ends at the at-sign. *)
Definition untidy_customer_data : DataFrame :=
  mkDF (range_index 2)
    [ ("customer_id", nums [201; 202]%Z);
      ("customer_name", strs ["john doe"; "JANE SMITH"]);
      ("email", strs ["  Jane@Company.COM "; "john@"]);
      ("region", strs ["north"; "south"]) ].


(* ================================================================== *)
(** * etl/transformations.py: the dimension tables *)
(* ================================================================== *)

(** [s.unique()]: the values in the order of their first appearance, a
    missing value counting as one value. *)
Fixpoint unique_from (seen : list Cell) (l : list Cell) : list Cell :=
  match l with
  | [] => []
  | c :: l' =>
      if existsb (cell_eqb c) seen then unique_from seen l'
      else c :: unique_from (c :: seen) l'
  end.

Definition series_unique (s : Series) : Series :=
  mkSeries (dtype s) (unique_from [] (values s)).

(** [range(1, n + 1)] as a column of integers. *)
Definition key_range (n : nat) : Series :=
  mkSeries Numeric (map (fun k => CNum (nz (Z.of_nat k))) (seq 1 n)).

(** [datetime.now().date()]: the day of a timestamp, kept in a column of
    Python objects. *)
Definition date_of (now : Timestamp) : Cell := CDate (ts_days now * ns_per_day)%Z.

Section WithParserDimensions.

Variable parse_datetime : string -> option Timestamp.

(** [DataTransformer._create_date_dimension] *)
Definition _create_date_dimension (dates : Series) : Result DataFrame :=
  let uniq := series_unique dates in
  let unique_dates :=
    mkDF (range_index (List.length (values uniq))) [("full_date", uniq)] in
  unique_dates <- assign unique_dates "full_date" "full_date"
                    (to_datetime parse_datetime) ;;
  full_date <- getitem unique_dates "full_date" ;;
  date_key <- dt_date_key full_date ;;
  year <- dt_field ts_year full_date ;;
  quarter <- dt_field ts_quarter full_date ;;
  month <- dt_field ts_month full_date ;;
  day <- dt_field ts_day full_date ;;
  day_of_week <- dt_field ts_dayofweek full_date ;;
  is_weekend <- dt_field ts_dayofweek full_date ;;
  Ok (mkDF (index unique_dates)
        [ ("date_key", date_key);
          ("full_date", full_date);
          ("year", year);
          ("quarter", quarter);
          ("month", month);
          ("day", day);
          ("day_of_week", day_of_week);
          ("is_weekend", isin [CNum (nz 5); CNum (nz 6)] is_weekend) ]).

(** [DataTransformer._create_product_dimension]; [now] is
    [datetime.now()].  The copy is the frame itself, frames being values
    here. *)
Definition _create_product_dimension (now : Timestamp) (products_df : DataFrame)
  : DataFrame :=
  let product_dim := products_df in
  let product_dim := setitem product_dim "product_key" (key_range (nrows product_dim)) in
  let product_dim := setitem_scalar product_dim "effective_date" Object (date_of now) in
  let product_dim := setitem_scalar product_dim "end_date" Object CNull in
  setitem_scalar product_dim "is_current" Boolean (CBool true).

(** [DataTransformer._create_customer_dimension] *)
Definition _create_customer_dimension (now : Timestamp) (customers_df : DataFrame)
  : DataFrame :=
  let customer_dim := customers_df in
  let customer_dim := setitem customer_dim "customer_key" (key_range (nrows customer_dim)) in
  let customer_dim := setitem_scalar customer_dim "effective_date" Object (date_of now) in
  let customer_dim := setitem_scalar customer_dim "end_date" Object CNull in
  setitem_scalar customer_dim "is_current" Boolean (CBool true).

(** [DataTransformer.create_dimension_tables]: the dictionary of the three
    tables, in the order of its keys. *)
Definition create_dimension_tables (now : Timestamp)
  (sales_df products_df customers_df : DataFrame)
  : Result (list (string * DataFrame)) :=
  (* Date dimension *)
  dates <- getitem sales_df "sale_date" ;;
  date_dim <- _create_date_dimension dates ;;
  (* Product dimension (SCD Type 2) *)
  let product_dim := _create_product_dimension now products_df in
  (* Customer dimension (SCD Type 2) *)
  let customer_dim := _create_customer_dimension now customers_df in
  Ok [ ("dim_date", date_dim);
       ("dim_product", product_dim);
       ("dim_customer", customer_dim) ].

End WithParserDimensions.

(** The columns a dimension builder assigns, for the name of its key
    column. *)
Definition dimension_assigned (key : string) : list string :=
  [key; "effective_date"; "end_date"; "is_current"].

(** What a dimension built from [df] at [now] looks like, for the name
    [key] of its surrogate key: the rows of [df]; keys 1, 2, ... in the
    order of the rows, all different; every row current, with the day of
    [now] as its effective date and no end date. *)
Definition scd_dimension (key : string) (now : Timestamp) (df dim : DataFrame) : Prop :=
  same_rows df dim (dimension_assigned key)
  /\ (exists keys, column dim key = Some keys /\ NoDup (values keys)
                   /\ List.length (values keys) = nrows df)
  /\ (forall i, i < nrows df ->
                cell_at dim key i = Some (CNum (nz (Z.of_nat (i + 1))))
                /\ cell_at dim "effective_date" i = Some (date_of now)
                /\ cell_at dim "end_date" i = Some CNull
                /\ cell_at dim "is_current" i = Some (CBool true))
  /\ passed (_check_unique_columns dim [key]) = true.

(** An enriched sales frame with four sales on three days, two of them at
    different hours of one day. *)
Definition sale_hours : Series :=
  mkSeries Datetime
    [ CDate 1704103200000000000%Z;   (* 2024-01-01 10:00 *)
      CDate 1704189600000000000%Z;   (* 2024-01-02 10:00 *)
      CDate 1704103200000000000%Z;   (* 2024-01-01 10:00 *)
      CDate 1704117600000000000%Z ]. (* 2024-01-01 14:00 *)


(* ================================================================== *)
(** * etl/pipeline.py: the stages *)
(* ================================================================== *)

(** An entry of [config['sources']]; [source_path] and [source_query] are
    [None] when the key is not in the dictionary. *)
Record Source : Type := mkSource {
  source_name : string;
  source_type : string;
  source_path : option string;
  source_query : option string
}.

(** An entry of [config['destinations']]. *)
Record Destination : Type := mkDestination {
  destination_source : string;
  destination_table : string;
  destination_merge_key : option string
}.

Record Config : Type := mkConfig {
  cfg_pipeline_name : string;
  cfg_sources : list Source;
  cfg_destinations : list Destination
}.

(** A row of [data_quality_logs] as [_log_quality_results] inserts it (the
    details are kept as they are, not as their JSON text; the key and the
    creation time that the database adds are left out). *)
Record QualityLog : Type := mkLog {
  log_run_id : option nat;
  log_table_name : string;
  log_check_type : string;
  log_check_result : bool;
  log_details : Details
}.

Inductive IfExists : Type := Replace | Append.

Section Stages.

(** The data tables of the database: staging and destination tables. *)
Variable Store : Type.

Variable parse_datetime : string -> option Timestamp.

(** The readers and writers of pandas and the statements of
    [_merge_data] act on files and on the data tables; they are
    parameters.  Each may raise.  Queries are taken to read the data
    tables only. *)
Variable read_csv : string -> Result DataFrame.
Variable read_sql_query : string -> Store -> Result DataFrame.
Variable to_sql : string -> DataFrame -> IfExists -> Store -> Result unit * Store.
Variable _merge_data : string -> string -> Store -> Result unit * Store.
Variable commit : Store -> Store.
Variable rollback : Store -> Store.

(** The readings of the clock while the source of a name is transformed
    and while it is validated. *)
Variable transform_clock : string -> Timestamp.
Variable validate_clock : string -> Timestamp.

(** The database apart from the run ledger. *)
Record Database : Type := mkDB {
  quality_logs : list QualityLog;
  store : Store
}.

(** The body of the loop of [extract] for one source. *)
Definition read_source (source : Source) (st : Store) : Result DataFrame :=
  if String.eqb (source_type source) "csv" then
    match source_path source with
    | Some path => read_csv path
    | None => Raise (mkExn KeyError (py_repr "path"))
    end
  else if String.eqb (source_type source) "database" then
    match source_query source with
    | Some query => read_sql_query query st
    | None => Raise (mkExn KeyError (py_repr "query"))
    end
  else Raise (mkExn ValueError ("Unsupported source type: " ++ source_type source)%string).

(** [SalesDataPipeline.extract]: the frames by source name; an exception
    is logged and raised again. *)
Definition extract (config : Config) (db : Database)
  : Result (list (string * DataFrame)) * Database :=
  (foldM (fun extracted_data source =>
            df <- read_source source (store db) ;;
            Ok (assoc_set (source_name source) df extracted_data))
         (cfg_sources config) [],
   db).

(** [SalesDataPipeline._log_quality_results] *)
Definition _log_quality_results (rid : option nat)
  (results : list (string * QualityResult)) (table_name : string) (db : Database)
  : Database :=
  mkDB (quality_logs db
        ++ map (fun cr => mkLog rid table_name (fst cr) (passed (snd cr)) (details (snd cr)))
               results)
       (store db).

(** The transformation [transform] picks for a source name. *)
Definition transform_source (source_name : string) (df : DataFrame) : Result DataFrame :=
  if String.eqb source_name "sales" then
    transform_sales_data parse_datetime (transform_clock source_name) df
  else if String.eqb source_name "products" then
    transform_product_data (transform_clock source_name) df
  else if String.eqb source_name "customers" then
    transform_customer_data (transform_clock source_name) df
  else Ok df.

(** The loop of [transform] over [extracted_data.items()].  (The
    transformations assign to the extracted frame itself; the extracted
    data are not read again after the loop.) *)
Fixpoint transform_items (rid : option nat) (items : list (string * DataFrame))
  (transformed_data : list (string * DataFrame)) (db : Database)
  : Result (list (string * DataFrame)) * Database :=
  match items with
  | [] => (Ok transformed_data, db)
  | (source_name, df) :: items' =>
      (* Apply specific transformations based on source *)
      match transform_source source_name df with
      | Raise e => (Raise e, db)
      | Ok df =>
          (* Apply data quality checks *)
          match validate_data parse_datetime (validate_clock source_name) df source_name with
          | Raise e => (Raise e, db)
          | Ok quality_results =>
              let db := _log_quality_results rid quality_results source_name db in
              transform_items rid items' (assoc_set source_name df transformed_data) db
          end
      end
  end.

(** [SalesDataPipeline.transform]; [rid] is [self.run_id]. *)
Definition transform (rid : option nat) (extracted_data : list (string * DataFrame))
  (db : Database) : Result (list (string * DataFrame)) * Database :=
  transform_items rid extracted_data [] db.

(** The columns of the target table of a destination, when [load] selects
    them. *)
Definition target_columns (table_name : string) : option (list string) :=
  if String.eqb table_name "sales" then
    Some ["sale_id"; "product_id"; "customer_id"; "quantity"; "amount"; "sale_date"]
  else if String.eqb table_name "products" then
    Some ["product_id"; "product_name"; "category"; "price"]
  else if String.eqb table_name "customers" then
    Some ["customer_id"; "customer_name"; "email"; "region"]
  else None.

(** [destination.get('merge_key')] is true for a key that is not empty. *)
Definition merge_key_of (destination : Destination) : option string :=
  match destination_merge_key destination with
  | Some k => if String.eqb k "" then None else Some k
  | None => None
  end.

(** The loop of [load] over the destinations. *)
Fixpoint load_destinations (dests : list Destination)
  (transformed_data : list (string * DataFrame)) (total_records : nat) (st : Store)
  : Result nat * Store :=
  match dests with
  | [] => (Ok total_records, st)
  | destination :: dests' =>
      let source_name := destination_source destination in
      let table_name := destination_table destination in
      match assoc_get source_name transformed_data with
      | Some df =>
          (* Select only the columns that exist in the target table *)
          match (match target_columns table_name with
                 | Some cols => select df cols
                 | None => Ok df
                 end) with
          | Raise e => (Raise e, st)
          | Ok df =>
              (* Load to staging table first *)
              match to_sql ("stg_" ++ table_name)%string df Replace st with
              | (Raise e, st) => (Raise e, st)
              | (Ok _, st) =>
                  (* Perform merge/upsert operation *)
                  match (match merge_key_of destination with
                         | Some key => _merge_data table_name key st
                         | None => to_sql table_name df Append st
                         end) with
                  | (Raise e, st) => (Raise e, st)
                  | (Ok _, st) =>
                      load_destinations dests' transformed_data
                        (total_records + nrows df) st
                  end
              end
          end
      | None => load_destinations dests' transformed_data total_records st
      end
  end.

(** [SalesDataPipeline.load]: the changes are committed when the loop is
    over and rolled back when it raises. *)
Definition load (config : Config) (transformed_data : list (string * DataFrame))
  (db : Database) : Result nat * Database :=
  match load_destinations (cfg_destinations config) transformed_data 0 (store db) with
  | (Ok total_records, st) => (Ok total_records, mkDB (quality_logs db) (commit st))
  | (Raise e, st) => (Raise e, mkDB (quality_logs db) (rollback st))
  end.

(** [SalesDataPipeline.run] on the three stages above. *)
Definition run_pipeline (config : Config) (t_start t_end : Timestamp)
  : M Database bool :=
  run (cfg_pipeline_name config) (extract config) transform (load config) t_start t_end.

(** The rows [load] counts: those of the frame of every destination whose
    source is among the transformed data. *)
Definition records_of (dests : list Destination)
  (transformed_data : list (string * DataFrame)) : nat :=
  list_sum (map (fun destination =>
                   match assoc_get (destination_source destination) transformed_data with
                   | Some df => nrows df
                   | None => 0
                   end) dests).

End Stages.

(** A source name for which the quality manager has a rule set. *)
Definition has_rules (table_name : string) : bool :=
  match assoc_get table_name rules with Some _ => true | None => false end.

(** A store without content, on which every write succeeds; a reader of
    files that knows the three sample files; and a configuration with a
    source of a type that is not supported. *)
Definition null_to_sql (name : string) (df : DataFrame) (mode : IfExists) (st : unit)
  : Result unit * unit := (Ok tt, st).
Definition null_merge_data (table_name key : string) (st : unit) : Result unit * unit :=
  (Ok tt, st).
Definition null_query (query : string) (st : unit) : Result DataFrame :=
  Raise (mkExn OtherError "no such table").

Definition sample_files (path : string) : Result DataFrame :=
  if String.eqb path "sales.csv" then Ok sample_sales_data
  else if String.eqb path "products.csv" then Ok sample_product_data
  else if String.eqb path "customers.csv" then Ok sample_customer_data
  else Raise (mkExn OtherError ("No such file or directory: " ++ py_repr path)%string).

Definition sample_config : Config :=
  mkConfig "sales_pipeline"
    [ mkSource "sales" "csv" (Some "sales.csv") None;
      mkSource "products" "csv" (Some "products.csv") None;
      mkSource "regions" "csv" (Some "customers.csv") None ]
    [ mkDestination "sales" "sales" None;
      mkDestination "products" "products" (Some "product_id");
      mkDestination "orders" "orders" None ].

Definition xml_config : Config :=
  mkConfig "sales_pipeline"
    [ mkSource "sales" "csv" (Some "sales.csv") None;
      mkSource "feed" "xml" (Some "feed.xml") None;
      mkSource "products" "csv" (Some "products.csv") None ]
    [ mkDestination "sales" "sales" None ].

Definition fresh_pipeline : PipelineState (Database unit) :=
  mkState [] [] None (mkDB [] tt).


(** The rows [_log_quality_results] inserts for a result dictionary. *)
Definition log_rows (rid : option nat) (table_name : string)
  (results : list (string * QualityResult)) : list QualityLog :=
  map (fun cr => mkLog rid table_name (fst cr) (passed (snd cr)) (details (snd cr))) results.

(** The rows of a log that are about a table. *)
Definition rows_about (table_name : string) (log : list QualityLog) : list QualityLog :=
  filter (fun row => String.eqb (log_table_name row) table_name) log.

(** What one turn of the loop of [transform] did for an item: the frame
    it stored under the name of the item and the results it logged. *)
Definition turn_of (parse_datetime : string -> option Timestamp)
  (transform_clock validate_clock : string -> Timestamp)
  (item : string * DataFrame)
  (out : string * DataFrame * list (string * QualityResult)) : Prop :=
  fst (fst out) = fst item
  /\ transform_source parse_datetime transform_clock (fst item) (snd item)
     = Ok (snd (fst out))
  /\ validate_data parse_datetime (validate_clock (fst item)) (snd (fst out)) (fst item)
     = Ok (snd out).





(** ** The calendar columns of a sale *)

(** A calendar field of a timestamp cell; a missing timestamp has none. *)
Definition date_field_cell (f : Timestamp -> Z) (c : Cell) : Cell :=
  match c with CDate t => CNum (nz (f t)) | _ => CNull end.

(** Saturday is day 5 and Sunday day 6. *)
Definition on_weekend (t : Timestamp) : bool :=
  (ts_dayofweek t =? 5)%Z || (ts_dayofweek t =? 6)%Z.




(** Sales with a quantity and no amount, and a sale dated after the
    clock, as timestamps. *)
Definition unpaid_sales : DataFrame :=
  mkDF (range_index 3)
    [ ("quantity", nums [2; 0; 1]%Z);
      ("amount", nums [0; 0; 10]%Z);
      ("sale_date", mkSeries Datetime [CDate 100%Z; CDate 200%Z; CDate 900%Z]) ].

(** ** Columns the range check can compare *)

(** The number a cell is compared as: a Boolean counts as 1 or 0, a
    missing value is no number. *)
Definition cell_number (c : Cell) : option Num :=
  match c with
  | CNum x => Some x
  | CBool b => Some (bool_num b)
  | _ => None
  end.

Definition number_cell (c : Cell) : bool :=
  match c with CNull | CNum _ | CBool _ => true | _ => false end.

(** A column of numbers, Booleans and missing values that is neither a
    datetime nor a categorical column. *)
Definition comparable_series (s : Series) : Prop :=
  dtype s <> Datetime /\ dtype s <> Categorical
  /\ forallb number_cell (values s) = true.

(** The cells that count as a number strictly below [m], and strictly
    above [m]. *)
Definition numbers_below (l : list Cell) (m : Num) : nat :=
  List.length
    (filter (fun c => match cell_number c with Some x => num_ltb x m | None => false end) l).

Definition numbers_above (l : list Cell) (m : Num) : nat :=
  List.length
    (filter (fun c => match cell_number c with Some x => num_ltb m x | None => false end) l).

Definition number_counts (s : Series) (rs : RangeSpec) : nat * nat :=
  (numbers_below (values s) (get_default (range_min rs) NegInf),
   numbers_above (values s) (get_default (range_max rs) PosInf)).

(** A column of Booleans, and the range of the sales quantities. *)
Definition flags_as_quantity : DataFrame :=
  mkDF (range_index 3)
    [ ("quantity", mkSeries Boolean [CBool true; CBool false; CBool true]) ].

Definition quantity_range : list (string * RangeSpec) :=
  [("quantity", mkRange (Some (nz 0)) (Some (nz 1000)))].

(** ** Sub-checks and the columns they read *)

(** The type check, sub-check by sub-check: the column that is read and
    the issue that is recorded for it. *)
Definition type_subchecks (table_name : string) : list (string * string) :=
  if String.eqb table_name "sales" then
    [ ("sale_date", "sale_date should be datetime type");
      ("quantity", "quantity should be numeric type");
      ("amount", "amount should be numeric type");
      ("price_per_unit", "price_per_unit should be numeric type") ]
  else [].

(** The custom check, sub-check by sub-check: the columns that are read
    and the text that follows the count in the issue. *)
Definition custom_subchecks (table_name : string) : list (list string * string) :=
  if String.eqb table_name "sales" then
    [ (["quantity"; "amount"], " records have quantity but zero amount");
      (["sale_date"], " records have future sale dates") ]
  else if String.eqb table_name "products" then
    [ (["price"], " products have zero or negative prices") ]
  else if String.eqb table_name "customers" then
    [ (["email"], " customers have invalid email formats") ]
  else [].

(** ** Tables the checks can read *)

Definition text_cell (c : Cell) : bool :=
  match c with CNull | CStr _ => true | _ => false end.

(** A column of texts and missing values. *)
Definition text_series (s : Series) : Prop :=
  dtype s = Object /\ forallb text_cell (values s) = true.

(** A column of timestamps, or of texts the date parser accepts and
    missing values. *)
Definition date_series (parse_datetime : string -> option Timestamp) (s : Series) : Prop :=
  dtype s = Datetime
  \/ (dtype s = Object /\ forallb (parseable parse_datetime) (values s) = true).

(** The columns the checks of an entity compare with a number. *)
Definition number_columns (table_name : string) : list string :=
  if String.eqb table_name "sales" then ["quantity"; "amount"]
  else if String.eqb table_name "products" then ["price"]
  else [].

(** A table whose columns, where they are present, hold what the checks
    of the entity compare: numbers in the columns compared with a number,
    dates in [sale_date] of the sales, texts in [email] of the
    customers.  Nothing is asked of a column that is absent. *)
Definition readable (parse_datetime : string -> option Timestamp)
  (df : DataFrame) (table_name : string) : Prop :=
  (forall c s, In c (number_columns table_name) -> column df c = Some s ->
               comparable_series s)
  /\ (forall s, table_name = "sales" -> column df "sale_date" = Some s ->
                date_series parse_datetime s)
  /\ (forall s, table_name = "customers" -> column df "email" = Some s ->
                text_series s).

(** ** Keys and joined columns of the fact table *)

(** No key of a row of [left] is the key of more than one row of [right]
    (missing keys count as equal to each other, as in the merge). *)
Definition keys_match_at_most_once (left right : DataFrame) (key : string) : Prop :=
  forall lk rk,
    column left key = Some lk -> column right key = Some rk ->
    Forall (fun k => occurrences k (values rk) <= 1) (values lk).

(** The names of the columns that [create_fact_table] joins to the
    sales. *)
Definition joined_columns : list string :=
  ["category"; "price_tier"; "region"; "customer_segment"].

(** ** Texts of ASCII characters *)

Definition is_ascii (c : ascii) : bool := nat_of_ascii c <? 128.

Fixpoint ascii_text (s : string) : bool :=
  match s with
  | EmptyString => true
  | String c s' => is_ascii c && ascii_text s'
  end.

Definition ascii_cell (c : Cell) : bool :=
  match c with CStr x => ascii_text x | _ => true end.

(** The texts of column [c], if the column is there, are ASCII texts. *)
Definition ascii_column (df : DataFrame) (c : string) : Prop :=
  forall s, column df c = Some s -> forallb ascii_cell (values s) = true.


(* ================================================================== *)
(** * Properties *)
(* ================================================================== *)

(** ** Basic facts *)

Lemma bind_Ok_inv {A B : Type} (m : Result A) (k : A -> Result B) (b : B) :
  bind m k = Ok b -> exists a, m = Ok a /\ k a = Ok b.
Proof.
  destruct m as [a|e]; simpl; intros H; [exists a; auto | discriminate].
Qed.

Lemma Qc_ltb_iff (a b : Qc) : Qc_ltb a b = true <-> (a < b)%Qc.
Proof.
  unfold Qc_ltb. rewrite Qclt_alt.
  destruct (a ?= b)%Qc; split; intros H; try reflexivity; discriminate.
Qed.

Lemma Qc_eqb_iff (a b : Qc) : Qc_eqb a b = true <-> a = b.
Proof.
  unfold Qc_eqb. rewrite Qeq_bool_iff. split.
  - apply Qc_is_canon.
  - intros ->. reflexivity.
Qed.

Lemma num_ltb_iff (a b : Num) : num_ltb a b = true <-> num_lt a b.
Proof.
  destruct a, b; simpl; try (split; [discriminate | contradiction]);
    try (split; auto; fail).
  apply Qc_ltb_iff.
Qed.

Lemma num_ltb_false_iff (a b : Num) : num_ltb a b = false <-> num_le b a.
Proof.
  unfold num_le. rewrite <- num_ltb_iff.
  destruct (num_ltb a b); split; intros H.
  - discriminate.
  - exfalso. apply H. reflexivity.
  - intros H'. discriminate.
  - reflexivity.
Qed.

Lemma num_eqb_iff (a b : Num) : num_eqb a b = true <-> a = b.
Proof.
  destruct a, b; simpl; try (split; [discriminate | discriminate]);
    try (split; reflexivity).
  rewrite Qc_eqb_iff. split; [intros ->; reflexivity | intros H; injection H; auto].
Qed.

Lemma cell_eqb_iff (a b : Cell) : cell_eqb a b = true <-> a = b.
Proof.
  destruct a, b; simpl; try (split; [discriminate | discriminate]);
    try (split; reflexivity).
  - rewrite num_eqb_iff. split; [intros ->; reflexivity | intros H; injection H; auto].
  - rewrite String.eqb_eq. split; [intros ->; reflexivity | intros H; injection H; auto].
  - rewrite Bool.eqb_true_iff. split; [intros ->; reflexivity | intros H; injection H; auto].
  - rewrite Z.eqb_eq. split; [intros ->; reflexivity | intros H; injection H; auto].
Qed.

Lemma cell_eqb_refl (a : Cell) : cell_eqb a a = true.
Proof. apply cell_eqb_iff. reflexivity. Qed.

Lemma cell_eq_dec (a b : Cell) : {a = b} + {a <> b}.
Proof.
  destruct (cell_eqb a b) eqn:E.
  - left. apply cell_eqb_iff. exact E.
  - right. intros H. apply cell_eqb_iff in H. congruence.
Qed.

(** ** The pipeline run *)

Section PipelineProperties.

Variable World : Type.
Variable Data : Type.
Variable name : string.
Variable extract : World -> Result Data * World.
Variable transform : option nat -> Data -> World -> Result Data * World.
Variable load : Data -> World -> Result nat * World.

Lemma run_id_below_next (runs : list PipelineRun) :
  Forall (fun r => run_id r < next_run_id runs) runs.
Proof.
  unfold next_run_id. induction runs as [|r runs IH]; constructor; simpl.
  - lia.
  - eapply Forall_impl; [|exact IH]. simpl. intros a Ha. lia.
Qed.

Lemma update_other_runs (l : list PipelineRun) id st t1 n err :
  Forall (fun r => run_id r < id) l ->
  map (update_run (Some id) st t1 n err) l = l.
Proof.
  induction 1 as [|r l Hr _ IH]; simpl; [reflexivity|].
  rewrite IH. replace (run_id r =? id) with false; [reflexivity|].
  symmetry. apply Nat.eqb_neq. lia.
Qed.

(** Closing the run that was just opened changes its row and no other. *)
Lemma update_opened_run (runs : list PipelineRun) st t0 t1 n err :
  let id := next_run_id runs in
  map (update_run (Some id) st t1 n err)
      (runs ++ [mkRun id name STARTED t0 None None None])
  = runs ++ [mkRun id name st t0 (Some t1) (Some n) err].
Proof.
  intros id. rewrite map_app. simpl. rewrite Nat.eqb_refl.
  rewrite update_other_runs; [reflexivity|]. apply run_id_below_next.
Qed.

Lemma run_success (s : PipelineState World) t0 t1 d1 w1 d2 w2 n w3 :
  extract (world s) = (Ok d1, w1) ->
  transform (Some (next_run_id (pipeline_runs s))) d1 w1 = (Ok d2, w2) ->
  load d2 w2 = (Ok n, w3) ->
  run name extract transform load t0 t1 s = (Ok true, closed_state name s t0 t1 COMPLETED n None w3).
Proof.
  intros He Ht Hl. unfold run, try_except, bindM, stage, get_run_id,
    _start_pipeline_run, _end_pipeline_run, ret, closed_state. simpl.
  rewrite He. simpl. rewrite Ht. simpl. rewrite Hl. simpl.
  rewrite update_opened_run, <- app_assoc. reflexivity.
Qed.

Lemma run_extract_raises (s : PipelineState World) t0 t1 e w1 :
  extract (world s) = (Raise e, w1) ->
  run name extract transform load t0 t1 s
  = (Ok false, closed_state name s t0 t1 FAILED 0 (Some (exn_msg e)) w1).
Proof.
  intros He. unfold run, try_except, bindM, stage, get_run_id,
    _start_pipeline_run, _end_pipeline_run, ret, closed_state. simpl.
  rewrite He. simpl.
  rewrite update_opened_run, <- app_assoc. reflexivity.
Qed.

Lemma run_transform_raises (s : PipelineState World) t0 t1 d1 w1 e w2 :
  extract (world s) = (Ok d1, w1) ->
  transform (Some (next_run_id (pipeline_runs s))) d1 w1 = (Raise e, w2) ->
  run name extract transform load t0 t1 s
  = (Ok false, closed_state name s t0 t1 FAILED 0 (Some (exn_msg e)) w2).
Proof.
  intros He Ht. unfold run, try_except, bindM, stage, get_run_id,
    _start_pipeline_run, _end_pipeline_run, ret, closed_state. simpl.
  rewrite He. simpl. rewrite Ht. simpl.
  rewrite update_opened_run, <- app_assoc. reflexivity.
Qed.

Lemma run_load_raises (s : PipelineState World) t0 t1 d1 w1 d2 w2 e w3 :
  extract (world s) = (Ok d1, w1) ->
  transform (Some (next_run_id (pipeline_runs s))) d1 w1 = (Ok d2, w2) ->
  load d2 w2 = (Raise e, w3) ->
  run name extract transform load t0 t1 s
  = (Ok false, closed_state name s t0 t1 FAILED 0 (Some (exn_msg e)) w3).
Proof.
  intros He Ht Hl. unfold run, try_except, bindM, stage, get_run_id,
    _start_pipeline_run, _end_pipeline_run, ret, closed_state. simpl.
  rewrite He. simpl. rewrite Ht. simpl. rewrite Hl. simpl.
  rewrite update_opened_run, <- app_assoc. reflexivity.
Qed.

Lemma find_fresh_run (l : list PipelineRun) id (r0 : PipelineRun) :
  Forall (fun r => run_id r < id) l -> run_id r0 = id ->
  find (fun r => run_id r =? id) (l ++ [r0]) = Some r0.
Proof.
  intros Hl H0. induction Hl as [|r l Hr _ IH]; simpl.
  - rewrite H0, Nat.eqb_refl. reflexivity.
  - replace (run_id r =? id) with false; [exact IH|].
    symmetry. apply Nat.eqb_neq. lia.
Qed.

(** In a closed state the current run is the closed record. *)
Lemma closed_state_current (s : PipelineState World) t0 t1 st n err w :
  current_run (closed_state name s t0 t1 st n err w)
  = Some (mkRun (next_run_id (pipeline_runs s)) name st t0 (Some t1) (Some n) err).
Proof.
  unfold current_run, closed_state. simpl.
  apply find_fresh_run; [apply run_id_below_next | reflexivity].
Qed.

(** C1 (as amended).  When the three stages return, [run] returns true and
    leaves the run record it opened closed once as COMPLETED with
    [records_processed] the count returned by [load]; when a stage raises
    [e], the later stages do not run (the world is the one the raising
    stage left), the record is closed once as FAILED with
    [records_processed = 0] and [error_message = str(e)], and [run]
    returns false. *)
Theorem run_closes_run_record (s : PipelineState World) (t0 t1 : Timestamp) :
  (forall d1 w1 d2 w2 n w3,
      extract (world s) = (Ok d1, w1) ->
      transform (Some (next_run_id (pipeline_runs s))) d1 w1 = (Ok d2, w2) ->
      load d2 w2 = (Ok n, w3) ->
      run name extract transform load t0 t1 s
      = (Ok true, closed_state name s t0 t1 COMPLETED n None w3))
  /\ (forall e w,
        stage_raises extract transform load s e w ->
        run name extract transform load t0 t1 s
        = (Ok false, closed_state name s t0 t1 FAILED 0 (Some (exn_msg e)) w)).
Proof.
  split.
  - intros. eapply run_success; eassumption.
  - intros e w [He | [(d1 & w1 & He & Ht) | (d1 & w1 & d2 & w2 & He & Ht & Hl)]].
    + apply run_extract_raises. exact He.
    + eapply run_transform_raises; eassumption.
    + eapply run_load_raises; eassumption.
Qed.

End PipelineProperties.

Lemma run_closes_run_record_witness :
  run "test_pipeline" (counting_extract 5) passing_transform counting_load 0%Z 1%Z fresh_state
  = (Ok true, closed_state "test_pipeline" fresh_state 0%Z 1%Z COMPLETED 5 None tt)
  /\ run "test_pipeline" (raising_extract "Simulated extraction error")
         passing_transform counting_load 0%Z 1%Z fresh_state
     = (Ok false,
        closed_state "test_pipeline" fresh_state 0%Z 1%Z FAILED 0
          (Some "Simulated extraction error") tt).
Proof.
  split.
  - apply (proj1 (run_closes_run_record "test_pipeline" (counting_extract 5)
                    passing_transform counting_load fresh_state 0%Z 1%Z)
             5 tt 5 tt 5 tt); reflexivity.
  - apply (proj2 (run_closes_run_record "test_pipeline"
                    (raising_extract "Simulated extraction error")
                    passing_transform counting_load fresh_state 0%Z 1%Z)
             (mkExn OtherError "Simulated extraction error") tt).
    left. reflexivity.
Defined.

(** C1 as stated fails: an extraction that raises an exception without a
    text, [raise Exception()], leaves a FAILED record whose error message
    is the empty string. *)
Lemma run_failure_message_may_be_empty :
  raising_extract "" tt = (Raise (mkExn OtherError ""), tt)
  /\ ~ failed_with_message
        (snd (run "test_pipeline" (raising_extract "") passing_transform
                counting_load 0%Z 1%Z fresh_state)).
Proof.
  split; [reflexivity|].
  intros (r & m & Hc & _ & He & Hm).
  vm_compute in Hc. injection Hc as <-. simpl in He.
  injection He as <-. apply Hm. reflexivity.
Qed.

(** ** Validation of a table without a rule set *)

(** C5.  For a table name other than sales, products and customers,
    [validate_data] returns the empty result mapping and does not raise. *)
Theorem validate_data_without_rules
  (parse_datetime : string -> option Timestamp) (now : Timestamp)
  (df : DataFrame) (table_name : string) :
  table_name <> "sales" -> table_name <> "products" -> table_name <> "customers" ->
  validate_data parse_datetime now df table_name = Ok [].
Proof.
  intros Hs Hp Hc. unfold validate_data. simpl.
  apply String.eqb_neq in Hs, Hp, Hc. rewrite Hs, Hp, Hc. reflexivity.
Qed.

Lemma validate_data_without_rules_witness :
  validate_data iso_parse 0%Z sample_sales_data "orders" = Ok [].
Proof.
  apply validate_data_without_rules; discriminate.
Defined.

(** ** Frames: assignment and lookup *)

Lemma assoc_get_set {V : Type} (k k' : string) (v : V) (l : list (string * V)) :
  assoc_get k (assoc_set k' v l) = if String.eqb k k' then Some v else assoc_get k l.
Proof.
  induction l as [|[k0 v0] l IH]; simpl.
  - reflexivity.
  - destruct (String.eqb_spec k' k0) as [->|Hk'].
    + simpl. destruct (String.eqb k k0); reflexivity.
    + simpl. rewrite IH.
      destruct (String.eqb_spec k k0) as [->|Hk].
      * destruct (String.eqb_spec k0 k'); [congruence | reflexivity].
      * reflexivity.
Qed.

Lemma column_setitem (df : DataFrame) (c c' : string) (s : Series) :
  column (setitem df c s) c' = if String.eqb c' c then Some s else column df c'.
Proof. unfold column, setitem. simpl. apply assoc_get_set. Qed.

Lemma index_setitem (df : DataFrame) (c : string) (s : Series) :
  index (setitem df c s) = index df.
Proof. reflexivity. Qed.

Lemma nrows_setitem (df : DataFrame) (c : string) (s : Series) :
  nrows (setitem df c s) = nrows df.
Proof. reflexivity. Qed.

Lemma has_column_iff (df : DataFrame) (c : string) :
  has_column df c = true <-> exists s, column df c = Some s.
Proof.
  unfold has_column, column, column_names. destruct df as [ix cols]. simpl.
  induction cols as [|[k v] l IH]; simpl.
  - split; [discriminate | intros [s Hs]; discriminate].
  - destruct (String.eqb c k); simpl.
    + split; [eauto | reflexivity].
    + exact IH.
Qed.

Lemma has_column_false_iff (df : DataFrame) (c : string) :
  has_column df c = false <-> column df c = None.
Proof.
  pose proof (has_column_iff df c) as H.
  destruct (has_column df c), (column df c) as [s|]; split; intros E;
    try reflexivity; try discriminate.
  - destruct (proj1 H eq_refl) as [s Hs]. discriminate.
  - assert (false = true) by (apply H; eauto). discriminate.
Qed.

Lemma getitem_Ok (df : DataFrame) (c : string) (s : Series) :
  getitem df c = Ok s <-> column df c = Some s.
Proof.
  unfold getitem. destruct (column df c); split; intros H;
    try discriminate; injection H as ->; reflexivity.
Qed.

Lemma assign_Ok (df df' : DataFrame) (dst src : string) (f : Series -> Result Series) :
  assign df dst src f = Ok df' ->
  exists s s', column df src = Some s /\ f s = Ok s' /\ df' = setitem df dst s'.
Proof.
  unfold assign. intros H.
  apply bind_Ok_inv in H as (s & Hs & H).
  apply bind_Ok_inv in H as (s' & Hs' & H).
  injection H as <-. apply getitem_Ok in Hs. eauto.
Qed.

Lemma mapM_Ok_nth {A B : Type} (f : A -> Result B) (l : list A) (l' : list B) :
  mapM f l = Ok l' ->
  forall i a, nth_error l i = Some a ->
  exists b, f a = Ok b /\ nth_error l' i = Some b.
Proof.
  revert l'. induction l as [|x l IH]; simpl; intros l' H i a Hi.
  - destruct i; discriminate.
  - apply bind_Ok_inv in H as (y & Hy & H).
    apply bind_Ok_inv in H as (ys & Hys & H). injection H as <-.
    destruct i as [|i]; simpl in *.
    + injection Hi as <-. eauto.
    + eapply IH; eauto.
Qed.

Lemma mapM_Ok_length {A B : Type} (f : A -> Result B) (l : list A) (l' : list B) :
  mapM f l = Ok l' -> List.length l' = List.length l.
Proof.
  revert l'. induction l as [|x l IH]; simpl; intros l' H.
  - injection H as <-. reflexivity.
  - apply bind_Ok_inv in H as (y & Hy & H).
    apply bind_Ok_inv in H as (ys & Hys & H). injection H as <-.
    simpl. f_equal. apply IH. exact Hys.
Qed.

Lemma mapM_total {A B : Type} (f : A -> Result B) (l : list A) :
  Forall (fun a => exists b, f a = Ok b) l -> exists l', mapM f l = Ok l'.
Proof.
  induction 1 as [|x l [b Hb] _ [l' IH]]; simpl.
  - eauto.
  - rewrite Hb, IH. simpl. eauto.
Qed.

(** ** Bins *)

Lemma Qc_ltb_true_Q (a b : Qc) : Qc_ltb a b = true -> (a < b)%Q.
Proof. intros H. apply Qc_ltb_iff in H. exact H. Qed.

Lemma Qc_ltb_false_Q (a b : Qc) : Qc_ltb a b = false -> (b <= a)%Q.
Proof.
  intros H. apply Qnot_lt_le. intros Hlt.
  assert (Qc_ltb a b = true) by (apply Qc_ltb_iff; exact Hlt). congruence.
Qed.

(** Turns the tests on a finite number into inequalities on rationals. *)
Ltac bins_to_Q :=
  repeat match goal with
         | H : Qc_ltb _ _ = true |- _ => apply Qc_ltb_true_Q in H; simpl in H
         | H : Qc_ltb _ _ = false |- _ => apply Qc_ltb_false_Q in H; simpl in H
         end;
  unfold num_le, num_lt, nz, qz, Qclt in *; simpl in *.

(** A number through the price bins: the label of the bin [(lo, hi]] it
    falls in, and no label at or below 0. *)
Lemma price_tier_of_number (x : Num) :
  let tier := cut_value price_bins price_labels (Some x) in
  (tier = CStr "Budget" <-> num_lt (nz 0) x /\ num_le x (nz 50))
  /\ (tier = CStr "Standard" <-> num_lt (nz 50) x /\ num_le x (nz 200))
  /\ (tier = CStr "Premium" <-> num_lt (nz 200) x /\ num_le x (nz 500))
  /\ (tier = CStr "Luxury" <-> num_lt (nz 500) x)
  /\ (tier = CNull <-> num_le x (nz 0)).
Proof.
  destruct x as [|q|]; unfold cut_value, price_bins, price_labels; simpl.
  - unfold num_le, num_lt; simpl. repeat split; intros; try discriminate; tauto.
  - destruct (Qc_ltb (qz 0) q) eqn:E0; simpl;
      [destruct (Qc_ltb (qz 50) q) eqn:E1; simpl;
       [destruct (Qc_ltb (qz 200) q) eqn:E2; simpl;
        [destruct (Qc_ltb (qz 500) q) eqn:E3; simpl|]|]|];
      bins_to_Q;
      repeat split; intros; try discriminate; try reflexivity;
      try (exfalso; lra); try lra.
  - unfold num_le, num_lt; simpl. repeat split; intros; try discriminate; tauto.
Qed.

Lemma revenue_category_of_nonpositive (x : Num) :
  num_le x (nz 0) -> cut_value revenue_bins revenue_labels (Some x) = CNull.
Proof.
  intros H. apply num_ltb_false_iff in H.
  unfold cut_value, revenue_bins. cbn [searchsorted_left]. rewrite H. reflexivity.
Qed.

Lemma series_as_nums_nth (s : Series) (xs : list (option Num)) :
  series_as_nums s = Ok xs ->
  forall i c, nth_error (values s) i = Some c ->
  exists o, cell_as_num c = Ok o /\ nth_error xs i = Some o.
Proof.
  unfold series_as_nums. intros H i c Hc.
  destruct (dtype s); try discriminate; eapply mapM_Ok_nth; eauto.
Qed.

(** Row by row, [pd.cut] depends on the cell of that row only. *)
Lemma pd_cut_cell (s t : Series) bins labels :
  pd_cut s bins labels = Ok t ->
  forall i c, nth_error (values s) i = Some c ->
  exists o, cell_as_num c = Ok o /\
            nth_error (values t) i = Some (cut_value bins labels o).
Proof.
  unfold pd_cut. intros H i c Hc.
  apply bind_Ok_inv in H as (xs & Hxs & H). injection H as <-.
  destruct (series_as_nums_nth _ Hxs _ Hc) as (o & Ho & Hn).
  exists o. split; [exact Ho|]. simpl. apply map_nth_error. exact Hn.
Qed.

Lemma numeric_series_as_nums (s : Series) :
  dtype s = Numeric -> forallb num_or_null (values s) = true ->
  exists xs, series_as_nums s = Ok xs.
Proof.
  intros Hd Hv. unfold series_as_nums. rewrite Hd.
  apply mapM_total. rewrite forallb_forall in Hv. apply Forall_forall.
  intros c Hc. specialize (Hv c Hc). destruct c; try discriminate; simpl; eauto.
Qed.

(** ** The product transform *)

(** Unfolds one [df <- assign ..] step of a transform. *)
Ltac step_assign H :=
  let d := fresh "df" in
  let Ha := fresh "Ha" in
  let s := fresh "s" in
  let s' := fresh "s" in
  let Hc := fresh "Hcol" in
  let Hf := fresh "Hop" in
  let He := fresh "Hdf" in
  apply bind_Ok_inv in H as (d & Ha & H);
  apply assign_Ok in Ha as (s & s' & Hc & Hf & He).

Lemma transform_product_data_price_tier now (df df' : DataFrame) :
  transform_product_data now df = Ok df' ->
  exists price tier,
    column df "price" = Some price /\
    pd_cut price price_bins price_labels = Ok tier /\
    column df' "price_tier" = Some tier.
Proof.
  unfold transform_product_data. intros H.
  step_assign H. step_assign H. step_assign H. step_assign H.
  injection H as <-. subst.
  repeat (rewrite column_setitem in *; simpl in * ).
  unfold setitem_scalar. rewrite column_setitem. simpl.
  rewrite column_setitem. simpl. eauto.
Qed.

Lemma str_method_total f (s : Series) :
  dtype s = Object -> str_method f s = Ok (mkSeries Object
    (map (fun c => match c with CStr x => f x | _ => CNull end) (values s))).
Proof. intros Hd. unfold str_method. rewrite Hd. reflexivity. Qed.

Lemma transform_product_data_total now (df : DataFrame) :
  product_frame df -> exists df', transform_product_data now df = Ok df'.
Proof.
  intros ((pn & Hpn & Dpn) & (cat & Hcat & Dcat) & (pr & Hpr & Dpr & Vpr)).
  destruct (numeric_series_as_nums pr Dpr Vpr) as (xs & Hxs).
  unfold transform_product_data, assign, getitem, pure_op, str_strip, str_title,
    str_upper, pd_cut.
  rewrite Hpn. simpl. rewrite (str_method_total _ pn Dpn). simpl.
  rewrite column_setitem. simpl. rewrite Hcat. simpl.
  rewrite (str_method_total _ cat Dcat). simpl.
  repeat (rewrite column_setitem; simpl).
  rewrite Hpr. simpl. rewrite Hxs. simpl. eauto.
Qed.

Lemma product_frame_edge_product_data : product_frame edge_product_data.
Proof.
  repeat split; eexists; (split; [reflexivity|]); try reflexivity.
  split; reflexivity.
Qed.



(** ** The customer transform *)

Lemma str_method_cell f (s t : Series) :
  str_method f s = Ok t ->
  forall i c, nth_error (values s) i = Some c ->
  nth_error (values t) i = Some (match c with CStr x => f x | _ => CNull end).
Proof.
  unfold str_method. intros H i c Hc.
  destruct (dtype s); try discriminate; injection H as <-; simpl;
    exact (map_nth_error (fun c => match c with CStr x => f x | _ => CNull end)
             _ _ Hc).
Qed.

(** The cells the customer transform derives from the address of a row. *)
Lemma transform_customer_data_email now (df df' : DataFrame) (i : nat) (e : string) :
  transform_customer_data now df = Ok df' ->
  cell_at df "email" i = Some (CStr e) ->
  let email := py_lower (py_strip e) in
  let domain := split_get at_sign 1 email in
  cell_at df' "email" i = Some (CStr email)
  /\ cell_at df' "email_domain" i = Some domain
  /\ cell_at df' "customer_segment" i = Some (CStr (_categorize_customer domain)).
Proof.
  unfold transform_customer_data. intros H He.
  step_assign H. step_assign H. step_assign H. step_assign H. step_assign H.
  step_assign H. injection H as <-. subst.
  repeat (rewrite column_setitem in *; simpl in * ).
  unfold cell_at, setitem_scalar in *.
  repeat (rewrite column_setitem; simpl).
  rewrite Hcol0 in He.
  apply bind_Ok_inv in Hop0 as (e1 & He1 & He2).
  pose proof (str_method_cell _ _ He1 _ He) as C1. simpl in C1.
  pose proof (str_method_cell _ _ He2 _ C1) as C2. simpl in C2.
  injection Hcol2 as <-.
  pose proof (str_method_cell _ _ Hop2 _ C2) as C3. simpl in C3.
  injection Hcol3 as <-. unfold pure_op in Hop3. injection Hop3 as <-.
  repeat split; try assumption.
  simpl. exact (map_nth_error (fun c => CStr (_categorize_customer c)) _ _ C3).
Qed.

Lemma to_lower_at_sign (c : ascii) :
  Ascii.eqb (to_lower c) at_sign = Ascii.eqb c at_sign.
Proof. destruct c as [[] [] [] [] [] [] [] []]; reflexivity. Qed.

Lemma str_contains_lower (s : string) :
  str_contains at_sign (py_lower s) = str_contains at_sign s.
Proof.
  induction s as [|c s IH]; simpl; [reflexivity|].
  rewrite to_lower_at_sign. unfold py_lower in IH. rewrite IH. reflexivity.
Qed.

Lemma str_contains_lstrip ch (s : string) :
  str_contains ch s = false -> str_contains ch (py_lstrip s) = false.
Proof.
  induction s as [|c s IH]; simpl; [auto|].
  intros H. apply orb_false_iff in H as [Hc Hs].
  destruct (is_space c); [auto|]. simpl. rewrite Hc, Hs. reflexivity.
Qed.

Lemma str_contains_rstrip ch (s : string) :
  str_contains ch s = false -> str_contains ch (py_rstrip s) = false.
Proof.
  induction s as [|c s IH]; simpl; [auto|].
  intros H. apply orb_false_iff in H as [Hc Hs]. specialize (IH Hs).
  destruct (py_rstrip s) as [|c' r].
  - destruct (is_space c); simpl; [reflexivity|]. rewrite Hc. reflexivity.
  - cbn [str_contains]. rewrite Hc. exact IH.
Qed.

Lemma str_contains_strip ch (s : string) :
  str_contains ch s = false -> str_contains ch (py_strip s) = false.
Proof.
  intros H. unfold py_strip. apply str_contains_lstrip, str_contains_rstrip, H.
Qed.

(** A text without the separator is not split. *)
Lemma py_split_without_sep sep (s : string) :
  str_contains sep s = false -> py_split sep s = [s].
Proof.
  induction s as [|c s IH]; simpl; [reflexivity|].
  intros H. apply orb_false_iff in H as [Hc Hs].
  rewrite Hc, (IH Hs). reflexivity.
Qed.

(** An address without an at-sign has no domain, and the missing domain,
    being NaN, passes the test [if not email_domain] and is classified as
    "Other". *)
Lemma transform_customer_data_without_at now (df df' : DataFrame) (i : nat) (e : string) :
  transform_customer_data now df = Ok df' ->
  cell_at df "email" i = Some (CStr e) ->
  str_contains at_sign e = false ->
  cell_at df' "email_domain" i = Some CNull
  /\ cell_at df' "customer_segment" i = Some (CStr "Other").
Proof.
  intros H He Hat.
  destruct (transform_customer_data_email _ _ _ H He) as (_ & Hd & Hs).
  assert (Hsplit : split_get at_sign 1 (py_lower (py_strip e)) = CNull).
  { unfold split_get. rewrite py_split_without_sep; [reflexivity|].
    rewrite str_contains_lower. apply str_contains_strip. exact Hat. }
  rewrite Hsplit in Hd, Hs. split; [exact Hd | exact Hs].
Qed.

(** A domain that is not empty and in neither list is classified as
    "Other". *)
Lemma _categorize_customer_other (d : string) :
  d <> "" -> ~ In d corporate_domains -> ~ In d personal_domains ->
  _categorize_customer (CStr d) = "Other".
Proof.
  intros Hne Hc Hp. unfold _categorize_customer, py_truthy, cell_in.
  apply String.eqb_neq in Hne. rewrite Hne. simpl negb.
  assert (Hin : forall l, ~ In d l -> existsb (String.eqb d) l = false).
  { intros l Hl. destruct (existsb (String.eqb d) l) eqn:E; [|reflexivity].
    apply existsb_exists in E as (y & Hy & Hdy).
    apply String.eqb_eq in Hdy. subst. contradiction. }
  rewrite (Hin _ Hc), (Hin _ Hp). reflexivity.
Qed.

(** C3 on the code.  The customer [john.example.com] has no at-sign in the
    address: the transform leaves [email_domain] missing and sets
    [customer_segment] to "Other", where "Unknown" is what the guard
    [if not email_domain] is written for; the row with the domain
    [elsewhere.org], which is in neither list, is "Other" as well. *)
Theorem transform_customer_data_segment_without_at :
  exists df',
    transform_customer_data 0%Z customer_without_at = Ok df'
    /\ cell_at df' "email_domain" 0 = Some CNull
    /\ cell_at df' "customer_segment" 0 = Some (CStr "Other")
    /\ cell_at df' "email_domain" 1 = Some (CStr "elsewhere.org")
    /\ cell_at df' "customer_segment" 1 = Some (CStr "Other")
    /\ _categorize_customer (CStr "") = "Unknown".
Proof.
  eexists. split; [vm_compute; reflexivity|]. vm_compute. repeat split.
Qed.

(** ** Counting duplicates *)

Lemma mem_cell_In (c : Cell) (l : list Cell) : mem_cell c l = true <-> In c l.
Proof.
  unfold mem_cell. rewrite existsb_exists. split.
  - intros (x & Hx & E). apply cell_eqb_iff in E. subst. exact Hx.
  - intros H. exists c. split; [exact H | apply cell_eqb_refl].
Qed.

Lemma mem_cell_filter_other (c d : Cell) (l : list Cell) :
  d <> c ->
  mem_cell d (filter (fun x => negb (cell_eqb x c)) l) = mem_cell d l.
Proof.
  intros Hdc. destruct (mem_cell d l) eqn:E.
  - apply mem_cell_In. apply mem_cell_In in E. apply filter_In. split; [exact E|].
    destruct (cell_eqb d c) eqn:Edc; [|reflexivity].
    apply cell_eqb_iff in Edc. contradiction.
  - destruct (mem_cell d (filter (fun x => negb (cell_eqb x c)) l)) eqn:E'; [|reflexivity].
    apply mem_cell_In in E'. apply filter_In in E' as [E' _].
    apply mem_cell_In in E'. congruence.
Qed.

(** Removing one value from a list removes one distinct value, if the
    value was there. *)
Lemma distinct_values_remove (c : Cell) (l : list Cell) :
  List.length (distinct_values (filter (fun x => negb (cell_eqb x c)) l))
  + (if mem_cell c l then 1 else 0)
  = List.length (distinct_values l).
Proof.
  induction l as [|d l IH]; [reflexivity|].
  cbn [filter distinct_values]. destruct (cell_eqb d c) eqn:Edc; cbn [negb].
  - apply cell_eqb_iff in Edc. subst d.
    assert (Hm : mem_cell c (c :: l) = true) by (apply mem_cell_In; left; reflexivity).
    rewrite Hm. destruct (mem_cell c l); simpl in *; lia.
  - assert (Hdc : d <> c) by (intros ->; rewrite cell_eqb_refl in Edc; discriminate).
    assert (Hm : mem_cell c (d :: l) = mem_cell c l).
    { unfold mem_cell. simpl. destruct (cell_eqb c d) eqn:Ecd; [|reflexivity].
      apply cell_eqb_iff in Ecd. congruence. }
    rewrite Hm. cbn [distinct_values]. rewrite (mem_cell_filter_other l Hdc).
    destruct (mem_cell d l); simpl; lia.
Qed.

Lemma filter_not_seen_cons (c : Cell) (seen l : list Cell) :
  filter (fun x => negb (mem_cell x (c :: seen))) l
  = filter (fun x => negb (cell_eqb x c))
      (filter (fun x => negb (mem_cell x seen)) l).
Proof.
  induction l as [|d l IH]; [reflexivity|].
  cbn [filter]. rewrite IH.
  assert (Hm : mem_cell d (c :: seen) = cell_eqb d c || mem_cell d seen) by reflexivity.
  rewrite Hm.
  destruct (cell_eqb d c) eqn:Edc, (mem_cell d seen); cbn [negb orb filter];
    rewrite ?Edc; reflexivity.
Qed.

Lemma distinct_values_length_le (l : list Cell) :
  List.length (distinct_values l) <= List.length l.
Proof.
  induction l as [|c l IH]; simpl; [lia|].
  destruct (mem_cell c l); simpl; lia.
Qed.

(** The flagged cells and the first occurrences of the values not seen
    before make up the column. *)
Lemma duplicated_from_count (seen l : list Cell) :
  count_true (duplicated_from seen l)
  + List.length (distinct_values (filter (fun x => negb (mem_cell x seen)) l))
  = List.length l.
Proof.
  revert seen. induction l as [|c l IH]; intros seen; [reflexivity|].
  cbn [duplicated_from filter]. specialize (IH (c :: seen)).
  rewrite filter_not_seen_cons in IH.
  pose proof (distinct_values_remove c (filter (fun x => negb (mem_cell x seen)) l)) as Hr.
  unfold count_true in *. fold (mem_cell c seen).
  destruct (mem_cell c seen) eqn:Es; cbn [negb filter List.length].
  - destruct (mem_cell c (filter (fun x => negb (mem_cell x seen)) l)) eqn:Ef.
    + apply mem_cell_In, filter_In in Ef as [_ Ef]. rewrite Es in Ef. discriminate.
    + lia.
  - cbn [distinct_values].
    destruct (mem_cell c (filter (fun x => negb (mem_cell x seen)) l));
      cbn [List.length]; lia.
Qed.

Lemma occurrences_distinct (c : Cell) (l : list Cell) :
  occurrences c (distinct_values l) = if mem_cell c l then 1 else 0.
Proof.
  induction l as [|d l IH]; [reflexivity|].
  cbn [distinct_values]. unfold mem_cell at 2. cbn [existsb]. fold (mem_cell c l).
  destruct (mem_cell d l) eqn:Ed.
  - rewrite IH. destruct (cell_eqb c d) eqn:Ecd; [|reflexivity].
    apply cell_eqb_iff in Ecd. subst. rewrite Ed. reflexivity.
  - unfold occurrences in *. cbn [filter].
    destruct (cell_eqb c d) eqn:Ecd; cbn [List.length orb].
    + apply cell_eqb_iff in Ecd. subst. rewrite IH, Ed. reflexivity.
    + exact IH.
Qed.

Lemma list_sum_occurrences_cons (c : Cell) (l D : list Cell) :
  list_sum (map (fun v => occurrences v (c :: l)) D)
  = list_sum (map (fun v => occurrences v l) D) + occurrences c D.
Proof.
  induction D as [|d D IH]; [reflexivity|].
  unfold list_sum in *. cbn [map fold_right]. rewrite IH.
  unfold occurrences. cbn [filter].
  destruct (cell_eqb d c) eqn:Edc.
  - apply cell_eqb_iff in Edc. subst. rewrite cell_eqb_refl. simpl. lia.
  - replace (cell_eqb c d) with false; [simpl; lia|].
    destruct (cell_eqb c d) eqn:Ecd; [|reflexivity].
    apply cell_eqb_iff in Ecd. subst. rewrite cell_eqb_refl in Edc. discriminate.
Qed.

(** The groups of equal values partition the column. *)
Lemma list_sum_occurrences (l : list Cell) :
  list_sum (map (fun v => occurrences v l) (distinct_values l)) = List.length l.
Proof.
  induction l as [|c l IH]; [reflexivity|].
  cbn [distinct_values]. destruct (mem_cell c l) eqn:Ec.
  - rewrite list_sum_occurrences_cons, IH, occurrences_distinct, Ec. simpl. lia.
  - rewrite map_cons.
    change (list_sum (occurrences c (c :: l)
                      :: map (fun v => occurrences v (c :: l)) (distinct_values l)))
      with (occurrences c (c :: l)
            + list_sum (map (fun v => occurrences v (c :: l)) (distinct_values l))).
    rewrite list_sum_occurrences_cons, IH, occurrences_distinct, Ec.
    unfold occurrences. cbn [filter]. rewrite cell_eqb_refl. cbn [List.length].
    replace (filter (cell_eqb c) l) with (@nil Cell); [simpl; lia|].
    symmetry. destruct (filter (cell_eqb c) l) as [|x f] eqn:Ef; [reflexivity|].
    assert (Hin : In x (filter (cell_eqb c) l)) by (rewrite Ef; left; reflexivity).
    apply filter_In in Hin as [Hin E]. apply cell_eqb_iff in E. subst.
    apply mem_cell_In in Hin. congruence.
Qed.

Lemma list_sum_minus_one (f : Cell -> nat) (D : list Cell) :
  (forall v, In v D -> 1 <= f v) ->
  list_sum (map (fun v => f v - 1) D) + List.length D = list_sum (map f D).
Proof.
  induction D as [|d D IH]; intros H; [reflexivity|]. simpl.
  assert (1 <= f d) by (apply H; left; reflexivity).
  assert (list_sum (map (fun v => f v - 1) D) + List.length D = list_sum (map f D))
    by (apply IH; intros v Hv; apply H; right; exact Hv).
  lia.
Qed.

Lemma distinct_values_In (v : Cell) (l : list Cell) :
  In v (distinct_values l) -> In v l.
Proof.
  induction l as [|c l IH]; simpl; [auto|].
  destruct (mem_cell c l); simpl; intuition.
Qed.

(** [duplicated().sum()] is the count of the specification: the size of
    each group of equal values less one, summed over the groups. *)
Lemma duplicate_count_by_group (s : Series) :
  duplicate_count s = duplicates_by_group (values s).
Proof.
  unfold duplicate_count, duplicated, duplicates_by_group.
  pose proof (duplicated_from_count [] (values s)) as Hd.
  assert (Hf : filter (fun x => negb (mem_cell x [])) (values s) = values s).
  { clear. induction (values s) as [|c l IH]; [reflexivity|].
    cbn [filter]. change (mem_cell c []) with false. cbn [negb]. f_equal. exact IH. }
  rewrite Hf in Hd.
  pose proof (list_sum_occurrences (values s)) as Hs.
  pose proof (@list_sum_minus_one (fun v => occurrences v (values s))
                (distinct_values (values s))) as Hm.
  assert (Hge : forall v, In v (distinct_values (values s)) ->
                          1 <= occurrences v (values s)).
  { intros v Hv. apply distinct_values_In in Hv. unfold occurrences.
    assert (In v (filter (cell_eqb v) (values s)))
      by (apply filter_In; split; [exact Hv | apply cell_eqb_refl]).
    destruct (filter (cell_eqb v) (values s)); [contradiction | simpl; lia]. }
  specialize (Hm Hge). lia.
Qed.

(** ** The detail mappings of the checks *)

Lemma str_in_In (c : string) (l : list string) : str_in c l = true <-> In c l.
Proof.
  unfold str_in. rewrite existsb_exists. split.
  - intros (x & Hx & E). apply String.eqb_eq in E. subst. exact Hx.
  - intros H. exists c. split; [exact H | apply String.eqb_refl].
Qed.

Lemma is_empty_assoc {V : Type} (m : list (string * V)) :
  is_empty m = true <-> forall c, assoc_get c m = None.
Proof.
  destruct m as [|[k v] m]; simpl; split; intros H; try reflexivity.
  - discriminate.
  - specialize (H k). rewrite String.eqb_refl in H. discriminate.
Qed.

(** What a loop of the form
    [for col in cols: if col in df.columns: n = cnt(df[col]); if n > 0: acc[col] = n]
    leaves under a key. *)
Lemma fold_counts_get (df : DataFrame) (cnt : Series -> nat)
  (cols : list string) (acc : list (string * nat)) (c : string) :
  assoc_get c
    (fold_left (fun acc col =>
                  match column df col with
                  | Some s => if 0 <? cnt s then assoc_set col (cnt s) acc else acc
                  | None => acc
                  end) cols acc)
  = match column df c with
    | Some s => if str_in c cols && (0 <? cnt s) then Some (cnt s) else assoc_get c acc
    | None => assoc_get c acc
    end.
Proof.
  revert acc. induction cols as [|k cols IH]; intros acc.
  - simpl. destruct (column df c); reflexivity.
  - cbn [fold_left]. rewrite IH. unfold str_in. cbn [existsb]. fold (str_in c cols).
    destruct (column df c) as [s|] eqn:Ec.
    + destruct (String.eqb_spec c k) as [->|Hck].
      * rewrite Ec. destruct (0 <? cnt s) eqn:E0.
        -- rewrite assoc_get_set, String.eqb_refl.
           destruct (str_in k cols); reflexivity.
        -- rewrite !andb_false_r. reflexivity.
      * cbn [orb]. destruct (column df k) as [s'|]; [destruct (0 <? cnt s')|];
          try reflexivity.
        rewrite assoc_get_set.
        destruct (String.eqb_spec c k); [contradiction | reflexivity].
    + destruct (column df k) as [s'|] eqn:Ek; [destruct (0 <? cnt s')|];
        try reflexivity.
      rewrite assoc_get_set.
      destruct (String.eqb_spec c k) as [->|]; [congruence | reflexivity].
Qed.

(** C7.  For every column configured as unique and present in the table,
    the uniqueness check records the number of cells that repeat an
    earlier cell, which is the size of each group of equal values less
    one, summed over the groups (a column with count 0 is left out of the
    details); the check passes iff every such count is 0.  The column
    1, 1, 2 has count 1 and fails the check. *)
Theorem _check_unique_columns_counts :
  (forall (df : DataFrame) (unique : list string),
      let r := _check_unique_columns df unique in
      (forall col s,
          In col unique -> column df col = Some s ->
          recorded_count (duplicate_counts_of r) col = duplicate_count s
          /\ duplicate_count s = duplicates_by_group (values s))
      /\ (passed r = true <->
          forall col s, In col unique -> column df col = Some s ->
                        duplicates_by_group (values s) = 0))
  /\ _check_unique_columns repeated_sale_ids ["sale_id"]
     = mkQR false (DuplicateCounts [("sale_id", 1)]).
Proof.
  split; [|reflexivity].
  intros df unique r.
  assert (Hget : forall c,
             assoc_get c (duplicate_counts_of r)
             = match column df c with
               | Some s => if str_in c unique && (0 <? duplicate_count s)
                           then Some (duplicate_count s) else None
               | None => None
               end).
  { intros c. unfold r, _check_unique_columns, duplicate_counts_of. cbn [details].
    exact (fold_counts_get df duplicate_count unique [] c). }
  split.
  - intros col s Hin Hcol. split; [|apply duplicate_count_by_group].
    unfold recorded_count. rewrite Hget, Hcol.
    apply str_in_In in Hin. rewrite Hin. cbn [andb].
    destruct (0 <? duplicate_count s) eqn:E0; [reflexivity|].
    apply Nat.ltb_ge in E0. lia.
  - assert (Hp : passed r = is_empty (duplicate_counts_of r)) by reflexivity.
    rewrite Hp, is_empty_assoc. split.
    + intros H col s Hin Hcol. specialize (H col). rewrite Hget, Hcol in H.
      apply str_in_In in Hin. rewrite Hin in H. cbn [andb] in H.
      rewrite <- duplicate_count_by_group.
      destruct (0 <? duplicate_count s) eqn:E0; [discriminate|].
      apply Nat.ltb_ge in E0. lia.
    + intros H c. rewrite Hget. destruct (column df c) as [s|] eqn:Ec; [|reflexivity].
      destruct (str_in c unique) eqn:Ein; [|reflexivity]. cbn [andb].
      apply str_in_In in Ein. specialize (H c s Ein Ec).
      rewrite <- duplicate_count_by_group in H. rewrite H. reflexivity.
Qed.

Lemma _check_unique_columns_counts_witness :
  recorded_count
    (duplicate_counts_of (_check_unique_columns repeated_sale_ids ["sale_id"]))
    "sale_id" = 1
  /\ duplicates_by_group (map (fun z => CNum (nz z)) [1; 1; 2]%Z) = 1.
Proof.
  destruct (proj1 (proj1 _check_unique_columns_counts repeated_sale_ids ["sale_id"])
              "sale_id" (nums [1; 1; 2]%Z) (or_introl eq_refl) eq_refl) as [Hr Hg].
  split.
  - rewrite Hr. reflexivity.
  - unfold nums in Hg. cbn [values] in Hg. rewrite <- Hg. reflexivity.
Defined.

(** ** The range check *)

Lemma numeric_series_nums (s : Series) :
  numeric_series s ->
  series_as_nums s
  = Ok (map (fun c => match c with CNum x => Some x | _ => None end) (values s)).
Proof.
  intros [Hd Hv]. unfold series_as_nums. rewrite Hd. clear Hd.
  induction (values s) as [|c l IH]; [reflexivity|].
  cbn [forallb] in Hv. apply andb_true_iff in Hv as [Hc Hl].
  cbn [mapM map]. rewrite (IH Hl).
  destruct c; try discriminate; reflexivity.
Qed.

Lemma count_below_numeric (s : Series) (m : Num) :
  numeric_series s -> count_below s m = Ok (values_below (values s) m).
Proof.
  intros H. unfold count_below, num_flags. rewrite (numeric_series_nums H).
  cbn [bind]. f_equal. unfold count_true, values_below.
  induction (values s) as [|c l IH]; [reflexivity|].
  cbn [map filter]. destruct c as [|x| | |]; try exact IH.
  destruct (num_ltb x m); cbn [List.length]; [f_equal|]; exact IH.
Qed.

Lemma count_above_numeric (s : Series) (m : Num) :
  numeric_series s -> count_above s m = Ok (values_above (values s) m).
Proof.
  intros H. unfold count_above, num_flags. rewrite (numeric_series_nums H).
  cbn [bind]. f_equal. unfold count_true, values_above.
  induction (values s) as [|c l IH]; [reflexivity|].
  cbn [map filter]. destruct c as [|x| | |]; try exact IH.
  destruct (num_ltb m x); cbn [List.length]; [f_equal|]; exact IH.
Qed.

Lemma assoc_get_not_In {V : Type} (k : string) (l : list (string * V)) :
  ~ In k (map fst l) -> assoc_get k l = None.
Proof.
  induction l as [|[k' v] l IH]; simpl; intros H; [reflexivity|].
  destruct (String.eqb_spec k k') as [->|Hk]; [exfalso; auto | apply IH; auto].
Qed.

Lemma assoc_get_In {V : Type} (k : string) (v : V) (l : list (string * V)) :
  NoDup (map fst l) -> In (k, v) l -> assoc_get k l = Some v.
Proof.
  induction l as [|[k' v'] l IH]; simpl; intros Hnd Hin; [contradiction|].
  inversion Hnd as [|? ? Hk' Hl]; subst.
  destruct Hin as [E|Hin].
  - injection E as -> ->. rewrite String.eqb_refl. reflexivity.
  - destruct (String.eqb_spec k k') as [->|Hk]; [|apply IH; assumption].
    exfalso. apply Hk'. change k' with (fst (k', v)). apply in_map. exact Hin.
Qed.

Lemma comparable_series_nums (s : Series) :
  comparable_series s -> series_as_nums s = Ok (map cell_number (values s)).
Proof.
  intros (Hd & Hc & Hv). unfold series_as_nums.
  assert (E : mapM cell_as_num (values s) = Ok (map cell_number (values s))).
  { clear Hd Hc. induction (values s) as [|c l IH]; [reflexivity|].
    cbn [forallb] in Hv. apply andb_true_iff in Hv as [Hcell Hl].
    cbn [mapM map]. rewrite (IH Hl).
    destruct c; try discriminate; reflexivity. }
  destruct (dtype s); try exact E; contradiction.
Qed.

Lemma numeric_series_comparable (s : Series) :
  numeric_series s -> comparable_series s.
Proof.
  intros [Hd Hv]. split; [rewrite Hd; discriminate|]. split; [rewrite Hd; discriminate|].
  apply forallb_forall. intros c Hc. rewrite forallb_forall in Hv. specialize (Hv c Hc).
  destruct c; try discriminate; reflexivity.
Qed.

Lemma count_below_comparable (s : Series) (m : Num) :
  comparable_series s -> count_below s m = Ok (numbers_below (values s) m).
Proof.
  intros H. unfold count_below, num_flags. rewrite (comparable_series_nums H).
  cbn [bind]. f_equal. unfold count_true, numbers_below.
  induction (values s) as [|c l IH]; [reflexivity|].
  cbn [map filter].
  destruct (match cell_number c with Some x => num_ltb x m | None => false end);
    cbn [List.length]; [f_equal|]; exact IH.
Qed.

Lemma count_above_comparable (s : Series) (m : Num) :
  comparable_series s -> count_above s m = Ok (numbers_above (values s) m).
Proof.
  intros H. unfold count_above, num_flags. rewrite (comparable_series_nums H).
  cbn [bind]. f_equal. unfold count_true, numbers_above.
  induction (values s) as [|c l IH]; [reflexivity|].
  cbn [map filter].
  destruct (match cell_number c with Some x => num_ltb m x | None => false end);
    cbn [List.length]; [f_equal|]; exact IH.
Qed.

(** No value is below minus infinity or above plus infinity. *)
Lemma numbers_below_NegInf (l : list Cell) : numbers_below l NegInf = 0.
Proof.
  unfold numbers_below. induction l as [|c l IH]; [reflexivity|].
  cbn [filter]. destruct (cell_number c) as [x|]; [|exact IH].
  destruct x; exact IH.
Qed.

Lemma numbers_above_PosInf (l : list Cell) : numbers_above l PosInf = 0.
Proof.
  unfold numbers_above. induction l as [|c l IH]; [reflexivity|].
  cbn [filter]. destruct (cell_number c) as [x|]; [|exact IH].
  destruct x; exact IH.
Qed.

(** What the loop of the range check leaves under a key, on a table whose
    range columns can be compared with numbers. *)
Lemma foldM_ranges_get (df : DataFrame) (ranges : list (string * RangeSpec)) :
  NoDup (map fst ranges) ->
  (forall col rs s, In (col, rs) ranges -> column df col = Some s -> comparable_series s) ->
  forall acc,
  exists m,
    foldM (fun acc cr =>
             match column df (fst cr) with
             | Some s =>
                 let min_val := get_default (range_min (snd cr)) NegInf in
                 let max_val := get_default (range_max (snd cr)) PosInf in
                 below <- count_below s min_val ;;
                 above <- count_above s max_val ;;
                 if (0 <? below) || (0 <? above)
                 then Ok (assoc_set (fst cr) (below, above) acc)
                 else Ok acc
             | None => Ok acc
             end) ranges acc = Ok m
    /\ forall c,
        assoc_get c m
        = match column df c, assoc_get c ranges with
          | Some s, Some rs =>
              if out_of_range_pair (number_counts s rs)
              then Some (number_counts s rs) else assoc_get c acc
          | _, _ => assoc_get c acc
          end.
Proof.
  induction ranges as [|[k rs] ranges IH]; intros Hnd Hnum acc.
  - exists acc. split; [reflexivity|]. intros c. simpl.
    destruct (column df c); reflexivity.
  - inversion Hnd as [|? ? Hk Hnd']; subst.
    assert (Hnum' : forall col rs' s, In (col, rs') ranges ->
                                      column df col = Some s -> comparable_series s)
      by (intros col rs' s Hin; apply (Hnum col rs' s); right; exact Hin).
    cbn [foldM fst snd].
    destruct (column df k) as [sk|] eqn:Ek.
    + assert (Hsk : comparable_series sk)
        by (apply (Hnum k rs sk); [left; reflexivity | exact Ek]).
      cbv zeta. rewrite (count_below_comparable _ Hsk), (count_above_comparable _ Hsk).
      cbn [bind].
      change ((0 <? numbers_below (values sk) (get_default (range_min rs) NegInf))
              || (0 <? numbers_above (values sk) (get_default (range_max rs) PosInf)))
        with (out_of_range_pair (number_counts sk rs)).
      change (numbers_below (values sk) (get_default (range_min rs) NegInf),
              numbers_above (values sk) (get_default (range_max rs) PosInf))
        with (number_counts sk rs).
      destruct (out_of_range_pair (number_counts sk rs)) eqn:Eo; cbn [bind].
      * destruct (IH Hnd' Hnum' (assoc_set k (number_counts sk rs) acc)) as (m & Hm & Hget).
        exists m. split; [exact Hm|]. intros c. rewrite Hget. cbn [assoc_get].
        destruct (String.eqb_spec c k) as [->|Hck].
        -- rewrite Ek, (assoc_get_not_In _ _ Hk), Eo, assoc_get_set, String.eqb_refl.
           reflexivity.
        -- rewrite assoc_get_set.
           destruct (String.eqb_spec c k); [contradiction | reflexivity].
      * destruct (IH Hnd' Hnum' acc) as (m & Hm & Hget).
        exists m. split; [exact Hm|]. intros c. rewrite Hget. cbn [assoc_get].
        destruct (String.eqb_spec c k) as [->|Hck]; [|reflexivity].
        rewrite Ek, (assoc_get_not_In _ _ Hk), Eo. reflexivity.
    + cbn [bind]. destruct (IH Hnd' Hnum' acc) as (m & Hm & Hget).
      exists m. split; [exact Hm|]. intros c. rewrite Hget. cbn [assoc_get].
      destruct (String.eqb_spec c k) as [->|Hck]; [|reflexivity].
      rewrite Ek. reflexivity.
Qed.

(** C8 (as amended).  For every column that has a configured range and is
    present in the table, when these columns hold numbers, Booleans
    (compared as 1 and 0) and missing values only, the range check returns
    and records the number of values strictly below the minimum and
    strictly above the maximum, a missing bound standing for minus or plus
    infinity, so that nothing is counted against it (a column with both
    counts 0 is left out of the details; a missing value is counted on
    neither side); the check passes iff all counts are 0.  The values -1,
    5, 2000 against the range 0 to 1000 give one below and one above. *)
Theorem _check_numeric_ranges_counts :
  (forall (df : DataFrame) (ranges : list (string * RangeSpec)),
      NoDup (map fst ranges) ->
      (forall col rs s,
          In (col, rs) ranges -> column df col = Some s -> comparable_series s) ->
      exists r,
        _check_numeric_ranges df ranges = Ok r
        /\ (forall col rs s,
               In (col, rs) ranges -> column df col = Some s ->
               recorded_range (out_of_range_of r) col
               = (numbers_below (values s) (get_default (range_min rs) NegInf),
                  numbers_above (values s) (get_default (range_max rs) PosInf))
               /\ (range_min rs = None -> fst (recorded_range (out_of_range_of r) col) = 0)
               /\ (range_max rs = None -> snd (recorded_range (out_of_range_of r) col) = 0))
        /\ (passed r = true <->
            forall col rs s,
              In (col, rs) ranges -> column df col = Some s ->
              numbers_below (values s) (get_default (range_min rs) NegInf) = 0
              /\ numbers_above (values s) (get_default (range_max rs) PosInf) = 0))
  /\ _check_numeric_ranges quantities_out_of_range quantity_range
     = Ok (mkQR false (OutOfRange [("quantity", (1, 1))])).
Proof.
  split; [|reflexivity].
  intros df ranges Hnd Hnum.
  destruct (@foldM_ranges_get df ranges Hnd Hnum []) as (m & Hm & Hget).
  exists (mkQR (is_empty m) (OutOfRange m)).
  split.
  { unfold _check_numeric_ranges.
    match goal with
    | |- bind ?x _ = _ => replace x with (Ok m) by (symmetry; exact Hm)
    end.
    reflexivity. }
  cbn [out_of_range_of details passed].
  assert (Hrec : forall col rs s,
             In (col, rs) ranges -> column df col = Some s ->
             recorded_range m col = number_counts s rs).
  { intros col rs s Hin Hcol. unfold recorded_range.
    rewrite Hget, Hcol, (@assoc_get_In _ _ _ _ Hnd Hin). cbn [assoc_get].
    unfold out_of_range_pair.
    destruct (number_counts s rs) as [b a]. cbn [fst snd].
    destruct (0 <? b) eqn:Eb; cbn [orb]; [reflexivity|].
    destruct (0 <? a) eqn:Ea; [reflexivity|].
    apply Nat.ltb_ge in Eb, Ea. f_equal; lia. }
  split.
  - intros col rs s Hin Hcol. rewrite (Hrec col rs s Hin Hcol).
    unfold number_counts. cbn [fst snd]. split; [reflexivity|]. split; intros ->.
    + apply numbers_below_NegInf.
    + apply numbers_above_PosInf.
  - rewrite is_empty_assoc. split.
    + intros H col rs s Hin Hcol. specialize (H col).
      rewrite Hget, Hcol, (@assoc_get_In _ _ _ _ Hnd Hin) in H. cbn [assoc_get] in H.
      unfold out_of_range_pair, number_counts in H. cbn [fst snd] in H.
      destruct (0 <? numbers_below _ _) eqn:Eb; cbn [orb] in H; [discriminate|].
      destruct (0 <? numbers_above _ _) eqn:Ea; [discriminate|].
      apply Nat.ltb_ge in Eb, Ea. lia.
    + intros H c. rewrite Hget.
      destruct (column df c) as [s|] eqn:Ec; [|reflexivity].
      destruct (assoc_get c ranges) as [rs|] eqn:Er; [|reflexivity].
      assert (Hin : In (c, rs) ranges).
      { clear -Er. induction ranges as [|[k v] l IH]; simpl in *; [discriminate|].
        destruct (String.eqb_spec c k) as [->|]; [injection Er as ->; left; reflexivity|].
        right. apply IH. exact Er. }
      destruct (H c rs s Hin Ec) as [Hb Ha].
      unfold out_of_range_pair, number_counts. cbn [fst snd]. rewrite Hb, Ha. reflexivity.
Qed.

Lemma numeric_series_nums_of (l : list Z) : numeric_series (nums l).
Proof.
  split; [reflexivity|]. unfold nums. cbn [values].
  induction l as [|z l IH]; [reflexivity|]. exact IH.
Qed.

Lemma comparable_flags_as_quantity :
  comparable_series (mkSeries Boolean [CBool true; CBool false; CBool true]).
Proof. split; [discriminate|]. split; [discriminate | reflexivity]. Qed.

(** On a column of Booleans against a minimum of 1 and no maximum: the
    one [False] is counted below, nothing above. *)
Lemma _check_numeric_ranges_counts_witness :
  exists r,
    _check_numeric_ranges flags_as_quantity [("quantity", mkRange (Some (nz 1)) None)] = Ok r
    /\ recorded_range (out_of_range_of r) "quantity" = (1, 0)
    /\ passed r = false.
Proof.
  assert (Hnd : NoDup (map fst [("quantity", mkRange (Some (nz 1)) None)])).
  { constructor; [intros [] | constructor]. }
  assert (Hnum : forall col rs s,
             In (col, rs) [("quantity", mkRange (Some (nz 1)) None)] ->
             column flags_as_quantity col = Some s -> comparable_series s).
  { intros col rs s [E|[]] Hcol. injection E as <- <-.
    injection Hcol as <-. apply comparable_flags_as_quantity. }
  destruct (proj1 _check_numeric_ranges_counts flags_as_quantity
              [("quantity", mkRange (Some (nz 1)) None)] Hnd Hnum)
    as (r & Hr & Hrec & Hpass).
  exists r. split; [exact Hr|].
  destruct (Hrec "quantity" (mkRange (Some (nz 1)) None)
              (mkSeries Boolean [CBool true; CBool false; CBool true])
              (or_introl eq_refl) eq_refl) as (Hc & _ & _).
  split; [rewrite Hc; reflexivity|].
  destruct (passed r); [|reflexivity].
  destruct (proj1 Hpass eq_refl "quantity" (mkRange (Some (nz 1)) None)
              (mkSeries Boolean [CBool true; CBool false; CBool true])
              (or_introl eq_refl) eq_refl) as [Hb _].
  discriminate Hb.
Defined.

(** C8 as stated fails: the claim is made for every table, and on a sales
    table whose quantity column holds a text the comparison of the range
    check raises a [TypeError], so that nothing is counted. *)
Lemma _check_numeric_ranges_raises_on_text :
  column text_quantity "quantity" = Some (strs ["two"])
  /\ (exists e,
         _check_numeric_ranges text_quantity quantity_range = Raise e
         /\ exn_kind e = TypeError)
  /\ ~ exists r, _check_numeric_ranges text_quantity quantity_range = Ok r.
Proof.
  split; [reflexivity|]. split.
  - eexists. split; [vm_compute; reflexivity | reflexivity].
  - intros (r & Hr). vm_compute in Hr. discriminate.
Qed.

(** ** Columns that are not in the table *)

Lemma fold_left_skip_absent {A : Type} (df : DataFrame)
  (f : list A -> string -> Series -> list A) (cols : list string) (acc : list A) :
  fold_left (fun acc col => match column df col with
                            | Some s => f acc col s
                            | None => acc
                            end) cols acc
  = fold_left (fun acc col => match column df col with
                              | Some s => f acc col s
                              | None => acc
                              end) (filter (has_column df) cols) acc.
Proof.
  revert acc. induction cols as [|c cols IH]; intros acc; [reflexivity|].
  cbn [fold_left filter]. destruct (has_column df c) eqn:Ec.
  - cbn [fold_left]. apply IH.
  - apply has_column_false_iff in Ec. rewrite Ec. apply IH.
Qed.

Lemma foldM_skip_absent {A B : Type} (df : DataFrame)
  (f : list A -> string * B -> Series -> Result (list A))
  (l : list (string * B)) (acc : list A) :
  foldM (fun acc cr => match column df (fst cr) with
                       | Some s => f acc cr s
                       | None => Ok acc
                       end) l acc
  = foldM (fun acc cr => match column df (fst cr) with
                         | Some s => f acc cr s
                         | None => Ok acc
                         end) (filter (fun cr => has_column df (fst cr)) l) acc.
Proof.
  revert acc. induction l as [|c l IH]; intros acc; [reflexivity|].
  cbn [foldM filter]. destruct (has_column df (fst c)) eqn:Ec.
  - cbn [foldM]. destruct (column df (fst c)); [|apply IH].
    destruct (f acc c s); [apply IH | reflexivity].
  - apply has_column_false_iff in Ec. rewrite Ec. apply IH.
Qed.

Lemma filter_absent {A : Type} (p : A -> bool) (l : list A) :
  (forall a, In a l -> p a = false) -> filter p l = [].
Proof.
  induction l as [|a l IH]; intros H; [reflexivity|].
  cbn [filter]. rewrite (H a (or_introl eq_refl)). apply IH.
  intros b Hb. apply H. right. exact Hb.
Qed.

Lemma _check_not_null_skips (df : DataFrame) (cols : list string) :
  _check_not_null df cols = _check_not_null df (filter (has_column df) cols).
Proof.
  unfold _check_not_null.
  rewrite (fold_left_skip_absent df
             (fun acc col s => if 0 <? null_count s
                               then assoc_set col (null_count s) acc else acc)).
  reflexivity.
Qed.

Lemma _check_unique_columns_skips (df : DataFrame) (cols : list string) :
  _check_unique_columns df cols = _check_unique_columns df (filter (has_column df) cols).
Proof.
  unfold _check_unique_columns.
  rewrite (fold_left_skip_absent df
             (fun acc col s => if 0 <? duplicate_count s
                               then assoc_set col (duplicate_count s) acc else acc)).
  reflexivity.
Qed.

Lemma _check_numeric_ranges_skips (df : DataFrame) (ranges : list (string * RangeSpec)) :
  _check_numeric_ranges df ranges
  = _check_numeric_ranges df (filter (fun cr => has_column df (fst cr)) ranges).
Proof.
  unfold _check_numeric_ranges.
  rewrite (foldM_skip_absent df
             (fun acc (cr : string * RangeSpec) s =>
                below <- count_below s (get_default (range_min (snd cr)) NegInf) ;;
                above <- count_above s (get_default (range_max (snd cr)) PosInf) ;;
                if (0 <? below) || (0 <? above)
                then Ok (assoc_set (fst cr) (below, above) acc)
                else Ok acc)).
  reflexivity.
Qed.

Lemma columns_absent_app (df : DataFrame) (a b : list string) :
  columns_absent df (a ++ b) <-> columns_absent df a /\ columns_absent df b.
Proof.
  unfold columns_absent. split.
  - intros H. split; intros c Hc; apply H, in_or_app; [left | right]; exact Hc.
  - intros [Ha Hb] c Hc. apply in_app_or in Hc as [Hc|Hc]; [apply Ha | apply Hb]; exact Hc.
Qed.

Lemma columns_absent_column (df : DataFrame) (cols : list string) (c : string) :
  columns_absent df cols -> In c cols -> column df c = None.
Proof. intros H Hc. apply has_column_false_iff, H, Hc. Qed.

Lemma _check_data_types_absent (df : DataFrame) (table_name : string) :
  columns_absent df (type_columns table_name) ->
  _check_data_types df table_name = mkQR true (Issues []).
Proof.
  unfold type_columns, _check_data_types. intros H.
  destruct (String.eqb table_name "sales"); [|reflexivity].
  rewrite (@columns_absent_column df _ "sale_date" H) by (simpl; auto).
  cbn [fold_left].
  rewrite (@columns_absent_column df _ "quantity" H) by (simpl; auto).
  rewrite (@columns_absent_column df _ "amount" H) by (simpl; auto).
  rewrite (@columns_absent_column df _ "price_per_unit" H) by (simpl; auto 6).
  reflexivity.
Qed.

Lemma _run_custom_checks_absent (parse_datetime : string -> option Timestamp)
  (now : Timestamp) (df : DataFrame) (table_name : string) :
  columns_absent df (custom_columns table_name) ->
  _run_custom_checks parse_datetime now df table_name = Ok (mkQR true (Issues [])).
Proof.
  unfold custom_columns, _run_custom_checks. intros H.
  destruct (String.eqb table_name "sales").
  - rewrite (H "quantity") by (simpl; auto).
    rewrite (H "sale_date") by (simpl; auto). reflexivity.
  - destruct (String.eqb table_name "products").
    + rewrite (H "price") by (simpl; auto). reflexivity.
    + destruct (String.eqb table_name "customers"); [|reflexivity].
      rewrite (H "email") by (simpl; auto). reflexivity.
Qed.

(** ** The transforms keep the rows *)

Lemma names_assoc_set {V : Type} (k : string) (v : V) (l : list (string * V)) :
  exists added, map fst (assoc_set k v l) = map fst l ++ added.
Proof.
  induction l as [|[k' v'] l [added IH]]; simpl.
  - exists [k]. reflexivity.
  - destruct (String.eqb_spec k k') as [->|Hk]; simpl.
    + exists []. rewrite app_nil_r. reflexivity.
    + exists added. rewrite IH. reflexivity.
Qed.

Lemma Forall_assoc_set {V : Type} (P : string * V -> Prop) (k : string) (v : V)
  (l : list (string * V)) :
  Forall P l -> P (k, v) -> Forall P (assoc_set k v l).
Proof.
  intros Hl Hk. induction Hl as [|[k' v'] l Hx Hl IH]; simpl.
  - constructor; [exact Hk | constructor].
  - destruct (String.eqb k k'); constructor; assumption.
Qed.

Lemma well_formed_column (df : DataFrame) (c : string) (s : Series) :
  well_formed df -> column df c = Some s -> List.length (values s) = nrows df.
Proof.
  unfold well_formed, column. destruct df as [ix cols]. simpl.
  intros H. induction H as [|[k v] l Hx Hl IH]; simpl; [discriminate|].
  destruct (String.eqb c k); [intros E; injection E as <-; exact Hx | exact IH].
Qed.

Lemma same_rows_refl (df : DataFrame) : same_rows df df [].
Proof.
  repeat split; auto. exists []. rewrite app_nil_r. reflexivity.
Qed.

Lemma same_rows_trans (df1 df2 df3 : DataFrame) (a b : list string) :
  same_rows df1 df2 a -> same_rows df2 df3 b -> same_rows df1 df3 (a ++ b).
Proof.
  intros (Hi1 & (ad1 & Hn1) & Hc1 & Hw1) (Hi2 & (ad2 & Hn2) & Hc2 & Hw2).
  split; [congruence|]. split.
  - exists (ad1 ++ ad2). rewrite Hn2, Hn1, app_assoc. reflexivity.
  - split; [|auto]. intros c Hc. rewrite Hc2, Hc1; [reflexivity| |];
      intros Hin; apply Hc, in_or_app; auto.
Qed.

(** An assignment of a column with one cell per row keeps the rows. *)
Lemma same_rows_setitem (df : DataFrame) (c : string) (s : Series) :
  (well_formed df -> List.length (values s) = nrows df) ->
  same_rows df (setitem df c s) [c].
Proof.
  intros Hlen. split; [reflexivity|]. split; [|split].
  - unfold column_names, setitem. simpl. apply names_assoc_set.
  - intros c' Hc'. rewrite column_setitem.
    destruct (String.eqb_spec c' c) as [->|]; [|reflexivity].
    exfalso. apply Hc'. left. reflexivity.
  - intros Hw. unfold well_formed, setitem in *. simpl.
    apply Forall_assoc_set; [exact Hw | simpl; apply Hlen; exact Hw].
Qed.

Lemma same_rows_assign (df df' : DataFrame) (dst src : string)
  (f : Series -> Result Series) :
  assign df dst src f = Ok df' -> keeps_length f -> same_rows df df' [dst].
Proof.
  intros H Hf. apply assign_Ok in H as (s & s' & Hs & Hfs & ->).
  apply same_rows_setitem. intros Hw.
  rewrite (Hf _ _ Hfs). apply (well_formed_column _ Hw Hs).
Qed.

Section KeepsLength.

Variable parse_datetime : string -> option Timestamp.

Lemma keeps_length_to_datetime : keeps_length (to_datetime parse_datetime).
Proof.
  intros s s' H. unfold to_datetime in H.
  destruct (dtype s); try discriminate;
    try (injection H as <-; reflexivity);
    apply bind_Ok_inv in H as (vs & Hvs & H); injection H as <-;
    apply (mapM_Ok_length _ _ Hvs).
Qed.

Lemma keeps_length_dt_field (f : Timestamp -> Z) : keeps_length (dt_field f).
Proof.
  intros s s' H. unfold dt_field, dt_values in H.
  destruct (dtype s); try discriminate. injection H as <-.
  simpl. apply length_map.
Qed.

Lemma keeps_length_pure (f : Series -> Series) :
  (forall s, List.length (values (f s)) = List.length (values s)) ->
  keeps_length (pure_op f).
Proof. intros Hf s s' H. injection H as <-. apply Hf. Qed.

Lemma length_isin (xs : list Cell) (s : Series) :
  List.length (values (isin xs s)) = List.length (values s).
Proof. apply length_map. Qed.

Lemma length_fillna (v : Cell) (s : Series) :
  List.length (values (fillna v s)) = List.length (values s).
Proof. apply length_map. Qed.

Lemma length_series_apply (f : Cell -> Cell) (s : Series) :
  List.length (values (series_apply f s)) = List.length (values s).
Proof. apply length_map. Qed.

Lemma keeps_length_round2 : keeps_length series_round2.
Proof.
  intros s s' H. unfold series_round2 in H.
  destruct (dtype s); try discriminate; injection H as <-;
    [simpl; apply length_map | reflexivity].
Qed.

Lemma keeps_length_str_method (f : string -> Cell) : keeps_length (str_method f).
Proof.
  intros s s' H. unfold str_method in H.
  destruct (dtype s); try discriminate; injection H as <-; simpl; apply length_map.
Qed.

Lemma keeps_length_bind (f g : Series -> Result Series) :
  keeps_length f -> keeps_length g -> keeps_length (fun s => s1 <- f s ;; g s1).
Proof.
  intros Hf Hg s s' H. apply bind_Ok_inv in H as (s1 & H1 & H2).
  rewrite (Hg _ _ H2). apply (Hf _ _ H1).
Qed.

Lemma series_as_nums_length (s : Series) (xs : list (option Num)) :
  series_as_nums s = Ok xs -> List.length xs = List.length (values s).
Proof.
  unfold series_as_nums. destruct (dtype s); try discriminate;
    apply mapM_Ok_length.
Qed.

Lemma keeps_length_pd_cut bins labels :
  keeps_length (fun s => pd_cut s bins labels).
Proof.
  intros s s' H. unfold pd_cut in H.
  apply bind_Ok_inv in H as (xs & Hxs & H). injection H as <-.
  simpl. rewrite length_map. apply (series_as_nums_length _ Hxs).
Qed.

Lemma keeps_length_dt_date_key : keeps_length dt_date_key.
Proof.
  intros s s' H. unfold dt_date_key, dt_values in H.
  destruct (dtype s); try discriminate. cbn [bind] in H.
  apply bind_Ok_inv in H as (ks & Hks & H). injection H as <-.
  simpl. apply (mapM_Ok_length _ _ Hks).
Qed.

Lemma series_div_length (a b q : Series) :
  series_div a b = Ok q ->
  List.length (values a) = List.length (values b) ->
  List.length (values q) = List.length (values a).
Proof.
  unfold series_div. intros H Hab.
  apply bind_Ok_inv in H as (xs & Hxs & H).
  apply bind_Ok_inv in H as (ys & Hys & H). injection H as <-.
  simpl. rewrite length_map, length_combine.
  rewrite (series_as_nums_length _ Hxs), (series_as_nums_length _ Hys). lia.
Qed.

End KeepsLength.

Lemma same_rows_incl (df df' : DataFrame) (a b : list string) :
  incl a b -> same_rows df df' a -> same_rows df df' b.
Proof.
  intros Hab (Hi & Hn & Hc & Hw).
  split; [exact Hi|]. split; [exact Hn|]. split; [|exact Hw].
  intros c Hc'. apply Hc. intros Hin. apply Hc', Hab, Hin.
Qed.

Lemma same_rows_setitem_scalar (df : DataFrame) (c : string) (d : DType) (v : Cell) :
  same_rows df (setitem_scalar df c d v) [c].
Proof.
  apply same_rows_setitem. intros _. simpl. apply repeat_length.
Qed.

(** Chains the facts about the steps of a transform. *)
Ltac chain_same_rows :=
  repeat match goal with
         | H1 : same_rows ?a ?b _, H2 : same_rows ?b ?c _ |- _ =>
             let H := fresh "Hrows" in
             pose proof (same_rows_trans H1 H2) as H; clear H1 H2
         end.

Ltac solve_keeps_length :=
  repeat first
    [ apply keeps_length_bind
    | apply keeps_length_str_method
    | apply keeps_length_pd_cut
    | apply keeps_length_to_datetime
    | apply keeps_length_dt_field
    | apply keeps_length_round2
    | apply keeps_length_dt_date_key
    | apply keeps_length_pure; intros; simpl; apply length_map ].

Ltac step_rows H :=
  let d := fresh "df" in
  let Ha := fresh "Hrows" in
  apply bind_Ok_inv in H as (d & Ha & H);
  apply same_rows_assign in Ha; [|solve_keeps_length].

Lemma transform_product_data_same_rows now (df df' : DataFrame) :
  transform_product_data now df = Ok df' -> same_rows df df' product_assigned.
Proof.
  unfold transform_product_data. intros H.
  step_rows H.
  step_rows H.
  step_rows H.
  step_rows H.
  injection H as <-.
  pose proof (same_rows_setitem_scalar df3 "transformed_at" Datetime (CDate now)) as Hlast.
  chain_same_rows.
  eapply same_rows_incl; [|eassumption].
  intros c Hc. simpl in Hc. unfold product_assigned. simpl. intuition.
Qed.

Lemma transform_customer_data_same_rows now (df df' : DataFrame) :
  transform_customer_data now df = Ok df' -> same_rows df df' customer_assigned.
Proof.
  unfold transform_customer_data. intros H.
  step_rows H.
  step_rows H.
  step_rows H.
  step_rows H.
  step_rows H.
  step_rows H.
  injection H as <-.
  pose proof (same_rows_setitem_scalar df5 "transformed_at" Datetime (CDate now)) as Hlast.
  chain_same_rows.
  eapply same_rows_incl; [|eassumption].
  intros c Hc. simpl in Hc. unfold customer_assigned. simpl. intuition.
Qed.

Lemma transform_sales_data_same_rows parse_datetime now (df df' : DataFrame) :
  transform_sales_data parse_datetime now df = Ok df' ->
  same_rows df df' sales_assigned.
Proof.
  unfold transform_sales_data. intros H.
  step_rows H. step_rows H. step_rows H. step_rows H. step_rows H. step_rows H.
  apply bind_Ok_inv in H as (amount & Hamount & H).
  apply bind_Ok_inv in H as (quantity & Hquantity & H).
  apply bind_Ok_inv in H as (ppu & Hppu & H). cbv zeta in H.
  apply getitem_Ok in Hamount, Hquantity.
  assert (Hdiv : same_rows df5 (setitem df5 "price_per_unit" ppu) ["price_per_unit"]).
  { apply same_rows_setitem. intros Hw.
    rewrite (series_div_length _ _ Hppu).
    - apply (well_formed_column _ Hw Hamount).
    - rewrite (well_formed_column _ Hw Hamount), (well_formed_column _ Hw Hquantity).
      reflexivity. }
  step_rows H. step_rows H. step_rows H. step_rows H.
  injection H as <-.
  pose proof (same_rows_setitem_scalar df9 "transformed_at" Datetime (CDate now)) as Hlast.
  chain_same_rows.
  eapply same_rows_incl; [|eassumption].
  intros c Hc. simpl in Hc. unfold sales_assigned. simpl. intuition.
Qed.

(** Runs the steps of a transform whose column lookups are known. *)
Ltac run_steps :=
  repeat first
    [ rewrite column_setitem; simpl String.eqb; cbv iota
    | progress cbn [bind dtype values str_method series_round2 dt_field dt_values] ].

Lemma transform_customer_data_total now (df : DataFrame) :
  customer_frame df -> exists df', transform_customer_data now df = Ok df'.
Proof.
  intros ((cn & Hcn & Dcn) & (em & Hem & Dem) & (rg & Hrg & Drg)).
  unfold transform_customer_data, assign, getitem, pure_op, str_strip, str_title,
    str_upper, str_lower, str_split_get.
  rewrite Hcn. cbn [bind]. rewrite (str_method_total _ cn Dcn). run_steps.
  rewrite Hem. cbn [bind]. rewrite (str_method_total _ em Dem). run_steps.
  rewrite Hrg. cbn [bind]. rewrite (str_method_total _ rg Drg). run_steps.
  eauto.
Qed.

Lemma mapM_cell_to_datetime_total parse_datetime (l : list Cell) :
  forallb (parseable parse_datetime) l = true ->
  exists vs, mapM (cell_to_datetime parse_datetime) l = Ok vs.
Proof.
  intros H. apply mapM_total. rewrite forallb_forall in H. apply Forall_forall.
  intros c Hc. specialize (H c Hc). destruct c as [|x|x|b|t]; try discriminate.
  - simpl. eauto.
  - simpl in *. destruct (parse_datetime x); [eauto | discriminate].
Qed.

Lemma transform_sales_data_total parse_datetime now (df : DataFrame) :
  sales_frame parse_datetime df ->
  exists df', transform_sales_data parse_datetime now df = Ok df'.
Proof.
  intros ((sd & Hsd & Dsd & Vsd) & (am & Ham & Dam & Vam) & (qt & Hqt & Dqt & Vqt) & _).
  destruct (mapM_cell_to_datetime_total _ _ Vsd) as (vs & Hvs).
  pose proof (numeric_series_nums (conj Dam Vam)) as Nam.
  pose proof (numeric_series_nums (conj Dqt Vqt)) as Nqt.
  unfold transform_sales_data, assign, getitem, pure_op.
  rewrite Hsd. cbn [bind]. unfold to_datetime at 1. rewrite Dsd, Hvs. run_steps.
  rewrite Ham. run_steps. rewrite Hqt. cbn [bind].
  unfold series_div. rewrite Nam, Nqt. run_steps.
  rewrite Ham. cbn [bind]. unfold series_round2 at 1. rewrite Dam. run_steps.
  rewrite Hqt. run_steps.
  eauto.
Qed.

(** C9.  Each entity transform returns a frame with the rows of its
    input, in their order: the row labels (and so the number of rows) are
    unchanged, the columns of the input stay at their positions with new
    columns added after them, every column the transform does not assign
    holds the same cells, and every column of the result has one cell per
    row.  The transforms return on raw frames of the expected types. *)
Theorem transforms_keep_rows
  (parse_datetime : string -> option Timestamp) (now : Timestamp) (df : DataFrame) :
  ((sales_frame parse_datetime df ->
    exists df', transform_sales_data parse_datetime now df = Ok df')
   /\ forall df', transform_sales_data parse_datetime now df = Ok df' ->
                  same_rows df df' sales_assigned)
  /\ ((product_frame df -> exists df', transform_product_data now df = Ok df')
      /\ forall df', transform_product_data now df = Ok df' ->
                     same_rows df df' product_assigned)
  /\ ((customer_frame df -> exists df', transform_customer_data now df = Ok df')
      /\ forall df', transform_customer_data now df = Ok df' ->
                     same_rows df df' customer_assigned).
Proof.
  split; [split|split; split].
  - apply transform_sales_data_total.
  - intros df'. apply transform_sales_data_same_rows.
  - apply transform_product_data_total.
  - intros df'. apply transform_product_data_same_rows.
  - apply transform_customer_data_total.
  - intros df'. apply transform_customer_data_same_rows.
Qed.

Lemma customer_frame_sample_customer_data : customer_frame sample_customer_data.
Proof. repeat split; eexists; (split; [reflexivity|]); reflexivity. Qed.

Lemma transforms_keep_rows_witness :
  exists df',
    transform_customer_data 0%Z sample_customer_data = Ok df'
    /\ same_rows sample_customer_data df' customer_assigned.
Proof.
  destruct (transforms_keep_rows iso_parse 0%Z sample_customer_data)
    as (_ & _ & Htotal & Hrows).
  destruct (Htotal customer_frame_sample_customer_data) as [df' Hdf'].
  exists df'. split; [exact Hdf' | exact (Hrows df' Hdf')].
Defined.

(** The result dictionary of [validate_data] for a table with a rule set,
    when the two checks that can raise return. *)
Lemma validate_data_Ok (parse_datetime : string -> option Timestamp) (now : Timestamp)
  (df : DataFrame) (table_name : string) (r : Rules) (ranges custom : QualityResult) :
  assoc_get table_name rules = Some r ->
  _check_numeric_ranges df (get_default (numeric_ranges r) []) = Ok ranges ->
  _run_custom_checks parse_datetime now df table_name = Ok custom ->
  validate_data parse_datetime now df table_name
  = Ok [ ("required_columns",
          _check_required_columns df (get_default (required_columns r) []));
         ("not_null_columns", _check_not_null df (get_default (not_null_columns r) []));
         ("numeric_ranges", ranges);
         ("unique_columns", _check_unique_columns df (get_default (unique_columns r) []));
         ("data_types", _check_data_types df table_name);
         ("custom_checks", custom) ].
Proof.
  intros Hr Hranges Hcustom. unfold validate_data.
  rewrite Hr, Hranges. cbn [bind]. rewrite Hcustom. reflexivity.
Qed.

Lemma validate_data_Ok_inv (parse_datetime : string -> option Timestamp) (now : Timestamp)
  (df : DataFrame) (table_name : string) (r : Rules)
  (results : list (string * QualityResult)) :
  assoc_get table_name rules = Some r ->
  validate_data parse_datetime now df table_name = Ok results ->
  exists ranges custom,
    _check_numeric_ranges df (get_default (numeric_ranges r) []) = Ok ranges
    /\ _run_custom_checks parse_datetime now df table_name = Ok custom
    /\ results
       = [ ("required_columns",
            _check_required_columns df (get_default (required_columns r) []));
           ("not_null_columns", _check_not_null df (get_default (not_null_columns r) []));
           ("numeric_ranges", ranges);
           ("unique_columns", _check_unique_columns df (get_default (unique_columns r) []));
           ("data_types", _check_data_types df table_name);
           ("custom_checks", custom) ].
Proof.
  intros Hr H. unfold validate_data in H. rewrite Hr in H.
  apply bind_Ok_inv in H as (ranges & Hranges & H).
  apply bind_Ok_inv in H as (custom & Hcustom & H).
  injection H as <-. exists ranges, custom. repeat split; assumption.
Qed.

(** ** Issues name columns that are in the table *)

Lemma fold_left_issues (df : DataFrame) (P : string -> Prop) (cols : list string)
  (acc : list string) :
  (forall i, In i acc -> P i) ->
  (forall col, In col cols -> has_column df col = true ->
               P (col ++ " should be numeric type")%string) ->
  forall i,
    In i (fold_left (fun acc col =>
                       match column df col with
                       | Some s =>
                           if negb (is_numeric_dtype s)
                           then acc ++ [(col ++ " should be numeric type")%string] else acc
                       | None => acc
                       end) cols acc) ->
    P i.
Proof.
  revert acc. induction cols as [|c cols IH]; intros acc Hacc Hcols i; [apply Hacc|].
  cbn [fold_left]. apply IH.
  - destruct (column df c) as [s|] eqn:Ec; [|exact Hacc].
    destruct (negb (is_numeric_dtype s)); [|exact Hacc].
    intros j Hj. apply in_app_or in Hj as [Hj|[<-|[]]]; [apply Hacc, Hj|].
    apply Hcols; [left; reflexivity|]. apply has_column_iff. eauto.
  - intros col Hcol. apply Hcols. right. exact Hcol.
Qed.

(** Every issue of the type check comes from a sub-check whose column is
    in the table. *)
Lemma _check_data_types_present (df : DataFrame) (table_name issue : string) :
  In issue (issues_of (_check_data_types df table_name)) ->
  exists col, In (col, issue) (type_subchecks table_name) /\ has_column df col = true.
Proof.
  unfold _check_data_types, type_subchecks, issues_of. cbn [details].
  destruct (String.eqb table_name "sales"); [|intros []].
  revert issue.
  apply (@fold_left_issues df
           (fun issue =>
              exists col,
                In (col, issue)
                   [ ("sale_date", "sale_date should be datetime type");
                     ("quantity", "quantity should be numeric type");
                     ("amount", "amount should be numeric type");
                     ("price_per_unit", "price_per_unit should be numeric type") ]
                /\ has_column df col = true)).
  - intros i Hi. destruct (column df "sale_date") as [s|] eqn:Es; [|destruct Hi].
    destruct (negb (is_datetime64_any_dtype s)); [|destruct Hi].
    destruct Hi as [<-|[]]. exists "sale_date". split; [left; reflexivity|].
    apply has_column_iff. eauto.
  - intros col [<-|[<-|[<-|[]]]] Hcol; eexists; (split; [|exact Hcol]); simpl; auto.
Qed.

(** Every issue of the custom check comes from a sub-check whose columns
    are all in the table, and carries a count above 0. *)
Lemma _run_custom_checks_present (parse_datetime : string -> option Timestamp)
  (now : Timestamp) (df : DataFrame) (table_name : string) (r : QualityResult)
  (issue : string) :
  _run_custom_checks parse_datetime now df table_name = Ok r ->
  In issue (issues_of r) ->
  exists cols text n,
    In (cols, text) (custom_subchecks table_name)
    /\ (forall c, In c cols -> has_column df c = true)
    /\ 0 < n /\ issue = (str_of_nat n ++ text)%string.
Proof.
  unfold _run_custom_checks, custom_subchecks. intros H.
  apply bind_Ok_inv in H as (issues & H & Hr). injection Hr as <-.
  unfold issues_of. cbn [details]. revert H.
  destruct (String.eqb table_name "sales").
  { intros H. apply bind_Ok_inv in H as (issues1 & H1 & H2).
    assert (P1 : forall i, In i issues1 ->
                 exists n, has_column df "quantity" = true /\ has_column df "amount" = true
                           /\ 0 < n
                           /\ i = (str_of_nat n ++ " records have quantity but zero amount")%string).
    { destruct (has_column df "quantity") eqn:Q; cbn [andb] in H1;
        [|injection H1 as <-; intros i []].
      destruct (has_column df "amount") eqn:A; [|injection H1 as <-; intros i []].
      apply bind_Ok_inv in H1 as (quantity & _ & H1).
      apply bind_Ok_inv in H1 as (positive & _ & H1).
      apply bind_Ok_inv in H1 as (amount & _ & H1). cbv zeta in H1.
      destruct (0 <? _) eqn:E in H1; injection H1 as <-; [|intros i []].
      intros i [<-|[]]. apply Nat.ltb_lt in E. eexists.
      split; [reflexivity|]. split; [reflexivity|]. split; [exact E | reflexivity]. }
    assert (P2 : forall i, In i issues ->
                 In i issues1
                 \/ exists n, has_column df "sale_date" = true /\ 0 < n
                              /\ i = (str_of_nat n ++ " records have future sale dates")%string).
    { destruct (has_column df "sale_date") eqn:S; [|injection H2 as <-; auto].
      apply bind_Ok_inv in H2 as (sale_date & _ & H2).
      apply bind_Ok_inv in H2 as (dates & _ & H2). cbv zeta in H2.
      destruct (0 <? _) eqn:E in H2; injection H2 as <-; [|auto].
      intros i Hi. apply in_app_or in Hi as [Hi|[<-|[]]]; [auto|].
      right. apply Nat.ltb_lt in E. eexists.
      split; [reflexivity|]. split; [exact E | reflexivity]. }
    intros Hi. apply P2 in Hi as [Hi|(n & S & Hn & ->)].
    - apply P1 in Hi as (n & Q & A & Hn & ->).
      exists ["quantity"; "amount"], " records have quantity but zero amount", n.
      split; [left; reflexivity|]. split; [|split; [exact Hn | reflexivity]].
      intros c [<-|[<-|[]]]; assumption.
    - exists ["sale_date"], " records have future sale dates", n.
      split; [right; left; reflexivity|]. split; [|split; [exact Hn | reflexivity]].
      intros c [<-|[]]; assumption. }
  destruct (String.eqb table_name "products").
  { destruct (has_column df "price") eqn:P; [|intros H; injection H as <-; intros []].
    intros H. apply bind_Ok_inv in H as (price & _ & H).
    apply bind_Ok_inv in H as (flags & _ & H). cbv zeta in H.
    destruct (0 <? _) eqn:E in H; injection H as <-; [|intros []].
    intros [<-|[]]. apply Nat.ltb_lt in E.
    exists ["price"], " products have zero or negative prices". eexists.
    split; [left; reflexivity|]. split; [|split; [exact E | reflexivity]].
    intros c [<-|[]]; assumption. }
  destruct (String.eqb table_name "customers").
  { destruct (has_column df "email") eqn:P; [|intros H; injection H as <-; intros []].
    intros H. apply bind_Ok_inv in H as (email & _ & H).
    apply bind_Ok_inv in H as (flags & _ & H). cbv zeta in H.
    destruct (0 <? _) eqn:E in H; injection H as <-; [|intros []].
    intros [<-|[]]. apply Nat.ltb_lt in E.
    exists ["email"], " customers have invalid email formats". eexists.
    split; [left; reflexivity|]. split; [|split; [exact E | reflexivity]].
    intros c [<-|[]]; assumption. }
  intros H. injection H as <-. intros [].
Qed.

(** ** Tables on which no check raises *)

Lemma comparable_series_flags (p : Num -> bool) (s : Series) :
  comparable_series s -> exists fl, num_flags p s = Ok fl.
Proof.
  intros H. unfold num_flags. rewrite (comparable_series_nums H). cbn [bind]. eauto.
Qed.

Lemma date_series_to_datetime (parse_datetime : string -> option Timestamp) (s : Series) :
  date_series parse_datetime s -> exists dates, to_datetime parse_datetime s = Ok dates.
Proof.
  unfold to_datetime. intros [Hd|[Hd Hv]]; rewrite Hd; [eauto|].
  destruct (mapM_cell_to_datetime_total _ _ Hv) as (vs & ->). cbn [bind]. eauto.
Qed.

Lemma text_series_contains (ch : ascii) (s : Series) :
  text_series s -> exists fl, str_contains_flags ch s = Ok fl.
Proof. intros [Hd _]. unfold str_contains_flags. rewrite Hd. eauto. Qed.

(** The range check returns when the configured columns that are present
    can be compared with numbers. *)
Lemma _check_numeric_ranges_returns (df : DataFrame) (ranges : list (string * RangeSpec)) :
  (forall c s, In c (map fst ranges) -> column df c = Some s -> comparable_series s) ->
  exists r, _check_numeric_ranges df ranges = Ok r.
Proof.
  intros H. unfold _check_numeric_ranges.
  assert (Hfold : forall acc, exists m,
             foldM (fun acc cr =>
                      match column df (fst cr) with
                      | Some s =>
                          let min_val := get_default (range_min (snd cr)) NegInf in
                          let max_val := get_default (range_max (snd cr)) PosInf in
                          below <- count_below s min_val ;;
                          above <- count_above s max_val ;;
                          if (0 <? below) || (0 <? above)
                          then Ok (assoc_set (fst cr) (below, above) acc)
                          else Ok acc
                      | None => Ok acc
                      end) ranges acc = Ok m).
  { induction ranges as [|cr ranges IH]; intros acc; cbn [foldM].
    - eauto.
    - assert (Hrest : forall c s, In c (map fst ranges) -> column df c = Some s ->
                                  comparable_series s)
        by (intros c s Hc; apply H; right; exact Hc).
      destruct (column df (fst cr)) as [s|] eqn:Ec.
      + assert (Ns : comparable_series s)
          by (apply (H (fst cr)); [left; reflexivity | exact Ec]).
        cbv zeta. rewrite (count_below_comparable _ Ns), (count_above_comparable _ Ns).
        cbn [bind].
        destruct ((0 <? _) || (0 <? _)); cbn [bind]; apply (IH Hrest).
      + cbn [bind]. apply (IH Hrest). }
  destruct (Hfold []) as (m & Hm).
  match goal with |- exists r, bind ?x _ = _ => replace x with (Ok m) by (symmetry; exact Hm) end.
  cbn [bind]. eauto.
Qed.

(** The custom check returns on a table it can read. *)
Lemma _run_custom_checks_returns (parse_datetime : string -> option Timestamp)
  (now : Timestamp) (df : DataFrame) (table_name : string) :
  readable parse_datetime df table_name ->
  exists r, _run_custom_checks parse_datetime now df table_name = Ok r.
Proof.
  intros (Hnum & Hdate & Htext). unfold _run_custom_checks.
  unfold number_columns in Hnum.
  destruct (String.eqb_spec table_name "sales") as [Es|Hs]; [subst table_name|].
  { assert (H1 : exists issues1,
               (if has_column df "quantity" && has_column df "amount"
                then
                  quantity <- getitem df "quantity" ;;
                  positive <- num_flags (fun x => num_ltb (nz 0) x) quantity ;;
                  amount <- getitem df "amount" ;;
                  let zero_amount_with_quantity :=
                    count_true (map (fun pq => fst pq && snd pq)
                                    (combine positive (eq_zero_flags amount))) in
                  if 0 <? zero_amount_with_quantity
                  then Ok [(str_of_nat zero_amount_with_quantity
                            ++ " records have quantity but zero amount")%string]
                  else Ok []
                else Ok []) = Ok issues1).
    { destruct (has_column df "quantity") eqn:Q; cbn [andb]; [|eauto].
      destruct (has_column df "amount") eqn:A; [|eauto].
      apply has_column_iff in Q as (qt & Hqt). apply has_column_iff in A as (am & Ham).
      unfold getitem. rewrite Hqt, Ham. cbn [bind].
      destruct (@comparable_series_flags (fun x => num_ltb (nz 0) x) qt) as (fl & ->).
      { apply (Hnum "quantity"); [left; reflexivity | exact Hqt]. }
      cbn [bind]. cbv zeta. destruct (0 <? _); eauto. }
    cbv iota zeta. cbv zeta in H1. destruct H1 as (issues1 & ->). cbn [bind].
    destruct (has_column df "sale_date") eqn:S; cbn [bind]; [|eauto].
    apply has_column_iff in S as (sd & Hsd). unfold getitem. rewrite Hsd. cbn [bind].
    destruct (@date_series_to_datetime parse_datetime sd (Hdate sd eq_refl Hsd))
      as (dates & ->).
    cbn [bind]. cbv zeta. destruct (0 <? _); cbn [bind]; eauto. }
  destruct (String.eqb_spec table_name "products") as [Ep|Hp]; [subst table_name|].
  { cbv iota. destruct (has_column df "price") eqn:P; cbn [bind]; [|eauto].
    apply has_column_iff in P as (price & Hprice). unfold getitem. rewrite Hprice.
    cbn [bind].
    destruct (@comparable_series_flags (fun x => num_leb x (nz 0)) price) as (fl & ->).
    { apply (Hnum "price"); [left; reflexivity | exact Hprice]. }
    cbn [bind]. cbv zeta. destruct (0 <? _); cbn [bind]; eauto. }
  destruct (String.eqb_spec table_name "customers") as [Ec|Hc]; [subst table_name|].
  { cbv iota. destruct (has_column df "email") eqn:P; cbn [bind]; [|eauto].
    apply has_column_iff in P as (email & Hemail). unfold getitem. rewrite Hemail.
    cbn [bind].
    destruct (@text_series_contains at_sign email (Htext email eq_refl Hemail)) as (fl & ->).
    cbn [bind]. cbv zeta. destruct (0 <? _); cbn [bind]; eauto. }
  cbn [bind]. eauto.
Qed.

Lemma rules_names (table_name : string) (r : Rules) :
  assoc_get table_name rules = Some r ->
  forall c, In c (map fst (get_default (numeric_ranges r) [])) ->
            In c (number_columns table_name).
Proof.
  unfold rules, number_columns. cbn [assoc_get].
  destruct (String.eqb table_name "sales").
  { intros E. injection E as <-. intros c Hc. exact Hc. }
  destruct (String.eqb table_name "products").
  { intros E. injection E as <-. intros c Hc. exact Hc. }
  destruct (String.eqb table_name "customers"); [|discriminate].
  intros E. injection E as <-. intros c [].
Qed.

(** [validate_data] returns on a table the checks can read, whichever
    columns are absent. *)
Lemma validate_data_returns (parse_datetime : string -> option Timestamp)
  (now : Timestamp) (df : DataFrame) (table_name : string) :
  readable parse_datetime df table_name ->
  exists results,
    validate_data parse_datetime now df table_name = Ok results
    /\ (forall r, assoc_get table_name rules = Some r -> map fst results = check_names).
Proof.
  intros Hread.
  destruct (assoc_get table_name rules) as [r|] eqn:Hr.
  - destruct (@_check_numeric_ranges_returns df (get_default (numeric_ranges r) []))
      as (ranges & Hranges).
    { intros c s Hc. apply (proj1 Hread). exact (rules_names _ Hr _ Hc). }
    destruct (@_run_custom_checks_returns parse_datetime now df table_name Hread)
      as (custom & Hcustom).
    eexists. split; [exact (@validate_data_Ok _ _ _ _ _ _ _ Hr Hranges Hcustom)|].
    intros _ _. reflexivity.
  - exists []. split; [unfold validate_data; rewrite Hr; reflexivity | discriminate].
Qed.

(** ** A check whose columns are all absent *)

Lemma _check_not_null_absent (df : DataFrame) (cols : list string) :
  columns_absent df cols -> _check_not_null df cols = mkQR true (NullCounts []).
Proof.
  intros H. rewrite _check_not_null_skips, (filter_absent _ _ H). reflexivity.
Qed.

Lemma _check_unique_columns_absent (df : DataFrame) (cols : list string) :
  columns_absent df cols -> _check_unique_columns df cols = mkQR true (DuplicateCounts []).
Proof.
  intros H. rewrite _check_unique_columns_skips, (filter_absent _ _ H). reflexivity.
Qed.

Lemma _check_numeric_ranges_absent (df : DataFrame) (ranges : list (string * RangeSpec)) :
  columns_absent df (map fst ranges) ->
  _check_numeric_ranges df ranges = Ok (mkQR true (OutOfRange [])).
Proof.
  intros H. rewrite _check_numeric_ranges_skips.
  rewrite (@filter_absent _ (fun cr : string * RangeSpec => has_column df (fst cr)) ranges)
    by (intros cr Hcr; apply H, in_map, Hcr).
  reflexivity.
Qed.

(** The required-columns check lists the required columns that are
    absent, and fails iff there is one. *)
Lemma _check_required_columns_missing (df : DataFrame) (cols : list string) :
  (forall c, In c (missing_columns_of (_check_required_columns df cols))
             <-> In c cols /\ has_column df c = false)
  /\ (passed (_check_required_columns df cols) = false
      <-> exists c, In c cols /\ has_column df c = false).
Proof.
  unfold _check_required_columns, missing_columns_of. cbn [passed details].
  assert (Hin : forall c, In c (filter (fun col => negb (has_column df col)) cols)
                          <-> In c cols /\ has_column df c = false).
  { intros c. rewrite filter_In, negb_true_iff. reflexivity. }
  split; [exact Hin|].
  destruct (filter (fun col => negb (has_column df col)) cols) as [|m ms] eqn:E; cbn [is_empty].
  - split; [discriminate|]. intros (c & Hc). apply Hin in Hc. destruct Hc.
  - split; [|reflexivity]. intros _. exists m. apply Hin. left. reflexivity.
Qed.

(** C6 (as amended).  No check fails or raises on account of a column
    that is not in the table, the required-columns check apart.  The
    not-null, range and uniqueness checks skip a configured column that is
    absent: the result is that of the check configured without it.  The
    type check and the custom check skip each sub-check by itself: every
    issue they record comes from a sub-check whose columns are in the
    table.  So each of these five checks passes, without an issue, when
    the columns it reads are all absent.  The required-columns check lists
    the required columns that are absent and reports [passed = false] iff
    there is one.  And [validate_data] returns its results, whichever
    columns are absent, on a table whose present columns hold what the
    checks compare. *)
Theorem validate_data_absent_columns
  (parse_datetime : string -> option Timestamp) (now : Timestamp) (df : DataFrame) :
  (* a column that is absent is skipped *)
  ((forall cols,
       _check_not_null df cols = _check_not_null df (filter (has_column df) cols))
   /\ (forall ranges,
          _check_numeric_ranges df ranges
          = _check_numeric_ranges df (filter (fun cr => has_column df (fst cr)) ranges))
   /\ (forall cols,
          _check_unique_columns df cols
          = _check_unique_columns df (filter (has_column df) cols)))
  (* a sub-check whose columns are absent is skipped *)
  /\ ((forall table_name issue,
          In issue (issues_of (_check_data_types df table_name)) ->
          exists col,
            In (col, issue) (type_subchecks table_name) /\ has_column df col = true)
      /\ (forall table_name r issue,
             _run_custom_checks parse_datetime now df table_name = Ok r ->
             In issue (issues_of r) ->
             exists cols text n,
               In (cols, text) (custom_subchecks table_name)
               /\ (forall c, In c cols -> has_column df c = true)
               /\ 0 < n /\ issue = (str_of_nat n ++ text)%string))
  (* a check whose columns are all absent passes without an issue *)
  /\ ((forall cols,
          columns_absent df cols -> _check_not_null df cols = mkQR true (NullCounts []))
      /\ (forall ranges,
             columns_absent df (map fst ranges) ->
             _check_numeric_ranges df ranges = Ok (mkQR true (OutOfRange [])))
      /\ (forall cols,
             columns_absent df cols ->
             _check_unique_columns df cols = mkQR true (DuplicateCounts []))
      /\ (forall table_name,
             columns_absent df (type_columns table_name) ->
             _check_data_types df table_name = mkQR true (Issues []))
      /\ (forall table_name,
             columns_absent df (custom_columns table_name) ->
             _run_custom_checks parse_datetime now df table_name
             = Ok (mkQR true (Issues []))))
  (* the required-columns check *)
  /\ (forall cols,
         (forall c, In c (missing_columns_of (_check_required_columns df cols))
                    <-> In c cols /\ has_column df c = false)
         /\ (passed (_check_required_columns df cols) = false
             <-> exists c, In c cols /\ has_column df c = false))
  (* no check raises *)
  /\ (forall table_name,
         readable parse_datetime df table_name ->
         exists results,
           validate_data parse_datetime now df table_name = Ok results
           /\ (forall r, assoc_get table_name rules = Some r ->
                         map fst results = check_names)).
Proof.
  split; [|split; [|split; [|split]]].
  - split; [apply _check_not_null_skips|].
    split; [apply _check_numeric_ranges_skips | apply _check_unique_columns_skips].
  - split; [intros table_name issue; apply _check_data_types_present|].
    intros table_name r issue. apply _run_custom_checks_present.
  - split; [apply _check_not_null_absent|].
    split; [apply _check_numeric_ranges_absent|].
    split; [apply _check_unique_columns_absent|].
    split; [intros table_name; apply _check_data_types_absent|].
    intros table_name. apply _run_custom_checks_absent.
  - apply _check_required_columns_missing.
  - intros table_name. apply validate_data_returns.
Qed.

Lemma readable_quantities_out_of_range :
  readable iso_parse quantities_out_of_range "sales".
Proof.
  split; [|split].
  - intros c s [<-|[<-|[]]] Hc; [|discriminate].
    injection Hc as <-. apply numeric_series_comparable, numeric_series_nums_of.
  - intros s _ Hc. discriminate.
  - intros s Hc. discriminate.
Qed.

(** A sales table that has a quantity column and nothing else: the
    validation returns; the required-columns check fails; the range check
    counts the quantities; the other checks skip what is absent. *)
Lemma validate_data_absent_columns_witness :
  validate_data iso_parse 0%Z quantities_out_of_range "sales"
  = Ok [ ("required_columns",
          mkQR false (MissingColumns ["sale_id"; "product_id"; "customer_id";
                                      "amount"; "sale_date"]));
         ("not_null_columns", mkQR true (NullCounts []));
         ("numeric_ranges", mkQR false (OutOfRange [("quantity", (1, 1))]));
         ("unique_columns", mkQR true (DuplicateCounts []));
         ("data_types", mkQR true (Issues []));
         ("custom_checks", mkQR true (Issues [])) ].
Proof.
  destruct (proj2 (proj2 (proj2 (proj2
              (validate_data_absent_columns iso_parse 0%Z quantities_out_of_range))))
              "sales" readable_quantities_out_of_range) as (results & Hres & _).
  rewrite Hres. vm_compute in Hres. injection Hres as <-. reflexivity.
Defined.

(** C6 as stated fails twice.  On a table without columns the
    required-columns check of the sales rules, whose columns are all
    absent, reports [passed = false]; and on a sales table whose quantity
    column holds a text, [validate_data] raises a [TypeError]. *)
Lemma validate_data_fails_and_raises :
  (exists res q,
      validate_data iso_parse 0%Z no_columns "sales" = Ok res
      /\ assoc_get "required_columns" res = Some q
      /\ passed q = false)
  /\ (exists e,
         validate_data iso_parse 0%Z text_quantity "sales" = Raise e
         /\ exn_kind e = TypeError).
Proof.
  split.
  - eexists. eexists. split; [vm_compute; reflexivity|]. split; reflexivity.
  - eexists. split; [vm_compute; reflexivity | reflexivity].
Qed.

(** ** The left merge *)

Lemma matches_from_length (i : nat) (k : Cell) (l : list Cell) :
  List.length (matches_from i k l) = occurrences k l.
Proof.
  unfold occurrences. revert i. induction l as [|c l IH]; intros i; [reflexivity|].
  cbn [matches_from filter].
  assert (E : cell_eqb c k = cell_eqb k c).
  { destruct (cell_eqb c k) eqn:E1, (cell_eqb k c) eqn:E2; try reflexivity.
    - apply cell_eqb_iff in E1. subst. rewrite cell_eqb_refl in E2. discriminate.
    - apply cell_eqb_iff in E2. subst. rewrite cell_eqb_refl in E1. discriminate. }
  rewrite E. destruct (cell_eqb k c); cbn [List.length]; rewrite IH; reflexivity.
Qed.

(** A left join never has fewer rows than its left side. *)
Lemma left_join_from_length_ge (i : nat) (lkeys rkeys : list Cell) :
  List.length lkeys <= List.length (left_join_from i lkeys rkeys).
Proof.
  revert i. induction lkeys as [|k l IH]; intros i; [simpl; lia|].
  cbn [left_join_from]. rewrite length_app. specialize (IH (S i)).
  destruct (matches_from 0 k rkeys); simpl in *; lia.
Qed.

(** With at most one match per left key, the join pairs each left row,
    in order, with its match if it has one. *)
Lemma left_join_from_once (i : nat) (lkeys rkeys : list Cell) :
  Forall (fun k => occurrences k rkeys <= 1) lkeys ->
  left_join_from i lkeys rkeys
  = map (fun jk => (fst jk, hd_error (matches_from 0 (snd jk) rkeys)))
        (combine (seq i (List.length lkeys)) lkeys).
Proof.
  intros H. revert i. induction H as [|k l Hk Hl IH]; intros i; [reflexivity|].
  cbn [left_join_from List.length seq combine map fst snd]. rewrite IH.
  rewrite <- matches_from_length with (i := 0) in Hk.
  destruct (matches_from 0 k rkeys) as [|j [|j' js]]; simpl in *; try reflexivity; lia.
Qed.

Lemma left_join_once_length (lkeys rkeys : list Cell) :
  Forall (fun k => occurrences k rkeys <= 1) lkeys ->
  List.length (left_join_indexers lkeys rkeys) = List.length lkeys.
Proof.
  intros H. unfold left_join_indexers. rewrite (@left_join_from_once 0 _ _ H).
  rewrite length_map, length_combine, length_seq. lia.
Qed.

Lemma left_join_once_fst (lkeys rkeys : list Cell) :
  Forall (fun k => occurrences k rkeys <= 1) lkeys ->
  map fst (left_join_indexers lkeys rkeys) = seq 0 (List.length lkeys).
Proof.
  intros H. unfold left_join_indexers. rewrite (@left_join_from_once 0 _ _ H).
  rewrite map_map. cbn [fst].
  generalize 0. clear H. induction lkeys as [|k l IH]; intros i; [reflexivity|].
  cbn [List.length seq combine map fst]. f_equal. apply IH.
Qed.

Lemma map_nth_seq {A : Type} (l : list A) (d : A) :
  map (fun i => nth i l d) (seq 0 (List.length l)) = l.
Proof.
  induction l as [|a l IH]; [reflexivity|].
  cbn [List.length seq map nth]. f_equal.
  rewrite <- seq_shift, map_map. exact IH.
Qed.

(** With at most one match per left key, a left column is carried over
    as it is. *)
Lemma take_left_once (s : Series) (lkeys rkeys : list Cell) :
  Forall (fun k => occurrences k rkeys <= 1) lkeys ->
  List.length (values s) = List.length lkeys ->
  take_left s (left_join_indexers lkeys rkeys) = s.
Proof.
  intros H Hlen. unfold take_left.
  rewrite <- (map_map fst (fun i => nth i (values s) CNull)).
  rewrite (@left_join_once_fst _ _ H), <- Hlen, map_nth_seq.
  destruct s; reflexivity.
Qed.

Lemma suffix_clash_same (l : list string) : suffix_clash l l = false.
Proof.
  unfold suffix_clash. generalize (str_duplicated_from [] l). intros d.
  induction d as [|b d IH]; [reflexivity|].
  cbn [combine existsb fst snd]. rewrite IH. destruct b; reflexivity.
Qed.

Lemma with_suffix_no_overlap (lnames rnames : list string) (key suffix n : string) :
  (forall m, In m lnames -> In m rnames -> m = key) ->
  with_suffix lnames rnames key suffix n = n.
Proof.
  intros H. unfold with_suffix, overlaps.
  destruct (String.eqb_spec n key) as [->|Hn]; [reflexivity|]. cbn [negb andb].
  destruct (str_in n lnames) eqn:El; [|reflexivity].
  destruct (str_in n rnames) eqn:Er; [|reflexivity].
  apply str_in_In in El, Er. exfalso. apply Hn, H; assumption.
Qed.

(** The merge of frames that share no column name but the key, when no
    left key has more than one match: the left columns as they are,
    followed by the right columns other than the key, taken at the
    matching rows. *)
Lemma merge_left_once (left right : DataFrame) (key : string) (lk rk : Series) :
  well_formed left ->
  column left key = Some lk -> column right key = Some rk ->
  dtype_family (dtype lk) = dtype_family (dtype rk) ->
  Forall (fun k => occurrences k (values rk) <= 1) (values lk) ->
  (forall n, In n (column_names left) -> In n (column_names right) -> n = key) ->
  merge_left left right key
  = Ok (mkDF (range_index (nrows left))
          (columns left
           ++ map (fun cs => (fst cs,
                              take_right (snd cs)
                                (left_join_indexers (values lk) (values rk))))
                  (filter (fun cs => negb (String.eqb (fst cs) key)) (columns right)))).
Proof.
  intros Hw Hlk Hrk Hfam Honce Hnames.
  unfold merge_left, getitem. rewrite Hlk, Hrk. cbn [bind].
  rewrite Hfam, Nat.eqb_refl. cbn [negb]. cbv zeta.
  assert (Hid : forall suffix l,
             map (with_suffix (column_names left) (column_names right) key suffix) l = l).
  { intros suffix l. rewrite <- (map_id l) at 2. apply map_ext.
    intros n. apply with_suffix_no_overlap. exact Hnames. }
  rewrite !Hid, !suffix_clash_same. cbn [orb].
  pose proof (@well_formed_column _ _ _ Hw Hlk) as Hlen.
  rewrite (@left_join_once_length _ _ Honce), Hlen. unfold range_index.
  f_equal. f_equal. f_equal.
  - rewrite <- (map_id (columns left)) at 2. apply map_ext_in.
    intros [n s] Hin. cbn [fst snd].
    rewrite (@with_suffix_no_overlap _ _ _ _ _ Hnames).
    rewrite (@take_left_once s _ _ Honce); [reflexivity|].
    unfold well_formed in Hw. rewrite Forall_forall in Hw.
    specialize (Hw _ Hin). cbn [snd] in Hw. rewrite Hw. symmetry. exact Hlen.
  - apply map_ext. intros [n s]. cbn [fst snd].
    rewrite (@with_suffix_no_overlap _ _ _ _ _ Hnames). reflexivity.
Qed.

Lemma assoc_get_app {V : Type} (k : string) (l1 l2 : list (string * V)) :
  assoc_get k (l1 ++ l2)
  = match assoc_get k l1 with Some v => Some v | None => assoc_get k l2 end.
Proof.
  induction l1 as [|[k' v] l1 IH]; simpl; [reflexivity|].
  destruct (String.eqb k k'); [reflexivity | exact IH].
Qed.

Lemma has_column_str_in (df : DataFrame) (c : string) :
  has_column df c = str_in c (column_names df).
Proof. reflexivity. Qed.

Lemma absent_not_In (df : DataFrame) (c : string) :
  has_column df c = false -> ~ In c (column_names df).
Proof.
  intros H Hin. apply str_in_In in Hin. rewrite <- has_column_str_in in Hin. congruence.
Qed.

(** [df[[a, b, c]]] when the three columns are there. *)
Lemma select_three (df : DataFrame) (a b c : string) (sa sb sc : Series) :
  column df a = Some sa -> column df b = Some sb -> column df c = Some sc ->
  select df [a; b; c] = Ok (mkDF (index df) [(a, sa); (b, sb); (c, sc)]).
Proof.
  intros Ha Hb Hc. unfold select. cbn [filter].
  assert (Ea : has_column df a = true) by (apply has_column_iff; eauto).
  assert (Eb : has_column df b = true) by (apply has_column_iff; eauto).
  assert (Ec : has_column df c = true) by (apply has_column_iff; eauto).
  rewrite Ea, Eb, Ec. cbn [negb flat_map]. rewrite Ha, Hb, Hc. reflexivity.
Qed.

Lemma take_right_length (s : Series) (pairs : list (nat * option nat)) :
  List.length (values (take_right s pairs)) = List.length pairs.
Proof. unfold take_right. cbn [values]. apply length_map. Qed.

Lemma length_range_index (n : nat) : List.length (range_index n) = n.
Proof. unfold range_index. rewrite length_map, length_seq. reflexivity. Qed.

(** The cell a joined column has in the row of a left key without a
    match is missing. *)
Lemma take_right_unmatched (s : Series) (lkeys rkeys : list Cell) (i : nat) (k : Cell) :
  Forall (fun k => occurrences k rkeys <= 1) lkeys ->
  nth_error lkeys i = Some k -> occurrences k rkeys = 0 ->
  nth_error (values (take_right s (left_join_indexers lkeys rkeys))) i = Some CNull.
Proof.
  intros Honce Hi Hk. unfold take_right, left_join_indexers. cbn [values].
  rewrite (@left_join_from_once 0 _ _ Honce), map_map. cbn [snd].
  assert (Hn : forall j,
             nth_error (combine (seq j (List.length lkeys)) lkeys) i = Some (j + i, k)).
  { clear Honce Hk. revert i Hi.
    induction lkeys as [|c l IH]; intros i Hi j; [destruct i; discriminate|].
    destruct i as [|i]; cbn in *.
    - injection Hi as ->. rewrite Nat.add_0_r. reflexivity.
    - rewrite (IH i Hi (S j)). f_equal. f_equal. lia. }
  specialize (Hn 0). cbn [Nat.add] in Hn.
  rewrite (map_nth_error _ _ _ Hn). cbn [snd].
  rewrite <- matches_from_length with (i := 0) in Hk.
  destruct (matches_from 0 k rkeys); [reflexivity | discriminate].
Qed.

(** ** The fact table *)

Lemma fact_inputs_two_sales :
  fact_inputs enriched_two_sales enriched_products enriched_customers.
Proof.
  split; [|split; [|split; [|split]]].
  - vm_compute. repeat constructor.
  - eexists. split; [vm_compute; reflexivity|]. split; reflexivity.
  - eexists. split; [vm_compute; reflexivity|]. split; reflexivity.
  - intros c [<-|[<-|[<-|[<-|[]]]]]; reflexivity.
  - repeat split; reflexivity.
Qed.

Lemma key_matches_once_two_sales :
  key_matches_once enriched_two_sales enriched_products "product_id"
  /\ key_matches_once enriched_two_sales enriched_customers "customer_id".
Proof.
  split; eexists; eexists;
    (split; [vm_compute; reflexivity|]);
    (split; [vm_compute; reflexivity|]);
    (split; [reflexivity|]);
    repeat constructor; vm_compute; lia.
Qed.

(** ** The fact table, whatever the matches *)

(** The left rows of the pairs of a join are rows of the left side. *)
Lemma left_join_from_in_range (i : nat) (lkeys rkeys : list Cell) :
  Forall (fun p => fst p < i + List.length lkeys) (left_join_from i lkeys rkeys).
Proof.
  revert i. induction lkeys as [|k l IH]; intros i; [constructor|].
  cbn [left_join_from List.length]. apply Forall_app. split.
  - destruct (matches_from 0 k rkeys) as [|j js].
    + repeat constructor. simpl. lia.
    + apply Forall_forall. intros p Hp. apply in_map_iff in Hp as (x & <- & _).
      simpl. lia.
  - eapply Forall_impl; [|apply (IH (S i))]. simpl. intros p Hp. lia.
Qed.

Lemma assoc_get_map_snd {V W : Type} (g : V -> W) (k : string) (l : list (string * V)) :
  assoc_get k (map (fun cs => (fst cs, g (snd cs))) l) = option_map g (assoc_get k l).
Proof.
  induction l as [|[k' v] l IH]; simpl; [reflexivity|].
  destruct (String.eqb k k'); [reflexivity | exact IH].
Qed.

(** The merge of frames that share no column name but the key. *)
Lemma merge_left_no_overlap (left right : DataFrame) (key : string) (lk rk : Series) :
  column left key = Some lk -> column right key = Some rk ->
  dtype_family (dtype lk) = dtype_family (dtype rk) ->
  (forall n, In n (column_names left) -> In n (column_names right) -> n = key) ->
  merge_left left right key
  = let pairs := left_join_indexers (values lk) (values rk) in
    Ok (mkDF (range_index (List.length pairs))
          (map (fun cs => (fst cs, take_left (snd cs) pairs)) (columns left)
           ++ map (fun cs => (fst cs, take_right (snd cs) pairs))
                  (filter (fun cs => negb (String.eqb (fst cs) key)) (columns right)))).
Proof.
  intros Hlk Hrk Hfam Hnames.
  unfold merge_left, getitem. rewrite Hlk, Hrk. cbn [bind].
  rewrite Hfam, Nat.eqb_refl. cbn [negb]. cbv zeta.
  assert (Hid : forall suffix l,
             map (with_suffix (column_names left) (column_names right) key suffix) l = l).
  { intros suffix l. rewrite <- (map_id l) at 2. apply map_ext.
    intros n. apply with_suffix_no_overlap. exact Hnames. }
  rewrite !Hid, !suffix_clash_same. cbn [orb]. unfold range_index.
  f_equal. f_equal. f_equal; apply map_ext; intros [n s]; cbn [fst snd];
    rewrite (@with_suffix_no_overlap _ _ _ _ _ Hnames); reflexivity.
Qed.

Lemma take_left_numeric (s : Series) (pairs : list (nat * option nat)) :
  forallb num_or_null (values s) = true ->
  forallb num_or_null (values (take_left s pairs)) = true.
Proof.
  intros H. unfold take_left. cbn [values]. apply forallb_forall.
  intros c Hc. apply in_map_iff in Hc as (p & <- & _).
  destruct (nth_in_or_default (fst p) (values s) CNull) as [Hin | ->]; [|reflexivity].
  rewrite forallb_forall in H. apply H, Hin.
Qed.

Lemma take_left_dates (s : Series) (pairs : list (nat * option nat)) :
  forallb date_cell (values s) = true ->
  Forall (fun p => fst p < List.length (values s)) pairs ->
  forallb date_cell (values (take_left s pairs)) = true.
Proof.
  intros H Hr. unfold take_left. cbn [values]. apply forallb_forall.
  intros c Hc. apply in_map_iff in Hc as (p & <- & Hp).
  rewrite Forall_forall in Hr. specialize (Hr p Hp).
  rewrite forallb_forall in H. apply H, nth_In, Hr.
Qed.

(** [create_fact_table] returns on enriched frames with keys that can be
    merged, whatever the values of the amounts and however many matches
    the keys have. *)
Lemma create_fact_table_total (sales_df products_df customers_df : DataFrame) :
  fact_inputs sales_df products_df customers_df ->
  mergeable sales_df products_df "product_id" ->
  mergeable sales_df customers_df "customer_id" ->
  exists fact, create_fact_table sales_df products_df customers_df = Ok fact.
Proof.
  intros (Hw & (am & Ham & Dam & Vam) & (sd & Hsd & Dsd & Vsd) & Habs
          & Hcat & Htier & Hreg & Hseg)
         (lk1 & rk1 & Hlk1 & Hrk1 & Hfam1)
         (lk2 & rk2 & Hlk2 & Hrk2 & Hfam2).
  apply has_column_iff in Hcat as [cat Hcat]. apply has_column_iff in Htier as [tier Htier].
  apply has_column_iff in Hreg as [reg Hreg]. apply has_column_iff in Hseg as [seg Hseg].
  pose proof (absent_not_In _ _ (Habs "category" (or_introl eq_refl))) as Ncat.
  pose proof (absent_not_In _ _ (Habs "price_tier" (or_intror (or_introl eq_refl)))) as Ntier.
  pose proof (absent_not_In _ _ (Habs "region"
                (or_intror (or_intror (or_introl eq_refl))))) as Nreg.
  pose proof (absent_not_In _ _ (Habs "customer_segment"
                (or_intror (or_intror (or_intror (or_introl eq_refl)))))) as Nseg.
  unfold create_fact_table.
  rewrite (@select_three products_df _ _ _ _ _ _ Hrk1 Hcat Htier). cbn [bind].
  rewrite (@merge_left_no_overlap sales_df
             (mkDF (index products_df)
                [("product_id", rk1); ("category", cat); ("price_tier", tier)])
             "product_id" lk1 rk1 Hlk1 eq_refl Hfam1).
  2:{ intros n Hl Hr. cbn in Hr. destruct Hr as [<-|[<-|[<-|[]]]];
      [reflexivity | contradiction | contradiction]. }
  cbv zeta. cbn [bind]. simpl (filter _ _). cbn [map fst snd].
  rewrite (@select_three customers_df _ _ _ _ _ _ Hrk2 Hreg Hseg). cbn [bind].
  set (p1 := left_join_indexers (values lk1) (values rk1)).
  set (fact1 := mkDF (range_index (List.length p1))
                  (map (fun cs => (fst cs, take_left (snd cs) p1)) (columns sales_df)
                   ++ [("category", take_right cat p1); ("price_tier", take_right tier p1)])).
  assert (Hcol1 : forall c s, column sales_df c = Some s ->
                              column fact1 c = Some (take_left s p1)).
  { intros c s Hc. unfold column, fact1. cbn [columns].
    rewrite assoc_get_app, (assoc_get_map_snd (fun s => take_left s p1)).
    unfold column in Hc. rewrite Hc. reflexivity. }
  rewrite (@merge_left_no_overlap fact1
             (mkDF (index customers_df)
                [("customer_id", rk2); ("region", reg); ("customer_segment", seg)])
             "customer_id" (take_left lk2 p1) rk2 (Hcol1 _ _ Hlk2) eq_refl Hfam2).
  2:{ intros n Hl Hr. cbn in Hr.
      unfold column_names, fact1 in Hl. cbn [columns] in Hl.
      rewrite map_app, map_map in Hl. cbn [fst] in Hl. apply in_app_or in Hl.
      destruct Hr as [<-|[<-|[<-|[]]]]; [reflexivity| |];
        (destruct Hl as [Hl|Hl]; [contradiction|]);
        cbn in Hl; destruct Hl as [E|[E|[]]]; discriminate. }
  cbv zeta. cbn [bind]. simpl (filter _ _). cbn [map fst snd].
  set (p2 := left_join_indexers (values (take_left lk2 p1)) (values rk2)).
  set (fact2 := mkDF (range_index (List.length p2))
                  (map (fun cs => (fst cs, take_left (snd cs) p2)) (columns fact1)
                   ++ [("region", take_right reg p2);
                       ("customer_segment", take_right seg p2)])).
  assert (Hcol2 : forall c s, column sales_df c = Some s ->
                              column fact2 c = Some (take_left (take_left s p1) p2)).
  { intros c s Hc. unfold column, fact2. cbn [columns].
    rewrite assoc_get_app, (assoc_get_map_snd (fun s => take_left s p2)).
    fold (column fact1 c).
    rewrite (Hcol1 _ _ Hc). reflexivity. }
  unfold assign, getitem. rewrite (Hcol2 _ _ Ham). cbn [bind].
  destruct (numeric_series_as_nums (take_left (take_left am p1) p2) Dam
              (take_left_numeric _ _ (take_left_numeric _ _ Vam))) as (xs & Hxs).
  unfold pd_cut. rewrite Hxs. cbn [bind].
  rewrite column_setitem. simpl String.eqb. cbv iota.
  rewrite (Hcol2 _ _ Hsd). cbn [bind].
  set (sd2 := take_left (take_left sd p1) p2).
  assert (Dsd2 : dtype sd2 = Datetime) by exact Dsd.
  assert (Hd : forallb date_cell (values sd2) = true).
  { apply take_left_dates; [apply take_left_dates; [exact Vsd|]|].
    - rewrite (@well_formed_column _ _ _ Hw Hsd), <- (@well_formed_column _ _ _ Hw Hlk1).
      apply (left_join_from_in_range 0).
    - unfold take_left at 1. cbn [values]. rewrite length_map.
      replace (List.length p1) with (List.length (values (take_left lk2 p1)))
        by (unfold take_left; cbn [values]; apply length_map).
      apply (left_join_from_in_range 0). }
  unfold dt_date_key, dt_values. rewrite Dsd2. cbn [bind].
  assert (Hks : exists ks,
             mapM (fun c => match c with
                            | CDate t => Ok (CNum (nz (ts_date_key t)))
                            | _ => Raise (mkExn ValueError
                                            "cannot convert float NaN to integer")
                            end) (values sd2) = Ok ks).
  { apply mapM_total. rewrite forallb_forall in Hd. apply Forall_forall.
    intros c Hc. specialize (Hd c Hc). destruct c; try discriminate. eauto. }
  destruct Hks as (ks & Hks). rewrite Hks. cbn [bind].
  eauto.
Qed.

Lemma key_matches_once_mergeable (left right : DataFrame) (key : string) :
  key_matches_once left right key -> mergeable left right key.
Proof.
  intros (lk & rk & Hlk & Hrk & Hfam & _). exists lk, rk. auto.
Qed.

(** ** The fact table that [create_fact_table] returned *)

Lemma merge_left_Ok_inv (left right m : DataFrame) (key : string) :
  merge_left left right key = Ok m ->
  exists lk rk,
    column left key = Some lk /\ column right key = Some rk
    /\ dtype_family (dtype lk) = dtype_family (dtype rk)
    /\ let lnames := column_names left in
       let rnames := column_names right in
       let pairs := left_join_indexers (values lk) (values rk) in
       m = mkDF (range_index (List.length pairs))
             (map (fun cs => (with_suffix lnames rnames key "_x" (fst cs),
                              take_left (snd cs) pairs)) (columns left)
              ++ map (fun cs => (with_suffix lnames rnames key "_y" (fst cs),
                                 take_right (snd cs) pairs))
                     (filter (fun cs => negb (String.eqb (fst cs) key)) (columns right))).
Proof.
  unfold merge_left. intros H.
  apply bind_Ok_inv in H as (lk & Hlk & H).
  apply bind_Ok_inv in H as (rk & Hrk & H).
  apply getitem_Ok in Hlk, Hrk.
  destruct (dtype_family (dtype lk) =? dtype_family (dtype rk)) eqn:Hfam;
    cbn [negb] in H; [|discriminate].
  apply Nat.eqb_eq in Hfam. cbv zeta in H.
  destruct (suffix_clash _ _ || suffix_clash _ _); [discriminate|].
  injection H as <-. exists lk, rk. repeat split; assumption.
Qed.

(** A column of the left frame whose name no renamed column takes is in
    the merged frame under its name, taken along the row pairs. *)
Lemma assoc_get_renamed {V W : Type} (ren : string -> string) (g : V -> W) (c : string)
  (l : list (string * V)) :
  ren c = c -> (forall n, In n (map fst l) -> ren n = c -> n = c) ->
  assoc_get c (map (fun cs => (ren (fst cs), g (snd cs))) l) = option_map g (assoc_get c l).
Proof.
  intros Hc Hren. induction l as [|[k v] l IH]; [reflexivity|].
  cbn [map assoc_get fst snd].
  destruct (String.eqb_spec c k) as [->|Hck].
  - rewrite Hc, String.eqb_refl. reflexivity.
  - destruct (String.eqb_spec c (ren k)) as [E|_].
    + exfalso. apply Hck. symmetry. apply Hren; [left; reflexivity | auto].
    + apply IH. intros n Hn. apply Hren. right. exact Hn.
Qed.

Lemma select_Ok_inv (df d : DataFrame) (cols : list string) :
  select df cols = Ok d ->
  (forall c, In c cols -> has_column df c = true)
  /\ d = mkDF (index df)
           (flat_map (fun c => match column df c with
                               | Some s => [(c, s)]
                               | None => []
                               end) cols).
Proof.
  unfold select. intros H.
  destruct (filter (fun c => negb (has_column df c)) cols) as [|m ms] eqn:E; [|discriminate].
  injection H as <-. split; [|reflexivity].
  intros c Hc. destruct (has_column df c) eqn:Ec; [reflexivity|].
  assert (Hin : In c (filter (fun c => negb (has_column df c)) cols))
    by (apply filter_In; split; [exact Hc | rewrite Ec; reflexivity]).
  rewrite E in Hin. destruct Hin.
Qed.

Lemma select_three_inv (df d : DataFrame) (a b c : string) :
  select df [a; b; c] = Ok d ->
  exists sa sb sc,
    column df a = Some sa /\ column df b = Some sb /\ column df c = Some sc
    /\ d = mkDF (index df) [(a, sa); (b, sb); (c, sc)].
Proof.
  intros H. apply select_Ok_inv in H as [Hall ->].
  destruct (proj1 (has_column_iff df a) (Hall a (or_introl eq_refl))) as (sa & Ha).
  destruct (proj1 (has_column_iff df b) (Hall b (or_intror (or_introl eq_refl)))) as (sb & Hb).
  destruct (proj1 (has_column_iff df c)
              (Hall c (or_intror (or_intror (or_introl eq_refl))))) as (sc & Hc).
  exists sa, sb, sc. cbn [flat_map]. rewrite Ha, Hb, Hc. repeat split; reflexivity.
Qed.

(** The key of the second merge, after the first: the customer column of
    the sales, taken along the row pairs of the first merge. *)
Lemma merge_products_customer_id (sales_df : DataFrame) (rk cat tier : Series)
  (ix : list Z) (fact1 : DataFrame) :
  merge_left sales_df
    (mkDF ix [("product_id", rk); ("category", cat); ("price_tier", tier)])
    "product_id" = Ok fact1 ->
  exists lk,
    column sales_df "product_id" = Some lk
    /\ nrows fact1 = List.length (left_join_indexers (values lk) (values rk))
    /\ column fact1 "customer_id"
       = option_map (fun s => take_left s (left_join_indexers (values lk) (values rk)))
           (column sales_df "customer_id").
Proof.
  intros H. apply merge_left_Ok_inv in H as (lk & rk' & Hlk & Hrk & _ & ->).
  cbv zeta. injection Hrk as <-. exists lk. split; [exact Hlk|].
  split; [unfold nrows; cbn [index]; apply length_range_index|].
  unfold column at 1. cbn [columns]. rewrite assoc_get_app.
  set (lnames := column_names sales_df).
  set (rnames := column_names (mkDF ix [("product_id", rk); ("category", cat);
                                        ("price_tier", tier)])).
  assert (Hover : forall n suffix,
             with_suffix lnames rnames "product_id" suffix n = n
             \/ (n = "category" \/ n = "price_tier")
                /\ with_suffix lnames rnames "product_id" suffix n = (n ++ suffix)%string).
  { intros n suffix. unfold with_suffix, overlaps.
    destruct (String.eqb_spec n "product_id") as [->|Hn]; cbn [negb andb]; [left; reflexivity|].
    destruct (str_in n lnames); cbn [andb]; [|left; reflexivity].
    destruct (str_in n rnames) eqn:Er; [|left; reflexivity].
    right. split; [|reflexivity]. apply str_in_In in Er. cbn in Er.
    destruct Er as [E|[E|[E|[]]]]; [congruence | auto | auto]. }
  rewrite (@assoc_get_renamed _ _ (with_suffix lnames rnames "product_id" "_x")
             (fun s => take_left s (left_join_indexers (values lk) (values rk)))
             "customer_id").
  - unfold column. destruct (assoc_get "customer_id" (columns sales_df)); [reflexivity|].
    cbn [option_map]. cbn [filter columns fst String.eqb Ascii.eqb Bool.eqb negb map snd].
    cbn [assoc_get].
    destruct (Hover "category" "_y") as [->|[_ ->]];
      destruct (Hover "price_tier" "_y") as [->|[_ ->]]; reflexivity.
  - destruct (Hover "customer_id" "_x") as [E|[[E|E] _]]; [exact E | discriminate..].
  - intros n _ E. destruct (Hover n "_x") as [E'|[[->| ->] E']]; rewrite E' in E;
      [exact E | discriminate..].
Qed.

Lemma assign_nrows (df df' : DataFrame) (dst src : string) (f : Series -> Result Series) :
  assign df dst src f = Ok df' -> nrows df' = nrows df.
Proof.
  intros H. apply assign_Ok in H as (s & s' & _ & _ & ->). reflexivity.
Qed.

(** With at most one match per key, a fact table that was returned has
    the rows of the sales table. *)
Lemma create_fact_table_nrows (sales_df products_df customers_df fact : DataFrame) :
  well_formed sales_df ->
  keys_match_at_most_once sales_df products_df "product_id" ->
  keys_match_at_most_once sales_df customers_df "customer_id" ->
  create_fact_table sales_df products_df customers_df = Ok fact ->
  nrows fact = nrows sales_df.
Proof.
  intros Hw Hk1 Hk2 H. unfold create_fact_table in H.
  apply bind_Ok_inv in H as (products & Hp & H).
  apply bind_Ok_inv in H as (fact1 & Hm1 & H).
  apply bind_Ok_inv in H as (customers & Hc & H).
  apply bind_Ok_inv in H as (fact2 & Hm2 & H).
  apply bind_Ok_inv in H as (fact3 & Ha1 & Ha2).
  apply assign_nrows in Ha1, Ha2. rewrite Ha2, Ha1.
  apply select_three_inv in Hp as (rk1 & cat & tier & Hrk1 & _ & _ & ->).
  apply select_three_inv in Hc as (rk2 & reg & seg & Hrk2 & _ & _ & ->).
  apply merge_products_customer_id in Hm1 as (lk1 & Hlk1 & Hn1 & Hcust).
  apply merge_left_Ok_inv in Hm2 as (lk2' & rk2' & Hlk2' & Hrk2' & _ & ->).
  injection Hrk2' as <-. cbv zeta. unfold nrows at 1. cbn [index].
  rewrite length_range_index.
  pose proof (Hk1 lk1 rk1 Hlk1 Hrk1) as Honce1.
  rewrite Hlk2' in Hcust.
  destruct (column sales_df "customer_id") as [lk2|] eqn:Hlk2; [|discriminate].
  injection Hcust as ->.
  pose proof (Hk2 lk2 rk2 Hlk2 Hrk2) as Honce2.
  rewrite (@take_left_once lk2 _ _ Honce1)
    by (rewrite (well_formed_column _ Hw Hlk2), (well_formed_column _ Hw Hlk1); reflexivity).
  rewrite (@left_join_once_length _ _ Honce2).
  apply (well_formed_column _ Hw Hlk2).
Qed.

(** The same fact table when the sales table has no column named like a
    joined one: the sales columns as they are, the joined columns, the
    revenue category and the date key. *)
Lemma create_fact_table_once_inv (sales_df products_df customers_df fact : DataFrame) :
  well_formed sales_df ->
  columns_absent sales_df joined_columns ->
  keys_match_at_most_once sales_df products_df "product_id" ->
  keys_match_at_most_once sales_df customers_df "customer_id" ->
  create_fact_table sales_df products_df customers_df = Ok fact ->
  exists lk1 rk1 lk2 rk2 cat tier reg seg rc dk,
    column sales_df "product_id" = Some lk1
    /\ column products_df "product_id" = Some rk1
    /\ column sales_df "customer_id" = Some lk2
    /\ column customers_df "customer_id" = Some rk2
    /\ Forall (fun k => occurrences k (values rk1) <= 1) (values lk1)
    /\ Forall (fun k => occurrences k (values rk2) <= 1) (values lk2)
    /\ fact
       = setitem
           (setitem
              (mkDF (range_index (nrows sales_df))
                 ((columns sales_df
                   ++ [ ("category",
                         take_right cat (left_join_indexers (values lk1) (values rk1)));
                        ("price_tier",
                         take_right tier (left_join_indexers (values lk1) (values rk1))) ])
                  ++ [ ("region",
                        take_right reg (left_join_indexers (values lk2) (values rk2)));
                       ("customer_segment",
                        take_right seg (left_join_indexers (values lk2) (values rk2))) ]))
              "revenue_category" rc)
           "date_key" dk.
Proof.
  intros Hw Habs Hk1 Hk2 H.
  pose proof (absent_not_In _ _ (Habs "category" (or_introl eq_refl))) as Ncat.
  pose proof (absent_not_In _ _ (Habs "price_tier" (or_intror (or_introl eq_refl)))) as Ntier.
  pose proof (absent_not_In _ _ (Habs "region"
                (or_intror (or_intror (or_introl eq_refl))))) as Nreg.
  pose proof (absent_not_In _ _ (Habs "customer_segment"
                (or_intror (or_intror (or_intror (or_introl eq_refl)))))) as Nseg.
  unfold create_fact_table in H.
  apply bind_Ok_inv in H as (products & Hp & H).
  apply bind_Ok_inv in H as (fact1 & Hm1 & H).
  apply bind_Ok_inv in H as (customers & Hc & H).
  apply bind_Ok_inv in H as (fact2 & Hm2 & H).
  apply bind_Ok_inv in H as (fact3 & Ha1 & Ha2).
  apply select_three_inv in Hp as (rk1 & cat & tier & Hrk1 & _ & _ & ->).
  apply select_three_inv in Hc as (rk2 & reg & seg & Hrk2 & _ & _ & ->).
  pose proof Hm1 as Hm1'.
  apply merge_left_Ok_inv in Hm1' as (lk1 & rk1' & Hlk1 & Hrk1' & Hfam1 & _).
  injection Hrk1' as <-.
  pose proof (Hk1 lk1 rk1 Hlk1 Hrk1) as Honce1.
  rewrite (@merge_left_once sales_df
             (mkDF (index products_df)
                [("product_id", rk1); ("category", cat); ("price_tier", tier)])
             "product_id" lk1 rk1 Hw Hlk1 eq_refl Hfam1 Honce1) in Hm1.
  2:{ intros n Hl Hr. cbn in Hr. destruct Hr as [<-|[<-|[<-|[]]]];
      [reflexivity | contradiction | contradiction]. }
  injection Hm1 as <-. simpl (filter _ _) in Hm2. cbn [map fst snd] in Hm2.
  set (p1 := left_join_indexers (values lk1) (values rk1)) in *.
  set (fact1 := mkDF (range_index (nrows sales_df))
                  (columns sales_df
                   ++ [("category", take_right cat p1); ("price_tier", take_right tier p1)]))
    in *.
  assert (Hn1 : nrows fact1 = nrows sales_df) by apply length_range_index.
  assert (Hp1 : List.length p1 = nrows sales_df).
  { unfold p1. rewrite (@left_join_once_length _ _ Honce1).
    apply (@well_formed_column _ _ _ Hw Hlk1). }
  assert (Hw1 : well_formed fact1).
  { unfold well_formed. rewrite Hn1. cbn [fact1 columns].
    apply Forall_app. split; [exact Hw|].
    repeat constructor; cbn [snd]; rewrite take_right_length; exact Hp1. }
  assert (Hcol1 : forall c s, column sales_df c = Some s -> column fact1 c = Some s).
  { intros c s Hcs. unfold column, fact1. cbn [columns]. rewrite assoc_get_app.
    unfold column in Hcs. rewrite Hcs. reflexivity. }
  pose proof Hm2 as Hm2'.
  apply merge_left_Ok_inv in Hm2' as (lk2 & rk2' & Hlk2' & Hrk2' & Hfam2 & _).
  injection Hrk2' as <-.
  assert (Hlk2 : column sales_df "customer_id" = Some lk2).
  { unfold column, fact1 in Hlk2'. cbn [columns] in Hlk2'. rewrite assoc_get_app in Hlk2'.
    unfold column. destruct (assoc_get "customer_id" (columns sales_df)); [exact Hlk2'|].
    discriminate. }
  pose proof (Hk2 lk2 rk2 Hlk2 Hrk2) as Honce2.
  rewrite (@merge_left_once fact1
             (mkDF (index customers_df)
                [("customer_id", rk2); ("region", reg); ("customer_segment", seg)])
             "customer_id" lk2 rk2 Hw1 (Hcol1 _ _ Hlk2) eq_refl Hfam2 Honce2) in Hm2.
  2:{ intros n Hl Hr. cbn in Hr.
      unfold column_names, fact1 in Hl. cbn [columns] in Hl.
      rewrite map_app in Hl. apply in_app_or in Hl.
      destruct Hr as [<-|[<-|[<-|[]]]]; [reflexivity| |];
        (destruct Hl as [Hl|Hl]; [contradiction|]);
        cbn in Hl; destruct Hl as [E|[E|[]]]; discriminate. }
  injection Hm2 as <-. simpl (filter _ _) in Ha1. cbn [map fst snd] in Ha1.
  rewrite Hn1 in Ha1.
  apply assign_Ok in Ha1 as (am & rc & _ & _ & ->).
  apply assign_Ok in Ha2 as (sd & dk & _ & _ & ->).
  exists lk1, rk1, lk2, rk2, cat, tier, reg, seg, rc, dk.
  repeat split; assumption || reflexivity.
Qed.

(** C2 (as amended).  When no product_id of a sales row is the key of
    more than one products row and no customer_id of a sales row is the
    key of more than one customers row, a fact table that
    [create_fact_table] returns has exactly as many rows as the sales
    table.  When moreover the sales table has no column named like a
    joined one, every sales column is in the fact table as it was, and
    the joined columns hold missing values in the rows whose key has no
    match.  [create_fact_table] returns such a table on enriched frames
    whose sale dates are timestamps without a missing one. *)
Theorem create_fact_table_row_count (sales_df products_df customers_df : DataFrame) :
  well_formed sales_df ->
  keys_match_at_most_once sales_df products_df "product_id" ->
  keys_match_at_most_once sales_df customers_df "customer_id" ->
  (forall fact,
      create_fact_table sales_df products_df customers_df = Ok fact ->
      nrows fact = nrows sales_df
      /\ (columns_absent sales_df joined_columns ->
          (forall c s,
              column sales_df c = Some s ->
              c <> "revenue_category" -> c <> "date_key" ->
              column fact c = Some s)
          /\ (forall i k rk,
                 cell_at sales_df "product_id" i = Some k ->
                 column products_df "product_id" = Some rk ->
                 occurrences k (values rk) = 0 ->
                 cell_at fact "category" i = Some CNull
                 /\ cell_at fact "price_tier" i = Some CNull)
          /\ (forall i k rk,
                 cell_at sales_df "customer_id" i = Some k ->
                 column customers_df "customer_id" = Some rk ->
                 occurrences k (values rk) = 0 ->
                 cell_at fact "region" i = Some CNull
                 /\ cell_at fact "customer_segment" i = Some CNull)))
  /\ (fact_inputs sales_df products_df customers_df ->
      mergeable sales_df products_df "product_id" ->
      mergeable sales_df customers_df "customer_id" ->
      exists fact, create_fact_table sales_df products_df customers_df = Ok fact).
Proof.
  intros Hw Hk1 Hk2. split; [|apply create_fact_table_total].
  intros fact Hfact. split; [exact (create_fact_table_nrows Hw Hk1 Hk2 Hfact)|].
  intros Habs.
  destruct (create_fact_table_once_inv Hw Habs Hk1 Hk2 Hfact)
    as (lk1 & rk1 & lk2 & rk2 & cat & tier & reg & seg & rc & dk
        & Hlk1 & Hrk1 & Hlk2 & Hrk2 & Honce1 & Honce2 & ->).
  assert (Hnone : forall c, In c joined_columns -> assoc_get c (columns sales_df) = None).
  { intros c Hc. apply has_column_false_iff, Habs, Hc. }
  split; [|split].
  - intros c s Hc Hrev Hkey.
    rewrite !column_setitem.
    apply String.eqb_neq in Hrev, Hkey. rewrite Hrev, Hkey.
    unfold column in *. cbn [columns]. rewrite !assoc_get_app, Hc. reflexivity.
  - intros i k rk Hi Hrk Hocc. rewrite Hrk1 in Hrk. injection Hrk as <-.
    unfold cell_at in *. rewrite Hlk1 in Hi.
    rewrite !column_setitem. simpl String.eqb. cbv iota.
    unfold column. cbn [columns]. rewrite !assoc_get_app.
    rewrite (Hnone "category") by (simpl; auto).
    rewrite (Hnone "price_tier") by (simpl; auto).
    simpl assoc_get.
    split; apply (@take_right_unmatched _ _ _ i k Honce1 Hi Hocc).
  - intros i k rk Hi Hrk Hocc. rewrite Hrk2 in Hrk. injection Hrk as <-.
    unfold cell_at in *. rewrite Hlk2 in Hi.
    rewrite !column_setitem. simpl String.eqb. cbv iota.
    unfold column. cbn [columns]. rewrite !assoc_get_app.
    rewrite (Hnone "region") by (simpl; auto).
    rewrite (Hnone "customer_segment") by (simpl; auto 6).
    simpl assoc_get.
    split; apply (@take_right_unmatched _ _ _ i k Honce2 Hi Hocc).
Qed.

Lemma keys_match_at_most_once_two_sales :
  keys_match_at_most_once enriched_two_sales enriched_products "product_id"
  /\ keys_match_at_most_once enriched_two_sales enriched_customers "customer_id".
Proof.
  split; intros lk rk Hlk Hrk; vm_compute in Hlk, Hrk;
    injection Hlk as <-; injection Hrk as <-;
    repeat constructor; vm_compute; lia.
Qed.

Lemma create_fact_table_row_count_witness :
  exists fact,
    create_fact_table enriched_two_sales enriched_products enriched_customers = Ok fact
    /\ nrows fact = 2
    /\ cell_at fact "category" 1 = Some CNull
    /\ cell_at fact "region" 1 = Some CNull.
Proof.
  assert (Hw : well_formed enriched_two_sales) by (vm_compute; repeat constructor).
  destruct (@create_fact_table_row_count enriched_two_sales enriched_products
              enriched_customers Hw
              (proj1 keys_match_at_most_once_two_sales)
              (proj2 keys_match_at_most_once_two_sales)) as [Hrows Hret].
  destruct (Hret fact_inputs_two_sales
              (key_matches_once_mergeable (proj1 key_matches_once_two_sales))
              (key_matches_once_mergeable (proj2 key_matches_once_two_sales)))
    as (fact & Hfact).
  exists fact. split; [exact Hfact|].
  destruct (Hrows fact Hfact) as (Hn & Hcells).
  split; [exact Hn|].
  destruct Hcells as (_ & Hprod & Hcust).
  { intros c [<-|[<-|[<-|[<-|[]]]]]; reflexivity. }
  split.
  - apply (Hprod 1 (CNum (nz 999)) (nums [101; 102; 103]%Z)); reflexivity.
  - apply (Hcust 1 (CNum (nz 999)) (nums [201; 202; 203]%Z)); reflexivity.
Defined.

(** C2 as stated fails: one sale of product 101 joined to a products
    table that lists product 101 twice gives a fact table of two rows. *)
Lemma create_fact_table_repeats_rows :
  exists fact,
    create_fact_table enriched_one_sale enriched_products_listed_twice
      enriched_customers = Ok fact
    /\ nrows enriched_one_sale = 1
    /\ nrows fact = 2.
Proof.
  eexists. split; [vm_compute; reflexivity|]. split; reflexivity.
Qed.

(** The revenue category of a fact table is the cut of its amounts. *)
Lemma create_fact_table_revenue (sales_df products_df customers_df fact : DataFrame) :
  create_fact_table sales_df products_df customers_df = Ok fact ->
  exists amount rc,
    column fact "amount" = Some amount
    /\ pd_cut amount revenue_bins revenue_labels = Ok rc
    /\ column fact "revenue_category" = Some rc.
Proof.
  unfold create_fact_table. intros H.
  apply bind_Ok_inv in H as (products & _ & H).
  apply bind_Ok_inv in H as (fact1 & _ & H).
  apply bind_Ok_inv in H as (customers & _ & H).
  apply bind_Ok_inv in H as (fact2 & _ & H).
  step_assign H. apply assign_Ok in H as (sd & dk & Hsd & Hdk & ->). subst.
  exists s, s0. rewrite !column_setitem. simpl String.eqb. cbv iota. auto.
Qed.

(** C10.  A product row with a price at or below 0 gets no price tier,
    and a fact-table row with an amount at or below 0 gets no revenue
    category: the value is not above the first edge of the bins.  The
    product transform and the fact table assembly return on typed frames
    whatever the prices and amounts are. *)
Theorem nonpositive_values_get_no_label
  (now : Timestamp) (df sales_df products_df customers_df : DataFrame) :
  ((product_frame df -> exists df', transform_product_data now df = Ok df')
   /\ forall df' i x,
       transform_product_data now df = Ok df' ->
       cell_at df "price" i = Some (CNum x) -> num_le x (nz 0) ->
       cell_at df' "price_tier" i = Some CNull)
  /\ ((fact_inputs sales_df products_df customers_df ->
       mergeable sales_df products_df "product_id" ->
       mergeable sales_df customers_df "customer_id" ->
       exists fact, create_fact_table sales_df products_df customers_df = Ok fact)
      /\ forall fact i x,
          create_fact_table sales_df products_df customers_df = Ok fact ->
          cell_at fact "amount" i = Some (CNum x) -> num_le x (nz 0) ->
          cell_at fact "revenue_category" i = Some CNull).
Proof.
  split; split.
  - apply transform_product_data_total.
  - intros df' i x H Hx Hle.
    destruct (transform_product_data_price_tier _ _ H) as (price & tier & Hp & Hcut & Ht).
    unfold cell_at in *. rewrite Hp in Hx. rewrite Ht.
    destruct (pd_cut_cell _ _ _ Hcut _ Hx) as (o & Ho & Hn).
    simpl in Ho. injection Ho as <-. rewrite Hn. f_equal.
    apply (proj2 (proj2 (proj2 (proj2 (price_tier_of_number x))))). exact Hle.
  - apply create_fact_table_total.
  - intros fact i x H Hx Hle.
    destruct (create_fact_table_revenue _ _ _ H) as (amount & rc & Ha & Hcut & Hrc).
    unfold cell_at in *. rewrite Ha in Hx. rewrite Hrc.
    destruct (pd_cut_cell _ _ _ Hcut _ Hx) as (o & Ho & Hn).
    simpl in Ho. injection Ho as <-. rewrite Hn. f_equal.
    apply revenue_category_of_nonpositive. exact Hle.
Qed.

Lemma nonpositive_values_get_no_label_witness :
  (exists df',
      transform_product_data 0%Z edge_product_data = Ok df'
      /\ cell_at df' "price_tier" 2 = Some CNull
      /\ cell_at df' "price_tier" 3 = Some CNull)
  /\ (exists fact,
         create_fact_table enriched_two_sales enriched_products enriched_customers
         = Ok fact
         /\ cell_at fact "revenue_category" 1 = Some CNull).
Proof.
  destruct (nonpositive_values_get_no_label 0%Z edge_product_data
              enriched_two_sales enriched_products enriched_customers)
    as ((Htot & Hrow) & (Hftot & Hfrow)).
  split.
  - destruct (Htot product_frame_edge_product_data) as (df' & Hdf').
    exists df'. split; [exact Hdf'|]. split.
    + apply (Hrow df' 2 (nz 0) Hdf' eq_refl). unfold num_le, num_lt, nz, qz, Qclt.
      simpl. lra.
    + apply (Hrow df' 3 (nz (-5)) Hdf' eq_refl). unfold num_le, num_lt, nz, qz, Qclt.
      simpl. lra.
  - destruct (Hftot fact_inputs_two_sales
                (key_matches_once_mergeable (proj1 key_matches_once_two_sales))
                (key_matches_once_mergeable (proj2 key_matches_once_two_sales)))
      as (fact & Hfact).
    exists fact. split; [exact Hfact|].
    pose proof Hfact as Hf. vm_compute in Hf. injection Hf as Hf.
    eapply (Hfrow fact 1 _ Hfact).
    + rewrite <- Hf. reflexivity.
    + unfold num_le, num_lt, nz, qz, Qclt. simpl. lra.
Defined.


(* ================================================================== *)
(** * Further properties of the quality checks *)
(* ================================================================== *)

Lemma null_count_occurrences (s : Series) :
  null_count s = occurrences CNull (values s).
Proof.
  unfold null_count, occurrences. f_equal.
Qed.

Lemma occurrences_zero_iff (v : Cell) (l : list Cell) :
  occurrences v l = 0 <-> ~ In v l.
Proof.
  unfold occurrences. induction l as [|c l IH]; cbn [filter In].
  - simpl. tauto.
  - destruct (cell_eqb v c) eqn:E.
    + apply cell_eqb_iff in E. subst. simpl. split; [discriminate | tauto].
    + rewrite IH. split.
      * intros H [Hc|Hc]; [|tauto]. subst.
        rewrite cell_eqb_refl in E. discriminate.
      * tauto.
Qed.

(** X1.  The not-null check records, for every listed column that is in the
    table, the number of its missing cells (a column without missing cells
    is left out of the details), and passes iff no such column has a
    missing cell. *)
Theorem _check_not_null_counts (df : DataFrame) (cols : list string) :
  let r := _check_not_null df cols in
  (forall col s,
      In col cols -> column df col = Some s ->
      recorded_count (null_counts_of r) col = occurrences CNull (values s))
  /\ (passed r = true <->
      forall col s, In col cols -> column df col = Some s -> ~ In CNull (values s)).
Proof.
  intros r.
  assert (Hget : forall c,
             assoc_get c (null_counts_of r)
             = match column df c with
               | Some s => if str_in c cols && (0 <? null_count s)
                           then Some (null_count s) else None
               | None => None
               end).
  { intros c. unfold r, _check_not_null, null_counts_of. cbn [details].
    exact (fold_counts_get df null_count cols [] c). }
  split.
  - intros col s Hin Hcol. rewrite <- null_count_occurrences.
    unfold recorded_count. rewrite Hget, Hcol.
    apply str_in_In in Hin. rewrite Hin. cbn [andb].
    destruct (0 <? null_count s) eqn:E0; [reflexivity|].
    apply Nat.ltb_ge in E0. lia.
  - assert (Hp : passed r = is_empty (null_counts_of r)) by reflexivity.
    rewrite Hp, is_empty_assoc. split.
    + intros H col s Hin Hcol. specialize (H col). rewrite Hget, Hcol in H.
      apply str_in_In in Hin. rewrite Hin in H. cbn [andb] in H.
      apply occurrences_zero_iff. rewrite <- null_count_occurrences.
      destruct (0 <? null_count s) eqn:E0; [discriminate|].
      apply Nat.ltb_ge in E0. lia.
    + intros H c. rewrite Hget. destruct (column df c) as [s|] eqn:Ec; [|reflexivity].
      destruct (str_in c cols) eqn:Ein; [|reflexivity]. cbn [andb].
      apply str_in_In in Ein. specialize (H c s Ein Ec).
      apply occurrences_zero_iff in H. rewrite <- null_count_occurrences in H.
      rewrite H. reflexivity.
Qed.

Lemma _check_not_null_counts_witness :
  recorded_count
    (null_counts_of (_check_not_null bad_data ["sale_id"; "product_id"])) "sale_id" = 1
  /\ passed (_check_not_null bad_data ["sale_id"; "product_id"]) = false.
Proof.
  destruct (_check_not_null_counts bad_data ["sale_id"; "product_id"]) as [Hc Hp].
  split.
  - rewrite (Hc "sale_id" (mkSeries Numeric [CNum (nz 1); CNum (nz 1); CNull])
               (or_introl eq_refl) eq_refl).
    reflexivity.
  - destruct (passed (_check_not_null bad_data ["sale_id"; "product_id"])) eqn:E;
      [|reflexivity].
    exfalso.
    apply (proj1 Hp eq_refl "sale_id"
             (mkSeries Numeric [CNum (nz 1); CNum (nz 1); CNull])
             (or_introl eq_refl) eq_refl).
    simpl. auto.
Defined.


(* ================================================================== *)
(** * Further properties of the sales transform *)
(* ================================================================== *)

Lemma combine_map {A B C D : Type} (f : A -> C) (g : B -> D) (l : list A) (l' : list B) :
  combine (map f l) (map g l') = map (fun p => (f (fst p), g (snd p))) (combine l l').
Proof.
  revert l'. induction l as [|a l IH]; intros [|b l']; simpl; try reflexivity.
  f_equal. apply IH.
Qed.

(** The columns the sales transform computes from the amounts and the
    quantities, on a raw sales frame. *)
Lemma transform_sales_data_columns parse_datetime now (df : DataFrame) (sd am qt : Series) :
  column df "sale_date" = Some sd -> dtype sd = Object ->
  forallb (parseable parse_datetime) (values sd) = true ->
  column df "amount" = Some am -> numeric_series am ->
  column df "quantity" = Some qt -> numeric_series qt ->
  exists df' vs,
    transform_sales_data parse_datetime now df = Ok df'
    /\ mapM (cell_to_datetime parse_datetime) (values sd) = Ok vs
    /\ column df' "sale_date" = Some (mkSeries Datetime vs)
    /\ column df' "amount"
       = Some (mkSeries Numeric (map (fun c => fill_zero (round_cell c)) (values am)))
    /\ column df' "quantity" = Some (mkSeries Numeric (map fill_zero (values qt)))
    /\ column df' "price_per_unit"
       = Some (mkSeries Numeric
                 (map (fun aq => unit_price (fst aq) (snd aq))
                      (combine (values am) (values qt)))).
Proof.
  intros Hsd Dsd Vsd Ham Nam Hqt Nqt.
  destruct (mapM_cell_to_datetime_total _ _ Vsd) as (vs & Hvs).
  pose proof (numeric_series_nums Nam) as Eam.
  pose proof (numeric_series_nums Nqt) as Eqt.
  destruct Nam as [Dam Vam]. destruct Nqt as [Dqt Vqt].
  unfold transform_sales_data, assign, getitem, pure_op.
  rewrite Hsd. cbn [bind]. unfold to_datetime at 1. rewrite Dsd, Hvs. run_steps.
  rewrite Ham. run_steps. rewrite Hqt. cbn [bind].
  unfold series_div. rewrite Eam, Eqt. run_steps.
  rewrite Ham. cbn [bind]. unfold series_round2 at 1. rewrite Dam. run_steps.
  rewrite Hqt. run_steps.
  eexists. exists vs. split; [reflexivity|]. split; [reflexivity|].
  unfold setitem_scalar.
  repeat (rewrite column_setitem; simpl String.eqb; cbv iota).
  unfold fillna. cbn [dtype values]. rewrite !map_map.
  repeat split.
  - rewrite Dqt. reflexivity.
  - f_equal. f_equal. rewrite combine_map, map_map.
    apply map_ext. intros [a q]. cbn [fst snd].
    destruct a, q; reflexivity.
Qed.

Lemma nth_error_combine {A B : Type} (l : list A) (l' : list B) (i : nat) (a : A) (b : B) :
  nth_error l i = Some a -> nth_error l' i = Some b ->
  nth_error (combine l l') i = Some (a, b).
Proof.
  revert l' i. induction l as [|x l IH]; intros [|y l'] [|i]; simpl;
    try discriminate.
  - intros E1 E2. injection E1 as <-. injection E2 as <-. reflexivity.
  - apply IH.
Qed.

(** Row by row: what the sales transform leaves in the amount, the
    quantity and the unit price of a row. *)
Lemma transform_sales_data_rows parse_datetime now (df : DataFrame) :
  sales_frame parse_datetime df ->
  exists df',
    transform_sales_data parse_datetime now df = Ok df'
    /\ (exists s, column df' "sale_date" = Some s /\ dtype s = Datetime)
    /\ (exists s, column df' "amount" = Some s /\ numeric_series s)
    /\ (exists s, column df' "quantity" = Some s /\ numeric_series s)
    /\ (exists s, column df' "price_per_unit" = Some s /\ dtype s = Numeric)
    /\ (forall i c, cell_at df' "amount" i = Some c <->
                    exists a, cell_at df "amount" i = Some a
                              /\ c = fill_zero (round_cell a))
    /\ (forall i c, cell_at df' "quantity" i = Some c <->
                    exists q, cell_at df "quantity" i = Some q /\ c = fill_zero q)
    /\ (forall i a q, cell_at df "amount" i = Some a ->
                      cell_at df "quantity" i = Some q ->
                      cell_at df' "price_per_unit" i = Some (unit_price a q)).
Proof.
  intros ((sd & Hsd & Dsd & Vsd) & (am & Ham & Dam & Vam) & (qt & Hqt & Dqt & Vqt) & _).
  destruct (@transform_sales_data_columns parse_datetime now df sd am qt
              Hsd Dsd Vsd Ham (conj Dam Vam) Hqt (conj Dqt Vqt))
    as (df' & vs & Hdf' & _ & Csd & Cam & Cqt & Cppu).
  exists df'. split; [exact Hdf'|].
  assert (Hfill : forall l, forallb num_or_null l = true ->
                            forallb num_or_null (map fill_zero l) = true).
  { intros l Hl. rewrite forallb_forall in *. intros c Hc.
    apply in_map_iff in Hc as (c0 & <- & Hc0). specialize (Hl c0 Hc0).
    destruct c0; try discriminate; reflexivity. }
  split; [eexists; split; [exact Csd | reflexivity]|].
  split.
  { eexists; split; [exact Cam|]. split; [reflexivity|]. cbn [values].
    rewrite <- map_map. apply Hfill.
    rewrite forallb_forall in *. intros c Hc.
    apply in_map_iff in Hc as (c0 & <- & Hc0). specialize (Vam c0 Hc0).
    destruct c0; try discriminate; reflexivity. }
  split; [eexists; split; [exact Cqt|]; split; [reflexivity | apply Hfill, Vqt]|].
  split; [eexists; split; [exact Cppu | reflexivity]|].
  unfold cell_at. rewrite Cam, Cqt, Cppu, Ham, Hqt. cbn [values].
  split; [|split].
  - intros i c. rewrite nth_error_map. destruct (nth_error (values am) i) as [a|]; simpl.
    + split; [intros E; injection E as <-; eauto | intros (a' & E & ->); congruence].
    + split; [discriminate | intros (a' & E & _); discriminate].
  - intros i c. rewrite nth_error_map. destruct (nth_error (values qt) i) as [q|]; simpl.
    + split; [intros E; injection E as <-; eauto | intros (a' & E & ->); congruence].
    + split; [discriminate | intros (a' & E & _); discriminate].
  - intros i a q Ha Hq. rewrite nth_error_map, (nth_error_combine _ _ _ Ha Hq).
    reflexivity.
Qed.

(** X2.  After the sales transform no amount and no quantity is missing: a
    missing value has become 0 and a present quantity is unchanged.  The
    unit price is computed before the missing values are filled, so a row
    whose quantity was missing ends with quantity 0 and a missing unit
    price. *)
Theorem transform_sales_data_fills_missing
  (parse_datetime : string -> option Timestamp) (now : Timestamp) (df : DataFrame) :
  sales_frame parse_datetime df ->
  exists df',
    transform_sales_data parse_datetime now df = Ok df'
    /\ (forall i c, cell_at df' "amount" i = Some c -> c <> CNull)
    /\ (forall i c, cell_at df' "quantity" i = Some c -> c <> CNull)
    /\ (forall i, cell_at df "amount" i = Some CNull ->
                  cell_at df' "amount" i = Some (CNum (nz 0)))
    /\ (forall i q, cell_at df "quantity" i = Some (CNum q) ->
                    cell_at df' "quantity" i = Some (CNum q))
    /\ (forall i a, cell_at df "amount" i = Some a ->
                    cell_at df "quantity" i = Some CNull ->
                    cell_at df' "quantity" i = Some (CNum (nz 0))
                    /\ cell_at df' "price_per_unit" i = Some CNull).
Proof.
  intros Hf.
  destruct (transform_sales_data_rows now Hf)
    as (df' & Hdf' & _ & _ & _ & _ & Ram & Rqt & Rppu).
  exists df'. split; [exact Hdf'|].
  split; [|split; [|split; [|split]]].
  - intros i c Hc. apply Ram in Hc as (a & _ & ->).
    destruct a; simpl; discriminate.
  - intros i c Hc. apply Rqt in Hc as (q & _ & ->).
    destruct q; simpl; discriminate.
  - intros i Hi. apply Ram. exists CNull. split; [exact Hi | reflexivity].
  - intros i q Hi. apply Rqt. exists (CNum q). split; [exact Hi | reflexivity].
  - intros i a Ha Hq. split.
    + apply Rqt. exists CNull. split; [exact Hq | reflexivity].
    + rewrite (Rppu i a CNull Ha Hq). destruct a; reflexivity.
Qed.

Lemma sales_frame_sales_with_gaps : sales_frame iso_parse sales_with_gaps.
Proof.
  split; [|split; [|split]].
  - eexists. split; [reflexivity|]. split; reflexivity.
  - eexists. split; [reflexivity|]. split; reflexivity.
  - eexists. split; [reflexivity|]. split; reflexivity.
  - repeat constructor.
Qed.

Lemma transform_sales_data_fills_missing_witness :
  exists df',
    transform_sales_data iso_parse 0%Z sales_with_gaps = Ok df'
    /\ cell_at df' "quantity" 0 = Some (CNum (nz 0))
    /\ cell_at df' "price_per_unit" 0 = Some CNull.
Proof.
  destruct (transform_sales_data_fills_missing 0%Z sales_frame_sales_with_gaps)
    as (df' & Hdf' & _ & _ & _ & _ & Hq).
  exists df'. split; [exact Hdf'|].
  apply (Hq 0 (CNum (nz 100))); reflexivity.
Defined.

(** The quotient of a number other than 0 by 0 is infinite; that of 0 by
    0 is no number. *)
Lemma unit_price_by_zero (a : Cell) :
  (forall x, a = CNum x -> x <> nz 0 ->
             unit_price a (CNum (nz 0)) = CNum PosInf
             \/ unit_price a (CNum (nz 0)) = CNum NegInf)
  /\ (a = CNum (nz 0) \/ a = CNull -> unit_price a (CNum (nz 0)) = CNull).
Proof.
  assert (E0 : Qc_eqb (qz 0) (qz 0) = true) by (apply Qc_eqb_iff; reflexivity).
  assert (L0 : Qc_ltb (qz 0) (qz 0) = false) by reflexivity.
  split.
  - intros x -> Hx. unfold unit_price, num_div, nz.
    destruct x as [|q|]; cbn [opt_num_cell round_cell num_round2].
    + rewrite L0. right. reflexivity.
    + rewrite E0. destruct (Qc_ltb (qz 0) q) eqn:Epos; [left; reflexivity|].
      destruct (Qc_ltb q (qz 0)) eqn:Eneg; [right; reflexivity|].
      exfalso. apply Hx. unfold nz. f_equal.
      assert (Hle1 : ~ (qz 0 < q)%Qc) by (intros H; apply Qc_ltb_iff in H; congruence).
      assert (Hle2 : ~ (q < qz 0)%Qc) by (intros H; apply Qc_ltb_iff in H; congruence).
      apply Qcle_antisym; apply Qcnot_lt_le; assumption.
    + rewrite L0. left. reflexivity.
  - intros [-> | ->]; [|reflexivity].
    unfold unit_price, num_div, nz. rewrite E0, L0. reflexivity.
Qed.

(** X3.  A quantity of 0 raises nothing in the sales transform.  In a row
    whose quantity is 0 the unit price is infinite when the amount is a
    number other than 0, and missing when the amount is 0 or missing; the
    quantity of the row stays 0. *)
Theorem transform_sales_data_unit_price
  (parse_datetime : string -> option Timestamp) (now : Timestamp) (df : DataFrame) :
  sales_frame parse_datetime df ->
  exists df',
    transform_sales_data parse_datetime now df = Ok df'
    /\ forall i a,
         cell_at df "amount" i = Some a ->
         cell_at df "quantity" i = Some (CNum (nz 0)) ->
         cell_at df' "quantity" i = Some (CNum (nz 0))
         /\ (forall x, a = CNum x -> x <> nz 0 ->
                       cell_at df' "price_per_unit" i = Some (CNum PosInf)
                       \/ cell_at df' "price_per_unit" i = Some (CNum NegInf))
         /\ (a = CNum (nz 0) \/ a = CNull ->
             cell_at df' "price_per_unit" i = Some CNull).
Proof.
  intros Hf.
  destruct (transform_sales_data_rows now Hf)
    as (df' & Hdf' & _ & _ & _ & _ & _ & Rqt & Rppu).
  exists df'. split; [exact Hdf'|].
  intros i a Ha Hq. rewrite (Rppu i _ _ Ha Hq).
  destruct (unit_price_by_zero a) as [Hinf Hnan].
  split; [apply Rqt; exists (CNum (nz 0)); split; [exact Hq | reflexivity]|].
  split.
  - intros x Hx Hne. destruct (Hinf x Hx Hne) as [-> | ->]; auto.
  - intros H. rewrite (Hnan H). reflexivity.
Qed.

Lemma transform_sales_data_unit_price_witness :
  exists df',
    transform_sales_data iso_parse 0%Z sales_with_gaps = Ok df'
    /\ cell_at df' "quantity" 2 = Some (CNum (nz 0))
    /\ (cell_at df' "price_per_unit" 2 = Some (CNum PosInf)
        \/ cell_at df' "price_per_unit" 2 = Some (CNum NegInf)).
Proof.
  destruct (transform_sales_data_unit_price 0%Z sales_frame_sales_with_gaps)
    as (df' & Hdf' & Hrow).
  exists df'. split; [exact Hdf'|].
  destruct (Hrow 2 (CNum (nz 50)) eq_refl eq_refl) as (Hq & Hinf & _).
  split; [exact Hq|]. apply (Hinf (nz 50) eq_refl). discriminate.
Defined.


(* ================================================================== *)
(** * Validation of the tables the pipeline transforms *)
(* ================================================================== *)

(** The range check returns when the columns it looks at hold numbers. *)
Lemma _check_numeric_ranges_total (df : DataFrame) (ranges : list (string * RangeSpec)) :
  (forall c s, In c (map fst ranges) -> column df c = Some s -> numeric_series s) ->
  exists r, _check_numeric_ranges df ranges = Ok r.
Proof.
  intros H. unfold _check_numeric_ranges.
  assert (Hfold : forall acc, exists m,
             foldM (fun acc cr =>
                      match column df (fst cr) with
                      | Some s =>
                          let min_val := get_default (range_min (snd cr)) NegInf in
                          let max_val := get_default (range_max (snd cr)) PosInf in
                          below <- count_below s min_val ;;
                          above <- count_above s max_val ;;
                          if (0 <? below) || (0 <? above)
                          then Ok (assoc_set (fst cr) (below, above) acc)
                          else Ok acc
                      | None => Ok acc
                      end) ranges acc = Ok m).
  { induction ranges as [|cr ranges IH]; intros acc; cbn [foldM].
    - eauto.
    - assert (Hrest : forall c s, In c (map fst ranges) -> column df c = Some s ->
                                  numeric_series s)
        by (intros c s Hc; apply H; right; exact Hc).
      destruct (column df (fst cr)) as [s|] eqn:Ec.
      + assert (Ns : numeric_series s) by (apply (H (fst cr)); [left; reflexivity | exact Ec]).
        cbv zeta. rewrite (count_below_numeric _ Ns), (count_above_numeric _ Ns).
        cbn [bind].
        destruct ((0 <? _) || (0 <? _)); cbn [bind]; apply (IH Hrest).
      + cbn [bind]. apply (IH Hrest). }
  destruct (Hfold []) as (m & Hm).
  match goal with |- exists r, bind ?x _ = _ => replace x with (Ok m) by (symmetry; exact Hm) end.
  cbn [bind]. eauto.
Qed.

Lemma numeric_series_flags (p : Num -> bool) (s : Series) :
  numeric_series s -> exists fl, num_flags p s = Ok fl.
Proof.
  intros H. unfold num_flags. rewrite (numeric_series_nums H). cbn [bind]. eauto.
Qed.

(** The custom check of the sales table returns on numeric quantities and
    dates that are timestamps already. *)
Lemma _run_custom_checks_sales_total (parse_datetime : string -> option Timestamp)
  (now : Timestamp) (df : DataFrame) (qt am sd : Series) :
  column df "quantity" = Some qt -> numeric_series qt ->
  column df "amount" = Some am ->
  column df "sale_date" = Some sd -> dtype sd = Datetime ->
  exists r, _run_custom_checks parse_datetime now df "sales" = Ok r.
Proof.
  intros Hqt Nqt Ham Hsd Dsd.
  unfold _run_custom_checks. cbn [String.eqb Ascii.eqb Bool.eqb].
  assert (Q : has_column df "quantity" = true) by (apply has_column_iff; eauto).
  assert (A : has_column df "amount" = true) by (apply has_column_iff; eauto).
  assert (S : has_column df "sale_date" = true) by (apply has_column_iff; eauto).
  rewrite Q, A, S. cbn [andb]. unfold getitem. rewrite Hqt, Ham, Hsd. cbn [bind].
  destruct (numeric_series_flags (fun x => num_ltb (nz 0) x) Nqt) as (fl & Hfl).
  rewrite Hfl. cbn [bind]. unfold to_datetime. rewrite Dsd.
  destruct (0 <? _); cbn [bind]; destruct (0 <? _); cbn [bind]; eauto.
Qed.

Lemma rules_sales :
  assoc_get "sales" rules
  = Some (mkRules
            (Some ["sale_id"; "product_id"; "customer_id"; "quantity"; "amount"; "sale_date"])
            (Some ["sale_id"; "product_id"; "customer_id"; "sale_date"])
            (Some [("quantity", mkRange (Some (nz 0)) (Some (nz 1000)));
                   ("amount", mkRange (Some (nz 0)) (Some (nz 1000000)))])
            (Some ["sale_id"])).
Proof. reflexivity. Qed.

Lemma transform_sales_data_types (parse_datetime : string -> option Timestamp)
  (now : Timestamp) (df df' : DataFrame) :
  sales_frame parse_datetime df ->
  transform_sales_data parse_datetime now df = Ok df' ->
  _check_data_types df' "sales" = mkQR true (Issues []).
Proof.
  intros Hf Hdf'.
  destruct (transform_sales_data_rows now Hf)
    as (df'' & Hdf'' & (sd & Hsd & Dsd) & (am & Ham & Dam & _) & (qt & Hqt & Dqt & _)
        & (pp & Hpp & Dpp) & _).
  rewrite Hdf' in Hdf''. injection Hdf'' as <-.
  unfold _check_data_types. cbn [String.eqb Ascii.eqb Bool.eqb].
  rewrite Hsd. unfold is_datetime64_any_dtype. rewrite Dsd. cbn [dtype_eqb negb fold_left].
  rewrite Hqt, Ham, Hpp. unfold is_numeric_dtype. rewrite Dqt, Dam, Dpp.
  reflexivity.
Qed.

(** X4.  The type check of the sales table fails on a frame whose sale dates
    are not timestamps, as they are when read from a file, and passes,
    without an issue, on the frame the sales transform returns for a raw
    sales frame. *)
Theorem _check_data_types_sale_date
  (parse_datetime : string -> option Timestamp) (now : Timestamp) (df : DataFrame) :
  (forall s, column df "sale_date" = Some s -> dtype s <> Datetime ->
             passed (_check_data_types df "sales") = false
             /\ In "sale_date should be datetime type"
                   (issues_of (_check_data_types df "sales")))
  /\ (sales_frame parse_datetime df ->
      exists df',
        transform_sales_data parse_datetime now df = Ok df'
        /\ _check_data_types df' "sales" = mkQR true (Issues [])).
Proof.
  split.
  - intros s Hs Hd. unfold _check_data_types, issues_of.
    cbn [String.eqb Ascii.eqb Bool.eqb]. rewrite Hs.
    assert (E : is_datetime64_any_dtype s = false)
      by (unfold is_datetime64_any_dtype; destruct (dtype s); try reflexivity; congruence).
    rewrite E. cbn [negb fold_left].
    destruct (column df "quantity") as [q|]; [destruct (negb (is_numeric_dtype q))|];
      (destruct (column df "amount") as [a|]; [destruct (negb (is_numeric_dtype a))|]);
      (destruct (column df "price_per_unit") as [p|]; [destruct (negb (is_numeric_dtype p))|]);
      cbn [app passed details is_empty]; split; try reflexivity; left; reflexivity.
  - intros Hf.
    destruct (transform_sales_data_total now Hf) as (df' & Hdf').
    exists df'. split; [exact Hdf' | exact (@transform_sales_data_types _ _ _ _ Hf Hdf')].
Qed.

Lemma _check_data_types_sale_date_witness :
  passed (_check_data_types good_data "sales") = false
  /\ exists df',
       transform_sales_data iso_parse 0%Z sales_with_gaps = Ok df'
       /\ _check_data_types df' "sales" = mkQR true (Issues []).
Proof.
  destruct (_check_data_types_sale_date iso_parse 0%Z good_data) as [Hraw _].
  destruct (_check_data_types_sale_date iso_parse 0%Z sales_with_gaps) as [_ Hdone].
  split.
  - apply (Hraw (strs ["2024-01-01"; "2024-01-02"; "2024-01-03"]));
      [reflexivity | discriminate].
  - apply Hdone, sales_frame_sales_with_gaps.
Defined.

(** X5.  On a raw sales frame, the sales transform followed by the validation
    of its result, as [SalesDataPipeline.transform] runs them, returns:
    the validation raises nothing and gives the six checks in their order.
    Its required-columns check misses exactly the identifier columns that
    the raw frame lacks, and its type check passes. *)
Theorem validate_data_after_transform_sales
  (parse_datetime : string -> option Timestamp) (now now' : Timestamp) (df : DataFrame) :
  sales_frame parse_datetime df ->
  exists df' results,
    transform_sales_data parse_datetime now df = Ok df'
    /\ validate_data parse_datetime now' df' "sales" = Ok results
    /\ map fst results = check_names
    /\ assoc_get "required_columns" results
       = Some (_check_required_columns df ["sale_id"; "product_id"; "customer_id"])
    /\ assoc_get "data_types" results = Some (mkQR true (Issues [])).
Proof.
  intros Hf.
  destruct (transform_sales_data_rows now Hf)
    as (df' & Hdf' & (sd & Hsd & Dsd) & (am & Ham & Nam) & (qt & Hqt & Nqt) & _).
  pose proof (@transform_sales_data_types _ _ _ _ Hf Hdf') as Htypes.
  pose proof (transform_sales_data_same_rows _ _ _ Hdf') as (_ & _ & Hsame & _).
  destruct (@_check_numeric_ranges_total df'
              [("quantity", mkRange (Some (nz 0)) (Some (nz 1000)));
               ("amount", mkRange (Some (nz 0)) (Some (nz 1000000)))])
    as (ranges & Hranges).
  { intros c s [<-|[<-|[]]] Hc; cbn [fst] in Hc; congruence. }
  destruct (@_run_custom_checks_sales_total parse_datetime now' df' qt am sd
              Hqt Nqt Ham Hsd Dsd) as (custom & Hcustom).
  exists df'. eexists. split; [exact Hdf'|].
  split; [exact (@validate_data_Ok _ _ _ _ _ _ _ rules_sales Hranges Hcustom)|].
  split; [reflexivity|]. split; [|cbn; rewrite Htypes; reflexivity].
  cbn [assoc_get String.eqb Ascii.eqb Bool.eqb get_default required_columns].
  f_equal. unfold _check_required_columns. cbn [filter].
  assert (Hid : forall c, ~ In c sales_assigned -> has_column df' c = has_column df c).
  { intros c Hc. specialize (Hsame c Hc).
    destruct (has_column df c) eqn:E.
    - apply has_column_iff in E as (s & Hs). apply has_column_iff. exists s. congruence.
    - apply has_column_false_iff in E. apply has_column_false_iff. congruence. }
  rewrite (Hid "sale_id"), (Hid "product_id"), (Hid "customer_id")
    by (unfold sales_assigned; simpl; intuition discriminate).
  assert (Q : has_column df' "quantity" = true) by (apply has_column_iff; eauto).
  assert (A : has_column df' "amount" = true) by (apply has_column_iff; eauto).
  assert (S : has_column df' "sale_date" = true) by (apply has_column_iff; eauto).
  rewrite Q, A, S. cbn [negb].
  destruct (negb (has_column df "sale_id")), (negb (has_column df "product_id")),
    (negb (has_column df "customer_id")); reflexivity.
Qed.

Lemma validate_data_after_transform_sales_witness :
  exists df' results,
    transform_sales_data iso_parse 0%Z sales_with_gaps = Ok df'
    /\ validate_data iso_parse 1%Z df' "sales" = Ok results
    /\ map fst results = check_names.
Proof.
  destruct (validate_data_after_transform_sales 0%Z 1%Z sales_frame_sales_with_gaps)
    as (df' & results & Hdf' & Hres & Hnames & _).
  exists df', results. repeat split; assumption.
Defined.


(** ** Prices and addresses *)

Lemma filter_length_zero {A : Type} (p : A -> bool) (l : list A) :
  List.length (filter p l) = 0 <-> forall a, In a l -> p a = false.
Proof.
  induction l as [|x l IH]; cbn [filter In].
  - simpl. split; [intros _ a [] | reflexivity].
  - destruct (p x) eqn:E; cbn [List.length].
    + split; [discriminate|]. intros H. specialize (H x (or_introl eq_refl)). congruence.
    + rewrite IH. split.
      * intros H a [<-|Ha]; [exact E | exact (H a Ha)].
      * intros H a Ha. apply H. right. exact Ha.
Qed.

Lemma values_below_zero_iff (l : list Cell) (m : Num) :
  values_below l m = 0 <-> forall x, In (CNum x) l -> num_le m x.
Proof.
  unfold values_below. rewrite filter_length_zero. split.
  - intros H x Hx. apply num_ltb_false_iff. exact (H _ Hx).
  - intros H [|x| | |] Hc; try reflexivity. apply num_ltb_false_iff. exact (H x Hc).
Qed.

Lemma values_above_zero_iff (l : list Cell) (m : Num) :
  values_above l m = 0 <-> forall x, In (CNum x) l -> num_le x m.
Proof.
  unfold values_above. rewrite filter_length_zero. split.
  - intros H x Hx. apply num_ltb_false_iff. exact (H _ Hx).
  - intros H [|x| | |] Hc; try reflexivity. apply num_ltb_false_iff. exact (H x Hc).
Qed.

Lemma values_at_most_zero_iff (l : list Cell) (m : Num) :
  values_at_most l m = 0 <-> forall x, In (CNum x) l -> num_lt m x.
Proof.
  unfold values_at_most, num_leb. rewrite filter_length_zero. split.
  - intros H x Hx. apply num_ltb_iff. specialize (H _ Hx). cbn beta iota in H.
    destruct (num_ltb m x); [reflexivity | discriminate].
  - intros H [|x| | |] Hc; try reflexivity.
    cbn beta iota. rewrite (proj2 (num_ltb_iff m x) (H x Hc)). reflexivity.
Qed.

Lemma rules_products :
  assoc_get "products" rules
  = Some (mkRules
            (Some ["product_id"; "product_name"; "category"; "price"])
            (Some ["product_id"; "product_name"])
            (Some [("price", mkRange (Some (nz 0)) (Some (nz 10000)))])
            (Some ["product_id"])).
Proof. reflexivity. Qed.

Lemma rules_customers :
  assoc_get "customers" rules
  = Some (mkRules
            (Some ["customer_id"; "customer_name"; "email"; "region"])
            (Some ["customer_id"; "customer_name"])
            None
            (Some ["customer_id"; "email"])).
Proof. reflexivity. Qed.

(** The custom check of the products table on numeric prices. *)
Lemma _run_custom_checks_products (parse_datetime : string -> option Timestamp)
  (now : Timestamp) (df : DataFrame) (s : Series) :
  column df "price" = Some s -> numeric_series s ->
  _run_custom_checks parse_datetime now df "products"
  = Ok (let invalid_prices := values_at_most (values s) (nz 0) in
        if 0 <? invalid_prices
        then mkQR false (Issues [(str_of_nat invalid_prices
                                  ++ " products have zero or negative prices")%string])
        else mkQR true (Issues [])).
Proof.
  intros Hs Ns. unfold _run_custom_checks. cbn [String.eqb Ascii.eqb Bool.eqb].
  assert (P : has_column df "price" = true) by (apply has_column_iff; eauto).
  rewrite P. unfold getitem. rewrite Hs. cbn [bind].
  unfold num_flags. rewrite (numeric_series_nums Ns). cbn [bind]. cbv zeta.
  assert (E : count_true
                (map (fun o => match o with Some x => num_leb x (nz 0) | None => false end)
                     (map (fun c => match c with CNum x => Some x | _ => None end)
                          (values s)))
              = values_at_most (values s) (nz 0)).
  { unfold count_true, values_at_most.
    induction (values s) as [|c l IH]; [reflexivity|].
    cbn [map filter]. destruct c as [|x| | |]; try exact IH.
    destruct (num_leb x (nz 0)); cbn [List.length]; [f_equal|]; exact IH. }
  rewrite E. destruct (0 <? _); reflexivity.
Qed.

(** The range check of the products table on numeric prices. *)
Lemma _check_numeric_ranges_products (df : DataFrame) (s : Series) :
  column df "price" = Some s -> numeric_series s ->
  _check_numeric_ranges df [("price", mkRange (Some (nz 0)) (Some (nz 10000)))]
  = Ok (let below := values_below (values s) (nz 0) in
        let above := values_above (values s) (nz 10000) in
        if (0 <? below) || (0 <? above)
        then mkQR false (OutOfRange [("price", (below, above))])
        else mkQR true (OutOfRange [])).
Proof.
  intros Hs Ns. unfold _check_numeric_ranges. cbn [foldM fst snd]. rewrite Hs.
  cbn [range_min range_max get_default]. cbv zeta.
  rewrite (count_below_numeric _ Ns), (count_above_numeric _ Ns). cbn [bind].
  destruct ((0 <? _) || (0 <? _)); reflexivity.
Qed.

(** X6.  On a products table with numeric prices [validate_data] returns.  Its
    range check passes iff every price is between 0 and 10000, bounds
    included, while its custom check passes iff every price is above 0:
    a price of exactly 0 is in range and yet reported as an invalid
    price.  Missing prices are counted by neither. *)
Theorem validate_data_products_prices
  (parse_datetime : string -> option Timestamp) (now : Timestamp)
  (df : DataFrame) (s : Series) :
  column df "price" = Some s -> numeric_series s ->
  exists results ranges custom,
    validate_data parse_datetime now df "products" = Ok results
    /\ assoc_get "numeric_ranges" results = Some ranges
    /\ assoc_get "custom_checks" results = Some custom
    /\ (passed ranges = true <->
        forall x, In (CNum x) (values s) -> num_le (nz 0) x /\ num_le x (nz 10000))
    /\ (passed custom = true <->
        forall x, In (CNum x) (values s) -> num_lt (nz 0) x)
    /\ (passed custom = false ->
        issues_of custom
        = [(str_of_nat (values_at_most (values s) (nz 0))
            ++ " products have zero or negative prices")%string]).
Proof.
  intros Hs Ns.
  pose proof (_check_numeric_ranges_products _ Hs Ns) as Hranges.
  pose proof (_run_custom_checks_products parse_datetime now _ Hs Ns) as Hcustom.
  eexists. eexists. eexists.
  split; [exact (@validate_data_Ok _ _ _ _ _ _ _ rules_products Hranges Hcustom)|].
  split; [reflexivity|]. split; [reflexivity|].
  cbv zeta. split; [|split].
  - destruct (0 <? values_below (values s) (nz 0)) eqn:Eb;
      destruct (0 <? values_above (values s) (nz 10000)) eqn:Ea; cbn [orb passed];
      (split; [try discriminate; intros _ | try reflexivity; intros H; exfalso]).
    + apply Nat.ltb_lt in Eb. assert (B : values_below (values s) (nz 0) = 0)
        by (apply values_below_zero_iff; intros x Hx; apply (H x Hx)). lia.
    + apply Nat.ltb_lt in Eb. assert (B : values_below (values s) (nz 0) = 0)
        by (apply values_below_zero_iff; intros x Hx; apply (H x Hx)). lia.
    + apply Nat.ltb_lt in Ea. assert (A : values_above (values s) (nz 10000) = 0)
        by (apply values_above_zero_iff; intros x Hx; apply (H x Hx)). lia.
    + apply Nat.ltb_ge in Eb, Ea. intros x Hx. split.
      * apply (proj1 (values_below_zero_iff (values s) (nz 0))); [lia | exact Hx].
      * apply (proj1 (values_above_zero_iff (values s) (nz 10000))); [lia | exact Hx].
  - destruct (0 <? values_at_most (values s) (nz 0)) eqn:E; cbn [passed].
    + apply Nat.ltb_lt in E. split; [discriminate|]. intros H. exfalso.
      apply values_at_most_zero_iff in H. lia.
    + apply Nat.ltb_ge in E. split; [intros _ | reflexivity].
      apply values_at_most_zero_iff. lia.
  - destruct (0 <? values_at_most (values s) (nz 0)); cbn [passed];
      [reflexivity | discriminate].
Qed.

Lemma validate_data_products_prices_witness :
  exists results ranges custom,
    validate_data iso_parse 0%Z free_product_data "products" = Ok results
    /\ assoc_get "numeric_ranges" results = Some ranges
    /\ assoc_get "custom_checks" results = Some custom
    /\ passed ranges = true /\ passed custom = false.
Proof.
  destruct (@validate_data_products_prices iso_parse 0%Z free_product_data
              (nums [50; 0]%Z) eq_refl (numeric_series_nums_of [50; 0]%Z))
    as (results & ranges & custom & Hres & Hr & Hc & Hrange & Hcustom & _).
  exists results, ranges, custom. repeat (split; [assumption|]). split.
  - apply Hrange. intros x [E|[E|[]]]; injection E as <-;
      split; apply num_ltb_false_iff; reflexivity.
  - destruct (passed custom); [exfalso | reflexivity].
    assert (H : num_lt (nz 0) (nz 0))
      by (apply (proj1 Hcustom eq_refl); right; left; reflexivity).
    apply num_ltb_iff in H. discriminate.
Defined.

(** X7.  The custom check of the customers table on a column of texts passes
    iff every address is a text with an at-sign; a missing address counts
    as invalid.  When it fails, its one issue gives the number of such
    cells. *)
Theorem _run_custom_checks_emails
  (parse_datetime : string -> option Timestamp) (now : Timestamp)
  (df : DataFrame) (s : Series) :
  column df "email" = Some s -> dtype s = Object ->
  exists r,
    _run_custom_checks parse_datetime now df "customers" = Ok r
    /\ (passed r = true <->
        forall c, In c (values s) ->
                  exists e, c = CStr e /\ str_contains at_sign e = true)
    /\ (passed r = false ->
        issues_of r
        = [(str_of_nat (List.length (filter (fun c => negb (valid_email c)) (values s)))
            ++ " customers have invalid email formats")%string]).
Proof.
  intros Hs Ds. unfold _run_custom_checks. cbn [String.eqb Ascii.eqb Bool.eqb].
  assert (P : has_column df "email" = true) by (apply has_column_iff; eauto).
  rewrite P. unfold getitem. rewrite Hs. cbn [bind].
  unfold str_contains_flags. rewrite Ds. cbn [bind].
  assert (E : count_true
                (map negb
                   (map (fun c => match c with
                                  | CStr x => str_contains at_sign x
                                  | _ => false
                                  end) (values s)))
              = List.length (filter (fun c => negb (valid_email c)) (values s))).
  { unfold count_true. induction (values s) as [|c l IH]; [reflexivity|].
    cbn [map filter]. fold (valid_email c).
    destruct (negb (valid_email c)); cbn [List.length]; [f_equal|]; exact IH. }
  rewrite E.
  assert (Hzero : List.length (filter (fun c => negb (valid_email c)) (values s)) = 0
                  <-> forall c, In c (values s) ->
                                exists e, c = CStr e /\ str_contains at_sign e = true).
  { rewrite filter_length_zero. split.
    - intros H c Hc. specialize (H c Hc). destruct c as [| |e| |]; try discriminate.
      exists e. split; [reflexivity|]. simpl in H.
      destruct (str_contains at_sign e); [reflexivity | discriminate].
    - intros H c Hc. destruct (H c Hc) as (e & -> & He). simpl. rewrite He. reflexivity. }
  destruct (0 <? _) eqn:E0; cbn [bind]; eexists; (split; [reflexivity|]);
    cbn [passed details is_empty issues_of].
  - apply Nat.ltb_lt in E0. split; [|reflexivity].
    split; [discriminate|]. intros H. apply Hzero in H. lia.
  - apply Nat.ltb_ge in E0. split; [|discriminate].
    split; [intros _; apply Hzero; lia | reflexivity].
Qed.

Lemma _run_custom_checks_emails_witness :
  exists r,
    _run_custom_checks iso_parse 0%Z customer_without_at "customers" = Ok r
    /\ passed r = false
    /\ issues_of r = ["1 customers have invalid email formats"].
Proof.
  destruct (@_run_custom_checks_emails iso_parse 0%Z customer_without_at
              (strs ["john.example.com"; "jane@elsewhere.org"]) eq_refl eq_refl)
    as (r & Hr & Hpass & Hissue).
  assert (Hp : passed r = false).
  { destruct (passed r); [exfalso | reflexivity].
    destruct (proj1 Hpass eq_refl (CStr "john.example.com") (or_introl eq_refl))
      as (e & He & Hat).
    injection He as <-. discriminate. }
  exists r. split; [exact Hr|]. split; [exact Hp|].
  rewrite (Hissue Hp). reflexivity.
Defined.

(** X8.  A customers table whose address column is not a column of texts, as
    when every address is missing and the column is read as floats, makes
    [validate_data] raise an [AttributeError]; [transform_customer_data]
    raises it as well. *)
Theorem validate_data_customers_email_dtype
  (parse_datetime : string -> option Timestamp) (now : Timestamp)
  (df : DataFrame) (s : Series) :
  column df "email" = Some s -> dtype s <> Object -> dtype s <> Categorical ->
  (exists e, validate_data parse_datetime now df "customers" = Raise e
             /\ exn_kind e = AttributeError)
  /\ (text_column df "customer_name" ->
      exists e, transform_customer_data now df = Raise e
                /\ exn_kind e = AttributeError).
Proof.
  intros Hs Hobj Hcat. split.
  - unfold validate_data. rewrite rules_customers.
    cbn [numeric_ranges get_default _check_numeric_ranges foldM bind].
    unfold _run_custom_checks. cbn [String.eqb Ascii.eqb Bool.eqb].
    assert (P : has_column df "email" = true) by (apply has_column_iff; eauto).
    rewrite P. unfold getitem. rewrite Hs. cbn [bind].
    unfold str_contains_flags.
    destruct (dtype s); try congruence; cbn [bind]; eexists; split; reflexivity.
  - intros (cn & Hcn & Dcn).
    unfold transform_customer_data, assign, getitem, str_strip, str_title.
    rewrite Hcn. cbn [bind]. rewrite (str_method_total _ cn Dcn). run_steps.
    rewrite Hs. cbn [bind]. unfold str_method at 1.
    destruct (dtype s); try congruence; cbn [bind]; eexists; split; reflexivity.
Qed.

Lemma validate_data_customers_email_dtype_witness :
  (exists e, validate_data iso_parse 0%Z customers_without_emails "customers" = Raise e
             /\ exn_kind e = AttributeError)
  /\ (exists e, transform_customer_data 0%Z customers_without_emails = Raise e
                /\ exn_kind e = AttributeError).
Proof.
  destruct (@validate_data_customers_email_dtype iso_parse 0%Z customers_without_emails
              (mkSeries Numeric [CNull; CNull]) eq_refl) as [Hv Ht];
    try discriminate.
  split; [exact Hv|]. apply Ht. eexists. split; reflexivity.
Defined.


(* ================================================================== *)
(** * The quality report *)
(* ================================================================== *)

Section ReportProperties.

Variable repr_details : Details -> string.

Lemma passed_count_cons (cr : string * QualityResult)
  (results : list (string * QualityResult)) :
  passed_count (cr :: results)
  = (if passed (snd cr) then 1 else 0) + passed_count results.
Proof. unfold passed_count. cbn [filter]. destruct (passed (snd cr)); reflexivity. Qed.

Lemma report_loop (results : list (string * QualityResult))
  (report : list string) (total passed_checks : nat) :
  exists body,
    fold_left (report_step repr_details) results (report, total, passed_checks)
    = (report ++ body, total + List.length results, passed_checks + passed_count results)
    /\ List.length body + passed_count results = 2 * List.length results.
Proof.
  revert report total passed_checks.
  induction results as [|[check_type result] results IH]; intros report total passed_checks.
  - exists []. cbn. rewrite app_nil_r, !Nat.add_0_r. split; reflexivity.
  - cbn [fold_left]. rewrite passed_count_cons. cbn [snd List.length].
    unfold report_step at 2. cbv zeta.
    destruct (passed result).
    + destruct (IH (report ++ [(check_mark ++ " " ++ check_type ++ ": PASSED")%string])
                  (total + 1) (passed_checks + 1)) as (body & Hb & Hlen).
      rewrite Hb. eexists. rewrite <- app_assoc. split.
      * repeat (f_equal; try lia).
      * cbn [app List.length]. lia.
    + destruct (IH (report ++ [(ballot_x ++ " " ++ check_type ++ ": FAILED")%string;
                               ("  Details: " ++ repr_details (details result))%string])
                  (total + 1) passed_checks) as (body & Hb & Hlen).
      rewrite Hb. eexists. rewrite <- app_assoc. split.
      * repeat (f_equal; try lia).
      * cbn [app List.length]. lia.
Qed.

Lemma report_lines_summary (results : list (string * QualityResult)) :
  exists body,
    report_lines repr_details results
    = ("Quality Check Summary: " ++ str_of_nat (passed_count results) ++ "/"
       ++ str_of_nat (List.length results) ++ " checks passed")%string :: body
    /\ List.length body + passed_count results = 2 * List.length results.
Proof.
  unfold report_lines.
  destruct (report_loop results [] 0 0) as (body & Hb & Hlen).
  rewrite Hb. exists body. split; [reflexivity | exact Hlen].
Qed.

Lemma passed_count_le (results : list (string * QualityResult)) :
  passed_count results <= List.length results.
Proof. apply filter_length_le. Qed.

(** X9.  The first line of the report is the summary, with the number of
    results that passed and the number of results; below it there is one
    line for each check that passed and two for each check that failed.
    For the results [validate_data] returns, the total in the summary is
    6 when the table has a rule set; when it has none the report is the
    summary line alone, with 0 of 0 checks passed. *)
Theorem get_quality_report_summary :
  (forall results, exists body,
      report_lines repr_details results
      = ("Quality Check Summary: " ++ str_of_nat (passed_count results) ++ "/"
         ++ str_of_nat (List.length results) ++ " checks passed")%string :: body
      /\ passed_count results <= List.length results
      /\ List.length body + passed_count results = 2 * List.length results)
  /\ (forall parse_datetime now df table_name results,
         validate_data parse_datetime now df table_name = Ok results ->
         (forall r, assoc_get table_name rules = Some r ->
                    exists body,
                      report_lines repr_details results
                      = ("Quality Check Summary: " ++ str_of_nat (passed_count results)
                         ++ "/6 checks passed")%string :: body)
         /\ (assoc_get table_name rules = None ->
             get_quality_report repr_details results
             = "Quality Check Summary: 0/0 checks passed")).
Proof.
  split.
  - intros results. destruct (report_lines_summary results) as (body & Hb & Hlen).
    exists body. split; [exact Hb|]. split; [apply passed_count_le | exact Hlen].
  - intros parse_datetime now df table_name results Hres. split.
    + intros r Hr.
      destruct (@validate_data_Ok_inv _ _ _ _ _ _ Hr Hres) as (ranges & custom & _ & _ & E).
      destruct (report_lines_summary results) as (body & Hb & _).
      exists body. rewrite Hb. rewrite E at 2. reflexivity.
    + intros Hr. unfold validate_data in Hres. rewrite Hr in Hres.
      injection Hres as <-. reflexivity.
Qed.

End ReportProperties.

Lemma get_quality_report_summary_witness :
  get_quality_report details_repr
    [ ("required_columns", mkQR true (MissingColumns []));
      ("unique_columns", mkQR false (DuplicateCounts [("sale_id", 1)])) ]
  = String.concat line_feed
      [ "Quality Check Summary: 1/2 checks passed";
        (check_mark ++ " required_columns: PASSED")%string;
        (ballot_x ++ " unique_columns: FAILED")%string;
        "  Details: {'duplicate_counts': {'sale_id': 1}}" ]
  /\ get_quality_report details_repr [] = "Quality Check Summary: 0/0 checks passed".
Proof.
  split; [reflexivity|].
  exact (proj2 (proj2 (get_quality_report_summary details_repr)
                  iso_parse 0%Z sample_sales_data "orders" [] eq_refl)
           eq_refl).
Defined.


(* ================================================================== *)
(** * Further properties of the fact table *)
(* ================================================================== *)

(** A merge gives one cell per row in every column, and at least one row
    for each row of its left frame. *)
Lemma merge_left_rows (left right m : DataFrame) (key : string) :
  merge_left left right key = Ok m ->
  well_formed m
  /\ exists lk, column left key = Some lk /\ List.length (values lk) <= nrows m.
Proof.
  unfold merge_left. intros H.
  apply bind_Ok_inv in H as (lk & Hlk & H).
  apply bind_Ok_inv in H as (rk & Hrk & H).
  apply getitem_Ok in Hlk, Hrk.
  destruct (negb (dtype_family (dtype lk) =? dtype_family (dtype rk))); [discriminate|].
  cbv zeta in H.
  destruct (suffix_clash _ _ || suffix_clash _ _); [discriminate|].
  injection H as <-. split.
  - unfold well_formed, nrows. cbn [index columns].
    rewrite length_map, length_seq. apply Forall_app. split; apply Forall_forall;
      intros cs Hcs; apply in_map_iff in Hcs as (cs0 & <- & _); cbn [snd];
      unfold take_left, take_right; cbn [values]; apply length_map.
  - exists lk. split; [exact Hlk|]. unfold nrows. cbn [index].
    rewrite length_map, length_seq. apply left_join_from_length_ge.
Qed.

Lemma select_missing (df : DataFrame) (cols : list string) (c : string) :
  In c cols -> has_column df c = false ->
  exists e, select df cols = Raise e /\ exn_kind e = KeyError.
Proof.
  intros Hin Habs. unfold select.
  destruct (filter (fun c => negb (has_column df c)) cols) as [|m ms] eqn:E.
  - exfalso. assert (Hc : In c (filter (fun c => negb (has_column df c)) cols))
      by (apply filter_In; split; [exact Hin | rewrite Habs; reflexivity]).
    rewrite E in Hc. exact Hc.
  - eexists. split; reflexivity.
Qed.

(** X10.  Whenever [create_fact_table] returns, no sale has been dropped: the
    fact table has at least as many rows as the sales table (one cell per
    row in every column). *)
Theorem create_fact_table_keeps_sales
  (sales_df products_df customers_df fact : DataFrame) :
  well_formed sales_df ->
  create_fact_table sales_df products_df customers_df = Ok fact ->
  nrows sales_df <= nrows fact /\ well_formed fact.
Proof.
  intros Hw H. unfold create_fact_table in H.
  apply bind_Ok_inv in H as (products & _ & H).
  apply bind_Ok_inv in H as (fact1 & Hm1 & H).
  apply bind_Ok_inv in H as (customers & _ & H).
  apply bind_Ok_inv in H as (fact2 & Hm2 & H).
  apply bind_Ok_inv in H as (fact3 & Ha1 & Ha2).
  apply merge_left_rows in Hm1 as (Hw1 & lk1 & Hlk1 & Hn1).
  apply merge_left_rows in Hm2 as (Hw2 & lk2 & Hlk2 & Hn2).
  rewrite (well_formed_column _ Hw Hlk1) in Hn1.
  rewrite (well_formed_column _ Hw1 Hlk2) in Hn2.
  apply same_rows_assign in Ha1; [|apply keeps_length_pd_cut].
  apply same_rows_assign in Ha2; [|apply keeps_length_dt_date_key].
  destruct Ha1 as (I1 & _ & _ & W1). destruct Ha2 as (I2 & _ & _ & W2).
  split; [|exact (W2 (W1 Hw2))].
  unfold nrows in *. rewrite I2, I1. lia.
Qed.

Lemma create_fact_table_keeps_sales_witness :
  nrows enriched_one_sale = 1
  /\ exists fact,
       create_fact_table enriched_one_sale enriched_products_listed_twice
         enriched_customers = Ok fact
       /\ nrows enriched_one_sale <= nrows fact /\ nrows fact = 2.
Proof.
  split; [reflexivity|].
  destruct (create_fact_table enriched_one_sale enriched_products_listed_twice
              enriched_customers) as [fact|e] eqn:E; [|vm_compute in E; discriminate].
  exists fact. split; [reflexivity|].
  split.
  - refine (proj1 (@create_fact_table_keeps_sales enriched_one_sale
                     enriched_products_listed_twice enriched_customers fact _ E)).
    repeat constructor.
  - vm_compute in E. injection E as <-. reflexivity.
Defined.

(** X11.  The joined columns are those of the transformed tables: when the
    products frame lacks [product_id], [category] or [price_tier], as a
    products frame that was not transformed does, [create_fact_table]
    raises a [KeyError]; when the customers frame lacks [customer_id],
    [region] or [customer_segment], it does not return. *)
Theorem create_fact_table_needs_columns
  (sales_df products_df customers_df : DataFrame) (c : string) :
  (In c ["product_id"; "category"; "price_tier"] ->
   has_column products_df c = false ->
   exists e, create_fact_table sales_df products_df customers_df = Raise e
             /\ exn_kind e = KeyError)
  /\ (In c ["customer_id"; "region"; "customer_segment"] ->
      has_column customers_df c = false ->
      exists e, create_fact_table sales_df products_df customers_df = Raise e).
Proof.
  split; intros Hin Habs; unfold create_fact_table.
  - destruct (select_missing _ _ _ Hin Habs) as (e & -> & Hk).
    exists e. split; [reflexivity | exact Hk].
  - destruct (select_missing _ _ _ Hin Habs) as (e & He & _).
    destruct (select products_df _) as [p|e1]; cbn [bind]; [|eauto].
    destruct (merge_left sales_df p "product_id") as [f|e2]; cbn [bind]; [|eauto].
    rewrite He. cbn [bind]. eauto.
Qed.

Lemma create_fact_table_needs_columns_witness :
  exists e,
    create_fact_table enriched_one_sale sample_product_data enriched_customers = Raise e
    /\ exn_kind e = KeyError.
Proof.
  apply (proj1 (create_fact_table_needs_columns enriched_one_sale sample_product_data
                  enriched_customers "price_tier")).
  - simpl. auto.
  - reflexivity.
Defined.


(** ** A sale without a date *)

Lemma left_join_from_covers (i0 : nat) (lkeys rkeys : list Cell) (i : nat) :
  i < List.length lkeys ->
  In (i0 + i) (map fst (left_join_from i0 lkeys rkeys)).
Proof.
  revert i0 i. induction lkeys as [|k l IH]; intros i0 i Hi; [simpl in Hi; lia|].
  cbn [left_join_from]. rewrite map_app. apply in_or_app.
  destruct i as [|i].
  - left. rewrite Nat.add_0_r.
    destruct (matches_from 0 k rkeys) as [|j js]; simpl; auto.
  - right. replace (i0 + S i) with (S i0 + i) by lia. apply IH. simpl in Hi. lia.
Qed.

(** A left join keeps every cell of a left column. *)
Lemma take_left_join_keeps (s : Series) (lkeys rkeys : list Cell) (c : Cell) :
  In c (values s) -> List.length (values s) <= List.length lkeys ->
  In c (values (take_left s (left_join_indexers lkeys rkeys))).
Proof.
  intros Hc Hlen. apply In_nth_error in Hc as (i & Hi).
  assert (Hlt : i < List.length lkeys).
  { assert (i < List.length (values s)) by (apply nth_error_Some; congruence). lia. }
  pose proof (@left_join_from_covers 0 lkeys rkeys i Hlt) as Hin.
  apply in_map_iff in Hin as (p & Hp & Hin).
  unfold take_left. cbn [values]. apply in_map_iff. exists p. split; [|exact Hin].
  rewrite Hp. simpl. apply nth_error_nth. exact Hi.
Qed.

Lemma mapM_raises {A B : Type} (f : A -> Result B) (l : list A) (e : Exn) (x : A) :
  (forall a, In a l -> f a = Raise e \/ exists b, f a = Ok b) ->
  In x l -> f x = Raise e ->
  mapM f l = Raise e.
Proof.
  induction l as [|a l IH]; intros Hall Hx Hfx; [destruct Hx|].
  cbn [mapM]. destruct (Hall a (or_introl eq_refl)) as [Ha|[b Ha]]; rewrite Ha; cbn [bind].
  - reflexivity.
  - destruct Hx as [->|Hx]; [congruence|].
    rewrite (IH (fun a' Ha' => Hall a' (or_intror Ha')) Hx Hfx). reflexivity.
Qed.

(** The frame [create_fact_table] has after its two merges, on frames
    whose joined columns do not clash with a column of the sales frame:
    every sales column, taken along the row pairs of the two joins. *)
Lemma create_fact_table_merged (sales_df products_df customers_df : DataFrame)
  (lk1 rk1 lk2 rk2 : Series) :
  columns_absent sales_df ["category"; "price_tier"; "region"; "customer_segment"] ->
  has_column products_df "category" = true ->
  has_column products_df "price_tier" = true ->
  has_column customers_df "region" = true ->
  has_column customers_df "customer_segment" = true ->
  column sales_df "product_id" = Some lk1 -> column products_df "product_id" = Some rk1 ->
  dtype_family (dtype lk1) = dtype_family (dtype rk1) ->
  column sales_df "customer_id" = Some lk2 -> column customers_df "customer_id" = Some rk2 ->
  dtype_family (dtype lk2) = dtype_family (dtype rk2) ->
  let p1 := left_join_indexers (values lk1) (values rk1) in
  let p2 := left_join_indexers (values (take_left lk2 p1)) (values rk2) in
  exists fact2,
    (forall c s, column sales_df c = Some s ->
                 column fact2 c = Some (take_left (take_left s p1) p2))
    /\ create_fact_table sales_df products_df customers_df
       = (fact_df <- assign fact2 "revenue_category" "amount"
                       (fun s => pd_cut s revenue_bins revenue_labels) ;;
          assign fact_df "date_key" "sale_date" dt_date_key).
Proof.
  intros Habs Hcat Htier Hreg Hseg Hlk1 Hrk1 Hfam1 Hlk2 Hrk2 Hfam2 p1 p2.
  apply has_column_iff in Hcat as [cat Hcat]. apply has_column_iff in Htier as [tier Htier].
  apply has_column_iff in Hreg as [reg Hreg]. apply has_column_iff in Hseg as [seg Hseg].
  pose proof (absent_not_In _ _ (Habs "category" (or_introl eq_refl))) as Ncat.
  pose proof (absent_not_In _ _ (Habs "price_tier" (or_intror (or_introl eq_refl)))) as Ntier.
  pose proof (absent_not_In _ _ (Habs "region"
                (or_intror (or_intror (or_introl eq_refl))))) as Nreg.
  pose proof (absent_not_In _ _ (Habs "customer_segment"
                (or_intror (or_intror (or_intror (or_introl eq_refl)))))) as Nseg.
  unfold create_fact_table.
  rewrite (@select_three products_df _ _ _ _ _ _ Hrk1 Hcat Htier). cbn [bind].
  rewrite (@merge_left_no_overlap sales_df
             (mkDF (index products_df)
                [("product_id", rk1); ("category", cat); ("price_tier", tier)])
             "product_id" lk1 rk1 Hlk1 eq_refl Hfam1).
  2:{ intros n Hl Hr. cbn in Hr. destruct Hr as [<-|[<-|[<-|[]]]];
      [reflexivity | contradiction | contradiction]. }
  cbv zeta. cbn [bind]. simpl (filter _ _). cbn [map fst snd].
  rewrite (@select_three customers_df _ _ _ _ _ _ Hrk2 Hreg Hseg). cbn [bind].
  fold p1.
  set (fact1 := mkDF (range_index (List.length p1))
                  (map (fun cs => (fst cs, take_left (snd cs) p1)) (columns sales_df)
                   ++ [("category", take_right cat p1); ("price_tier", take_right tier p1)])).
  assert (Hcol1 : forall c s, column sales_df c = Some s ->
                              column fact1 c = Some (take_left s p1)).
  { intros c s Hc. unfold column, fact1. cbn [columns].
    rewrite assoc_get_app, (assoc_get_map_snd (fun s => take_left s p1)).
    unfold column in Hc. rewrite Hc. reflexivity. }
  rewrite (@merge_left_no_overlap fact1
             (mkDF (index customers_df)
                [("customer_id", rk2); ("region", reg); ("customer_segment", seg)])
             "customer_id" (take_left lk2 p1) rk2 (Hcol1 _ _ Hlk2) eq_refl Hfam2).
  2:{ intros n Hl Hr. cbn in Hr.
      unfold column_names, fact1 in Hl. cbn [columns] in Hl.
      rewrite map_app, map_map in Hl. cbn [fst] in Hl. apply in_app_or in Hl.
      destruct Hr as [<-|[<-|[<-|[]]]]; [reflexivity| |];
        (destruct Hl as [Hl|Hl]; [contradiction|]);
        cbn in Hl; destruct Hl as [E|[E|[]]]; discriminate. }
  cbv zeta. cbn [bind]. simpl (filter _ _). cbn [map fst snd].
  fold p2.
  set (fact2 := mkDF (range_index (List.length p2))
                  (map (fun cs => (fst cs, take_left (snd cs) p2)) (columns fact1)
                   ++ [("region", take_right reg p2);
                       ("customer_segment", take_right seg p2)])).
  exists fact2. split; [|reflexivity].
  intros c s Hc. unfold column, fact2. cbn [columns].
  rewrite assoc_get_app, (assoc_get_map_snd (fun s => take_left s p2)).
  fold (column fact1 c).
  rewrite (Hcol1 _ _ Hc). reflexivity.
Qed.

(** X12.  A sale without a date stops the fact table: when the sale dates are
    timestamps and one of them is missing, [create_fact_table] raises a
    [ValueError] at the date key, on frames on which the merges
    themselves go through. *)
Theorem create_fact_table_missing_date
  (sales_df products_df customers_df : DataFrame) (sd : Series) :
  well_formed sales_df ->
  numeric_column sales_df "amount" ->
  column sales_df "sale_date" = Some sd -> dtype sd = Datetime ->
  In CNull (values sd) ->
  columns_absent sales_df ["category"; "price_tier"; "region"; "customer_segment"] ->
  has_column products_df "category" = true ->
  has_column products_df "price_tier" = true ->
  has_column customers_df "region" = true ->
  has_column customers_df "customer_segment" = true ->
  mergeable sales_df products_df "product_id" ->
  mergeable sales_df customers_df "customer_id" ->
  exists e,
    create_fact_table sales_df products_df customers_df = Raise e
    /\ exn_kind e = ValueError.
Proof.
  intros Hw (am & Ham & Dam & Vam) Hsd Dsd Hnat Habs Hcat Htier Hreg Hseg
         (lk1 & rk1 & Hlk1 & Hrk1 & Hfam1) (lk2 & rk2 & Hlk2 & Hrk2 & Hfam2).
  destruct (@create_fact_table_merged sales_df products_df customers_df lk1 rk1 lk2 rk2
              Habs Hcat Htier Hreg Hseg Hlk1 Hrk1 Hfam1 Hlk2 Hrk2 Hfam2)
    as (fact2 & Hcol2 & ->).
  set (p1 := left_join_indexers (values lk1) (values rk1)) in *.
  set (p2 := left_join_indexers (values (take_left lk2 p1)) (values rk2)) in *.
  unfold assign, getitem. rewrite (Hcol2 _ _ Ham). cbn [bind].
  destruct (numeric_series_as_nums (take_left (take_left am p1) p2) Dam
              (take_left_numeric _ _ (take_left_numeric _ _ Vam))) as (xs & Hxs).
  unfold pd_cut. rewrite Hxs. cbn [bind].
  rewrite column_setitem. simpl String.eqb. cbv iota.
  rewrite (Hcol2 _ _ Hsd). cbn [bind].
  set (sd2 := take_left (take_left sd p1) p2).
  assert (Dsd2 : dtype sd2 = Datetime) by exact Dsd.
  assert (Hin : In CNull (values sd2)).
  { apply take_left_join_keeps.
    - apply take_left_join_keeps; [exact Hnat|].
      rewrite (well_formed_column _ Hw Hsd), (well_formed_column _ Hw Hlk1). lia.
    - unfold take_left. cbn [values]. rewrite !length_map. lia. }
  unfold dt_date_key, dt_values. rewrite Dsd2. cbn [bind].
  rewrite (@mapM_raises _ _ _ (values sd2)
             (mkExn ValueError "cannot convert float NaN to integer") CNull).
  - cbn [bind]. eexists. split; reflexivity.
  - intros c _. destruct c; eauto.
  - exact Hin.
  - reflexivity.
Qed.

Lemma create_fact_table_missing_date_witness :
  exists e,
    create_fact_table enriched_undated_sale enriched_products enriched_customers = Raise e
    /\ exn_kind e = ValueError.
Proof.
  eapply (@create_fact_table_missing_date enriched_undated_sale enriched_products
            enriched_customers).
  - repeat constructor.
  - eexists. split; [reflexivity|]. split; reflexivity.
  - reflexivity.
  - reflexivity.
  - right. left. reflexivity.
  - intros c [<-|[<-|[<-|[<-|[]]]]]; reflexivity.
  - reflexivity.
  - reflexivity.
  - reflexivity.
  - reflexivity.
  - eexists. eexists. split; [reflexivity|]. split; reflexivity.
  - eexists. eexists. split; [reflexivity|]. split; reflexivity.
Defined.


(* ================================================================== *)
(** * Running a transform on its own result *)
(* ================================================================== *)

(** ** Characters *)

Ltac each_char c := destruct c as [[] [] [] [] [] [] [] []]; vm_compute; try reflexivity; try discriminate; auto.

Lemma to_upper_space (c : ascii) : is_space (to_upper c) = is_space c.
Proof. each_char c. Qed.

Lemma to_lower_space (c : ascii) : is_space (to_lower c) = is_space c.
Proof. each_char c. Qed.

Lemma to_upper_idem (c : ascii) : to_upper (to_upper c) = to_upper c.
Proof. each_char c. Qed.

Lemma to_lower_idem (c : ascii) : to_lower (to_lower c) = to_lower c.
Proof. each_char c. Qed.

Lemma lower_not_space (c : ascii) : is_lower c = true -> is_space c = false.
Proof. each_char c. Qed.

Lemma upper_not_space (c : ascii) : is_upper c = true -> is_space c = false.
Proof. each_char c. Qed.

Lemma to_upper_cased (c : ascii) :
  is_lower c = true -> is_lower (to_upper c) = false /\ is_upper (to_upper c) = true.
Proof. each_char c. Qed.

Lemma to_lower_cased (c : ascii) :
  is_upper c = true -> is_lower (to_lower c) = true.
Proof. each_char c. Qed.

Lemma upper_not_lower (c : ascii) : is_upper c = true -> is_lower c = false.
Proof. each_char c. Qed.

(** ** Stripping, and the case mappings on stripped text *)

Lemma py_rstrip_cons (c : ascii) (s : string) :
  py_rstrip (String c s)
  = match py_rstrip s with
    | EmptyString => if is_space c then EmptyString else String c EmptyString
    | r => String c r
    end.
Proof. reflexivity. Qed.

Lemma py_rstrip_idem (s : string) : py_rstrip (py_rstrip s) = py_rstrip s.
Proof.
  induction s as [|c s IH]; [reflexivity|].
  rewrite py_rstrip_cons. destruct (py_rstrip s) as [|a r] eqn:E.
  - destruct (is_space c) eqn:Ec; [reflexivity|].
    rewrite py_rstrip_cons. cbn [py_rstrip]. rewrite Ec. reflexivity.
  - rewrite py_rstrip_cons, IH. reflexivity.
Qed.

Lemma py_lstrip_idem (s : string) : py_lstrip (py_lstrip s) = py_lstrip s.
Proof.
  induction s as [|c s IH]; [reflexivity|].
  cbn [py_lstrip]. destruct (is_space c) eqn:Ec; [exact IH|].
  cbn [py_lstrip]. rewrite Ec. reflexivity.
Qed.

Lemma py_rstrip_lstrip (t : string) :
  py_rstrip t = t -> py_rstrip (py_lstrip t) = py_lstrip t.
Proof.
  induction t as [|c t IH]; [reflexivity|].
  intros H. cbn [py_lstrip]. destruct (is_space c) eqn:Ec; [|exact H].
  apply IH. rewrite py_rstrip_cons in H. destruct (py_rstrip t) as [|a r].
  - rewrite Ec in H. discriminate.
  - injection H as H. exact H.
Qed.

Lemma py_strip_idem (s : string) : py_strip (py_strip s) = py_strip s.
Proof.
  unfold py_strip.
  rewrite (@py_rstrip_lstrip _ (py_rstrip_idem s)). apply py_lstrip_idem.
Qed.

(** A mapping of the characters that keeps spaces apart from the others
    commutes with stripping. *)
Lemma str_map_lstrip (f : ascii -> ascii) (s : string) :
  (forall c, is_space (f c) = is_space c) ->
  py_lstrip (str_map f s) = str_map f (py_lstrip s).
Proof.
  intros Hf. induction s as [|c s IH]; [reflexivity|].
  cbn [str_map py_lstrip]. rewrite Hf. destruct (is_space c); [exact IH | reflexivity].
Qed.

Lemma str_map_rstrip (f : ascii -> ascii) (s : string) :
  (forall c, is_space (f c) = is_space c) ->
  py_rstrip (str_map f s) = str_map f (py_rstrip s).
Proof.
  intros Hf. induction s as [|c s IH]; [reflexivity|].
  cbn [str_map]. rewrite !py_rstrip_cons, IH, Hf.
  destruct (py_rstrip s) as [|a r]; cbn [str_map]; [destruct (is_space c)|]; reflexivity.
Qed.

Lemma str_map_strip (f : ascii -> ascii) (s : string) :
  (forall c, is_space (f c) = is_space c) ->
  py_strip (str_map f s) = str_map f (py_strip s).
Proof.
  intros Hf. unfold py_strip. rewrite (@str_map_rstrip _ _ Hf). apply str_map_lstrip, Hf.
Qed.

Lemma str_map_idem (f : ascii -> ascii) (s : string) :
  (forall c, f (f c) = f c) -> str_map f (str_map f s) = str_map f s.
Proof.
  intros Hf. induction s as [|c s IH]; [reflexivity|].
  cbn [str_map]. rewrite Hf, IH. reflexivity.
Qed.

Lemma upper_strip_fixed (x : string) :
  py_upper (py_strip (py_upper (py_strip x))) = py_upper (py_strip x).
Proof.
  unfold py_upper. rewrite (@str_map_strip _ _ to_upper_space), py_strip_idem.
  apply str_map_idem, to_upper_idem.
Qed.

Lemma lower_strip_fixed (x : string) :
  py_lower (py_strip (py_lower (py_strip x))) = py_lower (py_strip x).
Proof.
  unfold py_lower. rewrite (@str_map_strip _ _ to_lower_space), py_strip_idem.
  apply str_map_idem, to_lower_idem.
Qed.

(** ** Title case *)

Lemma title_from_empty (b : bool) (s : string) :
  title_from b s = EmptyString -> s = EmptyString.
Proof.
  destruct s as [|c s]; [reflexivity|]. cbn [title_from].
  destruct (is_lower c); [discriminate|]. destruct (is_upper c); discriminate.
Qed.

Lemma title_from_space (b : bool) (c : ascii) (s : string) :
  is_space c = true ->
  title_from b (String c s) = String c (title_from false s).
Proof.
  intros Hc. cbn [title_from].
  destruct (is_lower c) eqn:El; [rewrite (@lower_not_space _ El) in Hc; discriminate|].
  destruct (is_upper c) eqn:Eu; [rewrite (@upper_not_space _ Eu) in Hc; discriminate|].
  reflexivity.
Qed.

Lemma title_from_head (b : bool) (c : ascii) :
  exists c' b',
    is_space c' = is_space c
    /\ forall s, title_from b (String c s) = String c' (title_from b' s).
Proof.
  destruct (is_lower c) eqn:El; [|destruct (is_upper c) eqn:Eu].
  - eexists. eexists. split; [|intros s; cbn [title_from]; rewrite El; reflexivity].
    destruct b; [reflexivity | apply to_upper_space].
  - eexists. eexists. split; [|intros s; cbn [title_from]; rewrite El, Eu; reflexivity].
    destruct b; [apply to_lower_space | reflexivity].
  - eexists. eexists. split; [|intros s; cbn [title_from]; rewrite El, Eu; reflexivity].
    reflexivity.
Qed.

Lemma title_lstrip (s : string) :
  py_lstrip (title_from false s) = title_from false (py_lstrip s).
Proof.
  induction s as [|c s IH]; [reflexivity|].
  cbn [py_lstrip]. destruct (is_space c) eqn:Ec.
  - rewrite (@title_from_space false _ s Ec). cbn [py_lstrip]. rewrite Ec. exact IH.
  - destruct (title_from_head false c) as (c' & b' & Hs & E).
    rewrite E. cbn [py_lstrip]. rewrite Hs, Ec. reflexivity.
Qed.

Lemma title_rstrip (b : bool) (s : string) :
  py_rstrip (title_from b s) = title_from b (py_rstrip s).
Proof.
  revert b. induction s as [|c s IH]; intros b; [reflexivity|].
  destruct (title_from_head b c) as (c' & b' & Hs & E).
  rewrite E, !py_rstrip_cons, IH.
  destruct (py_rstrip s) as [|a r] eqn:Er.
  - cbn [title_from]. rewrite Hs. destruct (is_space c) eqn:Ec; [reflexivity|].
    rewrite E. reflexivity.
  - destruct (title_from b' (String a r)) as [|a' r'] eqn:Et;
      [apply title_from_empty in Et; discriminate|].
    rewrite <- Et, E. reflexivity.
Qed.

Lemma title_strip (s : string) : py_strip (py_title s) = py_title (py_strip s).
Proof.
  unfold py_strip, py_title. rewrite title_rstrip. apply title_lstrip.
Qed.

Lemma title_from_idem (b : bool) (s : string) :
  title_from b (title_from b s) = title_from b s.
Proof.
  revert b. induction s as [|c s IH]; intros b; [reflexivity|].
  cbn [title_from]. destruct (is_lower c) eqn:El.
  - destruct b; cbn [title_from].
    + rewrite El, IH. reflexivity.
    + destruct (@to_upper_cased _ El) as [E1 E2]. rewrite E1, E2, IH. reflexivity.
  - destruct (is_upper c) eqn:Eu.
    + destruct b; cbn [title_from].
      * rewrite (@to_lower_cased _ Eu), IH. reflexivity.
      * rewrite El, Eu, IH. reflexivity.
    + cbn [title_from]. rewrite El, Eu, IH. reflexivity.
Qed.

Lemma title_strip_fixed (x : string) :
  py_title (py_strip (py_title (py_strip x))) = py_title (py_strip x).
Proof.
  rewrite title_strip, py_strip_idem. apply title_from_idem.
Qed.


(** ** Frames *)

Lemma assoc_set_same {V : Type} (k : string) (v : V) (l : list (string * V)) :
  assoc_get k l = Some v -> assoc_set k v l = l.
Proof.
  induction l as [|[k' v'] l IH]; simpl; [discriminate|].
  destruct (String.eqb_spec k k') as [->|Hk].
  - intros E. injection E as ->. reflexivity.
  - intros E. rewrite (IH E). reflexivity.
Qed.

Lemma setitem_same (df : DataFrame) (c : string) (s : Series) :
  column df c = Some s -> setitem df c s = df.
Proof.
  destruct df as [ix cols]. unfold column, setitem. cbn [index columns].
  intros H. rewrite (assoc_set_same _ _ H). reflexivity.
Qed.

(** An assignment that computes what the column holds already leaves the
    frame as it is. *)
Lemma assign_fixed (df : DataFrame) (dst src : string) (f : Series -> Result Series)
  (s s' : Series) :
  column df src = Some s -> f s = Ok s' -> column df dst = Some s' ->
  assign df dst src f = Ok df.
Proof.
  intros Hs Hf Hd. unfold assign, getitem. rewrite Hs. cbn [bind]. rewrite Hf. cbn [bind].
  rewrite (setitem_same _ _ Hd). reflexivity.
Qed.

(** Two string methods in a row, cell by cell. *)
Lemma str_method_twice (f g : string -> string) (s : Series) :
  (s1 <- str_method (fun x => CStr (f x)) s ;; str_method (fun x => CStr (g x)) s1)
  = match dtype s with
    | Object | Categorical =>
        Ok (mkSeries Object
              (map (fun c => match c with CStr x => CStr (g (f x)) | _ => CNull end)
                   (values s)))
    | _ => Raise (mkExn AttributeError "Can only use .str accessor with string values!")
    end.
Proof.
  unfold str_method. destruct (dtype s); cbn [bind dtype values]; try reflexivity;
    rewrite map_map; do 2 f_equal; apply map_ext; intros [| | | |]; reflexivity.
Qed.

Lemma str_method_twice_Ok (f g : string -> string) (s s' : Series) :
  (s1 <- str_method (fun x => CStr (f x)) s ;; str_method (fun x => CStr (g x)) s1) = Ok s' ->
  s' = mkSeries Object
         (map (fun c => match c with CStr x => CStr (g (f x)) | _ => CNull end) (values s)).
Proof.
  rewrite str_method_twice. destruct (dtype s); try discriminate;
    intros E; injection E as <-; reflexivity.
Qed.

Lemma map_fixed {A : Type} (f : A -> A) (l : list A) :
  (forall a, f (f a) = f a) -> map f (map f l) = map f l.
Proof. intros H. rewrite map_map. apply map_ext. exact H. Qed.

(** Unfolds the frames of the steps of a transform in the lookups. *)
Ltac lookup_steps :=
  repeat (rewrite column_setitem in *; simpl String.eqb in *; cbv iota in * ).

Lemma setitem_scalar_same (df : DataFrame) (c : string) (d : DType) (v : Cell) :
  column df c = Some (mkSeries d (repeat v (nrows df))) -> setitem_scalar df c d v = df.
Proof. intros H. unfold setitem_scalar. apply setitem_same. exact H. Qed.

(** X13.  On a products table whose names and categories are ASCII texts,
    running the product transform on its own result changes nothing but
    the time stamp: the texts are in their normal form already, no
    category is missing, and the tiers are computed from the same prices. *)
Theorem transform_product_data_idempotent (now now' : Timestamp) (df df' : DataFrame) :
  ascii_column df "product_name" -> ascii_column df "category" ->
  transform_product_data now df = Ok df' ->
  transform_product_data now' df'
  = Ok (setitem_scalar df' "transformed_at" Datetime (CDate now'))
  /\ transform_product_data now df' = Ok df'.
Proof.
  intros _ _ H.
  assert (G : forall t, transform_product_data t df'
                        = Ok (setitem_scalar df' "transformed_at" Datetime (CDate t))).
  2:{ split; [apply G|]. rewrite G. f_equal. apply setitem_scalar_same.
      revert H. unfold transform_product_data. intros H.
      step_assign H. step_assign H. step_assign H. step_assign H.
      injection H as <-. unfold setitem_scalar. lookup_steps. reflexivity. }
  intros t. revert H.
  unfold transform_product_data. intros H.
  step_assign H. step_assign H. step_assign H. step_assign H.
  injection H as <-.
  unfold str_strip, str_title, str_upper in *.
  apply str_method_twice_Ok in Hop, Hop0.
  unfold pure_op in Hop1. injection Hop1 as Hop1.
  subst df3 df2 df1 df0. lookup_steps. injection Hcol1 as <-.
  set (D := setitem_scalar _ "transformed_at" Datetime (CDate now)).
  assert (C1 : column D "product_name" = Some s0) by (unfold D, setitem_scalar; lookup_steps; reflexivity).
  assert (C2 : column D "category" = Some s4) by (unfold D, setitem_scalar; lookup_steps; reflexivity).
  assert (C3 : column D "price" = Some s5) by (unfold D, setitem_scalar; lookup_steps; exact Hcol2).
  assert (C4 : column D "price_tier" = Some s6) by (unfold D, setitem_scalar; lookup_steps; reflexivity).
  rewrite (@assign_fixed D "product_name" "product_name" _ s0 s0 C1); [|
    rewrite str_method_twice, Hop; cbn [dtype values]; rewrite map_fixed;
      [reflexivity | intros [| | x | |]; try reflexivity; rewrite title_strip_fixed; reflexivity]
    | exact C1].
  cbn [bind].
  assert (F2 : (s7 <- str_method (fun x => CStr (py_strip x)) s4 ;;
                str_method (fun x => CStr (py_upper x)) s7) = Ok s4).
  { rewrite str_method_twice, <- Hop1, Hop0. unfold fillna. cbn [dtype values].
    do 2 f_equal. rewrite !map_map. apply map_ext.
    intros [| | x | |]; cbn [is_null]; try reflexivity.
    rewrite upper_strip_fixed. reflexivity. }
  rewrite (@assign_fixed D "category" "category" _ s4 s4 C2 F2 C2). cbn [bind].
  assert (F3 : pure_op (fillna (CStr "UNCATEGORIZED")) s4 = Ok s4).
  { unfold pure_op. f_equal. rewrite <- Hop1, Hop0. unfold fillna. cbn [dtype values].
    f_equal. rewrite !map_map. apply map_ext.
    intros [| | x | |]; reflexivity. }
  rewrite (@assign_fixed D "category" "category" _ s4 s4 C2 F3 C2). cbn [bind].
  rewrite (@assign_fixed D "price_tier" "price" _ s5 s6 C3 Hop2 C4). cbn [bind].
  reflexivity.
Qed.

Lemma transform_product_data_idempotent_witness :
  transform_product_data 5%Z enriched_products
  = Ok (setitem_scalar enriched_products "transformed_at" Datetime (CDate 5%Z)).
Proof.
  refine (proj1 (@transform_product_data_idempotent 0%Z 5%Z sample_product_data
                   enriched_products _ _ eq_refl));
    intros s Hs; injection Hs as <-; reflexivity.
Defined.

(** X14.  On a customers table whose names, addresses and regions are
    ASCII texts, running the customer transform on its own result changes
    nothing but the time stamp: names, addresses and regions are in their
    normal form already, and the domain and the segment are derived from
    the same address. *)
Theorem transform_customer_data_idempotent (now now' : Timestamp) (df df' : DataFrame) :
  ascii_column df "customer_name" -> ascii_column df "email" ->
  ascii_column df "region" ->
  transform_customer_data now df = Ok df' ->
  transform_customer_data now' df'
  = Ok (setitem_scalar df' "transformed_at" Datetime (CDate now'))
  /\ transform_customer_data now df' = Ok df'.
Proof.
  intros _ _ _ H.
  assert (G : forall t, transform_customer_data t df'
                        = Ok (setitem_scalar df' "transformed_at" Datetime (CDate t))).
  2:{ split; [apply G|]. rewrite G. f_equal. apply setitem_scalar_same.
      revert H. unfold transform_customer_data. intros H.
      step_assign H. step_assign H. step_assign H. step_assign H. step_assign H.
      step_assign H.
      injection H as <-. unfold setitem_scalar. lookup_steps. reflexivity. }
  intros t. revert H.
  unfold transform_customer_data. intros H.
  step_assign H. step_assign H. step_assign H. step_assign H. step_assign H.
  step_assign H.
  injection H as <-.
  unfold str_strip, str_title, str_upper, str_lower in *.
  apply str_method_twice_Ok in Hop, Hop0, Hop1.
  unfold pure_op in Hop3, Hop4. injection Hop3 as Hop3. injection Hop4 as Hop4.
  subst df5 df4 df3 df2 df1 df0. lookup_steps.
  injection Hcol2 as <-. injection Hcol3 as <-. injection Hcol4 as <-.
  set (D := setitem_scalar _ "transformed_at" Datetime (CDate now)).
  assert (C1 : column D "customer_name" = Some s0)
    by (unfold D, setitem_scalar; lookup_steps; reflexivity).
  assert (C2 : column D "email" = Some s2)
    by (unfold D, setitem_scalar; lookup_steps; reflexivity).
  assert (C3 : column D "region" = Some s10)
    by (unfold D, setitem_scalar; lookup_steps; reflexivity).
  assert (C4 : column D "email_domain" = Some s6)
    by (unfold D, setitem_scalar; lookup_steps; reflexivity).
  assert (C5 : column D "customer_segment" = Some s8)
    by (unfold D, setitem_scalar; lookup_steps; reflexivity).
  rewrite (@assign_fixed D "customer_name" "customer_name" _ s0 s0 C1); [|
    rewrite str_method_twice, Hop; cbn [dtype values]; rewrite map_fixed;
      [reflexivity | intros [| | x | |]; try reflexivity; rewrite title_strip_fixed; reflexivity]
    | exact C1].
  cbn [bind].
  rewrite (@assign_fixed D "email" "email" _ s2 s2 C2); [|
    rewrite str_method_twice, Hop0; cbn [dtype values]; rewrite map_fixed;
      [reflexivity | intros [| | x | |]; try reflexivity; rewrite lower_strip_fixed; reflexivity]
    | exact C2].
  cbn [bind].
  assert (F3 : (s7 <- str_method (fun x => CStr (py_strip x)) s10 ;;
                str_method (fun x => CStr (py_upper x)) s7) = Ok s10).
  { rewrite str_method_twice, <- Hop4, Hop1. unfold fillna. cbn [dtype values].
    do 2 f_equal. rewrite !map_map. apply map_ext.
    intros [| | x | |]; cbn [is_null]; try reflexivity.
    rewrite upper_strip_fixed. reflexivity. }
  rewrite (@assign_fixed D "region" "region" _ s10 s10 C3 F3 C3). cbn [bind].
  rewrite (@assign_fixed D "email_domain" "email" _ s2 s6 C2 Hop2 C4). cbn [bind].
  assert (F5 : pure_op (series_apply (fun c => CStr (_categorize_customer c))) s6 = Ok s8)
    by (unfold pure_op; rewrite Hop3; reflexivity).
  rewrite (@assign_fixed D "customer_segment" "email_domain" _ s6 s8 C4 F5 C5). cbn [bind].
  assert (F6 : pure_op (fillna (CStr "UNKNOWN")) s10 = Ok s10).
  { unfold pure_op. f_equal. rewrite <- Hop4, Hop1. unfold fillna. cbn [dtype values].
    f_equal. rewrite !map_map. apply map_ext.
    intros [| | x | |]; reflexivity. }
  rewrite (@assign_fixed D "region" "region" _ s10 s10 C3 F6 C3). cbn [bind].
  reflexivity.
Qed.

Lemma transform_customer_data_idempotent_witness :
  transform_customer_data 5%Z enriched_customers
  = Ok (setitem_scalar enriched_customers "transformed_at" Datetime (CDate 5%Z)).
Proof.
  refine (proj1 (@transform_customer_data_idempotent 0%Z 5%Z sample_customer_data
                   enriched_customers _ _ _ eq_refl));
    intros s Hs; injection Hs as <-; reflexivity.
Defined.


(* ================================================================== *)
(** * Domains and segments *)
(* ================================================================== *)

Lemma py_split_at (sep : ascii) (u d : string) :
  str_contains sep u = false ->
  py_split sep (u ++ String sep d) = u :: py_split sep d.
Proof.
  induction u as [|c u IH]; intros H.
  - cbn [append py_split]. rewrite Ascii.eqb_refl. reflexivity.
  - cbn [str_contains] in H. apply orb_false_iff in H as [Hc Hu].
    cbn [append py_split]. rewrite Hc, (IH Hu). reflexivity.
Qed.

Lemma _categorize_customer_text (d : string) :
  _categorize_customer (CStr d) = segment_of_domain d.
Proof.
  unfold _categorize_customer, segment_of_domain, py_truthy, cell_in, str_in.
  destruct (String.eqb d ""); reflexivity.
Qed.

(** X15.  For an address that is an ASCII text, the domain of the customer
    is what follows the at-sign of the address once the address is
    stripped and in lower case, and the segment is that of this domain:
    capitals and surrounding blanks in the raw address make no
    difference, and an address that ends at its at-sign has the empty
    domain and the segment "Unknown". *)
Theorem transform_customer_data_domain
  (now : Timestamp) (df df' : DataFrame) (i : nat) (e u d : string) :
  transform_customer_data now df = Ok df' ->
  cell_at df "email" i = Some (CStr e) -> ascii_text e = true ->
  py_lower (py_strip e) = (u ++ "@" ++ d)%string ->
  str_contains at_sign u = false -> str_contains at_sign d = false ->
  cell_at df' "email_domain" i = Some (CStr d)
  /\ cell_at df' "customer_segment" i = Some (CStr (segment_of_domain d))
  /\ (d = "" -> cell_at df' "customer_segment" i = Some (CStr "Unknown")).
Proof.
  intros H He _ Hsplit Hu Hd.
  destruct (@transform_customer_data_email now df df' i e H He) as (_ & Hdom & Hseg).
  cbv zeta in Hdom, Hseg.
  assert (E : split_get at_sign 1 (py_lower (py_strip e)) = CStr d).
  { unfold split_get. rewrite Hsplit.
    change (u ++ "@" ++ d)%string with (u ++ String at_sign d)%string.
    rewrite (@py_split_at _ _ d Hu), (@py_split_without_sep _ _ Hd). reflexivity. }
  rewrite E in Hdom, Hseg. rewrite _categorize_customer_text in Hseg.
  split; [exact Hdom|]. split; [exact Hseg|].
  intros ->. exact Hseg.
Qed.

Lemma transform_customer_data_domain_witness :
  exists df',
    transform_customer_data 0%Z untidy_customer_data = Ok df'
    /\ cell_at df' "email_domain" 0 = Some (CStr "company.com")
    /\ cell_at df' "customer_segment" 0 = Some (CStr "Corporate")
    /\ cell_at df' "customer_segment" 1 = Some (CStr "Unknown").
Proof.
  destruct (transform_customer_data 0%Z untidy_customer_data) as [df'|] eqn:E;
    [|vm_compute in E; discriminate].
  exists df'. split; [reflexivity|].
  destruct (@transform_customer_data_domain 0%Z untidy_customer_data df' 0
              "  Jane@Company.COM " "jane" "company.com" E eq_refl eq_refl eq_refl eq_refl
              eq_refl)
    as (Hd & Hs & _).
  destruct (@transform_customer_data_domain 0%Z untidy_customer_data df' 1
              "john@" "john" "" E eq_refl eq_refl eq_refl eq_refl eq_refl)
    as (_ & _ & Hu).
  split; [exact Hd|]. split; [exact Hs | exact (Hu eq_refl)].
Defined.


(* ================================================================== *)
(** * The dimension tables *)
(* ================================================================== *)

(** ** Distinct values *)

Lemma unique_from_In (seen l : list Cell) (c : Cell) :
  In c (unique_from seen l) <-> In c l /\ ~ In c seen.
Proof.
  revert seen. induction l as [|c0 l IH]; intros seen; cbn [unique_from In].
  - tauto.
  - destruct (existsb (cell_eqb c0) seen) eqn:E.
    + apply (mem_cell_In c0 seen) in E. rewrite IH. split.
      * tauto.
      * intros [[->|Hc] Hn]; [contradiction | tauto].
    + assert (Hn0 : ~ In c0 seen).
      { intros Hin. apply (mem_cell_In c0 seen) in Hin. unfold mem_cell in Hin. congruence. }
      cbn [In]. rewrite IH. cbn [In]. split.
      * intros [<-|[Hc Hn]]; [tauto|]. tauto.
      * intros [[<-|Hc] Hn]; [tauto|].
        destruct (cell_eq_dec c0 c) as [->|Hne]; [tauto|]. right. tauto.
Qed.

Lemma unique_from_NoDup (seen l : list Cell) : NoDup (unique_from seen l).
Proof.
  revert seen. induction l as [|c0 l IH]; intros seen; cbn [unique_from].
  - constructor.
  - destruct (existsb (cell_eqb c0) seen); [apply IH|].
    constructor; [|apply IH]. rewrite unique_from_In. cbn [In]. tauto.
Qed.

Lemma unique_from_ext (seen seen' l : list Cell) :
  (forall c, existsb (cell_eqb c) seen = existsb (cell_eqb c) seen') ->
  unique_from seen l = unique_from seen' l.
Proof.
  revert seen seen'. induction l as [|c0 l IH]; intros seen seen' H; [reflexivity|].
  cbn [unique_from]. rewrite <- (H c0).
  destruct (existsb (cell_eqb c0) seen); [apply IH, H|].
  f_equal. apply IH. intros c. cbn [existsb]. rewrite H. reflexivity.
Qed.

(** The distinct values and the repeated cells of a column make up the
    column. *)
Lemma unique_from_length (seen l : list Cell) :
  List.length (unique_from seen l) + count_true (duplicated_from seen l) = List.length l.
Proof.
  revert seen. induction l as [|c0 l IH]; intros seen; [reflexivity|].
  cbn [unique_from duplicated_from]. unfold count_true in *. cbn [filter].
  destruct (existsb (cell_eqb c0) seen) eqn:E; cbn [List.length].
  - rewrite (@unique_from_ext seen (c0 :: seen) l).
    + rewrite <- (IH (c0 :: seen)). lia.
    + intros c. cbn [existsb]. destruct (cell_eqb c c0) eqn:Ec; [|reflexivity].
      apply cell_eqb_iff in Ec. subst. rewrite E. reflexivity.
  - rewrite <- (IH (c0 :: seen)). lia.
Qed.

(** The distinct values come in the order of their first appearance: a
    value that comes earlier among them appears in the column before the
    first appearance of one that comes later. *)
Lemma unique_from_order (seen l : list Cell) (i j : nat) (c d : Cell) :
  i < j ->
  nth_error (unique_from seen l) i = Some c ->
  nth_error (unique_from seen l) j = Some d ->
  exists k, nth_error l k = Some c /\ forall m, m <= k -> nth_error l m <> Some d.
Proof.
  revert seen i j. induction l as [|c0 l IH]; intros seen i j Hij Hi Hj.
  - destruct i; discriminate.
  - cbn [unique_from] in Hi, Hj.
    destruct (existsb (cell_eqb c0) seen) eqn:E.
    + destruct (IH seen i j Hij Hi Hj) as (k & Hk & Hbefore).
      exists (S k). split; [exact Hk|].
      intros [|m] Hm; cbn [nth_error].
      * intros Hd. injection Hd as ->.
        apply nth_error_In, unique_from_In in Hj as [_ Hn].
        apply Hn. apply (mem_cell_In d seen). exact E.
      * apply Hbefore. lia.
    + destruct j as [|j]; [lia|]. cbn [nth_error] in Hj.
      assert (Hd : d <> c0).
      { intros ->. apply nth_error_In, unique_from_In in Hj as [_ Hn].
        apply Hn. left. reflexivity. }
      destruct i as [|i]; cbn [nth_error] in Hi.
      * injection Hi as <-. exists 0. split; [reflexivity|].
        intros m Hm. assert (m = 0) by lia. subst m. cbn [nth_error]. congruence.
      * destruct (IH (c0 :: seen) i j ltac:(lia) Hi Hj) as (k & Hk & Hbefore).
        exists (S k). split; [exact Hk|].
        intros [|m] Hm; cbn [nth_error]; [congruence|]. apply Hbefore. lia.
Qed.

Lemma duplicated_from_NoDup (seen l : list Cell) :
  NoDup l -> (forall c, In c l -> ~ In c seen) ->
  count_true (duplicated_from seen l) = 0.
Proof.
  revert seen. induction l as [|c0 l IH]; intros seen Hnd Hdis; [reflexivity|].
  cbn [duplicated_from]. unfold count_true in *. cbn [filter].
  assert (E : existsb (cell_eqb c0) seen = false).
  { destruct (existsb (cell_eqb c0) seen) eqn:E; [|reflexivity].
    apply (mem_cell_In c0 seen) in E. exfalso. apply (Hdis c0); [left; reflexivity | exact E]. }
  rewrite E. inversion Hnd as [|? ? Hnot Hnd']; subst. apply IH; [exact Hnd'|].
  intros c Hc [<-|Hs]; [contradiction|]. apply (Hdis c); [right; exact Hc | exact Hs].
Qed.

(** ** Surrogate keys *)

Lemma qz_inj (a b : Z) : qz a = qz b -> a = b.
Proof.
  unfold qz. intros H. apply Q2Qc_eq_iff in H. unfold Qeq in H. simpl in H. lia.
Qed.

Lemma NoDup_map_injective {A B : Type} (f : A -> B) (l : list A) :
  (forall a b, f a = f b -> a = b) -> NoDup l -> NoDup (map f l).
Proof.
  intros Hf Hl. induction Hl as [|a l Hn Hl IH]; cbn [map]; constructor; [|exact IH].
  intros Hin. apply in_map_iff in Hin as (b & Hb & Hin). apply Hf in Hb. subst. contradiction.
Qed.

Lemma key_range_NoDup (n : nat) : NoDup (values (key_range n)).
Proof.
  unfold key_range. cbn [values]. apply NoDup_map_injective; [|apply seq_NoDup].
  intros a b H.
  apply (f_equal (fun c => match c with CNum (Fin q) => q | _ => qz 0 end)) in H.
  unfold nz in H. apply qz_inj in H. lia.
Qed.

Lemma key_range_nth (n i : nat) :
  i < n -> nth_error (values (key_range n)) i = Some (CNum (nz (Z.of_nat (i + 1)))).
Proof.
  intros Hi. unfold key_range. cbn [values].
  rewrite nth_error_map, nth_error_seq.
  destruct (Nat.ltb_spec i n) as [_|]; [|lia]. cbn [option_map].
  do 4 f_equal. lia.
Qed.

Lemma length_key_range (n : nat) : List.length (values (key_range n)) = n.
Proof. unfold key_range. cbn [values]. rewrite length_map. apply length_seq. Qed.

Lemma nth_error_repeat_lt {A : Type} (a : A) (n i : nat) :
  i < n -> nth_error (repeat a n) i = Some a.
Proof.
  revert i. induction n as [|n IH]; intros i Hi; [lia|].
  destruct i as [|i]; [reflexivity|]. cbn [repeat nth_error]. apply IH. lia.
Qed.

(** The four assignments of a dimension builder, for a key column whose
    name is none of the three others. *)
Lemma scd_dimension_built (key : string) (now : Timestamp) (df : DataFrame) :
  String.eqb key "effective_date" = false ->
  String.eqb key "end_date" = false ->
  String.eqb key "is_current" = false ->
  scd_dimension key now df
    (setitem_scalar
       (setitem_scalar
          (setitem_scalar (setitem df key (key_range (nrows df)))
             "effective_date" Object (date_of now))
          "end_date" Object CNull)
       "is_current" Boolean (CBool true)).
Proof.
  intros K1 K2 K3.
  set (d1 := setitem df key (key_range (nrows df))).
  set (d2 := setitem_scalar d1 "effective_date" Object (date_of now)).
  set (d3 := setitem_scalar d2 "end_date" Object CNull).
  set (d4 := setitem_scalar d3 "is_current" Boolean (CBool true)).
  assert (Ck : column d4 key = Some (key_range (nrows df))).
  { unfold d4, d3, d2, d1, setitem_scalar. rewrite !column_setitem.
    rewrite K1, K2, K3, String.eqb_refl. reflexivity. }
  split; [|split; [|split]].
  - assert (R1 : same_rows df d1 [key])
      by (apply same_rows_setitem; intros _; apply length_key_range).
    pose proof (same_rows_setitem_scalar d1 "effective_date" Object (date_of now)) as R2.
    pose proof (same_rows_setitem_scalar d2 "end_date" Object CNull) as R3.
    pose proof (same_rows_setitem_scalar d3 "is_current" Boolean (CBool true)) as R4.
    fold d2 in R2. fold d3 in R3. fold d4 in R4.
    exact (same_rows_trans (same_rows_trans (same_rows_trans R1 R2) R3) R4).
  - exists (key_range (nrows df)). split; [exact Ck|].
    split; [apply key_range_NoDup | apply length_key_range].
  - intros i Hi. unfold cell_at. rewrite Ck.
    split; [apply key_range_nth, Hi|].
    unfold d4, d3, d2, setitem_scalar. rewrite !column_setitem. simpl String.eqb. cbv iota.
    cbn [values]. repeat split; apply nth_error_repeat_lt; exact Hi.
  - unfold _check_unique_columns. cbn [fold_left]. rewrite Ck.
    unfold duplicate_count, duplicated.
    rewrite (duplicated_from_NoDup [] (key_range_NoDup (nrows df))); [reflexivity|].
    intros c _ [].
Qed.

(** X16.  The product and the customer dimension have the rows of the table
    they are built from, with its columns unchanged apart from the four
    that are assigned; the surrogate keys are 1, 2, ... in the order of
    the rows, so no two rows share a key and the uniqueness check on the
    key passes; every row is current, with the day of the clock as its
    effective date and no end date. *)
Theorem dimension_surrogate_keys (now : Timestamp) (df : DataFrame) :
  scd_dimension "product_key" now df (_create_product_dimension now df)
  /\ scd_dimension "customer_key" now df (_create_customer_dimension now df).
Proof.
  split; apply scd_dimension_built; reflexivity.
Qed.

Lemma dimension_surrogate_keys_witness :
  cell_at (_create_product_dimension 0%Z sample_product_data) "product_key" 2
  = Some (CNum (nz 3))
  /\ cell_at (_create_product_dimension 0%Z sample_product_data) "is_current" 2
     = Some (CBool true).
Proof.
  destruct (dimension_surrogate_keys 0%Z sample_product_data) as [(_ & _ & Hrow & _) _].
  destruct (Hrow 2) as (Hk & _ & _ & Hc); [vm_compute; lia|].
  split; [exact Hk | exact Hc].
Defined.

(** ** The date dimension *)

Lemma dt_field_values (f : Timestamp -> Z) (s : Series) :
  dtype s = Datetime ->
  dt_field f s
  = Ok (mkSeries Numeric
          (map (fun c => match c with CDate t => CNum (nz (f t)) | _ => CNull end)
               (values s))).
Proof. intros Hd. unfold dt_field, dt_values. rewrite Hd. reflexivity. Qed.

Lemma dt_date_key_values (s : Series) :
  dtype s = Datetime -> forallb date_cell (values s) = true ->
  dt_date_key s
  = Ok (mkSeries Numeric
          (map (fun c => match c with
                         | CDate t => CNum (nz (ts_date_key t))
                         | _ => CNull
                         end) (values s))).
Proof.
  intros Hd Hv. unfold dt_date_key, dt_values. rewrite Hd. cbn [bind].
  assert (E : mapM (fun c => match c with
                             | CDate t => Ok (CNum (nz (ts_date_key t)))
                             | _ => Raise (mkExn ValueError
                                             "cannot convert float NaN to integer")
                             end) (values s)
              = Ok (map (fun c => match c with
                                  | CDate t => CNum (nz (ts_date_key t))
                                  | _ => CNull
                                  end) (values s))).
  { induction (values s) as [|c l IH]; [reflexivity|].
    cbn [forallb] in Hv. apply andb_true_iff in Hv as [Hc Hl].
    cbn [mapM map]. destruct c; try discriminate. cbn [bind]. rewrite (IH Hl). reflexivity. }
  rewrite E. reflexivity.
Qed.

Lemma dt_date_key_missing (s : Series) :
  dtype s = Datetime -> In CNull (values s) ->
  exists e, dt_date_key s = Raise e /\ exn_kind e = ValueError.
Proof.
  intros Hd Hin. unfold dt_date_key, dt_values. rewrite Hd. cbn [bind].
  rewrite (@mapM_raises _ _ _ (values s)
             (mkExn ValueError "cannot convert float NaN to integer") CNull).
  - cbn [bind]. eexists. split; reflexivity.
  - intros c _. destruct c; eauto.
  - exact Hin.
  - reflexivity.
Qed.

Section DateDimension.

Variable parse_datetime : string -> option Timestamp.

(** The frame of the date dimension on a column of timestamps. *)
Lemma _create_date_dimension_dates (dates : Series) :
  dtype dates = Datetime ->
  let full_date := series_unique dates in
  (forallb date_cell (values dates) = true ->
   exists dim year quarter month day day_of_week is_weekend,
     _create_date_dimension parse_datetime dates = Ok dim
     /\ dim = mkDF (range_index (List.length (values full_date)))
                [ ("date_key",
                   mkSeries Numeric
                     (map (fun c => match c with
                                    | CDate t => CNum (nz (ts_date_key t))
                                    | _ => CNull
                                    end) (values full_date)));
                  ("full_date", full_date);
                  ("year", year); ("quarter", quarter); ("month", month); ("day", day);
                  ("day_of_week", day_of_week); ("is_weekend", is_weekend) ])
  /\ (In CNull (values dates) ->
      exists e, _create_date_dimension parse_datetime dates = Raise e
                /\ exn_kind e = ValueError).
Proof.
  intros Hd full_date.
  assert (Hd' : dtype full_date = Datetime) by exact Hd.
  assert (Hstart :
            _create_date_dimension parse_datetime dates
            = (date_key <- dt_date_key full_date ;;
               year <- dt_field ts_year full_date ;;
               quarter <- dt_field ts_quarter full_date ;;
               month <- dt_field ts_month full_date ;;
               day <- dt_field ts_day full_date ;;
               day_of_week <- dt_field ts_dayofweek full_date ;;
               is_weekend <- dt_field ts_dayofweek full_date ;;
               Ok (mkDF (range_index (List.length (values full_date)))
                     [ ("date_key", date_key);
                       ("full_date", full_date);
                       ("year", year);
                       ("quarter", quarter);
                       ("month", month);
                       ("day", day);
                       ("day_of_week", day_of_week);
                       ("is_weekend", isin [CNum (nz 5); CNum (nz 6)] is_weekend) ]))).
  { unfold _create_date_dimension, assign, getitem. cbv zeta. fold full_date.
    unfold column at 1. cbn [columns assoc_get String.eqb Ascii.eqb Bool.eqb bind].
    unfold to_datetime. rewrite Hd'. cbn [bind].
    rewrite column_setitem. simpl String.eqb. cbv iota.
    unfold column. cbn [columns assoc_get String.eqb Ascii.eqb Bool.eqb bind].
    rewrite (setitem_same (mkDF _ [("full_date", full_date)]) "full_date");
      [reflexivity | reflexivity]. }
  split.
  - intros Hv.
    assert (Hv' : forallb date_cell (values full_date) = true).
    { apply forallb_forall. intros c Hc. unfold full_date, series_unique in Hc.
      cbn [values] in Hc. apply unique_from_In in Hc as [Hc _].
      rewrite forallb_forall in Hv. exact (Hv c Hc). }
    rewrite Hstart, (dt_date_key_values _ Hd' Hv'). cbn [bind].
    rewrite !(dt_field_values _ _ Hd'). cbn [bind].
    do 7 eexists. split; reflexivity.
  - intros Hin.
    assert (Hin' : In CNull (values full_date)).
    { unfold full_date, series_unique. cbn [values]. apply unique_from_In.
      split; [exact Hin | intros []]. }
    destruct (dt_date_key_missing _ Hd' Hin') as (e & He & Hk).
    exists e. rewrite Hstart, He. split; [reflexivity | exact Hk].
Qed.

(** X17.  On a column of timestamps the date dimension has one row for each
    distinct timestamp, in the order of first appearance: a timestamp
    whose row comes earlier appears in the column before the first
    appearance of one whose row comes later.  Its rows and the repeated
    cells of the column add up to the column.  The key of a row
    is the day of its timestamp as the number YYYYMMDD, so two sales at
    different times of one day give two rows with the same date key.  A
    missing timestamp makes the builder raise a [ValueError]. *)
Theorem _create_date_dimension_rows (dates : Series) :
  dtype dates = Datetime ->
  (forallb date_cell (values dates) = true ->
   exists dim full_date,
     _create_date_dimension parse_datetime dates = Ok dim
     /\ column dim "full_date" = Some full_date
     /\ NoDup (values full_date)
     /\ (forall c, In c (values full_date) <-> In c (values dates))
     /\ (forall i j c d,
            i < j ->
            nth_error (values full_date) i = Some c ->
            nth_error (values full_date) j = Some d ->
            exists k,
              nth_error (values dates) k = Some c
              /\ forall m, m <= k -> nth_error (values dates) m <> Some d)
     /\ nrows dim + duplicate_count dates = List.length (values dates)
     /\ (forall i t, nth_error (values full_date) i = Some (CDate t) ->
                     cell_at dim "date_key" i = Some (CNum (nz (ts_date_key t))))
     /\ (forall t1 t2,
            In (CDate t1) (values dates) -> In (CDate t2) (values dates) ->
            t1 <> t2 -> ts_date_key t1 = ts_date_key t2 ->
            exists i j, i <> j
                        /\ cell_at dim "date_key" i = Some (CNum (nz (ts_date_key t1)))
                        /\ cell_at dim "date_key" j = Some (CNum (nz (ts_date_key t1)))))
  /\ (In CNull (values dates) ->
      exists e, _create_date_dimension parse_datetime dates = Raise e
                /\ exn_kind e = ValueError).
Proof.
  intros Hd. destruct (_create_date_dimension_dates dates Hd) as [Hok Hraise].
  split; [|exact Hraise].
  intros Hv.
  destruct (Hok Hv) as (dim & year & quarter & month & day & dow & we & Hdim & Eq).
  exists dim, (series_unique dates). split; [exact Hdim|].
  assert (Hkey : forall i t,
             nth_error (values (series_unique dates)) i = Some (CDate t) ->
             cell_at dim "date_key" i = Some (CNum (nz (ts_date_key t)))).
  { intros i t Hi. rewrite Eq. unfold cell_at, column.
    cbn [columns assoc_get String.eqb Ascii.eqb Bool.eqb values].
    rewrite nth_error_map, Hi. reflexivity. }
  assert (Hmem : forall c, In c (values (series_unique dates)) <-> In c (values dates)).
  { intros c. unfold series_unique. cbn [values]. rewrite unique_from_In. tauto. }
  split; [rewrite Eq; reflexivity|].
  split; [apply unique_from_NoDup|].
  split; [exact Hmem|].
  split; [intros i j c d; apply unique_from_order|].
  split.
  { rewrite Eq. unfold nrows. cbn [index]. rewrite length_range_index.
    apply (unique_from_length [] (values dates)). }
  split; [exact Hkey|].
  intros t1 t2 H1 H2 Hne Hsame.
  apply Hmem in H1, H2.
  apply In_nth_error in H1 as (i & Hi). apply In_nth_error in H2 as (j & Hj).
  exists i, j. split; [intros ->; congruence|].
  split; [exact (Hkey i t1 Hi)|]. rewrite Hsame. exact (Hkey j t2 Hj).
Qed.

End DateDimension.

Lemma _create_date_dimension_rows_witness :
  exists dim,
    _create_date_dimension iso_parse sale_hours = Ok dim
    /\ nrows dim = 3
    /\ cell_at dim "date_key" 0 = Some (CNum (nz 20240101))
    /\ exists j, j <> 0 /\ cell_at dim "date_key" j = Some (CNum (nz 20240101)).
Proof.
  destruct (proj1 (@_create_date_dimension_rows iso_parse sale_hours eq_refl) eq_refl)
    as (dim & full_date & Hdim & Hfull & _ & _ & _ & Hrows & Hkey & Hday).
  exists dim. split; [exact Hdim|].
  split; [change (duplicate_count sale_hours) with 1 in Hrows; simpl in Hrows; lia|].
  destruct (Hday 1704117600000000000%Z 1704103200000000000%Z) as (i & j & Hij & Hi & Hj).
  - simpl. auto.
  - simpl. auto.
  - discriminate.
  - reflexivity.
  - assert (H0 : cell_at dim "date_key" 0 = Some (CNum (nz 20240101))).
    { vm_compute in Hdim. injection Hdim as <-. reflexivity. }
    split; [exact H0|].
    destruct j as [|j].
    + exists i. split; [intros ->; apply Hij; reflexivity | exact Hi].
    + exists (S j). split; [discriminate | exact Hj].
Defined.

(** X18.  [create_dimension_tables] reads nothing of the sales table but its
    dates.  Without a [sale_date] column it raises a [KeyError]; with a
    missing timestamp among the dates it raises a [ValueError]; and on
    timestamps without a gap it returns the three tables under the keys
    dim_date, dim_product and dim_customer, in this order, the date
    dimension having at most as many rows as there are sales and the other
    two as many rows as the tables they are built from. *)
Theorem create_dimension_tables_tables
  (parse_datetime : string -> option Timestamp) (now : Timestamp)
  (sales_df products_df customers_df : DataFrame) :
  (column sales_df "sale_date" = None ->
   exists e, create_dimension_tables parse_datetime now sales_df products_df customers_df
             = Raise e /\ exn_kind e = KeyError)
  /\ (forall dates,
         column sales_df "sale_date" = Some dates -> dtype dates = Datetime ->
         (In CNull (values dates) ->
          exists e, create_dimension_tables parse_datetime now sales_df products_df
                      customers_df = Raise e /\ exn_kind e = ValueError)
         /\ (forallb date_cell (values dates) = true ->
             exists date_dim,
               create_dimension_tables parse_datetime now sales_df products_df customers_df
               = Ok [ ("dim_date", date_dim);
                      ("dim_product", _create_product_dimension now products_df);
                      ("dim_customer", _create_customer_dimension now customers_df) ]
               /\ nrows date_dim <= List.length (values dates)
               /\ nrows (_create_product_dimension now products_df) = nrows products_df
               /\ nrows (_create_customer_dimension now customers_df) = nrows customers_df)).
Proof.
  split.
  - intros Hnone. unfold create_dimension_tables, getitem. rewrite Hnone.
    eexists. split; reflexivity.
  - intros dates Hdates Hd.
    destruct (_create_date_dimension_dates parse_datetime dates Hd) as [Hok Hraise].
    unfold create_dimension_tables, getitem. rewrite Hdates. cbn [bind]. split.
    + intros Hin. destruct (Hraise Hin) as (e & -> & Hk). exists e. split; [reflexivity|exact Hk].
    + intros Hv.
      destruct (Hok Hv) as (dim & year & quarter & month & day & dow & we & -> & Eq).
      exists dim. cbn [bind]. split; [reflexivity|].
      split; [|split; reflexivity].
      rewrite Eq. unfold nrows. cbn [index]. rewrite length_range_index.
      pose proof (unique_from_length [] (values dates)) as Hlen.
      unfold series_unique. cbn [values]. lia.
Qed.

Lemma create_dimension_tables_tables_witness :
  (exists e, create_dimension_tables iso_parse 0%Z no_columns sample_product_data
               sample_customer_data = Raise e /\ exn_kind e = KeyError)
  /\ (exists e, create_dimension_tables iso_parse 0%Z enriched_undated_sale
                  sample_product_data sample_customer_data = Raise e
                /\ exn_kind e = ValueError).
Proof.
  destruct (create_dimension_tables_tables iso_parse 0%Z no_columns sample_product_data
              sample_customer_data) as [Hkey _].
  destruct (create_dimension_tables_tables iso_parse 0%Z enriched_undated_sale
              sample_product_data sample_customer_data) as [_ Hdates].
  split; [exact (Hkey eq_refl)|].
  refine (proj1 (Hdates _ eq_refl eq_refl) _).
  right. left. reflexivity.
Defined.


(* ================================================================== *)
(** * The stages of the pipeline *)
(* ================================================================== *)

Lemma foldM_app {A B : Type} (body : B -> A -> Result B) (l1 l2 : list A) (acc : B) :
  foldM body (l1 ++ l2) acc = (acc' <- foldM body l1 acc ;; foldM body l2 acc').
Proof.
  revert acc. induction l1 as [|x l1 IH]; intros acc; [reflexivity|].
  cbn [app foldM]. destruct (body acc x) as [acc'|e]; cbn [bind]; [apply IH | reflexivity].
Qed.

Section StagesProperties.

Variable Store : Type.
Variable parse_datetime : string -> option Timestamp.
Variable read_csv : string -> Result DataFrame.
Variable read_sql_query : string -> Store -> Result DataFrame.
Variable to_sql : string -> DataFrame -> IfExists -> Store -> Result unit * Store.
Variable _merge_data : string -> string -> Store -> Result unit * Store.
Variable commit : Store -> Store.
Variable rollback : Store -> Store.
Variable transform_clock : string -> Timestamp.
Variable validate_clock : string -> Timestamp.

(** ** Extraction *)

Lemma extract_reads (sources : list Source) (st : Store)
  (acc : list (string * DataFrame)) :
  Forall (fun source => exists df, read_source read_csv read_sql_query source st = Ok df)
         sources ->
  exists extracted_data,
    foldM (fun extracted_data source =>
             df <- read_source read_csv read_sql_query source st ;;
             Ok (assoc_set (source_name source) df extracted_data))
          sources acc = Ok extracted_data.
Proof.
  intros H. revert acc. induction H as [|source sources [df Hdf] _ IH]; intros acc.
  - exists acc. reflexivity.
  - cbn [foldM]. rewrite Hdf. cbn [bind]. apply IH.
Qed.

(** X19.  A source whose type is neither csv nor database stops the pipeline:
    [extract] raises a [ValueError] that names the type, the sources after
    it are not read, and [run] returns false, having closed the run record
    as FAILED with that text as its error message and 0 records, the
    database otherwise as it was. *)
Theorem unsupported_source_type_fails_run
  (config : Config) (before after : list Source) (source : Source)
  (s : PipelineState (Database Store)) (t0 t1 : Timestamp) :
  cfg_sources config = before ++ source :: after ->
  Forall (fun source' =>
            exists df, read_source read_csv read_sql_query source' (store (world s)) = Ok df)
         before ->
  source_type source <> "csv" -> source_type source <> "database" ->
  let e := mkExn ValueError ("Unsupported source type: " ++ source_type source)%string in
  extract read_csv read_sql_query config (world s) = (Raise e, world s)
  /\ run_pipeline parse_datetime read_csv read_sql_query to_sql _merge_data commit rollback
       transform_clock validate_clock config t0 t1 s
     = (Ok false,
        closed_state (cfg_pipeline_name config) s t0 t1 FAILED 0 (Some (exn_msg e)) (world s))
  /\ current_run
       (snd (run_pipeline parse_datetime read_csv read_sql_query to_sql _merge_data commit
               rollback transform_clock validate_clock config t0 t1 s))
     = Some (mkRun (next_run_id (pipeline_runs s)) (cfg_pipeline_name config) FAILED t0
               (Some t1) (Some 0)
               (Some ("Unsupported source type: " ++ source_type source)%string)).
Proof.
  intros Hsources Hbefore Hcsv Hdb e.
  assert (He : extract read_csv read_sql_query config (world s) = (Raise e, world s)).
  { unfold extract. f_equal. rewrite Hsources, foldM_app.
    destruct (@extract_reads _ _ [] Hbefore) as (acc & ->). cbn [bind foldM].
    unfold read_source at 1.
    apply String.eqb_neq in Hcsv, Hdb. rewrite Hcsv, Hdb. reflexivity. }
  assert (Hrun : run_pipeline parse_datetime read_csv read_sql_query to_sql _merge_data
                   commit rollback transform_clock validate_clock config t0 t1 s
                 = (Ok false,
                    closed_state (cfg_pipeline_name config) s t0 t1 FAILED 0
                      (Some (exn_msg e)) (world s))).
  { unfold run_pipeline. apply run_extract_raises. exact He. }
  split; [exact He|]. split; [exact Hrun|].
  rewrite Hrun. cbn [snd]. apply closed_state_current.
Qed.

End StagesProperties.

Lemma unsupported_source_type_fails_run_witness :
  run_pipeline iso_parse sample_files null_query null_to_sql null_merge_data
    (fun st => st) (fun st => st) (fun _ => 0%Z) (fun _ => 1%Z) xml_config 10%Z 20%Z
    fresh_pipeline
  = (Ok false,
     mkState
       [mkRun 1 "sales_pipeline" FAILED 10%Z (Some 20%Z) (Some 0)
          (Some "Unsupported source type: xml")]
       [InsertRun 1; UpdateRun (Some 1) FAILED] (Some 1) (mkDB [] tt)).
Proof.
  refine (proj1 (proj2 (@unsupported_source_type_fails_run unit iso_parse sample_files
            null_query null_to_sql null_merge_data (fun st => st) (fun st => st)
            (fun _ => 0%Z) (fun _ => 1%Z) xml_config
            [mkSource "sales" "csv" (Some "sales.csv") None]
            [mkSource "products" "csv" (Some "products.csv") None]
            (mkSource "feed" "xml" (Some "feed.xml") None)
            fresh_pipeline 10%Z 20%Z eq_refl _ _ _))).
  - constructor; [|constructor]. eexists. reflexivity.
  - discriminate.
  - discriminate.
Defined.


(** ** Transformation *)

Lemma assoc_set_fresh {V : Type} (k : string) (v : V) (l : list (string * V)) :
  ~ In k (map fst l) -> assoc_set k v l = l ++ [(k, v)].
Proof.
  induction l as [|[k' v'] l IH]; intros H; [reflexivity|].
  cbn [assoc_set map fst In] in *.
  destruct (String.eqb_spec k k') as [->|Hk]; [tauto|].
  rewrite IH by tauto. reflexivity.
Qed.

(** Filling an empty dictionary with values under distinct keys gives the
    values in the order of their insertion. *)
Lemma fold_assoc_set_distinct {V W : Type} (key : W -> string) (val : W -> V)
  (outs : list W) (acc : list (string * V)) :
  NoDup (map fst acc ++ map key outs) ->
  fold_left (fun acc out => assoc_set (key out) (val out) acc) outs acc
  = acc ++ map (fun out => (key out, val out)) outs.
Proof.
  revert acc. induction outs as [|out outs IH]; intros acc Hnd.
  - cbn. rewrite app_nil_r. reflexivity.
  - cbn [fold_left map]. cbn [map] in Hnd.
    rewrite assoc_set_fresh.
    + rewrite IH.
      * rewrite <- app_assoc. reflexivity.
      * rewrite map_app. cbn [map fst]. rewrite <- app_assoc. exact Hnd.
    + apply NoDup_remove_2 in Hnd. intros Hin. apply Hnd. apply in_or_app. left. exact Hin.
Qed.

Section TransformStage.

Variable Store : Type.
Variable parse_datetime : string -> option Timestamp.
Variable transform_clock : string -> Timestamp.
Variable validate_clock : string -> Timestamp.

Lemma transform_items_inv (rid : option nat) (items : list (string * DataFrame))
  (acc res : list (string * DataFrame)) (db db' : Database Store) :
  transform_items parse_datetime transform_clock validate_clock rid items acc db
  = (Ok res, db') ->
  exists outs,
    Forall2 (turn_of parse_datetime transform_clock validate_clock) items outs
    /\ res = fold_left (fun acc out => assoc_set (fst (fst out)) (snd (fst out)) acc) outs acc
    /\ quality_logs db'
       = quality_logs db ++ flat_map (fun out => log_rows rid (fst (fst out)) (snd out)) outs
    /\ store db' = store db.
Proof.
  revert acc db. induction items as [|[name df] items IH]; intros acc db H.
  - cbn [transform_items] in H. injection H as <- <-.
    exists []. cbn. rewrite app_nil_r. repeat split. constructor.
  - cbn [transform_items] in H.
    destruct (transform_source parse_datetime transform_clock name df) as [df1|e] eqn:Et;
      [|discriminate].
    destruct (validate_data parse_datetime (validate_clock name) df1 name)
      as [results|e] eqn:Ev; [|discriminate].
    cbv zeta in H. apply IH in H as (outs & Hturns & Hres & Hlog & Hstore).
    exists ((name, df1, results) :: outs). split; [|split; [|split]].
    + constructor; [|exact Hturns]. repeat split; assumption.
    + exact Hres.
    + rewrite Hlog. cbn [_log_quality_results quality_logs flat_map fst snd].
      rewrite <- app_assoc. reflexivity.
    + exact Hstore.
Qed.

Lemma transform_source_index (name : string) (df df' : DataFrame) :
  transform_source parse_datetime transform_clock name df = Ok df' ->
  index df' = index df /\ (has_rules name = false -> df' = df).
Proof.
  unfold transform_source, has_rules. cbn [rules assoc_get].
  destruct (String.eqb name "sales").
  - intros H. apply transform_sales_data_same_rows in H as (Hi & _). split; [exact Hi|discriminate].
  - destruct (String.eqb name "products").
    + intros H. apply transform_product_data_same_rows in H as (Hi & _).
      split; [exact Hi|discriminate].
    + destruct (String.eqb name "customers").
      * intros H. apply transform_customer_data_same_rows in H as (Hi & _).
        split; [exact Hi|discriminate].
      * intros H. injection H as <-. split; reflexivity.
Qed.

Lemma validate_data_names (now : Timestamp) (df : DataFrame) (name : string)
  (results : list (string * QualityResult)) :
  validate_data parse_datetime now df name = Ok results ->
  map fst results = if has_rules name then check_names else [].
Proof.
  intros H. unfold has_rules. destruct (assoc_get name rules) as [r|] eqn:Er.
  - destruct (@validate_data_Ok_inv _ _ _ _ _ _ Er H) as (ranges & custom & _ & _ & ->).
    reflexivity.
  - unfold validate_data in H. rewrite Er in H. injection H as <-. reflexivity.
Qed.

Lemma rows_about_log_rows (rid : option nat) (name name' : string)
  (results : list (string * QualityResult)) :
  rows_about name (log_rows rid name' results)
  = if String.eqb name' name then log_rows rid name' results else [].
Proof.
  unfold rows_about, log_rows. induction results as [|cr results IH]; cbn [map filter].
  - destruct (String.eqb name' name); reflexivity.
  - cbn [log_table_name]. rewrite IH. destruct (String.eqb name' name); reflexivity.
Qed.

Lemma rows_about_outs (rid : option nat) (name : string)
  (outs : list (string * DataFrame * list (string * QualityResult))) :
  NoDup (map (fun out => fst (fst out)) outs) ->
  In name (map (fun out => fst (fst out)) outs) ->
  exists out,
    In out outs /\ fst (fst out) = name
    /\ rows_about name (flat_map (fun out => log_rows rid (fst (fst out)) (snd out)) outs)
       = log_rows rid name (snd out).
Proof.
  induction outs as [|out outs IH]; intros Hnd Hin; [destruct Hin|].
  cbn [map] in Hnd, Hin. inversion Hnd as [|? ? Hnot Hnd']; subst.
  cbn [flat_map]. unfold rows_about in *. rewrite filter_app.
  fold (rows_about name (log_rows rid (fst (fst out)) (snd out))).
  rewrite rows_about_log_rows.
  destruct (String.eqb_spec (fst (fst out)) name) as [E|E].
  - exists out. split; [left; reflexivity|]. split; [exact E|].
    assert (Hrest : filter (fun row => String.eqb (log_table_name row) name)
                      (flat_map (fun out => log_rows rid (fst (fst out)) (snd out)) outs)
                    = []).
    { clear IH Hnd' Hin Hnd. induction outs as [|o outs IHo]; [reflexivity|].
      cbn [flat_map]. rewrite filter_app.
      fold (rows_about name (log_rows rid (fst (fst o)) (snd o))).
      rewrite rows_about_log_rows.
      destruct (String.eqb_spec (fst (fst o)) name) as [Eo|Eo].
      - exfalso. apply Hnot. cbn [map]. left. congruence.
      - cbn [app]. apply IHo. intros Hin. apply Hnot. cbn [map]. right. exact Hin. }
    rewrite Hrest, app_nil_r, E. reflexivity.
  - destruct Hin as [Hin|Hin]; [contradiction|].
    destruct (IH Hnd' Hin) as (o & Ho & Hname & Hrows).
    exists o. split; [right; exact Ho|]. split; [exact Hname|]. exact Hrows.
Qed.

Lemma turns_names (items : list (string * DataFrame))
  (outs : list (string * DataFrame * list (string * QualityResult))) :
  Forall2 (turn_of parse_datetime transform_clock validate_clock) items outs ->
  map (fun out => fst (fst out)) outs = map fst items.
Proof.
  induction 1 as [|item out items outs (Hn & _) _ IH]; [reflexivity|].
  cbn [map]. rewrite Hn, IH. reflexivity.
Qed.

(** X20.  The transform stage keeps the sources and their rows and stops for no
    failed check.  When it returns, the transformed data have the names
    of the extracted data, in their order; each frame is the transform of
    the extracted frame of its name, with the same row labels, and is that
    frame itself for a name without a rule set.  The data tables are
    untouched.  Every row added to the quality log carries the run id and
    belongs to a source with a rule set, and each such source has exactly
    the six checks, in their order. *)
Theorem transform_stage (rid : option nat)
  (extracted_data transformed_data : list (string * DataFrame))
  (db db' : Database Store) :
  NoDup (map fst extracted_data) ->
  transform parse_datetime transform_clock validate_clock rid extracted_data db
  = (Ok transformed_data, db') ->
  map fst transformed_data = map fst extracted_data
  /\ (forall name df',
         In (name, df') transformed_data ->
         exists df,
           In (name, df) extracted_data
           /\ transform_source parse_datetime transform_clock name df = Ok df'
           /\ index df' = index df
           /\ (has_rules name = false -> df' = df))
  /\ store db' = store db
  /\ exists new,
       quality_logs db' = quality_logs db ++ new
       /\ Forall (fun row => log_run_id row = rid
                             /\ In (log_table_name row) (map fst extracted_data)
                             /\ has_rules (log_table_name row) = true
                             /\ In (log_check_type row) check_names) new
       /\ forall name,
            In name (map fst extracted_data) -> has_rules name = true ->
            map log_check_type (rows_about name new) = check_names.
Proof.
  intros Hnd H. unfold transform in H.
  apply transform_items_inv in H as (outs & Hturns & Hres & Hlog & Hstore).
  pose proof (turns_names Hturns) as Hnames.
  rewrite (fold_assoc_set_distinct (fun out => fst (fst out)) (fun out => snd (fst out)))
    in Hres by (cbn [map app]; rewrite Hnames; exact Hnd).
  cbn [app] in Hres.
  split; [|split; [|split; [exact Hstore|]]].
  - rewrite Hres, map_map. cbn [fst]. exact Hnames.
  - intros name df' Hin. rewrite Hres in Hin.
    apply in_map_iff in Hin as (out & E & Hout). injection E as <- <-.
    clear Hres Hlog Hnames Hnd. induction Hturns as [|item o items outs Ht _ IH];
      [destruct Hout|].
    destruct Hout as [->|Hout].
    + destruct Ht as (Hn & Htr & _). destruct item as [n df]. cbn [fst snd] in *.
      subst n. exists df. split; [left; reflexivity|]. split; [exact Htr|].
      apply (transform_source_index _ _ Htr).
    + destruct (IH Hout) as (df & Hdf & Hrest). exists df. split; [right; exact Hdf|].
      exact Hrest.
  - eexists. split; [exact Hlog|]. split.
    + apply Forall_forall. intros row Hrow.
      apply in_flat_map in Hrow as (out & Hout & Hrow).
      unfold log_rows in Hrow. apply in_map_iff in Hrow as (cr & <- & Hcr).
      cbn [log_run_id log_table_name log_check_type].
      assert (Hname : In (fst (fst out)) (map fst extracted_data))
        by (rewrite <- Hnames; apply in_map_iff; exists out; split; [reflexivity | exact Hout]).
      assert (Hval : exists item, turn_of parse_datetime transform_clock validate_clock item out).
      { clear - Hturns Hout. induction Hturns as [|item o items outs Ht _ IH];
          [destruct Hout|].
        destruct Hout as [->|Hout]; [exists item; exact Ht | exact (IH Hout)]. }
      destruct Hval as (item & Hn & _ & Hv). rewrite <- Hn in Hv.
      apply validate_data_names in Hv.
      assert (Hcr' : In (fst cr) (map fst (snd out)))
        by (apply in_map_iff; exists cr; split; [reflexivity | exact Hcr]).
      rewrite Hv in Hcr'.
      destruct (has_rules (fst (fst out))); [|destruct Hcr'].
      repeat split; assumption.
    + intros name Hin Hrules. rewrite <- Hnames in Hin.
      destruct (@rows_about_outs rid name outs) as (out & Hout & Hname & ->);
        [rewrite Hnames; exact Hnd | exact Hin |].
      unfold log_rows. rewrite map_map. cbn [log_check_type].
      assert (Hval : exists item, turn_of parse_datetime transform_clock validate_clock item out).
      { clear - Hturns Hout. induction Hturns as [|item o items outs Ht _ IH];
          [destruct Hout|].
        destruct Hout as [->|Hout]; [exists item; exact Ht | exact (IH Hout)]. }
      destruct Hval as (item & Hn & _ & Hv). rewrite <- Hn, Hname in Hv.
      apply validate_data_names in Hv. rewrite Hrules in Hv. exact Hv.
Qed.

End TransformStage.

Lemma transform_stage_witness :
  exists transformed_data db',
    transform iso_parse (fun _ => 0%Z) (fun _ => 1%Z) (Some 7)
      [("sales", bad_data); ("regions", sample_customer_data)] (mkDB [] tt)
    = (Ok transformed_data, db')
    /\ map fst transformed_data = ["sales"; "regions"]
    /\ map log_check_type (rows_about "sales" (quality_logs db')) = check_names
    /\ existsb (fun row => negb (log_check_result row)) (quality_logs db') = true.
Proof.
  destruct (transform iso_parse (fun _ => 0%Z) (fun _ => 1%Z) (Some 7)
              [("sales", bad_data); ("regions", sample_customer_data)] (mkDB [] tt))
    as [[transformed_data|e] db'] eqn:E; [|vm_compute in E; discriminate].
  exists transformed_data, db'. split; [reflexivity|].
  destruct (@transform_stage unit iso_parse (fun _ => 0%Z) (fun _ => 1%Z) (Some 7)
              [("sales", bad_data); ("regions", sample_customer_data)]
              transformed_data (mkDB [] tt) db')
    as (Hnames & _ & _ & new & Hlog & _ & Hsix).
  - repeat constructor; simpl; intuition discriminate.
  - exact E.
  - split; [exact Hnames|]. cbn [quality_logs app] in Hlog. rewrite Hlog.
    split; [apply Hsix; [simpl; auto | reflexivity]|].
    vm_compute in E. injection E as _ <-. cbn [quality_logs] in Hlog. rewrite <- Hlog.
    reflexivity.
Defined.


(** ** Loading *)

Lemma select_index (df df' : DataFrame) (cols : list string) :
  select df cols = Ok df' -> nrows df' = nrows df.
Proof.
  unfold select. destruct (filter _ cols); [|discriminate].
  intros H. injection H as <-. reflexivity.
Qed.


Section LoadStage.

Variable Store : Type.
Variable to_sql : string -> DataFrame -> IfExists -> Store -> Result unit * Store.
Variable _merge_data : string -> string -> Store -> Result unit * Store.
Variable commit : Store -> Store.
Variable rollback : Store -> Store.

Lemma records_of_cons (destination : Destination) (dests : list Destination)
  (data : list (string * DataFrame)) :
  records_of (destination :: dests) data
  = match assoc_get (destination_source destination) data with
    | Some df => nrows df
    | None => 0
    end + records_of dests data.
Proof. reflexivity. Qed.

Lemma load_destinations_count (dests : list Destination)
  (data : list (string * DataFrame)) (total n : nat) (st st' : Store) :
  load_destinations to_sql _merge_data dests data total st = (Ok n, st') ->
  n = total + records_of dests data.
Proof.
  revert total st. induction dests as [|d dests IH]; intros total st H.
  - cbn in H. injection H as <- _. unfold records_of. simpl. lia.
  - cbn [load_destinations] in H. cbv zeta in H. rewrite records_of_cons.
    destruct (assoc_get (destination_source d) data) as [df|].
    + destruct (match target_columns (destination_table d) with
                | Some cols => select df cols
                | None => Ok df
                end) as [df1|e] eqn:Esel; [|discriminate].
      assert (Hn : nrows df1 = nrows df).
      { destruct (target_columns (destination_table d));
          [apply (select_index _ _ Esel) | injection Esel as <-; reflexivity]. }
      destruct (to_sql ("stg_" ++ destination_table d)%string df1 Replace st)
        as [[[]|e] st1]; [|discriminate].
      destruct (match merge_key_of d with
                | Some key => _merge_data (destination_table d) key st1
                | None => to_sql (destination_table d) df1 Append st1
                end) as [[[]|e] st2]; [|discriminate].
      apply IH in H. lia.
    + apply IH in H. lia.
Qed.



(** X22.  A frame that lacks a column of its target table stops the load before
    anything is written for it: when the first destination that has its
    source names the table sales, products or customers and the frame
    lacks one of the columns of that table, [load] raises a [KeyError]
    and rolls back, from the data tables as they were. *)
Theorem load_missing_column (config : Config) (data : list (string * DataFrame))
  (db : Database Store) (skipped rest : list Destination) (d : Destination)
  (df : DataFrame) (cols : list string) (c : string) :
  cfg_destinations config = skipped ++ d :: rest ->
  (forall d', In d' skipped -> assoc_get (destination_source d') data = None) ->
  assoc_get (destination_source d) data = Some df ->
  target_columns (destination_table d) = Some cols ->
  In c cols -> has_column df c = false ->
  exists e,
    load to_sql _merge_data commit rollback config data db
    = (Raise e, mkDB (quality_logs db) (rollback (store db)))
    /\ exn_kind e = KeyError.
Proof.
  intros Hdests Hskip Hsrc Htarget Hc Habs.
  destruct (select_missing _ _ _ Hc Habs) as (e & He & Hk).
  exists e. split; [|exact Hk]. unfold load. rewrite Hdests.
  assert (E : load_destinations to_sql _merge_data (skipped ++ d :: rest) data 0 (store db)
              = (Raise e, store db)).
  { clear Hdests. revert Hskip. generalize 0 as total.
    induction skipped as [|d' skipped IH]; intros total Hskip.
    - cbn [app load_destinations]. cbv zeta. rewrite Hsrc, Htarget, He. reflexivity.
    - cbn [app load_destinations]. cbv zeta. rewrite (Hskip d' (or_introl eq_refl)).
      apply IH. intros d'' Hd''. apply Hskip. right. exact Hd''. }
  rewrite E. reflexivity.
Qed.

End LoadStage.


Lemma load_missing_column_witness :
  exists e,
    load null_to_sql null_merge_data (fun st => st) (fun st => st) sample_config
      [("products", sample_product_data); ("sales", no_columns)] (mkDB [] tt)
    = (Raise e, mkDB [] tt)
    /\ exn_kind e = KeyError.
Proof.
  apply (@load_missing_column unit null_to_sql null_merge_data (fun st => st)
           (fun st => st) sample_config
           [("products", sample_product_data); ("sales", no_columns)] (mkDB [] tt)
           [] [mkDestination "products" "products" (Some "product_id");
               mkDestination "orders" "orders" None]
           (mkDestination "sales" "sales" None) no_columns
           ["sale_id"; "product_id"; "customer_id"; "quantity"; "amount"; "sale_date"]
           "amount").
  - reflexivity.
  - intros d' [].
  - reflexivity.
  - reflexivity.
  - simpl. auto 6.
  - reflexivity.
Defined.


(* ================================================================== *)
(** * Whole runs *)
(* ================================================================== *)

Lemma max_run_id_app (runs : list PipelineRun) (r : PipelineRun) :
  fold_right Nat.max 0 (map run_id (runs ++ [r]))
  = Nat.max (fold_right Nat.max 0 (map run_id runs)) (run_id r).
Proof.
  induction runs as [|r0 runs IH]; cbn [app map fold_right].
  - lia.
  - rewrite IH. lia.
Qed.

Lemma next_run_id_after (runs : list PipelineRun) (r : PipelineRun) :
  run_id r = next_run_id runs -> next_run_id (runs ++ [r]) = S (run_id r).
Proof.
  unfold next_run_id. intros H. rewrite max_run_id_app, H. lia.
Qed.

Section Runs.

Variable World : Type.
Variable Data : Type.
Variable name : string.
Variable extract : World -> Result Data * World.
Variable transform : option nat -> Data -> World -> Result Data * World.
Variable load : Data -> World -> Result nat * World.

(** Whatever the stages do, [run] returns and leaves its record closed. *)
Lemma run_always_closes (s : PipelineState World) (t0 t1 : Timestamp) :
  exists b st n err w,
    run name extract transform load t0 t1 s
    = (Ok b, closed_state name s t0 t1 st n err w)
    /\ (st = COMPLETED \/ st = FAILED).
Proof.
  destruct (extract (world s)) as [[d1|e1] w1] eqn:He.
  - destruct (transform (Some (next_run_id (pipeline_runs s))) d1 w1) as [[d2|e2] w2] eqn:Ht.
    + destruct (load d2 w2) as [[n|e3] w3] eqn:Hl.
      * do 5 eexists. split; [eapply run_success; eassumption | left; reflexivity].
      * do 5 eexists. split; [eapply run_load_raises; eassumption | right; reflexivity].
    + do 5 eexists. split; [eapply run_transform_raises; eassumption | right; reflexivity].
  - do 5 eexists. split; [eapply run_extract_raises; eassumption | right; reflexivity].
Qed.

(** X23.  Two runs in a row, whatever their outcomes: each adds one row to the
    ledger and closes it, the second under the id that follows the id of
    the first; the rows that were there, and the row of the first run
    during the second, are left as they are; and the statements issued
    against the ledger are one insert and one update for each run. *)
Theorem successive_runs (s : PipelineState World) (t0 t1 t2 t3 : Timestamp) :
  let s1 := snd (run name extract transform load t0 t1 s) in
  let s2 := snd (run name extract transform load t2 t3 s1) in
  exists r1 r2,
    pipeline_runs s1 = pipeline_runs s ++ [r1]
    /\ pipeline_runs s2 = pipeline_runs s ++ [r1; r2]
    /\ run_id r1 = next_run_id (pipeline_runs s)
    /\ run_id r2 = S (run_id r1)
    /\ status r1 <> STARTED /\ status r2 <> STARTED
    /\ start_time r1 = t0 /\ end_time r1 = Some t1
    /\ start_time r2 = t2 /\ end_time r2 = Some t3
    /\ executed s2
       = executed s ++ [InsertRun (run_id r1); UpdateRun (Some (run_id r1)) (status r1);
                        InsertRun (run_id r2); UpdateRun (Some (run_id r2)) (status r2)].
Proof.
  intros s1 s2.
  destruct (run_always_closes s t0 t1) as (b1 & st1 & n1 & err1 & w1 & E1 & Hst1).
  assert (Hs1 : s1 = closed_state name s t0 t1 st1 n1 err1 w1)
    by (unfold s1; rewrite E1; reflexivity).
  destruct (run_always_closes s1 t2 t3) as (b2 & st2 & n2 & err2 & w2 & E2 & Hst2).
  assert (Hs2 : s2 = closed_state name s1 t2 t3 st2 n2 err2 w2)
    by (unfold s2; rewrite E2; reflexivity).
  clearbody s1 s2. subst s2 s1. unfold closed_state. cbn [pipeline_runs executed].
  set (r1 := mkRun (next_run_id (pipeline_runs s)) name st1 t0 (Some t1) (Some n1) err1).
  assert (Hnext : next_run_id (pipeline_runs s ++ [r1]) = S (run_id r1))
    by (apply next_run_id_after; reflexivity).
  rewrite Hnext.
  exists r1. eexists. split; [reflexivity|]. split; [rewrite <- app_assoc; reflexivity|].
  cbn [run_id status start_time end_time].
  repeat split.
  - destruct Hst1 as [->| ->]; discriminate.
  - destruct Hst2 as [->| ->]; discriminate.
  - rewrite <- app_assoc. reflexivity.
Qed.

End Runs.

Section WholePipeline.

Variable Store : Type.
Variable parse_datetime : string -> option Timestamp.
Variable read_csv : string -> Result DataFrame.
Variable read_sql_query : string -> Store -> Result DataFrame.
Variable to_sql : string -> DataFrame -> IfExists -> Store -> Result unit * Store.
Variable _merge_data : string -> string -> Store -> Result unit * Store.
Variable commit : Store -> Store.
Variable rollback : Store -> Store.
Variable transform_clock : string -> Timestamp.
Variable validate_clock : string -> Timestamp.

Lemma load_Ok_inv (config : Config) (data : list (string * DataFrame))
  (db db' : Database Store) (n : nat) :
  load to_sql _merge_data commit rollback config data db = (Ok n, db') ->
  n = records_of (cfg_destinations config) data /\ quality_logs db' = quality_logs db.
Proof.
  intros H. unfold load in H.
  destruct (load_destinations to_sql _merge_data (cfg_destinations config) data 0 (store db))
    as [[total|e] st] eqn:E; [|discriminate].
  injection H as <- <-. apply load_destinations_count in E. split; [exact E | reflexivity].
Qed.

Lemma transform_logs_run_id (rid : option nat) (extracted_data transformed_data : list (string * DataFrame))
  (db db' : Database Store) :
  transform parse_datetime transform_clock validate_clock rid extracted_data db
  = (Ok transformed_data, db') ->
  exists new,
    quality_logs db' = quality_logs db ++ new
    /\ Forall (fun row => log_run_id row = rid) new.
Proof.
  intros H. unfold transform in H.
  apply transform_items_inv in H as (outs & _ & _ & Hlog & _).
  eexists. split; [exact Hlog|].
  apply Forall_forall. intros row Hrow.
  apply in_flat_map in Hrow as (out & _ & Hrow).
  unfold log_rows in Hrow. apply in_map_iff in Hrow as (cr & <- & _). reflexivity.
Qed.

(** X24.  A run whose three stages return: [run] returns true; the row it added
    to the ledger is COMPLETED, and its number of records is the number of
    rows of the transformed frames that have a destination; and every row
    that the run added to the quality log carries the id of that ledger
    row. *)
Theorem run_pipeline_completed (config : Config) (s : PipelineState (Database Store))
  (t0 t1 : Timestamp) (d1 d2 : list (string * DataFrame)) (db1 db2 db3 : Database Store)
  (n : nat) :
  let id := next_run_id (pipeline_runs s) in
  let result := run_pipeline parse_datetime read_csv read_sql_query to_sql _merge_data
                  commit rollback transform_clock validate_clock config t0 t1 s in
  extract read_csv read_sql_query config (world s) = (Ok d1, db1) ->
  transform parse_datetime transform_clock validate_clock (Some id) d1 db1 = (Ok d2, db2) ->
  load to_sql _merge_data commit rollback config d2 db2 = (Ok n, db3) ->
  fst result = Ok true
  /\ current_run (snd result)
     = Some (mkRun id (cfg_pipeline_name config) COMPLETED t0 (Some t1)
               (Some (records_of (cfg_destinations config) d2)) None)
  /\ exists new,
       quality_logs (world (snd result)) = quality_logs (world s) ++ new
       /\ Forall (fun row => log_run_id row = Some id) new.
Proof.
  intros id result He Ht Hl.
  assert (Hrun : result
                 = (Ok true,
                    closed_state (cfg_pipeline_name config) s t0 t1 COMPLETED n None db3)).
  { unfold result, run_pipeline. eapply run_success; eassumption. }
  destruct (load_Ok_inv _ _ _ Hl) as [Hn Hlog3].
  destruct (transform_logs_run_id _ _ _ Ht) as (new & Hlog2 & Hids).
  assert (Hdb1 : db1 = world s) by (unfold extract in He; injection He as _ <-; reflexivity).
  rewrite Hrun. cbn [fst snd]. split; [reflexivity|]. split.
  - rewrite closed_state_current, Hn. reflexivity.
  - exists new. split; [|exact Hids].
    unfold closed_state. cbn [world]. rewrite Hlog3, Hlog2, Hdb1. reflexivity.
Qed.

End WholePipeline.

Lemma run_pipeline_completed_witness :
  exists s',
    run_pipeline iso_parse sample_files null_query null_to_sql null_merge_data
      (fun st => st) (fun st => st) (fun _ => 0%Z) (fun _ => 1%Z) sample_config 10%Z 20%Z
      fresh_pipeline = (Ok true, s')
    /\ current_run s'
       = Some (mkRun 1 "sales_pipeline" COMPLETED 10%Z (Some 20%Z) (Some 6) None)
    /\ List.length (quality_logs (world s')) = 12
    /\ forallb (fun row => match log_run_id row with Some 1 => true | _ => false end)
               (quality_logs (world s')) = true.
Proof.
  destruct (extract sample_files null_query sample_config (world fresh_pipeline))
    as [[d1|e] db1] eqn:He; [|vm_compute in He; discriminate].
  destruct (transform iso_parse (fun _ => 0%Z) (fun _ => 1%Z)
              (Some (next_run_id (pipeline_runs fresh_pipeline))) d1 db1)
    as [[d2|e] db2] eqn:Ht;
    [|vm_compute in He; injection He as <- <-; vm_compute in Ht; discriminate].
  destruct (load null_to_sql null_merge_data (fun st => st) (fun st => st) sample_config
              d2 db2) as [[n|e] db3] eqn:Hl;
    [|vm_compute in He; injection He as <- <-; vm_compute in Ht; injection Ht as <- <-;
      vm_compute in Hl; discriminate].
  destruct (@run_pipeline_completed unit iso_parse sample_files null_query null_to_sql
              null_merge_data (fun st => st) (fun st => st) (fun _ => 0%Z) (fun _ => 1%Z)
              sample_config fresh_pipeline 10%Z 20%Z d1 d2 db1 db2 db3 n He Ht Hl)
    as (Hres & Hcur & new & Hlog & Hids).
  destruct (run_pipeline iso_parse sample_files null_query null_to_sql null_merge_data
              (fun st => st) (fun st => st) (fun _ => 0%Z) (fun _ => 1%Z) sample_config
              10%Z 20%Z fresh_pipeline) as [res s'] eqn:Erun.
  cbn [fst snd] in Hres, Hcur, Hlog. subst res.
  exists s'. split; [reflexivity|].
  vm_compute in He. injection He as <- <-.
  vm_compute in Ht. injection Ht as <- <-.
  split; [rewrite Hcur; reflexivity|].
  vm_compute in Erun. injection Erun as <-.
  split; [reflexivity|]. reflexivity.
Defined.


(* ================================================================== *)
(** * The calendar columns, and the sales transform run twice *)
(* ================================================================== *)

Lemma Qc_eqb_qz (a b : Z) : Qc_eqb (qz a) (qz b) = (a =? b)%Z.
Proof.
  destruct (Z.eqb_spec a b) as [->|Hne].
  - apply Qc_eqb_iff. reflexivity.
  - destruct (Qc_eqb (qz a) (qz b)) eqn:E; [|reflexivity].
    apply Qc_eqb_iff, qz_inj in E. contradiction.
Qed.

Lemma to_datetime_dtype parse_datetime (s dates : Series) :
  to_datetime parse_datetime s = Ok dates -> dtype dates = Datetime.
Proof.
  unfold to_datetime. destruct (dtype s) eqn:Ed; try discriminate.
  all: try (intros H; apply bind_Ok_inv in H as (vs & _ & H); injection H as <-; reflexivity).
  intros H. injection H as <-. exact Ed.
Qed.

Lemma isin_weekend (dates : Series) :
  isin [CNum (nz 5); CNum (nz 6)]
    (mkSeries Numeric (map (date_field_cell ts_dayofweek) (values dates)))
  = mkSeries Boolean
      (map (fun c => match c with CDate t => CBool (on_weekend t) | _ => CBool false end)
           (values dates)).
Proof.
  unfold isin. cbn [values]. f_equal. rewrite map_map. apply map_ext.
  intros [| | | |t]; try reflexivity.
  cbn [date_field_cell existsb cell_eqb num_eqb nz]. unfold on_weekend.
  rewrite !Qc_eqb_qz, orb_false_r. reflexivity.
Qed.

(** The columns of the frame the sales transform returns, for numeric
    amounts and quantities and dates that [pd.to_datetime] accepts. *)
Lemma transform_sales_data_frame parse_datetime now (df : DataFrame)
  (sd dates am qt : Series) :
  column df "sale_date" = Some sd -> to_datetime parse_datetime sd = Ok dates ->
  column df "amount" = Some am -> numeric_series am ->
  column df "quantity" = Some qt -> numeric_series qt ->
  exists df',
    transform_sales_data parse_datetime now df = Ok df'
    /\ column df' "sale_date" = Some dates
    /\ column df' "year"
       = Some (mkSeries Numeric (map (date_field_cell ts_year) (values dates)))
    /\ column df' "month"
       = Some (mkSeries Numeric (map (date_field_cell ts_month) (values dates)))
    /\ column df' "quarter"
       = Some (mkSeries Numeric (map (date_field_cell ts_quarter) (values dates)))
    /\ column df' "day_of_week"
       = Some (mkSeries Numeric (map (date_field_cell ts_dayofweek) (values dates)))
    /\ column df' "is_weekend"
       = Some (mkSeries Boolean
                 (map (fun c => match c with
                                | CDate t => CBool (on_weekend t)
                                | _ => CBool false
                                end) (values dates)))
    /\ column df' "amount"
       = Some (mkSeries Numeric (map (fun c => fill_zero (round_cell c)) (values am)))
    /\ column df' "quantity" = Some (mkSeries Numeric (map fill_zero (values qt)))
    /\ column df' "price_per_unit"
       = Some (mkSeries Numeric
                 (map (fun aq => unit_price (fst aq) (snd aq))
                      (combine (values am) (values qt)))).
Proof.
  intros Hsd Hdates Ham Nam Hqt Nqt.
  pose proof (to_datetime_dtype _ _ Hdates) as Dd.
  pose proof (numeric_series_nums Nam) as Eam.
  pose proof (numeric_series_nums Nqt) as Eqt.
  destruct Nam as [Dam Vam]. destruct Nqt as [Dqt Vqt].
  unfold transform_sales_data, assign, getitem, pure_op.
  rewrite Hsd. cbn [bind]. rewrite Hdates. cbn [bind].
  rewrite column_setitem. simpl String.eqb. cbv iota. cbn [bind].
  rewrite !(dt_field_values _ _ Dd). run_steps.
  rewrite (dt_field_values _ _ Dd). run_steps.
  rewrite (dt_field_values _ _ Dd). run_steps.
  rewrite (dt_field_values _ _ Dd). run_steps.
  rewrite Ham. run_steps. rewrite Hqt. cbn [bind].
  unfold series_div. rewrite Eam, Eqt. run_steps.
  rewrite Ham. cbn [bind]. unfold series_round2 at 1. rewrite Dam. run_steps.
  rewrite Hqt. run_steps.
  eexists. split; [reflexivity|].
  unfold setitem_scalar.
  repeat (rewrite column_setitem; simpl String.eqb; cbv iota).
  unfold fillna. cbn [dtype values]. rewrite !map_map.
  fold (date_field_cell ts_year) (date_field_cell ts_month) (date_field_cell ts_quarter)
    (date_field_cell ts_dayofweek).
  split; [reflexivity|]. split; [reflexivity|]. split; [reflexivity|].
  split; [reflexivity|]. split; [reflexivity|].
  split; [rewrite <- isin_weekend; reflexivity|].
  split; [reflexivity|].
  split; [rewrite Dqt; reflexivity|].
  f_equal. f_equal. rewrite combine_map, map_map.
  apply map_ext. intros [a q]. cbn [fst snd].
  destruct a, q; reflexivity.
Qed.


Lemma mapM_cell_to_datetime_nth parse_datetime (l vs : list Cell) (i : nat) :
  mapM (cell_to_datetime parse_datetime) l = Ok vs ->
  (forall x t, nth_error l i = Some (CStr x) -> parse_datetime x = Some t ->
               nth_error vs i = Some (CDate t))
  /\ (nth_error l i = Some CNull -> nth_error vs i = Some CNull).
Proof.
  intros H. split.
  - intros x t Hi Hp. destruct (mapM_Ok_nth _ _ H _ Hi) as (b & Hb & Hn).
    cbn [cell_to_datetime] in Hb. rewrite Hp in Hb. injection Hb as <-. exact Hn.
  - intros Hi. destruct (mapM_Ok_nth _ _ H _ Hi) as (b & Hb & Hn).
    cbn [cell_to_datetime] in Hb. injection Hb as <-. exact Hn.
Qed.

(** X25.  The calendar columns of the sales transform, on a raw sales frame.
    For a sale whose date the parser reads as the timestamp [t], year,
    month, quarter and day of the week are those of [t], and the sale is
    on a weekend iff the day of the week is 5 or 6.  A sale without a date
    has no year, month, quarter or day of the week, and yet it is marked
    as not on a weekend rather than left undecided. *)
Theorem transform_sales_data_calendar
  (parse_datetime : string -> option Timestamp) (now : Timestamp) (df : DataFrame) :
  sales_frame parse_datetime df ->
  exists df',
    transform_sales_data parse_datetime now df = Ok df'
    /\ (forall i x t,
           cell_at df "sale_date" i = Some (CStr x) -> parse_datetime x = Some t ->
           cell_at df' "sale_date" i = Some (CDate t)
           /\ cell_at df' "year" i = Some (CNum (nz (ts_year t)))
           /\ cell_at df' "month" i = Some (CNum (nz (ts_month t)))
           /\ cell_at df' "quarter" i = Some (CNum (nz ((ts_month t - 1) / 3 + 1)))
           /\ cell_at df' "day_of_week" i = Some (CNum (nz (ts_dayofweek t)))
           /\ cell_at df' "is_weekend" i = Some (CBool (on_weekend t)))
    /\ (forall i,
           cell_at df "sale_date" i = Some CNull ->
           cell_at df' "sale_date" i = Some CNull
           /\ cell_at df' "year" i = Some CNull
           /\ cell_at df' "month" i = Some CNull
           /\ cell_at df' "quarter" i = Some CNull
           /\ cell_at df' "day_of_week" i = Some CNull
           /\ cell_at df' "is_weekend" i = Some (CBool false)).
Proof.
  intros ((sd & Hsd & Dsd & Vsd) & (am & Ham & Nam) & (qt & Hqt & Nqt) & _).
  destruct (mapM_cell_to_datetime_total _ _ Vsd) as (vs & Hvs).
  assert (Hdates : to_datetime parse_datetime sd = Ok (mkSeries Datetime vs))
    by (unfold to_datetime; rewrite Dsd, Hvs; reflexivity).
  destruct (@transform_sales_data_frame parse_datetime now df sd (mkSeries Datetime vs)
              am qt Hsd Hdates Ham Nam Hqt Nqt)
    as (df' & Hdf' & Csd & Cy & Cm & Cq & Cd & Cw & _).
  exists df'. split; [exact Hdf'|].
  unfold cell_at. rewrite Hsd, Csd, Cy, Cm, Cq, Cd, Cw. cbn [values].
  split.
  - intros i x t Hi Hp.
    pose proof (proj1 (@mapM_cell_to_datetime_nth parse_datetime (values sd) vs i Hvs) x t Hi Hp) as Hn.
    rewrite !nth_error_map, Hn. repeat split; reflexivity.
  - intros i Hi.
    pose proof (proj2 (@mapM_cell_to_datetime_nth parse_datetime (values sd) vs i Hvs) Hi) as Hn.
    rewrite !nth_error_map, Hn. repeat split; reflexivity.
Qed.

Lemma transform_sales_data_calendar_witness :
  exists df',
    transform_sales_data iso_parse 0%Z undated_sale = Ok df'
    /\ cell_at df' "year" 0 = Some (CNum (nz 2024))
    /\ cell_at df' "is_weekend" 0 = Some (CBool false)
    /\ cell_at df' "year" 1 = Some CNull
    /\ cell_at df' "is_weekend" 1 = Some (CBool false).
Proof.
  destruct (@transform_sales_data_calendar iso_parse 0%Z undated_sale)
    as (df' & Hdf' & Hdated & Hundated).
  - split; [|split; [|split]].
    + eexists. split; [reflexivity|]. split; reflexivity.
    + eexists. split; [reflexivity|]. split; reflexivity.
    + eexists. split; [reflexivity|]. split; reflexivity.
    + repeat constructor.
  - exists df'. split; [exact Hdf'|].
    destruct (Hdated 0 "2024-01-01" 1704067200000000000%Z eq_refl eq_refl)
      as (_ & Hy & _ & _ & _ & Hw).
    destruct (Hundated 1 eq_refl) as (_ & Hy1 & _ & _ & _ & Hw1).
    repeat split; assumption.
Defined.


Lemma unit_price_by_filled_zero (x : Num) :
  (num_lt (nz 0) x -> unit_price (CNum x) (CNum (nz 0)) = CNum PosInf)
  /\ (num_lt x (nz 0) -> unit_price (CNum x) (CNum (nz 0)) = CNum NegInf)
  /\ (x = nz 0 -> unit_price (CNum x) (CNum (nz 0)) = CNull).
Proof.
  assert (E0 : Qc_eqb (qz 0) (qz 0) = true) by (apply Qc_eqb_iff; reflexivity).
  assert (L0 : Qc_ltb (qz 0) (qz 0) = false) by reflexivity.
  unfold unit_price, num_div, nz. split; [|split].
  - destruct x as [|q|]; cbn [num_lt]; intros H; try contradiction.
    + rewrite E0. apply Qc_ltb_iff in H. rewrite H. reflexivity.
    + rewrite L0. reflexivity.
  - destruct x as [|q|]; cbn [num_lt]; intros H; try contradiction.
    + rewrite L0. reflexivity.
    + rewrite E0.
      destruct (Qc_ltb (qz 0) q) eqn:Epos.
      * apply Qc_ltb_iff in Epos. exfalso. unfold Qclt in *. lra.
      * apply Qc_ltb_iff in H. rewrite H. reflexivity.
  - intros ->. rewrite E0, L0. reflexivity.
Qed.

(** X26.  Running the sales transform on its own result is not harmless.
    The second run returns, and it divides the amounts and the quantities
    as the first run left them, with 0 for a quantity that was missing:
    a sale whose quantity was missing has a missing unit price after the
    first run; after the second its unit price is plus infinity, minus
    infinity or missing, as the amount the first run left is above 0,
    below 0 or 0. *)
Theorem transform_sales_data_twice
  (parse_datetime : string -> option Timestamp) (now now' : Timestamp) (df : DataFrame) :
  sales_frame parse_datetime df ->
  exists df' df'',
    transform_sales_data parse_datetime now df = Ok df'
    /\ transform_sales_data parse_datetime now' df' = Ok df''
    /\ forall i a,
         cell_at df "amount" i = Some a ->
         cell_at df "quantity" i = Some CNull ->
         cell_at df' "price_per_unit" i = Some CNull
         /\ cell_at df' "quantity" i = Some (CNum (nz 0))
         /\ (exists x, cell_at df' "amount" i = Some (CNum x))
         /\ (forall x, cell_at df' "amount" i = Some (CNum x) ->
                       (num_lt (nz 0) x ->
                        cell_at df'' "price_per_unit" i = Some (CNum PosInf))
                       /\ (num_lt x (nz 0) ->
                           cell_at df'' "price_per_unit" i = Some (CNum NegInf))
                       /\ (x = nz 0 -> cell_at df'' "price_per_unit" i = Some CNull)).
Proof.
  intros ((sd & Hsd & Dsd & Vsd) & (am & Ham & Nam) & (qt & Hqt & Nqt) & _).
  destruct (mapM_cell_to_datetime_total _ _ Vsd) as (vs & Hvs).
  assert (Hdates : to_datetime parse_datetime sd = Ok (mkSeries Datetime vs))
    by (unfold to_datetime; rewrite Dsd, Hvs; reflexivity).
  destruct (@transform_sales_data_frame parse_datetime now df sd (mkSeries Datetime vs)
              am qt Hsd Hdates Ham Nam Hqt Nqt)
    as (df' & Hdf' & Csd & _ & _ & _ & _ & _ & Cam & Cqt & Cppu).
  assert (Hfill : forall l, forallb num_or_null l = true ->
                            forallb num_or_null (map fill_zero l) = true).
  { intros l Hl. rewrite forallb_forall in *. intros c Hc.
    apply in_map_iff in Hc as (c0 & <- & Hc0). specialize (Hl c0 Hc0).
    destruct c0; try discriminate; reflexivity. }
  assert (Nam' : numeric_series
                   (mkSeries Numeric (map (fun c => fill_zero (round_cell c)) (values am)))).
  { split; [reflexivity|]. cbn [values]. rewrite <- map_map. apply Hfill.
    destruct Nam as [_ Vam]. rewrite forallb_forall in *. intros c Hc.
    apply in_map_iff in Hc as (c0 & <- & Hc0). specialize (Vam c0 Hc0).
    destruct c0; try discriminate; reflexivity. }
  assert (Nqt' : numeric_series (mkSeries Numeric (map fill_zero (values qt))))
    by (split; [reflexivity | apply Hfill, Nqt]).
  destruct (@transform_sales_data_frame parse_datetime now' df'
              (mkSeries Datetime vs) (mkSeries Datetime vs) _ _ Csd eq_refl Cam Nam' Cqt Nqt')
    as (df'' & Hdf'' & _ & _ & _ & _ & _ & _ & _ & _ & Cppu').
  exists df', df''. split; [exact Hdf'|]. split; [exact Hdf''|].
  intros i a. unfold cell_at. rewrite Ham, Hqt, Cppu, Cppu', Cam, Cqt. cbn [values].
  intros Ha Hq.
  rewrite !nth_error_map, (nth_error_combine _ _ _ Ha Hq), Ha, Hq. cbn [option_map].
  assert (Hnum : exists x, fill_zero (round_cell a) = CNum x).
  { destruct Nam as [_ Vam]. rewrite forallb_forall in Vam.
    specialize (Vam a (nth_error_In _ _ Ha)).
    destruct a; try discriminate; cbn; eauto. }
  destruct Hnum as (x0 & Hx0).
  split; [destruct a; reflexivity|]. split; [reflexivity|].
  split; [exists x0; rewrite Hx0; reflexivity|].
  intros x Hx.
  rewrite (@nth_error_combine _ _ _ _ i (CNum x) (CNum (nz 0))).
  - cbn [option_map fst snd].
    destruct (unit_price_by_filled_zero x) as (Hpos & Hneg & Hzero).
    split; [intros H; rewrite (Hpos H); reflexivity|].
    split; [intros H; rewrite (Hneg H); reflexivity|].
    intros H; rewrite (Hzero H); reflexivity.
  - rewrite nth_error_map, Ha. cbn [option_map]. exact Hx.
  - rewrite nth_error_map, Hq. reflexivity.
Qed.

Lemma transform_sales_data_twice_witness :
  exists df' df'',
    transform_sales_data iso_parse 0%Z sales_with_gaps = Ok df'
    /\ transform_sales_data iso_parse 0%Z df' = Ok df''
    /\ cell_at df' "price_per_unit" 0 = Some CNull
    /\ cell_at df'' "price_per_unit" 0 = Some (CNum PosInf).
Proof.
  destruct (@transform_sales_data_twice iso_parse 0%Z 0%Z sales_with_gaps
              sales_frame_sales_with_gaps) as (df' & df'' & H1 & H2 & Hrow).
  exists df', df''. split; [exact H1|]. split; [exact H2|].
  destruct (Hrow 0 (CNum (nz 100)) eq_refl eq_refl) as (Hnan & _ & (x & Hx) & Hsecond).
  split; [exact Hnan|].
  apply (proj1 (Hsecond x Hx)).
  pose proof H1 as E. vm_compute in E. injection E as E.
  rewrite <- E in Hx. vm_compute in Hx. injection Hx as <-.
  reflexivity.
Defined.


(* ================================================================== *)
(** * The custom check of the sales table *)
(* ================================================================== *)

Lemma count_true_zero (l : list bool) :
  count_true l = 0 <-> forall i, nth_error l i <> Some true.
Proof.
  unfold count_true. rewrite filter_length_zero. split.
  - intros H i Hi. apply nth_error_In in Hi. specialize (H _ Hi). discriminate.
  - intros H b Hb. destruct b; [|reflexivity].
    apply In_nth_error in Hb as (i & Hi). exfalso. exact (H i Hi).
Qed.

Lemma nth_error_combine_inv {A B : Type} (l : list A) (l' : list B) (i : nat) (p : A * B) :
  nth_error (combine l l') i = Some p ->
  nth_error l i = Some (fst p) /\ nth_error l' i = Some (snd p).
Proof.
  revert l' i. induction l as [|x l IH]; intros [|y l'] [|i]; simpl; try discriminate.
  - intros E. injection E as <-. split; reflexivity.
  - apply IH.
Qed.

(** X27.  On a sales table with numeric quantities and amounts and timestamps
    as dates, the custom check returns; it passes iff no sale has a
    quantity above 0 together with an amount of exactly 0 and no sale is
    dated after the clock.  A sale whose quantity or whose amount is
    missing is not counted, and neither is a sale without a date. *)
Theorem _run_custom_checks_sales
  (parse_datetime : string -> option Timestamp) (now : Timestamp)
  (df : DataFrame) (qt am sd : Series) :
  column df "quantity" = Some qt -> numeric_series qt ->
  column df "amount" = Some am -> numeric_series am ->
  column df "sale_date" = Some sd -> dtype sd = Datetime ->
  exists r,
    _run_custom_checks parse_datetime now df "sales" = Ok r
    /\ (passed r = true <->
        (forall i q a,
            nth_error (values qt) i = Some (CNum q) ->
            nth_error (values am) i = Some (CNum a) ->
            num_lt (nz 0) q -> a <> nz 0)
        /\ (forall t, In (CDate t) (values sd) -> (t <= now)%Z)).
Proof.
  intros Hqt Nqt Ham Nam Hsd Dsd.
  unfold _run_custom_checks. cbn [String.eqb Ascii.eqb Bool.eqb].
  assert (Q : has_column df "quantity" = true) by (apply has_column_iff; eauto).
  assert (A : has_column df "amount" = true) by (apply has_column_iff; eauto).
  assert (S : has_column df "sale_date" = true) by (apply has_column_iff; eauto).
  rewrite Q, A, S. cbn [andb]. unfold getitem. rewrite Hqt, Ham, Hsd. cbn [bind].
  unfold num_flags. rewrite (numeric_series_nums Nqt). cbn [bind].
  unfold to_datetime. rewrite Dsd.
  set (zero := count_true
                 (map (fun pq : bool * bool => fst pq && snd pq)
                    (combine
                       (map (fun o => match o with
                                      | Some x => num_ltb (nz 0) x
                                      | None => false
                                      end)
                          (map (fun c => match c with CNum x => Some x | _ => None end)
                             (values qt)))
                       (eq_zero_flags am)))).
  set (future := count_true
                   (map (fun c => match c with
                                  | CDate t => (now <? t)%Z
                                  | _ => false
                                  end) (values sd))).
  assert (Hzero : zero = 0 <->
                  forall i q a,
                    nth_error (values qt) i = Some (CNum q) ->
                    nth_error (values am) i = Some (CNum a) ->
                    num_lt (nz 0) q -> a <> nz 0).
  { unfold zero. rewrite count_true_zero. split.
    - intros H i q a Hq Ha Hpos ->. apply (H i).
      rewrite nth_error_map.
      rewrite (@nth_error_combine _ _ _ _ i true true).
      + reflexivity.
      + rewrite !nth_error_map, Hq. cbn [option_map].
        rewrite (proj2 (num_ltb_iff (nz 0) q) Hpos). reflexivity.
      + unfold eq_zero_flags. rewrite nth_error_map, Ha. cbn [option_map].
        rewrite (proj2 (num_eqb_iff (nz 0) (nz 0)) eq_refl). reflexivity.
    - intros H i Hi. rewrite nth_error_map in Hi.
      destruct (nth_error (combine _ _) i) as [[b1 b2]|] eqn:Ec; [|discriminate].
      cbn [option_map fst snd] in Hi. injection Hi as Hi.
      apply andb_true_iff in Hi as [-> ->].
      apply nth_error_combine_inv in Ec as [E1 E2]. cbn [fst snd] in E1, E2.
      rewrite !nth_error_map in E1. unfold eq_zero_flags in E2. rewrite nth_error_map in E2.
      destruct (nth_error (values qt) i) as [cq|] eqn:Eq; [|discriminate].
      destruct (nth_error (values am) i) as [ca|] eqn:Ea; [|discriminate].
      cbn [option_map] in E1, E2.
      destruct cq as [|q| | |]; try discriminate.
      destruct Nam as [_ Vam]. rewrite forallb_forall in Vam.
      pose proof (Vam _ (nth_error_In _ _ Ea)) as Hnum.
      destruct ca as [|a| | |]; try discriminate.
      injection E1 as E1. injection E2 as E2.
      assert (E1' : num_lt (nz 0) q) by (apply num_ltb_iff; exact E1).
      assert (E2' : a = nz 0) by (apply num_eqb_iff; exact E2).
      exact (H i q a Eq Ea E1' E2'). }
  assert (Hfuture : future = 0 <-> forall t, In (CDate t) (values sd) -> (t <= now)%Z).
  { unfold future, count_true. rewrite filter_length_zero. split.
    - intros H t Ht.
      assert (E : (now <? t)%Z = false).
      { destruct (now <? t)%Z eqn:E; [|reflexivity].
        rewrite <- E. apply H. apply in_map_iff. exists (CDate t). split; [reflexivity | exact Ht]. }
      apply Z.ltb_ge in E. exact E.
    - intros H b Hb. apply in_map_iff in Hb as (c & <- & Hc).
      destruct c as [| | | |t]; try reflexivity. apply Z.ltb_ge. exact (H t Hc). }
  destruct (0 <? zero) eqn:Ez; cbn [bind]; fold future; destruct (0 <? future) eqn:Ef; cbn [bind];
    eexists; (split; [reflexivity|]); cbn [app passed is_empty].
  - apply Nat.ltb_lt in Ez. split; [discriminate|]. intros [H _]. apply Hzero in H. lia.
  - apply Nat.ltb_lt in Ez. split; [discriminate|]. intros [H _]. apply Hzero in H. lia.
  - apply Nat.ltb_lt in Ef. split; [discriminate|]. intros [_ H]. apply Hfuture in H. lia.
  - apply Nat.ltb_ge in Ez, Ef. split; [intros _ | reflexivity].
    split; [apply Hzero | apply Hfuture]; lia.
Qed.

Lemma _run_custom_checks_sales_witness :
  exists r,
    _run_custom_checks iso_parse 500%Z unpaid_sales "sales" = Ok r
    /\ passed r = false
    /\ issues_of r = ["1 records have quantity but zero amount";
                      "1 records have future sale dates"].
Proof.
  destruct (@_run_custom_checks_sales iso_parse 500%Z unpaid_sales
              (nums [2; 0; 1]%Z) (nums [0; 0; 10]%Z)
              (mkSeries Datetime [CDate 100%Z; CDate 200%Z; CDate 900%Z])
              eq_refl (numeric_series_nums_of _) eq_refl (numeric_series_nums_of _)
              eq_refl eq_refl) as (r & Hr & Hpass).
  exists r. split; [exact Hr|]. split.
  - destruct (passed r); [exfalso | reflexivity].
    destruct (proj1 Hpass eq_refl) as [_ Hdates].
    specialize (Hdates 900%Z (or_intror (or_intror (or_introl eq_refl)))). lia.
  - vm_compute in Hr. injection Hr as <-. reflexivity.
Defined.
